(** * Senders of the reliable file-transfer protocol

    A shallow embedding of the four sender programs
    ([sender_stop_and_wait.py], [sender_fixed_sliding_window.py],
    [sender_reno.py] and the Vegas sender [..._sender_custom.py]) and the
    properties of their window bookkeeping, congestion control and shutdown
    handshake.

    Conventions of the embedding.
    - Every program is a module-level script; its global names are the
      fields of a record [Sender], and each block of the main loop is a
      function on that record.
    - Python [int] is [Z].  Python [float] is idealised as an exact rational
      ([Q]); a name that holds [None] or a number is an [option].
    - A Python exception that the script does not catch ends the process; it
      is a [Raise] in the monad [Py.result].
    - The outside world is explicit: [fp] is the unread rest of the input
      file, [sent] lists the datagrams handed to [sendto] (oldest first), and
      the [k]-th call of [time.time()] returns [time_at k], [ticks] counting
      the calls made so far.  What [recvfrom] returns is an input of each
      loop iteration. *)

From Stdlib.Strings Require Import String Byte.
From Stdlib Require Import ZArith QArith Qround Qabs List Sorted Bool Lia Lqa.
Import ListNotations.
Local Open Scope Z_scope.

(** ** Python values and built-ins *)

Module Py.

Inductive exn : Set := NameError | TypeError | OverflowError | ZeroDivisionError.

Inductive result (A : Type) : Type :=
| Ok (a : A)
| Raise (e : exn).
Arguments Ok {A} a.
Arguments Raise {A} e.

Definition bind {A B : Type} (m : result A) (f : A -> result B) : result B :=
  match m with
  | Ok a => f a
  | Raise e => Raise e
  end.

(** [int(x)] of a float: truncation toward zero. *)
Definition int (x : Q) : Z := Z.quot (Qnum x) (Z.pos (Qden x)).

(** [x // y] for a non-zero constant [y]: the floor of the quotient. *)
Definition floordiv (x y : Q) : Q := inject_Z (Qfloor (x / y)%Q).

(** [x / y]. *)
Definition truediv (x y : Q) : result Q :=
  if Qeq_bool y 0 then Raise ZeroDivisionError else Ok (x / y)%Q.

(** [max(a, b)]: [b] only when it is strictly larger. *)
Definition max (a b : Q) : Q := if Qle_bool b a then a else b.

Definition abs (x : Q) : Q := Qabs x.

(** [a < b] on numbers. *)
Definition lt (a b : Q) : bool := negb (Qle_bool b a).

(** [len(l)]. *)
Definition len {A : Type} (l : list A) : Z := Z.of_nat (length l).

Definition byte_of_Z (z : Z) : byte :=
  match Byte.of_N (Z.to_N (z mod 256)) with
  | Some b => b
  | None => x00
  end.

Definition Z_of_byte (b : byte) : Z := Z.of_N (Byte.to_N b).

(** The [n] low bytes of [u], most significant first. *)
Fixpoint be_bytes (n : nat) (u : Z) : list byte :=
  match n with
  | O => []
  | S k => be_bytes k (u / 256) ++ [byte_of_Z u]
  end.

(** [z.to_bytes(n, byteorder="big", signed=True)]. *)
Definition to_bytes (n : nat) (z : Z) : result (list byte) :=
  let w := 8 * Z.of_nat n in
  if (- 2 ^ (w - 1) <=? z) && (z <? 2 ^ (w - 1))
  then Ok (be_bytes n (z mod 2 ^ w))
  else Raise OverflowError.

Definition be_value (bs : list byte) : Z :=
  fold_left (fun acc b => acc * 256 + Z_of_byte b) bs 0.

(** [int.from_bytes(bs, byteorder="big", signed=True)]. *)
Definition from_bytes (bs : list byte) : Z :=
  let w := 8 * Z.of_nat (length bs) in
  let u := be_value bs in
  if w =? 0 then 0 else if u <? 2 ^ (w - 1) then u else u - 2 ^ w.

Definition byte_eqb (a b : byte) : bool := Byte.eqb a b.

Fixpoint starts_with (needle hay : list byte) : bool :=
  match needle, hay with
  | [], _ => true
  | _ :: _, [] => false
  | a :: needle', b :: hay' => byte_eqb a b && starts_with needle' hay'
  end.

(** [needle in hay] on [bytes]. *)
Fixpoint contains (needle hay : list byte) : bool :=
  starts_with needle hay ||
  match hay with
  | [] => false
  | _ :: hay' => contains needle hay'
  end.

End Py.

Notation "x <- m ;; k" := (Py.bind m (fun x => k))
  (at level 61, m at next level, right associativity).
Notation "' pat <- m ;; k" := (Py.bind m (fun x => match x with pat => k end))
  (at level 61, pat pattern, m at next level, right associativity).

(** ** Constants and byte strings the four scripts share *)

Definition PACKET_SIZE : Z := 1024.
Definition SEQ_ID_SIZE : Z := 4.
Definition MESSAGE_SIZE : Z := PACKET_SIZE - SEQ_ID_SIZE.

(** [b'==FINACK=='] and [b'fin']. *)
Definition FINACK : list byte := list_byte_of_string "==FINACK==".
Definition fin : list byte := list_byte_of_string "fin".

(** [fp.read(n)]: the bytes returned and the rest of the file. *)
Definition fp_read (n : Z) (fp : list byte) : list byte * list byte :=
  (firstn (Z.to_nat n) fp, skipn (Z.to_nat n) fp).

(** [b[:n]]. *)
Definition slice_to (n : Z) (b : list byte) : list byte := firstn (Z.to_nat n) b.

(** What [recvfrom] did in one pass of a loop: a datagram, or [socket.timeout]
    after the one-second ceiling. *)
Inductive recv_event : Type :=
| Recv (rcv_packet : list byte)
| SocketTimeout.

(** How a pass of the main loop ends: it falls through to the blocks after
    the [try], runs [continue], or runs [break]. *)
Inductive flow (S : Type) : Type :=
| Next (s : S)
| Continue (s : S)
| Break (s : S).
Arguments Next {S} s.
Arguments Continue {S} s.
Arguments Break {S} s.

(** ** [sender_reno.py] *)

Module Reno.

Definition ALPHA : Q := 85 # 100.

Inductive State : Set := TIMEOUT | SLOW_START | CONGESTION_AVOIDANCE | SENDING_EOF.

Definition value (st : State) : Z :=
  match st with
  | TIMEOUT => -1
  | SLOW_START => 1
  | CONGESTION_AVOIDANCE => 2
  | SENDING_EOF => 3
  end.

Definition State_eqb (a b : State) : bool := value a =? value b.

(** An element of the deque [packets]:
    [(seq_id, send_time, packet, in_transit)]. *)
Record Packet : Type := mkPacket {
  p_seq_id : Z;
  p_send_time : option Q;
  p_packet : list byte;
  p_in_transit : bool
}.

(** The script's global names.  [seq_id] and [send_time] are the names the
    [for] headers and the tuple assignments rebind; they are unbound ([None])
    until the first binding, and [send_time] may be bound to Python's [None]. *)
Record Sender : Type := mkSender {
  fp : list byte;
  seq_id_global : Z;
  curr_state : State;
  cwnd : Q;
  ssthresh : Q;
  duplicate_acks : Z;
  last_ack : Z;
  timeout : Q;
  estimated_RTT : Q;
  packets_in_transit : Z;
  total_bytes : Z;
  packet_delays : list Q;
  start_time : option Q;
  end_time : option Q;
  packets : list Packet;
  seq_id : option Z;
  send_time : option (option Q);
  sent : list (list byte);
  ticks : nat
}.

Definition set_fp (v : list byte) (s : Sender) : Sender :=
  {| fp := v; seq_id_global := seq_id_global s; curr_state := curr_state s; cwnd := cwnd s;
     ssthresh := ssthresh s; duplicate_acks := duplicate_acks s; last_ack := last_ack s; timeout
     := timeout s; estimated_RTT := estimated_RTT s; packets_in_transit := packets_in_transit s;
     total_bytes := total_bytes s; packet_delays := packet_delays s; start_time := start_time s;
     end_time := end_time s; packets := packets s; seq_id := seq_id s; send_time := send_time s;
     sent := sent s; ticks := ticks s |}.
Definition set_seq_id_global (v : Z) (s : Sender) : Sender :=
  {| fp := fp s; seq_id_global := v; curr_state := curr_state s; cwnd := cwnd s; ssthresh :=
     ssthresh s; duplicate_acks := duplicate_acks s; last_ack := last_ack s; timeout := timeout
     s; estimated_RTT := estimated_RTT s; packets_in_transit := packets_in_transit s;
     total_bytes := total_bytes s; packet_delays := packet_delays s; start_time := start_time s;
     end_time := end_time s; packets := packets s; seq_id := seq_id s; send_time := send_time s;
     sent := sent s; ticks := ticks s |}.
Definition set_curr_state (v : State) (s : Sender) : Sender :=
  {| fp := fp s; seq_id_global := seq_id_global s; curr_state := v; cwnd := cwnd s; ssthresh :=
     ssthresh s; duplicate_acks := duplicate_acks s; last_ack := last_ack s; timeout := timeout
     s; estimated_RTT := estimated_RTT s; packets_in_transit := packets_in_transit s;
     total_bytes := total_bytes s; packet_delays := packet_delays s; start_time := start_time s;
     end_time := end_time s; packets := packets s; seq_id := seq_id s; send_time := send_time s;
     sent := sent s; ticks := ticks s |}.
Definition set_cwnd (v : Q) (s : Sender) : Sender :=
  {| fp := fp s; seq_id_global := seq_id_global s; curr_state := curr_state s; cwnd := v;
     ssthresh := ssthresh s; duplicate_acks := duplicate_acks s; last_ack := last_ack s; timeout
     := timeout s; estimated_RTT := estimated_RTT s; packets_in_transit := packets_in_transit s;
     total_bytes := total_bytes s; packet_delays := packet_delays s; start_time := start_time s;
     end_time := end_time s; packets := packets s; seq_id := seq_id s; send_time := send_time s;
     sent := sent s; ticks := ticks s |}.
Definition set_ssthresh (v : Q) (s : Sender) : Sender :=
  {| fp := fp s; seq_id_global := seq_id_global s; curr_state := curr_state s; cwnd := cwnd s;
     ssthresh := v; duplicate_acks := duplicate_acks s; last_ack := last_ack s; timeout :=
     timeout s; estimated_RTT := estimated_RTT s; packets_in_transit := packets_in_transit s;
     total_bytes := total_bytes s; packet_delays := packet_delays s; start_time := start_time s;
     end_time := end_time s; packets := packets s; seq_id := seq_id s; send_time := send_time s;
     sent := sent s; ticks := ticks s |}.
Definition set_duplicate_acks (v : Z) (s : Sender) : Sender :=
  {| fp := fp s; seq_id_global := seq_id_global s; curr_state := curr_state s; cwnd := cwnd s;
     ssthresh := ssthresh s; duplicate_acks := v; last_ack := last_ack s; timeout := timeout s;
     estimated_RTT := estimated_RTT s; packets_in_transit := packets_in_transit s; total_bytes
     := total_bytes s; packet_delays := packet_delays s; start_time := start_time s; end_time :=
     end_time s; packets := packets s; seq_id := seq_id s; send_time := send_time s; sent :=
     sent s; ticks := ticks s |}.
Definition set_last_ack (v : Z) (s : Sender) : Sender :=
  {| fp := fp s; seq_id_global := seq_id_global s; curr_state := curr_state s; cwnd := cwnd s;
     ssthresh := ssthresh s; duplicate_acks := duplicate_acks s; last_ack := v; timeout :=
     timeout s; estimated_RTT := estimated_RTT s; packets_in_transit := packets_in_transit s;
     total_bytes := total_bytes s; packet_delays := packet_delays s; start_time := start_time s;
     end_time := end_time s; packets := packets s; seq_id := seq_id s; send_time := send_time s;
     sent := sent s; ticks := ticks s |}.
Definition set_timeout (v : Q) (s : Sender) : Sender :=
  {| fp := fp s; seq_id_global := seq_id_global s; curr_state := curr_state s; cwnd := cwnd s;
     ssthresh := ssthresh s; duplicate_acks := duplicate_acks s; last_ack := last_ack s; timeout
     := v; estimated_RTT := estimated_RTT s; packets_in_transit := packets_in_transit s;
     total_bytes := total_bytes s; packet_delays := packet_delays s; start_time := start_time s;
     end_time := end_time s; packets := packets s; seq_id := seq_id s; send_time := send_time s;
     sent := sent s; ticks := ticks s |}.
Definition set_estimated_RTT (v : Q) (s : Sender) : Sender :=
  {| fp := fp s; seq_id_global := seq_id_global s; curr_state := curr_state s; cwnd := cwnd s;
     ssthresh := ssthresh s; duplicate_acks := duplicate_acks s; last_ack := last_ack s; timeout
     := timeout s; estimated_RTT := v; packets_in_transit := packets_in_transit s; total_bytes
     := total_bytes s; packet_delays := packet_delays s; start_time := start_time s; end_time :=
     end_time s; packets := packets s; seq_id := seq_id s; send_time := send_time s; sent :=
     sent s; ticks := ticks s |}.
Definition set_packets_in_transit (v : Z) (s : Sender) : Sender :=
  {| fp := fp s; seq_id_global := seq_id_global s; curr_state := curr_state s; cwnd := cwnd s;
     ssthresh := ssthresh s; duplicate_acks := duplicate_acks s; last_ack := last_ack s; timeout
     := timeout s; estimated_RTT := estimated_RTT s; packets_in_transit := v; total_bytes :=
     total_bytes s; packet_delays := packet_delays s; start_time := start_time s; end_time :=
     end_time s; packets := packets s; seq_id := seq_id s; send_time := send_time s; sent :=
     sent s; ticks := ticks s |}.
Definition set_total_bytes (v : Z) (s : Sender) : Sender :=
  {| fp := fp s; seq_id_global := seq_id_global s; curr_state := curr_state s; cwnd := cwnd s;
     ssthresh := ssthresh s; duplicate_acks := duplicate_acks s; last_ack := last_ack s; timeout
     := timeout s; estimated_RTT := estimated_RTT s; packets_in_transit := packets_in_transit s;
     total_bytes := v; packet_delays := packet_delays s; start_time := start_time s; end_time :=
     end_time s; packets := packets s; seq_id := seq_id s; send_time := send_time s; sent :=
     sent s; ticks := ticks s |}.
Definition set_packet_delays (v : list Q) (s : Sender) : Sender :=
  {| fp := fp s; seq_id_global := seq_id_global s; curr_state := curr_state s; cwnd := cwnd s;
     ssthresh := ssthresh s; duplicate_acks := duplicate_acks s; last_ack := last_ack s; timeout
     := timeout s; estimated_RTT := estimated_RTT s; packets_in_transit := packets_in_transit s;
     total_bytes := total_bytes s; packet_delays := v; start_time := start_time s; end_time :=
     end_time s; packets := packets s; seq_id := seq_id s; send_time := send_time s; sent :=
     sent s; ticks := ticks s |}.
Definition set_start_time (v : option Q) (s : Sender) : Sender :=
  {| fp := fp s; seq_id_global := seq_id_global s; curr_state := curr_state s; cwnd := cwnd s;
     ssthresh := ssthresh s; duplicate_acks := duplicate_acks s; last_ack := last_ack s; timeout
     := timeout s; estimated_RTT := estimated_RTT s; packets_in_transit := packets_in_transit s;
     total_bytes := total_bytes s; packet_delays := packet_delays s; start_time := v; end_time
     := end_time s; packets := packets s; seq_id := seq_id s; send_time := send_time s; sent :=
     sent s; ticks := ticks s |}.
Definition set_end_time (v : option Q) (s : Sender) : Sender :=
  {| fp := fp s; seq_id_global := seq_id_global s; curr_state := curr_state s; cwnd := cwnd s;
     ssthresh := ssthresh s; duplicate_acks := duplicate_acks s; last_ack := last_ack s; timeout
     := timeout s; estimated_RTT := estimated_RTT s; packets_in_transit := packets_in_transit s;
     total_bytes := total_bytes s; packet_delays := packet_delays s; start_time := start_time s;
     end_time := v; packets := packets s; seq_id := seq_id s; send_time := send_time s; sent :=
     sent s; ticks := ticks s |}.
Definition set_packets (v : list Packet) (s : Sender) : Sender :=
  {| fp := fp s; seq_id_global := seq_id_global s; curr_state := curr_state s; cwnd := cwnd s;
     ssthresh := ssthresh s; duplicate_acks := duplicate_acks s; last_ack := last_ack s; timeout
     := timeout s; estimated_RTT := estimated_RTT s; packets_in_transit := packets_in_transit s;
     total_bytes := total_bytes s; packet_delays := packet_delays s; start_time := start_time s;
     end_time := end_time s; packets := v; seq_id := seq_id s; send_time := send_time s; sent :=
     sent s; ticks := ticks s |}.
Definition set_seq_id (v : option Z) (s : Sender) : Sender :=
  {| fp := fp s; seq_id_global := seq_id_global s; curr_state := curr_state s; cwnd := cwnd s;
     ssthresh := ssthresh s; duplicate_acks := duplicate_acks s; last_ack := last_ack s; timeout
     := timeout s; estimated_RTT := estimated_RTT s; packets_in_transit := packets_in_transit s;
     total_bytes := total_bytes s; packet_delays := packet_delays s; start_time := start_time s;
     end_time := end_time s; packets := packets s; seq_id := v; send_time := send_time s; sent
     := sent s; ticks := ticks s |}.
Definition set_send_time (v : option (option Q)) (s : Sender) : Sender :=
  {| fp := fp s; seq_id_global := seq_id_global s; curr_state := curr_state s; cwnd := cwnd s;
     ssthresh := ssthresh s; duplicate_acks := duplicate_acks s; last_ack := last_ack s; timeout
     := timeout s; estimated_RTT := estimated_RTT s; packets_in_transit := packets_in_transit s;
     total_bytes := total_bytes s; packet_delays := packet_delays s; start_time := start_time s;
     end_time := end_time s; packets := packets s; seq_id := seq_id s; send_time := v; sent :=
     sent s; ticks := ticks s |}.
Definition set_sent (v : list (list byte)) (s : Sender) : Sender :=
  {| fp := fp s; seq_id_global := seq_id_global s; curr_state := curr_state s; cwnd := cwnd s;
     ssthresh := ssthresh s; duplicate_acks := duplicate_acks s; last_ack := last_ack s; timeout
     := timeout s; estimated_RTT := estimated_RTT s; packets_in_transit := packets_in_transit s;
     total_bytes := total_bytes s; packet_delays := packet_delays s; start_time := start_time s;
     end_time := end_time s; packets := packets s; seq_id := seq_id s; send_time := send_time s;
     sent := v; ticks := ticks s |}.
Definition set_ticks (v : nat) (s : Sender) : Sender :=
  {| fp := fp s; seq_id_global := seq_id_global s; curr_state := curr_state s; cwnd := cwnd s;
     ssthresh := ssthresh s; duplicate_acks := duplicate_acks s; last_ack := last_ack s; timeout
     := timeout s; estimated_RTT := estimated_RTT s; packets_in_transit := packets_in_transit s;
     total_bytes := total_bytes s; packet_delays := packet_delays s; start_time := start_time s;
     end_time := end_time s; packets := packets s; seq_id := seq_id s; send_time := send_time s;
     sent := sent s; ticks := v |}.

Section Run.

(** The clock: the value the [k]-th call of [time.time()] returns. *)
Variable time_at : nat -> Q.

Definition time_time (s : Sender) : Q * Sender :=
  (time_at (ticks s), set_ticks (S (ticks s)) s).

Definition sendto (d : list byte) (s : Sender) : Sender :=
  set_sent (sent s ++ [d]) s.

(** The [for] header [(seq_id, send_time, packet, in_transit)] and the tuple
    assignments bind the global names. *)
Definition bind_names (p : Packet) (s : Sender) : Sender :=
  set_send_time (Some (p_send_time p)) (set_seq_id (Some (p_seq_id p)) s).

Definition timeout_reset (s : Sender) : Sender :=
  let s := set_curr_state TIMEOUT s in
  let s := set_packets_in_transit 0 s in
  let s := set_ssthresh (Py.max (Py.floordiv (cwnd s) 2) 1) s in
  set_cwnd 1 s.

(** *** Window fill (lines 63-74) *)

Definition fill_cond (s : Sender) : bool :=
  Py.lt (inject_Z (Py.len (packets s))) (cwnd s)
  && (value (curr_state s) <? value SENDING_EOF).

(** One pass of the body; the boolean is [false] after [break]. *)
Definition fill_body (s : Sender) : Py.result (Sender * bool) :=
  let '(chunk, rest) := fp_read MESSAGE_SIZE (fp s) in
  let s := set_fp rest s in
  packet <- Py.to_bytes (Z.to_nat SEQ_ID_SIZE) (seq_id_global s) ;;
  match chunk with
  | _ :: _ =>
      let packet := packet ++ chunk in
      let s := set_packets (packets s ++ [mkPacket (seq_id_global s) None packet false]) s in
      let s := set_seq_id_global (seq_id_global s + Py.len chunk) s in
      let s := set_total_bytes (total_bytes s + Py.len packet) s in
      Py.Ok (s, true)
  | [] => Py.Ok (set_curr_state SENDING_EOF s, false)
  end.

Fixpoint fill_loop (fuel : nat) (s : Sender) : Py.result Sender :=
  match fuel with
  | O => Py.Ok s
  | S fuel' =>
      if fill_cond s then
        '(s', go) <- fill_body s ;;
        if go then fill_loop fuel' s' else Py.Ok s'
      else Py.Ok s
  end.

(** Every pass that does not [break] appends one packet, so the loop makes at
    most [ceil(cwnd) - len(packets)] passes. *)
Definition fill_fuel (s : Sender) : nat :=
  Z.to_nat (Qceiling (cwnd s)) - length (packets s).

Definition fill_window (s : Sender) : Py.result Sender := fill_loop (fill_fuel s) s.

(** *** STEP 1: the send pass (lines 77-91) *)

Definition send_one (p : Packet) (s : Sender) : Packet * Sender :=
  let s := bind_names p s in
  if negb (p_in_transit p) || State_eqb (curr_state s) TIMEOUT then
    let s := if State_eqb (curr_state s) TIMEOUT then set_curr_state SLOW_START s else s in
    let s := sendto (p_packet p) s in
    let s := set_packets_in_transit (packets_in_transit s + 1) s in
    let '(t, s) :=
      match p_send_time p with
      | None => let '(now, s) := time_time s in (now, set_send_time (Some (Some now)) s)
      | Some t => (t, s)
      end in
    (mkPacket (p_seq_id p) (Some t) (p_packet p) true, s)
  else (p, s).

Fixpoint send_loop (todo : list Packet) (s : Sender) : list Packet * Sender :=
  match todo with
  | [] => ([], s)
  | p :: rest =>
      let '(p', s) := send_one p s in
      if packets_in_transit s =? Py.int (cwnd s) then (p' :: rest, s)
      else let '(rest', s) := send_loop rest s in (p' :: rest', s)
  end.

(** The FINACK datagram of line 90, built from the name [seq_id]. *)
Definition finack_packet (s : Sender) : Py.result (list byte) :=
  match seq_id s with
  | None => Py.Raise Py.NameError
  | Some i =>
      hdr <- Py.to_bytes (Z.to_nat SEQ_ID_SIZE) i ;;
      Py.Ok (hdr ++ FINACK)
  end.

Definition send_step (s : Sender) : Py.result Sender :=
  match packets s with
  | _ :: _ =>
      if Py.int (cwnd s) - packets_in_transit s >? 0 then
        let '(ps, s) := send_loop (packets s) s in
        Py.Ok (set_packets ps s)
      else if State_eqb (curr_state s) SENDING_EOF then
        packet <- finack_packet s ;; Py.Ok (sendto packet s)
      else Py.Ok s
  | [] =>
      if State_eqb (curr_state s) SENDING_EOF then
        packet <- finack_packet s ;; Py.Ok (sendto packet s)
      else Py.Ok s
  end.

(** *** STEP 2: the received datagram (lines 96-143) *)

(** Lines 114-118: clear the flag of the leading in-transit packets. *)
Fixpoint clear_in_transit (todo : list Packet) (s : Sender) : list Packet * Sender :=
  match todo with
  | [] => ([], s)
  | p :: rest =>
      let s := bind_names p s in
      if p_in_transit p then
        let '(rest', s) := clear_in_transit rest s in
        (mkPacket (p_seq_id p) (p_send_time p) (p_packet p) false :: rest', s)
      else (p :: rest, s)
  end.

(** Lines 130-140: pop the head while its [seq_id] is below [ack_id]. *)
Fixpoint remove_acked (ack_id : Z) (sample_RTT : Q) (todo : list Packet) (s : Sender)
  : Py.result (list Packet * Sender) :=
  match todo with
  | [] => Py.Ok ([], s)
  | p :: rest =>
      if p_seq_id p <? ack_id then
        let s := bind_names p s in
        let s := set_packets_in_transit (packets_in_transit s - 1) s in
        let s := set_packet_delays (packet_delays s ++ [sample_RTT]) s in
        s <- (if State_eqb (curr_state s) SLOW_START then Py.Ok (set_cwnd (cwnd s + 1)%Q s)
              else if State_eqb (curr_state s) CONGESTION_AVOIDANCE then
                inv <- Py.truediv 1 (cwnd s) ;;
                Py.Ok (set_cwnd (cwnd s + (inv + (1 # 8)))%Q s)
              else Py.Ok s) ;;
        remove_acked ack_id sample_RTT rest s
      else Py.Ok (todo, s)
  end.

(** Lines 99-120, the branch [ack_id == last_ack].  The loop that empties the
    socket (lines 108-113) touches no name of the script. *)
Definition on_duplicate_ack (s : Sender) : flow Sender :=
  let s := set_duplicate_acks (duplicate_acks s + 1) s in
  if duplicate_acks s =? 3 then
    let s := timeout_reset s in
    let s := set_duplicate_acks 0 s in
    let s := set_ssthresh (Py.max (Py.floordiv (cwnd s) 2) 1) s in
    let s := set_cwnd (ssthresh s) s in
    let s := set_curr_state CONGESTION_AVOIDANCE s in
    let '(ps, s) := clear_in_transit (packets s) s in
    let s := set_packets ps s in
    let s := set_packets_in_transit 0 s in
    Continue s
  else Next s.

(** [time.time() - send_time] with the global name [send_time]. *)
Definition elapsed_since_send_time (s : Sender) : Py.result (Q * Sender) :=
  let '(now, s) := time_time s in
  match send_time s with
  | None => Py.Raise Py.NameError
  | Some None => Py.Raise Py.TypeError
  | Some (Some t) => Py.Ok ((now - t)%Q, s)
  end.

(** Lines 121-143, the branch of a new ACK. *)
Definition on_new_ack (ack_id : Z) (s : Sender) : Py.result Sender :=
  let s := set_last_ack ack_id s in
  let s := set_duplicate_acks 0 s in
  '(sample_RTT, s) <- elapsed_since_send_time s ;;
  let s := set_estimated_RTT (ALPHA * estimated_RTT s + (1 - ALPHA) * sample_RTT)%Q s in
  '(ps, s) <- remove_acked ack_id sample_RTT (packets s) s ;;
  let s := set_packets ps s in
  Py.Ok (set_timeout (100 * estimated_RTT s)%Q s).

Definition on_recv (rcv_packet : list byte) (s : Sender) : Py.result (flow Sender) :=
  let ack_id := Py.from_bytes (slice_to SEQ_ID_SIZE rcv_packet) in
  if ack_id =? last_ack s then Py.Ok (on_duplicate_ack s)
  else s <- on_new_ack ack_id s ;; Py.Ok (Next s).

(** Lines 144-149: [except socket.timeout]. *)
Definition on_socket_timeout (s : Sender) : flow Sender :=
  if State_eqb (curr_state s) SENDING_EOF then
    let '(now, s) := time_time s in Break (set_end_time (Some now) s)
  else Continue (timeout_reset s).

(** *** STEP 3: the age of the head packet (lines 153-156) *)

Definition check_timeout (s : Sender) : Sender :=
  match packets s with
  | [] => s
  | p :: _ =>
      let s := bind_names p s in
      match p_send_time p with
      | None => s
      | Some t =>
          let '(now, s) := time_time s in
          if Qle_bool (timeout s) (now - t)%Q then timeout_reset s else s
      end
  end.

(** *** STEP 4: rounding [cwnd] and entering congestion avoidance (lines 160-166) *)

Definition clean_cwnd (s : Sender) : Sender :=
  let s := if Py.int (cwnd s + (1 # 10))%Q >? Py.int (cwnd s)
           then set_cwnd (inject_Z (Py.int (cwnd s + (1 # 10))%Q)) s else s in
  if State_eqb (curr_state s) SLOW_START && Qle_bool (ssthresh s) (cwnd s)
  then set_curr_state CONGESTION_AVOIDANCE (set_cwnd (ssthresh s) s)
  else s.

(** *** The main loop *)

(** One pass up to the call of [recvfrom]. *)
Definition before_recv (s : Sender) : Py.result Sender :=
  s <- fill_window s ;; send_step s.

(** The rest of the pass, given what [recvfrom] did. *)
Definition after_recv (ev : recv_event) (s : Sender) : Py.result (flow Sender) :=
  match ev with
  | Recv rcv_packet =>
      f <- on_recv rcv_packet s ;;
      match f with
      | Next s => Py.Ok (Next (clean_cwnd (check_timeout s)))
      | other => Py.Ok other
      end
  | SocketTimeout => Py.Ok (on_socket_timeout s)
  end.

Definition iteration (ev : recv_event) (s : Sender) : Py.result (flow Sender) :=
  s <- before_recv s ;; after_recv ev s.

(** The globals as the script initialises them, [start_time] taken and the
    file opened, at the top of the first pass. *)
Definition init (file : list byte) : Sender :=
  {| fp := file; seq_id_global := 0; curr_state := SLOW_START; cwnd := 1; ssthresh := 64;
     duplicate_acks := 0; last_ack := -1; timeout := 1; estimated_RTT := 0;
     packets_in_transit := 0; total_bytes := 0; packet_delays := [];
     start_time := Some (time_at 0); end_time := None; packets := [];
     seq_id := None; send_time := None; sent := []; ticks := 1 |}.

(** The loop over a list of receive events; it stops at [break]. *)
Fixpoint run (evs : list recv_event) (s : Sender) : Py.result (flow Sender) :=
  match evs with
  | [] => Py.Ok (Next s)
  | ev :: evs' =>
      f <- iteration ev s ;;
      match f with
      | Next s' | Continue s' => run evs' s'
      | Break s' => Py.Ok (Break s')
      end
  end.

End Run.

End Reno.

(** ** The Vegas sender ([..._sender_custom.py]) *)

Module Vegas.

Definition ALPHA : Q := 20.
Definition BETA : Q := 40.
Definition DELTA : Q := 1000.
Definition GAMMA : Q := 85 # 100.
Definition EPSILION : Q := 8 # 10.

Inductive DistinguishedState : Set := EVAL | CHANGE.

Definition DistinguishedState_eqb (a b : DistinguishedState) : bool :=
  match a, b with
  | EVAL, EVAL | CHANGE, CHANGE => true
  | _, _ => false
  end.

Inductive State : Set :=
  TIMEOUT | EVALUATION | SLOW_START | CONGESTION_AVOIDANCE | SENDING_EOF.

Definition value (st : State) : Z :=
  match st with
  | TIMEOUT => -1
  | EVALUATION => 0
  | SLOW_START => 1
  | CONGESTION_AVOIDANCE => 2
  | SENDING_EOF => 3
  end.

Definition State_eqb (a b : State) : bool := value a =? value b.

(** An element of the deque [packets]:
    [(seq_id, time_sent, message, in_transit, is_distinguished, data_rate)]. *)
Record Packet : Type := mkPacket {
  p_seq_id : Z;
  p_send_time : option Q;
  p_packet : list byte;
  p_in_transit : bool;
  p_distinguished : bool;
  p_data_rate : option Q
}.

(** The script's global names; [seq_id] and [send_time] as in [Reno]. *)
Record Sender : Type := mkSender {
  fp : list byte;
  seq_id_global : Z;
  curr_state : State;
  cwnd : Q;
  duplicate_acks : Z;
  last_ack : Z;
  timeout : Q;
  packets_in_transit : Z;
  duplicate_flag : bool;
  base_RTT : option Q;
  estimated_RTT : Q;
  expected_throughput : option Q;
  acutal_throughput : option Q;
  distinguished_bytes : Z;
  distinguished_out : bool;
  distinguished_state : DistinguishedState;
  total_bytes : Z;
  packet_delays : list Q;
  start_time : option Q;
  end_time : option Q;
  packets : list Packet;
  seq_id : option Z;
  send_time : option (option Q);
  sent : list (list byte);
  ticks : nat
}.

Definition set_fp (v : list byte) (s : Sender) : Sender :=
  {| fp := v; seq_id_global := seq_id_global s; curr_state := curr_state s; cwnd := cwnd s;
     duplicate_acks := duplicate_acks s; last_ack := last_ack s; timeout := timeout s;
     packets_in_transit := packets_in_transit s; duplicate_flag := duplicate_flag s; base_RTT :=
     base_RTT s; estimated_RTT := estimated_RTT s; expected_throughput := expected_throughput s;
     acutal_throughput := acutal_throughput s; distinguished_bytes := distinguished_bytes s;
     distinguished_out := distinguished_out s; distinguished_state := distinguished_state s;
     total_bytes := total_bytes s; packet_delays := packet_delays s; start_time := start_time s;
     end_time := end_time s; packets := packets s; seq_id := seq_id s; send_time := send_time s;
     sent := sent s; ticks := ticks s |}.
Definition set_seq_id_global (v : Z) (s : Sender) : Sender :=
  {| fp := fp s; seq_id_global := v; curr_state := curr_state s; cwnd := cwnd s; duplicate_acks
     := duplicate_acks s; last_ack := last_ack s; timeout := timeout s; packets_in_transit :=
     packets_in_transit s; duplicate_flag := duplicate_flag s; base_RTT := base_RTT s;
     estimated_RTT := estimated_RTT s; expected_throughput := expected_throughput s;
     acutal_throughput := acutal_throughput s; distinguished_bytes := distinguished_bytes s;
     distinguished_out := distinguished_out s; distinguished_state := distinguished_state s;
     total_bytes := total_bytes s; packet_delays := packet_delays s; start_time := start_time s;
     end_time := end_time s; packets := packets s; seq_id := seq_id s; send_time := send_time s;
     sent := sent s; ticks := ticks s |}.
Definition set_curr_state (v : State) (s : Sender) : Sender :=
  {| fp := fp s; seq_id_global := seq_id_global s; curr_state := v; cwnd := cwnd s;
     duplicate_acks := duplicate_acks s; last_ack := last_ack s; timeout := timeout s;
     packets_in_transit := packets_in_transit s; duplicate_flag := duplicate_flag s; base_RTT :=
     base_RTT s; estimated_RTT := estimated_RTT s; expected_throughput := expected_throughput s;
     acutal_throughput := acutal_throughput s; distinguished_bytes := distinguished_bytes s;
     distinguished_out := distinguished_out s; distinguished_state := distinguished_state s;
     total_bytes := total_bytes s; packet_delays := packet_delays s; start_time := start_time s;
     end_time := end_time s; packets := packets s; seq_id := seq_id s; send_time := send_time s;
     sent := sent s; ticks := ticks s |}.
Definition set_cwnd (v : Q) (s : Sender) : Sender :=
  {| fp := fp s; seq_id_global := seq_id_global s; curr_state := curr_state s; cwnd := v;
     duplicate_acks := duplicate_acks s; last_ack := last_ack s; timeout := timeout s;
     packets_in_transit := packets_in_transit s; duplicate_flag := duplicate_flag s; base_RTT :=
     base_RTT s; estimated_RTT := estimated_RTT s; expected_throughput := expected_throughput s;
     acutal_throughput := acutal_throughput s; distinguished_bytes := distinguished_bytes s;
     distinguished_out := distinguished_out s; distinguished_state := distinguished_state s;
     total_bytes := total_bytes s; packet_delays := packet_delays s; start_time := start_time s;
     end_time := end_time s; packets := packets s; seq_id := seq_id s; send_time := send_time s;
     sent := sent s; ticks := ticks s |}.
Definition set_duplicate_acks (v : Z) (s : Sender) : Sender :=
  {| fp := fp s; seq_id_global := seq_id_global s; curr_state := curr_state s; cwnd := cwnd s;
     duplicate_acks := v; last_ack := last_ack s; timeout := timeout s; packets_in_transit :=
     packets_in_transit s; duplicate_flag := duplicate_flag s; base_RTT := base_RTT s;
     estimated_RTT := estimated_RTT s; expected_throughput := expected_throughput s;
     acutal_throughput := acutal_throughput s; distinguished_bytes := distinguished_bytes s;
     distinguished_out := distinguished_out s; distinguished_state := distinguished_state s;
     total_bytes := total_bytes s; packet_delays := packet_delays s; start_time := start_time s;
     end_time := end_time s; packets := packets s; seq_id := seq_id s; send_time := send_time s;
     sent := sent s; ticks := ticks s |}.
Definition set_last_ack (v : Z) (s : Sender) : Sender :=
  {| fp := fp s; seq_id_global := seq_id_global s; curr_state := curr_state s; cwnd := cwnd s;
     duplicate_acks := duplicate_acks s; last_ack := v; timeout := timeout s; packets_in_transit
     := packets_in_transit s; duplicate_flag := duplicate_flag s; base_RTT := base_RTT s;
     estimated_RTT := estimated_RTT s; expected_throughput := expected_throughput s;
     acutal_throughput := acutal_throughput s; distinguished_bytes := distinguished_bytes s;
     distinguished_out := distinguished_out s; distinguished_state := distinguished_state s;
     total_bytes := total_bytes s; packet_delays := packet_delays s; start_time := start_time s;
     end_time := end_time s; packets := packets s; seq_id := seq_id s; send_time := send_time s;
     sent := sent s; ticks := ticks s |}.
Definition set_timeout (v : Q) (s : Sender) : Sender :=
  {| fp := fp s; seq_id_global := seq_id_global s; curr_state := curr_state s; cwnd := cwnd s;
     duplicate_acks := duplicate_acks s; last_ack := last_ack s; timeout := v;
     packets_in_transit := packets_in_transit s; duplicate_flag := duplicate_flag s; base_RTT :=
     base_RTT s; estimated_RTT := estimated_RTT s; expected_throughput := expected_throughput s;
     acutal_throughput := acutal_throughput s; distinguished_bytes := distinguished_bytes s;
     distinguished_out := distinguished_out s; distinguished_state := distinguished_state s;
     total_bytes := total_bytes s; packet_delays := packet_delays s; start_time := start_time s;
     end_time := end_time s; packets := packets s; seq_id := seq_id s; send_time := send_time s;
     sent := sent s; ticks := ticks s |}.
Definition set_packets_in_transit (v : Z) (s : Sender) : Sender :=
  {| fp := fp s; seq_id_global := seq_id_global s; curr_state := curr_state s; cwnd := cwnd s;
     duplicate_acks := duplicate_acks s; last_ack := last_ack s; timeout := timeout s;
     packets_in_transit := v; duplicate_flag := duplicate_flag s; base_RTT := base_RTT s;
     estimated_RTT := estimated_RTT s; expected_throughput := expected_throughput s;
     acutal_throughput := acutal_throughput s; distinguished_bytes := distinguished_bytes s;
     distinguished_out := distinguished_out s; distinguished_state := distinguished_state s;
     total_bytes := total_bytes s; packet_delays := packet_delays s; start_time := start_time s;
     end_time := end_time s; packets := packets s; seq_id := seq_id s; send_time := send_time s;
     sent := sent s; ticks := ticks s |}.
Definition set_duplicate_flag (v : bool) (s : Sender) : Sender :=
  {| fp := fp s; seq_id_global := seq_id_global s; curr_state := curr_state s; cwnd := cwnd s;
     duplicate_acks := duplicate_acks s; last_ack := last_ack s; timeout := timeout s;
     packets_in_transit := packets_in_transit s; duplicate_flag := v; base_RTT := base_RTT s;
     estimated_RTT := estimated_RTT s; expected_throughput := expected_throughput s;
     acutal_throughput := acutal_throughput s; distinguished_bytes := distinguished_bytes s;
     distinguished_out := distinguished_out s; distinguished_state := distinguished_state s;
     total_bytes := total_bytes s; packet_delays := packet_delays s; start_time := start_time s;
     end_time := end_time s; packets := packets s; seq_id := seq_id s; send_time := send_time s;
     sent := sent s; ticks := ticks s |}.
Definition set_base_RTT (v : option Q) (s : Sender) : Sender :=
  {| fp := fp s; seq_id_global := seq_id_global s; curr_state := curr_state s; cwnd := cwnd s;
     duplicate_acks := duplicate_acks s; last_ack := last_ack s; timeout := timeout s;
     packets_in_transit := packets_in_transit s; duplicate_flag := duplicate_flag s; base_RTT :=
     v; estimated_RTT := estimated_RTT s; expected_throughput := expected_throughput s;
     acutal_throughput := acutal_throughput s; distinguished_bytes := distinguished_bytes s;
     distinguished_out := distinguished_out s; distinguished_state := distinguished_state s;
     total_bytes := total_bytes s; packet_delays := packet_delays s; start_time := start_time s;
     end_time := end_time s; packets := packets s; seq_id := seq_id s; send_time := send_time s;
     sent := sent s; ticks := ticks s |}.
Definition set_estimated_RTT (v : Q) (s : Sender) : Sender :=
  {| fp := fp s; seq_id_global := seq_id_global s; curr_state := curr_state s; cwnd := cwnd s;
     duplicate_acks := duplicate_acks s; last_ack := last_ack s; timeout := timeout s;
     packets_in_transit := packets_in_transit s; duplicate_flag := duplicate_flag s; base_RTT :=
     base_RTT s; estimated_RTT := v; expected_throughput := expected_throughput s;
     acutal_throughput := acutal_throughput s; distinguished_bytes := distinguished_bytes s;
     distinguished_out := distinguished_out s; distinguished_state := distinguished_state s;
     total_bytes := total_bytes s; packet_delays := packet_delays s; start_time := start_time s;
     end_time := end_time s; packets := packets s; seq_id := seq_id s; send_time := send_time s;
     sent := sent s; ticks := ticks s |}.
Definition set_expected_throughput (v : option Q) (s : Sender) : Sender :=
  {| fp := fp s; seq_id_global := seq_id_global s; curr_state := curr_state s; cwnd := cwnd s;
     duplicate_acks := duplicate_acks s; last_ack := last_ack s; timeout := timeout s;
     packets_in_transit := packets_in_transit s; duplicate_flag := duplicate_flag s; base_RTT :=
     base_RTT s; estimated_RTT := estimated_RTT s; expected_throughput := v; acutal_throughput
     := acutal_throughput s; distinguished_bytes := distinguished_bytes s; distinguished_out :=
     distinguished_out s; distinguished_state := distinguished_state s; total_bytes :=
     total_bytes s; packet_delays := packet_delays s; start_time := start_time s; end_time :=
     end_time s; packets := packets s; seq_id := seq_id s; send_time := send_time s; sent :=
     sent s; ticks := ticks s |}.
Definition set_acutal_throughput (v : option Q) (s : Sender) : Sender :=
  {| fp := fp s; seq_id_global := seq_id_global s; curr_state := curr_state s; cwnd := cwnd s;
     duplicate_acks := duplicate_acks s; last_ack := last_ack s; timeout := timeout s;
     packets_in_transit := packets_in_transit s; duplicate_flag := duplicate_flag s; base_RTT :=
     base_RTT s; estimated_RTT := estimated_RTT s; expected_throughput := expected_throughput s;
     acutal_throughput := v; distinguished_bytes := distinguished_bytes s; distinguished_out :=
     distinguished_out s; distinguished_state := distinguished_state s; total_bytes :=
     total_bytes s; packet_delays := packet_delays s; start_time := start_time s; end_time :=
     end_time s; packets := packets s; seq_id := seq_id s; send_time := send_time s; sent :=
     sent s; ticks := ticks s |}.
Definition set_distinguished_bytes (v : Z) (s : Sender) : Sender :=
  {| fp := fp s; seq_id_global := seq_id_global s; curr_state := curr_state s; cwnd := cwnd s;
     duplicate_acks := duplicate_acks s; last_ack := last_ack s; timeout := timeout s;
     packets_in_transit := packets_in_transit s; duplicate_flag := duplicate_flag s; base_RTT :=
     base_RTT s; estimated_RTT := estimated_RTT s; expected_throughput := expected_throughput s;
     acutal_throughput := acutal_throughput s; distinguished_bytes := v; distinguished_out :=
     distinguished_out s; distinguished_state := distinguished_state s; total_bytes :=
     total_bytes s; packet_delays := packet_delays s; start_time := start_time s; end_time :=
     end_time s; packets := packets s; seq_id := seq_id s; send_time := send_time s; sent :=
     sent s; ticks := ticks s |}.
Definition set_distinguished_out (v : bool) (s : Sender) : Sender :=
  {| fp := fp s; seq_id_global := seq_id_global s; curr_state := curr_state s; cwnd := cwnd s;
     duplicate_acks := duplicate_acks s; last_ack := last_ack s; timeout := timeout s;
     packets_in_transit := packets_in_transit s; duplicate_flag := duplicate_flag s; base_RTT :=
     base_RTT s; estimated_RTT := estimated_RTT s; expected_throughput := expected_throughput s;
     acutal_throughput := acutal_throughput s; distinguished_bytes := distinguished_bytes s;
     distinguished_out := v; distinguished_state := distinguished_state s; total_bytes :=
     total_bytes s; packet_delays := packet_delays s; start_time := start_time s; end_time :=
     end_time s; packets := packets s; seq_id := seq_id s; send_time := send_time s; sent :=
     sent s; ticks := ticks s |}.
Definition set_distinguished_state (v : DistinguishedState) (s : Sender) : Sender :=
  {| fp := fp s; seq_id_global := seq_id_global s; curr_state := curr_state s; cwnd := cwnd s;
     duplicate_acks := duplicate_acks s; last_ack := last_ack s; timeout := timeout s;
     packets_in_transit := packets_in_transit s; duplicate_flag := duplicate_flag s; base_RTT :=
     base_RTT s; estimated_RTT := estimated_RTT s; expected_throughput := expected_throughput s;
     acutal_throughput := acutal_throughput s; distinguished_bytes := distinguished_bytes s;
     distinguished_out := distinguished_out s; distinguished_state := v; total_bytes :=
     total_bytes s; packet_delays := packet_delays s; start_time := start_time s; end_time :=
     end_time s; packets := packets s; seq_id := seq_id s; send_time := send_time s; sent :=
     sent s; ticks := ticks s |}.
Definition set_total_bytes (v : Z) (s : Sender) : Sender :=
  {| fp := fp s; seq_id_global := seq_id_global s; curr_state := curr_state s; cwnd := cwnd s;
     duplicate_acks := duplicate_acks s; last_ack := last_ack s; timeout := timeout s;
     packets_in_transit := packets_in_transit s; duplicate_flag := duplicate_flag s; base_RTT :=
     base_RTT s; estimated_RTT := estimated_RTT s; expected_throughput := expected_throughput s;
     acutal_throughput := acutal_throughput s; distinguished_bytes := distinguished_bytes s;
     distinguished_out := distinguished_out s; distinguished_state := distinguished_state s;
     total_bytes := v; packet_delays := packet_delays s; start_time := start_time s; end_time :=
     end_time s; packets := packets s; seq_id := seq_id s; send_time := send_time s; sent :=
     sent s; ticks := ticks s |}.
Definition set_packet_delays (v : list Q) (s : Sender) : Sender :=
  {| fp := fp s; seq_id_global := seq_id_global s; curr_state := curr_state s; cwnd := cwnd s;
     duplicate_acks := duplicate_acks s; last_ack := last_ack s; timeout := timeout s;
     packets_in_transit := packets_in_transit s; duplicate_flag := duplicate_flag s; base_RTT :=
     base_RTT s; estimated_RTT := estimated_RTT s; expected_throughput := expected_throughput s;
     acutal_throughput := acutal_throughput s; distinguished_bytes := distinguished_bytes s;
     distinguished_out := distinguished_out s; distinguished_state := distinguished_state s;
     total_bytes := total_bytes s; packet_delays := v; start_time := start_time s; end_time :=
     end_time s; packets := packets s; seq_id := seq_id s; send_time := send_time s; sent :=
     sent s; ticks := ticks s |}.
Definition set_start_time (v : option Q) (s : Sender) : Sender :=
  {| fp := fp s; seq_id_global := seq_id_global s; curr_state := curr_state s; cwnd := cwnd s;
     duplicate_acks := duplicate_acks s; last_ack := last_ack s; timeout := timeout s;
     packets_in_transit := packets_in_transit s; duplicate_flag := duplicate_flag s; base_RTT :=
     base_RTT s; estimated_RTT := estimated_RTT s; expected_throughput := expected_throughput s;
     acutal_throughput := acutal_throughput s; distinguished_bytes := distinguished_bytes s;
     distinguished_out := distinguished_out s; distinguished_state := distinguished_state s;
     total_bytes := total_bytes s; packet_delays := packet_delays s; start_time := v; end_time
     := end_time s; packets := packets s; seq_id := seq_id s; send_time := send_time s; sent :=
     sent s; ticks := ticks s |}.
Definition set_end_time (v : option Q) (s : Sender) : Sender :=
  {| fp := fp s; seq_id_global := seq_id_global s; curr_state := curr_state s; cwnd := cwnd s;
     duplicate_acks := duplicate_acks s; last_ack := last_ack s; timeout := timeout s;
     packets_in_transit := packets_in_transit s; duplicate_flag := duplicate_flag s; base_RTT :=
     base_RTT s; estimated_RTT := estimated_RTT s; expected_throughput := expected_throughput s;
     acutal_throughput := acutal_throughput s; distinguished_bytes := distinguished_bytes s;
     distinguished_out := distinguished_out s; distinguished_state := distinguished_state s;
     total_bytes := total_bytes s; packet_delays := packet_delays s; start_time := start_time s;
     end_time := v; packets := packets s; seq_id := seq_id s; send_time := send_time s; sent :=
     sent s; ticks := ticks s |}.
Definition set_packets (v : list Packet) (s : Sender) : Sender :=
  {| fp := fp s; seq_id_global := seq_id_global s; curr_state := curr_state s; cwnd := cwnd s;
     duplicate_acks := duplicate_acks s; last_ack := last_ack s; timeout := timeout s;
     packets_in_transit := packets_in_transit s; duplicate_flag := duplicate_flag s; base_RTT :=
     base_RTT s; estimated_RTT := estimated_RTT s; expected_throughput := expected_throughput s;
     acutal_throughput := acutal_throughput s; distinguished_bytes := distinguished_bytes s;
     distinguished_out := distinguished_out s; distinguished_state := distinguished_state s;
     total_bytes := total_bytes s; packet_delays := packet_delays s; start_time := start_time s;
     end_time := end_time s; packets := v; seq_id := seq_id s; send_time := send_time s; sent :=
     sent s; ticks := ticks s |}.
Definition set_seq_id (v : option Z) (s : Sender) : Sender :=
  {| fp := fp s; seq_id_global := seq_id_global s; curr_state := curr_state s; cwnd := cwnd s;
     duplicate_acks := duplicate_acks s; last_ack := last_ack s; timeout := timeout s;
     packets_in_transit := packets_in_transit s; duplicate_flag := duplicate_flag s; base_RTT :=
     base_RTT s; estimated_RTT := estimated_RTT s; expected_throughput := expected_throughput s;
     acutal_throughput := acutal_throughput s; distinguished_bytes := distinguished_bytes s;
     distinguished_out := distinguished_out s; distinguished_state := distinguished_state s;
     total_bytes := total_bytes s; packet_delays := packet_delays s; start_time := start_time s;
     end_time := end_time s; packets := packets s; seq_id := v; send_time := send_time s; sent
     := sent s; ticks := ticks s |}.
Definition set_send_time (v : option (option Q)) (s : Sender) : Sender :=
  {| fp := fp s; seq_id_global := seq_id_global s; curr_state := curr_state s; cwnd := cwnd s;
     duplicate_acks := duplicate_acks s; last_ack := last_ack s; timeout := timeout s;
     packets_in_transit := packets_in_transit s; duplicate_flag := duplicate_flag s; base_RTT :=
     base_RTT s; estimated_RTT := estimated_RTT s; expected_throughput := expected_throughput s;
     acutal_throughput := acutal_throughput s; distinguished_bytes := distinguished_bytes s;
     distinguished_out := distinguished_out s; distinguished_state := distinguished_state s;
     total_bytes := total_bytes s; packet_delays := packet_delays s; start_time := start_time s;
     end_time := end_time s; packets := packets s; seq_id := seq_id s; send_time := v; sent :=
     sent s; ticks := ticks s |}.
Definition set_sent (v : list (list byte)) (s : Sender) : Sender :=
  {| fp := fp s; seq_id_global := seq_id_global s; curr_state := curr_state s; cwnd := cwnd s;
     duplicate_acks := duplicate_acks s; last_ack := last_ack s; timeout := timeout s;
     packets_in_transit := packets_in_transit s; duplicate_flag := duplicate_flag s; base_RTT :=
     base_RTT s; estimated_RTT := estimated_RTT s; expected_throughput := expected_throughput s;
     acutal_throughput := acutal_throughput s; distinguished_bytes := distinguished_bytes s;
     distinguished_out := distinguished_out s; distinguished_state := distinguished_state s;
     total_bytes := total_bytes s; packet_delays := packet_delays s; start_time := start_time s;
     end_time := end_time s; packets := packets s; seq_id := seq_id s; send_time := send_time s;
     sent := v; ticks := ticks s |}.
Definition set_ticks (v : nat) (s : Sender) : Sender :=
  {| fp := fp s; seq_id_global := seq_id_global s; curr_state := curr_state s; cwnd := cwnd s;
     duplicate_acks := duplicate_acks s; last_ack := last_ack s; timeout := timeout s;
     packets_in_transit := packets_in_transit s; duplicate_flag := duplicate_flag s; base_RTT :=
     base_RTT s; estimated_RTT := estimated_RTT s; expected_throughput := expected_throughput s;
     acutal_throughput := acutal_throughput s; distinguished_bytes := distinguished_bytes s;
     distinguished_out := distinguished_out s; distinguished_state := distinguished_state s;
     total_bytes := total_bytes s; packet_delays := packet_delays s; start_time := start_time s;
     end_time := end_time s; packets := packets s; seq_id := seq_id s; send_time := send_time s;
     sent := sent s; ticks := v |}.

Section Run.

Variable time_at : nat -> Q.

Definition time_time (s : Sender) : Q * Sender :=
  (time_at (ticks s), set_ticks (S (ticks s)) s).

Definition sendto (d : list byte) (s : Sender) : Sender :=
  set_sent (sent s ++ [d]) s.

Definition bind_names (p : Packet) (s : Sender) : Sender :=
  set_send_time (Some (p_send_time p)) (set_seq_id (Some (p_seq_id p)) s).

(** A name that must hold a number: [None] in arithmetic is a [TypeError]. *)
Definition number (x : option Q) : Py.result Q :=
  match x with
  | Some q => Py.Ok q
  | None => Py.Raise Py.TypeError
  end.

(** *** Window fill (lines 75-87) *)

Definition fill_cond (s : Sender) : bool :=
  Py.lt (inject_Z (Py.len (packets s))) (cwnd s)
  && (value (curr_state s) <? value SENDING_EOF).

Definition fill_body (s : Sender) : Py.result (Sender * bool) :=
  let '(chunk, rest) := fp_read MESSAGE_SIZE (fp s) in
  let s := set_fp rest s in
  packet <- Py.to_bytes (Z.to_nat SEQ_ID_SIZE) (seq_id_global s) ;;
  match chunk with
  | _ :: _ =>
      let packet := packet ++ chunk in
      let s := set_packets
                 (packets s ++ [mkPacket (seq_id_global s) None packet false false None]) s in
      let s := set_seq_id_global (seq_id_global s + Py.len chunk) s in
      let s := set_total_bytes (total_bytes s + Py.len packet) s in
      Py.Ok (s, true)
  | [] => Py.Ok (set_curr_state SENDING_EOF s, false)
  end.

Fixpoint fill_loop (fuel : nat) (s : Sender) : Py.result Sender :=
  match fuel with
  | O => Py.Ok s
  | S fuel' =>
      if fill_cond s then
        '(s', go) <- fill_body s ;;
        if go then fill_loop fuel' s' else Py.Ok s'
      else Py.Ok s
  end.

Definition fill_fuel (s : Sender) : nat :=
  Z.to_nat (Qceiling (cwnd s)) - length (packets s).

Definition fill_window (s : Sender) : Py.result Sender := fill_loop (fill_fuel s) s.

(** *** STEP 1: the send pass (lines 90-123) *)

Definition toggle (d : DistinguishedState) : DistinguishedState :=
  if DistinguishedState_eqb d CHANGE then EVAL else CHANGE.

Definition send_one (p : Packet) (s : Sender) : Packet * Sender :=
  let s := bind_names p s in
  if negb (p_in_transit p) || State_eqb (curr_state s) TIMEOUT then
    let '(distinguished, s) :=
      if negb (distinguished_out s)
      then (true, set_distinguished_state (toggle (distinguished_state s))
                    (set_distinguished_out true s))
      else (p_distinguished p, s) in
    let s := if State_eqb (curr_state s) TIMEOUT
             then set_distinguished_bytes (distinguished_bytes s - MESSAGE_SIZE)
                    (set_curr_state SLOW_START s)
             else s in
    let s := if distinguished then set_distinguished_bytes MESSAGE_SIZE s
             else set_distinguished_bytes (distinguished_bytes s + MESSAGE_SIZE) s in
    let s := sendto (p_packet p) s in
    let s := set_packets_in_transit (packets_in_transit s + 1) s in
    let '(t, s) :=
      match p_send_time p with
      | None => let '(now, s) := time_time s in (now, set_send_time (Some (Some now)) s)
      | Some t => (t, s)
      end in
    (mkPacket (p_seq_id p) (Some t) (p_packet p) true distinguished (expected_throughput s), s)
  else (p, s).

Fixpoint send_loop (todo : list Packet) (s : Sender) : list Packet * Sender :=
  match todo with
  | [] => ([], s)
  | p :: rest =>
      let '(p', s) := send_one p s in
      if packets_in_transit s =? Py.int (cwnd s) then (p' :: rest, s)
      else let '(rest', s) := send_loop rest s in (p' :: rest', s)
  end.

(** The FINACK datagram of line 122, built from [seq_id_global]. *)
Definition finack_packet (s : Sender) : Py.result (list byte) :=
  hdr <- Py.to_bytes (Z.to_nat SEQ_ID_SIZE) (seq_id_global s) ;;
  Py.Ok (hdr ++ FINACK).

Definition send_step (s : Sender) : Py.result Sender :=
  match packets s with
  | _ :: _ =>
      if Py.int (cwnd s) - packets_in_transit s >? 0 then
        let '(ps, s) := send_loop (packets s) s in
        Py.Ok (set_packets ps s)
      else if State_eqb (curr_state s) SENDING_EOF then
        packet <- finack_packet s ;; Py.Ok (sendto packet s)
      else Py.Ok s
  | [] =>
      if State_eqb (curr_state s) SENDING_EOF then
        packet <- finack_packet s ;; Py.Ok (sendto packet s)
      else Py.Ok s
  end.

(** *** STEP 2: the received datagram (lines 127-182) *)

(** Lines 160-169: the window update for one removed packet. *)
Definition update_cwnd (s : Sender) : Py.result Sender :=
  if DistinguishedState_eqb (distinguished_state s) CHANGE then
    if State_eqb (curr_state s) SLOW_START then Py.Ok (set_cwnd (cwnd s + 1)%Q s)
    else if State_eqb (curr_state s) CONGESTION_AVOIDANCE then
      expected <- number (expected_throughput s) ;;
      actual <- number (acutal_throughput s) ;;
      let delta_throughput := Py.abs (expected - actual)%Q in
      if Py.lt delta_throughput ALPHA then
        inv <- Py.truediv 1 (cwnd s) ;;
        Py.Ok (set_cwnd (cwnd s + (inv + (1 # 8)))%Q s)
      else if Py.lt BETA delta_throughput then
        inv <- Py.truediv 1 (cwnd s) ;;
        Py.Ok (set_cwnd (cwnd s - (inv - (1 # 8)))%Q s)
      else Py.Ok s
    else Py.Ok s
  else Py.Ok s.

(** Lines 171-179: the removed packet was the distinguished one. *)
Definition evaluate (packet_RTT : Q) (s : Sender) : Py.result Sender :=
  let s := set_distinguished_out false s in
  if DistinguishedState_eqb (distinguished_state s) EVAL then
    actual <- Py.truediv (inject_Z (distinguished_bytes s)) packet_RTT ;;
    let s := set_acutal_throughput (Some actual) s in
    expected <- number (expected_throughput s) ;;
    if Py.lt DELTA (expected - actual)%Q
    then Py.Ok (set_curr_state CONGESTION_AVOIDANCE s)
    else Py.Ok s
  else Py.Ok s.

(** Lines 148-179: pop the head while its [seq_id] is below [ack_id]. *)
Fixpoint remove_acked (ack_id : Z) (packet_RTT : Q) (todo : list Packet) (s : Sender)
  : Py.result (list Packet * Sender) :=
  match todo with
  | [] => Py.Ok ([], s)
  | p :: rest =>
      if p_seq_id p <? ack_id then
        let s := bind_names p s in
        let s := set_packets_in_transit (packets_in_transit s - 1) s in
        let s := set_packet_delays (packet_delays s ++ [packet_RTT]) s in
        s <- update_cwnd s ;;
        s <- (if p_distinguished p then evaluate packet_RTT s else Py.Ok s) ;;
        remove_acked ack_id packet_RTT rest s
      else Py.Ok (todo, s)
  end.

(** Lines 130-132, the branch [ack_id == last_ack]. *)
Definition on_duplicate_ack (s : Sender) : Sender :=
  set_duplicate_acks (duplicate_acks s + 1) s.

Definition elapsed_since_send_time (s : Sender) : Py.result (Q * Sender) :=
  let '(now, s) := time_time s in
  match send_time s with
  | None => Py.Raise Py.NameError
  | Some None => Py.Raise Py.TypeError
  | Some (Some t) => Py.Ok ((now - t)%Q, s)
  end.

(** Lines 140-143: the new value of [base_RTT]. *)
Definition update_base_RTT (packet_RTT : Q) (base : option Q) : Q :=
  match base with
  | None => packet_RTT
  | Some b =>
      if Py.lt b (1 # 10000) then packet_RTT
      else if Py.lt packet_RTT b && Py.lt (1 # 10000) packet_RTT then packet_RTT
      else b
  end.

(** Lines 133-182, the branch of a new ACK. *)
Definition on_new_ack (ack_id : Z) (s : Sender) : Py.result Sender :=
  let s := set_last_ack ack_id s in
  let s := set_duplicate_acks 0 s in
  '(packet_RTT, s) <- elapsed_since_send_time s ;;
  let base := update_base_RTT packet_RTT (base_RTT s) in
  let s := set_base_RTT (Some base) s in
  expected <- Py.truediv (inject_Z (Py.int (cwnd s))) base ;;
  let s := set_expected_throughput (Some expected) s in
  let s := set_estimated_RTT (GAMMA * estimated_RTT s + (1 - GAMMA) * packet_RTT)%Q s in
  '(ps, s) <- remove_acked ack_id packet_RTT (packets s) s ;;
  let s := set_packets ps s in
  Py.Ok (set_timeout 1 s).

Definition on_recv (rcv_packet : list byte) (s : Sender) : Py.result Sender :=
  let ack_id := Py.from_bytes (slice_to SEQ_ID_SIZE rcv_packet) in
  if ack_id =? last_ack s then Py.Ok (on_duplicate_ack s)
  else on_new_ack ack_id s.

(** Lines 184-188: [except socket.timeout]. *)
Definition on_socket_timeout (s : Sender) : flow Sender :=
  if State_eqb (curr_state s) SENDING_EOF then
    let '(now, s) := time_time s in Break (set_end_time (Some now) s)
  else Next s.

(** *** STEP 3: the age of the head packet (lines 191-202) *)

Definition check_timeout (s : Sender) : Py.result Sender :=
  match packets s with
  | [] => Py.Ok s
  | p :: _ =>
      let s := bind_names p s in
      match p_send_time p with
      | None => Py.Ok s
      | Some t =>
          let '(now, s) := time_time s in
          if Qle_bool (timeout s) (now - t)%Q then
            data_rate <- number (p_data_rate p) ;;
            expected <- number (expected_throughput s) ;;
            let delta_rate := Py.abs (data_rate - expected)%Q in
            if Py.lt delta_rate EPSILION then
              Py.Ok (set_curr_state TIMEOUT (set_cwnd (Py.max (Py.floordiv (cwnd s) 2) 1) s))
            else Py.Ok s
          else Py.Ok s
      end
  end.

(** *** The main loop *)

Definition before_recv (s : Sender) : Py.result Sender :=
  s <- fill_window s ;; send_step s.

Definition after_recv (ev : recv_event) (s : Sender) : Py.result (flow Sender) :=
  match ev with
  | Recv rcv_packet =>
      s <- on_recv rcv_packet s ;;
      s <- check_timeout s ;;
      Py.Ok (Next s)
  | SocketTimeout =>
      match on_socket_timeout s with
      | Next s => s <- check_timeout s ;; Py.Ok (Next s)
      | other => Py.Ok other
      end
  end.

Definition iteration (ev : recv_event) (s : Sender) : Py.result (flow Sender) :=
  s <- before_recv s ;; after_recv ev s.

Definition init (file : list byte) : Sender :=
  {| fp := file; seq_id_global := 0; curr_state := SLOW_START; cwnd := 1;
     duplicate_acks := 0; last_ack := -1; timeout := 1; packets_in_transit := 0;
     duplicate_flag := false; base_RTT := None; estimated_RTT := 0;
     expected_throughput := None; acutal_throughput := None; distinguished_bytes := 0;
     distinguished_out := false; distinguished_state := CHANGE;
     total_bytes := 0; packet_delays := []; start_time := Some (time_at 0);
     end_time := None; packets := []; seq_id := None; send_time := None;
     sent := []; ticks := 1 |}.

Fixpoint run (evs : list recv_event) (s : Sender) : Py.result (flow Sender) :=
  match evs with
  | [] => Py.Ok (Next s)
  | ev :: evs' =>
      f <- iteration ev s ;;
      match f with
      | Next s' | Continue s' => run evs' s'
      | Break s' => Py.Ok (Break s')
      end
  end.

End Run.

End Vegas.

(** ** [sender_fixed_sliding_window.py] *)

Module FixedWindow.

Definition WINDOW_SIZE : Z := 100.

Inductive State : Set := SENDING_DATA | SENDING_EOF | SENDING_FINACK | COMPLETE.

Definition State_eqb (a b : State) : bool :=
  match a, b with
  | SENDING_DATA, SENDING_DATA | SENDING_EOF, SENDING_EOF
  | SENDING_FINACK, SENDING_FINACK | COMPLETE, COMPLETE => true
  | _, _ => false
  end.

(** An element of the deque [packets]: [(seq_id, time_sent, packet)]. *)
Record Packet : Type := mkPacket {
  p_seq_id : Z;
  p_send_time : Q;
  p_packet : list byte
}.

(** The script's global names.  [seq_id] is both the next sequence number and
    the name the retransmission loop of line 91 rebinds. *)
Record Sender : Type := mkSender {
  fp : list byte;
  seq_id : Z;
  curr_state : State;
  total_bytes : Z;
  packet_delays : list Q;
  start_time : option Q;
  end_time : option Q;
  packets : list Packet;
  sent : list (list byte);
  ticks : nat
}.

Definition set_fp (v : list byte) (s : Sender) : Sender :=
  {| fp := v; seq_id := seq_id s; curr_state := curr_state s; total_bytes := total_bytes s;
     packet_delays := packet_delays s; start_time := start_time s; end_time := end_time s;
     packets := packets s; sent := sent s; ticks := ticks s |}.
Definition set_seq_id (v : Z) (s : Sender) : Sender :=
  {| fp := fp s; seq_id := v; curr_state := curr_state s; total_bytes := total_bytes s;
     packet_delays := packet_delays s; start_time := start_time s; end_time := end_time s;
     packets := packets s; sent := sent s; ticks := ticks s |}.
Definition set_curr_state (v : State) (s : Sender) : Sender :=
  {| fp := fp s; seq_id := seq_id s; curr_state := v; total_bytes := total_bytes s;
     packet_delays := packet_delays s; start_time := start_time s; end_time := end_time s;
     packets := packets s; sent := sent s; ticks := ticks s |}.
Definition set_total_bytes (v : Z) (s : Sender) : Sender :=
  {| fp := fp s; seq_id := seq_id s; curr_state := curr_state s; total_bytes := v; packet_delays
     := packet_delays s; start_time := start_time s; end_time := end_time s; packets := packets
     s; sent := sent s; ticks := ticks s |}.
Definition set_packet_delays (v : list Q) (s : Sender) : Sender :=
  {| fp := fp s; seq_id := seq_id s; curr_state := curr_state s; total_bytes := total_bytes s;
     packet_delays := v; start_time := start_time s; end_time := end_time s; packets := packets
     s; sent := sent s; ticks := ticks s |}.
Definition set_start_time (v : option Q) (s : Sender) : Sender :=
  {| fp := fp s; seq_id := seq_id s; curr_state := curr_state s; total_bytes := total_bytes s;
     packet_delays := packet_delays s; start_time := v; end_time := end_time s; packets :=
     packets s; sent := sent s; ticks := ticks s |}.
Definition set_end_time (v : option Q) (s : Sender) : Sender :=
  {| fp := fp s; seq_id := seq_id s; curr_state := curr_state s; total_bytes := total_bytes s;
     packet_delays := packet_delays s; start_time := start_time s; end_time := v; packets :=
     packets s; sent := sent s; ticks := ticks s |}.
Definition set_packets (v : list Packet) (s : Sender) : Sender :=
  {| fp := fp s; seq_id := seq_id s; curr_state := curr_state s; total_bytes := total_bytes s;
     packet_delays := packet_delays s; start_time := start_time s; end_time := end_time s;
     packets := v; sent := sent s; ticks := ticks s |}.
Definition set_sent (v : list (list byte)) (s : Sender) : Sender :=
  {| fp := fp s; seq_id := seq_id s; curr_state := curr_state s; total_bytes := total_bytes s;
     packet_delays := packet_delays s; start_time := start_time s; end_time := end_time s;
     packets := packets s; sent := v; ticks := ticks s |}.
Definition set_ticks (v : nat) (s : Sender) : Sender :=
  {| fp := fp s; seq_id := seq_id s; curr_state := curr_state s; total_bytes := total_bytes s;
     packet_delays := packet_delays s; start_time := start_time s; end_time := end_time s;
     packets := packets s; sent := sent s; ticks := v |}.

Section Run.

Variable time_at : nat -> Q.

Definition time_time (s : Sender) : Q * Sender :=
  (time_at (ticks s), set_ticks (S (ticks s)) s).

Definition sendto (d : list byte) (s : Sender) : Sender :=
  set_sent (sent s ++ [d]) s.

(** *** Window fill (lines 50-63) *)

Definition fill_cond (s : Sender) : bool :=
  (Py.len (packets s) <? WINDOW_SIZE) && State_eqb (curr_state s) SENDING_DATA.

Definition fill_body (s : Sender) : Py.result (Sender * bool) :=
  let '(chunk, rest) := fp_read MESSAGE_SIZE (fp s) in
  let s := set_fp rest s in
  packet <- Py.to_bytes (Z.to_nat SEQ_ID_SIZE) (seq_id s) ;;
  match chunk with
  | _ :: _ =>
      let packet := packet ++ chunk in
      let s := sendto packet s in
      let '(now, s) := time_time s in
      let s := set_packets (packets s ++ [mkPacket (seq_id s) now packet]) s in
      let s := set_seq_id (seq_id s + Py.len chunk) s in
      let s := set_total_bytes (total_bytes s + Py.len packet) s in
      Py.Ok (s, true)
  | [] => Py.Ok (set_curr_state SENDING_EOF s, false)
  end.

Fixpoint fill_loop (fuel : nat) (s : Sender) : Py.result Sender :=
  match fuel with
  | O => Py.Ok s
  | S fuel' =>
      if fill_cond s then
        '(s', go) <- fill_body s ;;
        if go then fill_loop fuel' s' else Py.Ok s'
      else Py.Ok s
  end.

(** Every pass that does not [break] appends one packet, so the loop makes at
    most [WINDOW_SIZE - len(packets)] passes. *)
Definition fill_fuel (s : Sender) : nat := Z.to_nat WINDOW_SIZE - length (packets s).

Definition fill_window (s : Sender) : Py.result Sender := fill_loop (fill_fuel s) s.

(** *** ACK processing (lines 68-82) *)

(** Lines 73-76: pop the head while its [seq_id] is below [ack_id]. *)
Fixpoint remove_acked (ack_id : Z) (todo : list Packet) (s : Sender) : list Packet * Sender :=
  match todo with
  | [] => ([], s)
  | p :: rest =>
      if p_seq_id p <? ack_id then
        let '(now, s) := time_time s in
        let s := set_packet_delays (packet_delays s ++ [now - p_send_time p]%Q) s in
        remove_acked ack_id rest s
      else (todo, s)
  end.

(** The FINACK datagram of line 81. *)
Definition finack_packet (s : Sender) : Py.result (list byte) :=
  hdr <- Py.to_bytes (Z.to_nat SEQ_ID_SIZE) (seq_id s) ;;
  Py.Ok (hdr ++ FINACK).

Definition on_recv (rcv_packet : list byte) (s : Sender) : Py.result Sender :=
  let ack_id := Py.from_bytes (slice_to SEQ_ID_SIZE rcv_packet) in
  let '(ps, s) := remove_acked ack_id (packets s) s in
  let s := set_packets ps s in
  if (State_eqb (curr_state s) SENDING_EOF && match packets s with [] => true | _ => false end)
     || State_eqb (curr_state s) SENDING_FINACK
  then
    let s := set_curr_state SENDING_FINACK s in
    packet <- finack_packet s ;;
    Py.Ok (sendto packet s)
  else Py.Ok s.

(** *** [except socket.timeout] (lines 84-92) *)

(** Lines 91-92: [for seq_id, _, packet in packets: sendto(packet)]. *)
Fixpoint retransmit_all (todo : list Packet) (s : Sender) : Sender :=
  match todo with
  | [] => s
  | p :: rest => retransmit_all rest (sendto (p_packet p) (set_seq_id (p_seq_id p) s))
  end.

Definition on_socket_timeout (s : Sender) : flow Sender :=
  if State_eqb (curr_state s) SENDING_FINACK then
    let '(now, s) := time_time s in
    Break (set_curr_state COMPLETE (set_end_time (Some now) s))
  else Next (retransmit_all (packets s) s).

(** *** The main loop *)

Definition before_recv (s : Sender) : Py.result Sender := fill_window s.

Definition after_recv (ev : recv_event) (s : Sender) : Py.result (flow Sender) :=
  match ev with
  | Recv rcv_packet => s <- on_recv rcv_packet s ;; Py.Ok (Next s)
  | SocketTimeout => Py.Ok (on_socket_timeout s)
  end.

Definition iteration (ev : recv_event) (s : Sender) : Py.result (flow Sender) :=
  s <- before_recv s ;; after_recv ev s.

Definition init (file : list byte) : Sender :=
  {| fp := file; seq_id := 0; curr_state := SENDING_DATA; total_bytes := 0;
     packet_delays := []; start_time := Some (time_at 0); end_time := None;
     packets := []; sent := []; ticks := 1 |}.

Fixpoint run (evs : list recv_event) (s : Sender) : Py.result (flow Sender) :=
  match evs with
  | [] => Py.Ok (Next s)
  | ev :: evs' =>
      f <- iteration ev s ;;
      match f with
      | Next s' | Continue s' => run evs' s'
      | Break s' => Py.Ok (Break s')
      end
  end.

End Run.

End FixedWindow.

(** ** [sender_stop_and_wait.py] *)

Module StopAndWait.

Inductive State : Set := SENDING_DATA | SENDING_EOF | SENDING_FINACK | COMPLETE.

Definition State_eqb (a b : State) : bool :=
  match a, b with
  | SENDING_DATA, SENDING_DATA | SENDING_EOF, SENDING_EOF
  | SENDING_FINACK, SENDING_FINACK | COMPLETE, COMPLETE => true
  | _, _ => false
  end.

(** The script's global names.  [packet], [chunk] and [packet_send_time] are
    assigned at the top of every pass of the outer loop, before any use. *)
Record Sender : Type := mkSender {
  fp : list byte;
  seq_id : Z;
  curr_state : State;
  ack_rcv : bool;
  total_bytes : Z;
  packet_delays : list Q;
  start_time : option Q;
  end_time : option Q;
  packet : list byte;
  chunk : list byte;
  packet_send_time : Q;
  sent : list (list byte);
  ticks : nat
}.

Definition set_fp (v : list byte) (s : Sender) : Sender :=
  {| fp := v; seq_id := seq_id s; curr_state := curr_state s; ack_rcv := ack_rcv s; total_bytes
     := total_bytes s; packet_delays := packet_delays s; start_time := start_time s; end_time :=
     end_time s; packet := packet s; chunk := chunk s; packet_send_time := packet_send_time s;
     sent := sent s; ticks := ticks s |}.
Definition set_seq_id (v : Z) (s : Sender) : Sender :=
  {| fp := fp s; seq_id := v; curr_state := curr_state s; ack_rcv := ack_rcv s; total_bytes :=
     total_bytes s; packet_delays := packet_delays s; start_time := start_time s; end_time :=
     end_time s; packet := packet s; chunk := chunk s; packet_send_time := packet_send_time s;
     sent := sent s; ticks := ticks s |}.
Definition set_curr_state (v : State) (s : Sender) : Sender :=
  {| fp := fp s; seq_id := seq_id s; curr_state := v; ack_rcv := ack_rcv s; total_bytes :=
     total_bytes s; packet_delays := packet_delays s; start_time := start_time s; end_time :=
     end_time s; packet := packet s; chunk := chunk s; packet_send_time := packet_send_time s;
     sent := sent s; ticks := ticks s |}.
Definition set_ack_rcv (v : bool) (s : Sender) : Sender :=
  {| fp := fp s; seq_id := seq_id s; curr_state := curr_state s; ack_rcv := v; total_bytes :=
     total_bytes s; packet_delays := packet_delays s; start_time := start_time s; end_time :=
     end_time s; packet := packet s; chunk := chunk s; packet_send_time := packet_send_time s;
     sent := sent s; ticks := ticks s |}.
Definition set_total_bytes (v : Z) (s : Sender) : Sender :=
  {| fp := fp s; seq_id := seq_id s; curr_state := curr_state s; ack_rcv := ack_rcv s;
     total_bytes := v; packet_delays := packet_delays s; start_time := start_time s; end_time :=
     end_time s; packet := packet s; chunk := chunk s; packet_send_time := packet_send_time s;
     sent := sent s; ticks := ticks s |}.
Definition set_packet_delays (v : list Q) (s : Sender) : Sender :=
  {| fp := fp s; seq_id := seq_id s; curr_state := curr_state s; ack_rcv := ack_rcv s;
     total_bytes := total_bytes s; packet_delays := v; start_time := start_time s; end_time :=
     end_time s; packet := packet s; chunk := chunk s; packet_send_time := packet_send_time s;
     sent := sent s; ticks := ticks s |}.
Definition set_start_time (v : option Q) (s : Sender) : Sender :=
  {| fp := fp s; seq_id := seq_id s; curr_state := curr_state s; ack_rcv := ack_rcv s;
     total_bytes := total_bytes s; packet_delays := packet_delays s; start_time := v; end_time
     := end_time s; packet := packet s; chunk := chunk s; packet_send_time := packet_send_time
     s; sent := sent s; ticks := ticks s |}.
Definition set_end_time (v : option Q) (s : Sender) : Sender :=
  {| fp := fp s; seq_id := seq_id s; curr_state := curr_state s; ack_rcv := ack_rcv s;
     total_bytes := total_bytes s; packet_delays := packet_delays s; start_time := start_time s;
     end_time := v; packet := packet s; chunk := chunk s; packet_send_time := packet_send_time
     s; sent := sent s; ticks := ticks s |}.
Definition set_packet (v : list byte) (s : Sender) : Sender :=
  {| fp := fp s; seq_id := seq_id s; curr_state := curr_state s; ack_rcv := ack_rcv s;
     total_bytes := total_bytes s; packet_delays := packet_delays s; start_time := start_time s;
     end_time := end_time s; packet := v; chunk := chunk s; packet_send_time := packet_send_time
     s; sent := sent s; ticks := ticks s |}.
Definition set_chunk (v : list byte) (s : Sender) : Sender :=
  {| fp := fp s; seq_id := seq_id s; curr_state := curr_state s; ack_rcv := ack_rcv s;
     total_bytes := total_bytes s; packet_delays := packet_delays s; start_time := start_time s;
     end_time := end_time s; packet := packet s; chunk := v; packet_send_time :=
     packet_send_time s; sent := sent s; ticks := ticks s |}.
Definition set_packet_send_time (v : Q) (s : Sender) : Sender :=
  {| fp := fp s; seq_id := seq_id s; curr_state := curr_state s; ack_rcv := ack_rcv s;
     total_bytes := total_bytes s; packet_delays := packet_delays s; start_time := start_time s;
     end_time := end_time s; packet := packet s; chunk := chunk s; packet_send_time := v; sent
     := sent s; ticks := ticks s |}.
Definition set_sent (v : list (list byte)) (s : Sender) : Sender :=
  {| fp := fp s; seq_id := seq_id s; curr_state := curr_state s; ack_rcv := ack_rcv s;
     total_bytes := total_bytes s; packet_delays := packet_delays s; start_time := start_time s;
     end_time := end_time s; packet := packet s; chunk := chunk s; packet_send_time :=
     packet_send_time s; sent := v; ticks := ticks s |}.
Definition set_ticks (v : nat) (s : Sender) : Sender :=
  {| fp := fp s; seq_id := seq_id s; curr_state := curr_state s; ack_rcv := ack_rcv s;
     total_bytes := total_bytes s; packet_delays := packet_delays s; start_time := start_time s;
     end_time := end_time s; packet := packet s; chunk := chunk s; packet_send_time :=
     packet_send_time s; sent := sent s; ticks := v |}.

Section Run.

Variable time_at : nat -> Q.

Definition time_time (s : Sender) : Q * Sender :=
  (time_at (ticks s), set_ticks (S (ticks s)) s).

Definition sendto (d : list byte) (s : Sender) : Sender :=
  set_sent (sent s ++ [d]) s.

(** *** Preparing the datagram (lines 46-64) *)

Definition prepare (s : Sender) : Py.result Sender :=
  packet <- Py.to_bytes (Z.to_nat SEQ_ID_SIZE) (seq_id s) ;;
  let s := set_packet packet s in
  let s :=
    if State_eqb (curr_state s) SENDING_DATA then
      let '(chunk, rest) := fp_read MESSAGE_SIZE (fp s) in
      let s := set_chunk chunk (set_fp rest s) in
      match chunk with
      | _ :: _ => set_total_bytes (total_bytes s + PACKET_SIZE) (set_packet (packet ++ chunk) s)
      | [] => set_curr_state SENDING_EOF s
      end
    else if State_eqb (curr_state s) SENDING_FINACK then set_packet (packet ++ FINACK) s
    else s in
  let s := set_ack_rcv false s in
  let '(now, s) := time_time s in
  Py.Ok (set_packet_send_time now s).

(** *** One pass of the retry loop (lines 65-91): [sendto], then what
    [recvfrom] did *)

Definition delay_sample (s : Sender) : Sender :=
  let '(now, s) := time_time s in
  set_packet_delays (packet_delays s ++ [now - packet_send_time s]%Q) s.

Definition on_recv (rcv_packet : list byte) (s : Sender) : Sender :=
  if State_eqb (curr_state s) SENDING_DATA then
    let ack_id := Py.from_bytes (slice_to SEQ_ID_SIZE rcv_packet) in
    if ack_id =? seq_id s + Py.len (chunk s) then
      let s := delay_sample s in
      let s := set_seq_id (seq_id s + Py.len (chunk s)) s in
      set_ack_rcv true s
    else s
  else if State_eqb (curr_state s) SENDING_EOF then
    if Py.contains fin rcv_packet then
      let s := delay_sample s in
      let s := set_curr_state SENDING_FINACK s in
      set_ack_rcv true s
    else s
  else s.

Definition on_socket_timeout (s : Sender) : Sender :=
  if State_eqb (curr_state s) SENDING_FINACK
  then set_ack_rcv true (set_curr_state COMPLETE s)
  else s.

Definition retry_pass (ev : recv_event) (s : Sender) : Sender :=
  let s := sendto (packet s) s in
  match ev with
  | Recv rcv_packet => on_recv rcv_packet s
  | SocketTimeout => on_socket_timeout s
  end.

(** The retry loop [while not ack_rcv] over the receive events; it returns
    the events it did not consume.  With no event left the script is blocked
    in [recvfrom] and [ack_rcv] is still [false]. *)
Fixpoint retry_loop (evs : list recv_event) (s : Sender) : Sender * list recv_event :=
  match evs with
  | [] => (s, [])
  | ev :: evs' =>
      let s := retry_pass ev s in
      if ack_rcv s then (s, evs') else retry_loop evs' s
  end.

(** Lines 93-95. *)
Definition finish (s : Sender) : flow Sender :=
  if State_eqb (curr_state s) COMPLETE then
    let '(now, s) := time_time s in Break (set_end_time (Some now) s)
  else Next s.

(** *** The main loop *)

Definition iteration (evs : list recv_event) (s : Sender)
  : Py.result (flow Sender * list recv_event) :=
  s <- prepare s ;;
  let '(s, evs') := retry_loop evs s in
  if ack_rcv s then Py.Ok (finish s, evs') else Py.Ok (Next s, evs').

Definition init (file : list byte) : Sender :=
  {| fp := file; seq_id := 0; curr_state := SENDING_DATA; ack_rcv := false;
     total_bytes := 0; packet_delays := []; start_time := Some (time_at 0);
     end_time := None; packet := []; chunk := []; packet_send_time := 0;
     sent := []; ticks := 1 |}.

(** The outer loop; [fuel] bounds its passes, each of which consumes at least
    one receive event. *)
Fixpoint run (fuel : nat) (evs : list recv_event) (s : Sender) : Py.result (flow Sender) :=
  match fuel, evs with
  | O, _ | _, [] => Py.Ok (Next s)
  | S fuel', _ :: _ =>
      '(f, evs') <- iteration evs s ;;
      match f with
      | Next s' | Continue s' => run fuel' evs' s'
      | Break s' => Py.Ok (Break s')
      end
  end.

End Run.

End StopAndWait.

(** ** The metrics report (the last block of each of the four scripts) *)

Module Metrics.

(** [sum(l)]: the elements added to 0 from left to right.  The additions are
    exact here, where those of the script round to the nearest float. *)
Definition sum (l : list Q) : Q := fold_left Qplus l 0%Q.

(** [jitter_vals]: [abs(packet_delays[i] - packet_delays[i - 1])] for
    [i] in [range(1, len(packet_delays))]. *)
Fixpoint jitter_vals (packet_delays : list Q) : list Q :=
  match packet_delays with
  | a :: (b :: _) as rest => Py.abs (b - a) :: jitter_vals rest
  | _ => []
  end.

(** The mean the script takes of [packet_delays] and of [jitter_vals]:
    0 for an empty list.  It is the exact mean; the script's is the rounded
    quotient of a rounded sum, which may lie a last digit off it. *)
Definition average (l : list Q) : Q :=
  if 0 <? Py.len l then (sum l / inject_Z (Py.len l))%Q else 0%Q.

(** The four numbers of the printed line. *)
Record Report : Type := mkReport {
  throughput : Q;
  average_delay : Q;
  average_jitter : Q;
  metric : Q
}.

(** The block from [elapsed_time = end_time - start_time] on.  The
    subtraction raises [TypeError] while one of the two names is [None]. *)
Definition report (total_bytes : Z) (packet_delays : list Q)
  (start_time end_time : option Q) : Py.result Report :=
  match end_time, start_time with
  | Some e, Some b =>
      let elapsed_time := (e - b)%Q in
      let throughput :=
        if Py.lt 0 elapsed_time then (inject_Z total_bytes / elapsed_time)%Q else 0%Q in
      let average_delay := average packet_delays in
      let average_jitter := average (jitter_vals packet_delays) in
      let metric :=
        if Py.lt 0 average_jitter && Py.lt 0 average_delay
        then ((2 # 10) * (throughput / 2000) + (1 # 10) / average_jitter
              + (8 # 10) / average_delay)%Q
        else 0%Q in
      Py.Ok (mkReport throughput average_delay average_jitter metric)
  | _, _ => Py.Raise Py.TypeError
  end.

End Metrics.

(** * Vocabulary of the properties *)

(** The ACK number a sender reads off a received datagram
    ([int.from_bytes(rcv_packet[:SEQ_ID_SIZE], ...)]). *)
Definition ack_number (rcv_packet : list byte) : Z :=
  Py.from_bytes (slice_to SEQ_ID_SIZE rcv_packet).

(** A clock given by its first readings; later readings repeat [last]. *)
Definition clock_of (readings : list Q) (last : Q) (k : nat) : Q := nth k readings last.

(** The state a pass of a loop leaves behind, however the pass ended. *)
Definition state_of {S : Type} (f : flow S) : S :=
  match f with
  | Next s | Continue s | Break s => s
  end.

(** The handler of received datagrams applied to a run of datagrams, as the
    Vegas loop applies it to one after the other. *)
Fixpoint vegas_recv_all (time_at : nat -> Q) (ds : list (list byte)) (s : Vegas.Sender)
  : Py.result Vegas.Sender :=
  match ds with
  | [] => Py.Ok s
  | d :: ds' => s' <- Vegas.on_recv time_at d s ;; vegas_recv_all time_at ds' s'
  end.

(** The datagram an ACK for byte count [a] arrives as: its four header
    bytes (empty when [a] does not fit four signed bytes). *)
Definition ack_datagram (a : Z) : list byte :=
  match Py.to_bytes (Z.to_nat SEQ_ID_SIZE) a with
  | Py.Ok b => b
  | Py.Raise _ => []
  end.

(** A file of [n] bytes (what the bytes are plays no part). *)
Definition file_of_size (n : Z) : list byte := repeat x61 (Z.to_nat n).

(** The guard of the Vegas sender on [base_RTT] samples: 0.0001 s. *)
Definition RTT_GUARD : Q := 1 # 10000.

(** What the window fill alone may change: the unread rest of the file, the
    next sequence number and the byte counter. *)
Definition vegas_transfer (s : Vegas.Sender) : list byte * Z * Z :=
  (Vegas.fp s, Vegas.seq_id_global s, Vegas.total_bytes s).

(** What the handler of a new ACK alone may change. *)
Definition vegas_ack_view (s : Vegas.Sender) : option Q * Z :=
  (Vegas.base_RTT s, Vegas.last_ack s).

(** The sequence numbers of the window, head first. *)
Definition vegas_seqs (ps : list Vegas.Packet) : list Z := map Vegas.p_seq_id ps.

(** [base_RTT] is set, at least the guard and at most [b]. *)
Definition vegas_base_RTT_below (b : Q) (s : Vegas.Sender) : Prop :=
  exists b', Vegas.base_RTT s = Some b' /\ (RTT_GUARD <= b')%Q /\ (b' <= b)%Q.

(** The state a computation ends in, [default] when it raised. *)
Definition final_state {S : Type} (default : S) (r : Py.result (flow S)) : S :=
  match r with
  | Py.Ok f => state_of f
  | Py.Raise _ => default
  end.

(** A clock that advances by [step] seconds from one reading to the next. *)
Definition steady_clock (step : Q) (k : nat) : Q := (inject_Z (Z.of_nat k) * step)%Q.

(** The receive events of a run of ACKs. *)
Definition ack_events (acks : list Z) : list recv_event :=
  map (fun a => Recv (ack_datagram a)) acks.

(** The value a computation returns, [default] when it raised. *)
Definition value_or {A : Type} (default : A) (r : Py.result A) : A :=
  match r with
  | Py.Ok a => a
  | Py.Raise _ => default
  end.

(** What [timeout_reset] leaves behind when it ran in the state [s]. *)
Definition reno_timed_out (s s1 : Reno.Sender) : Prop :=
  Reno.ssthresh s1 = Py.max (Py.floordiv (Reno.cwnd s) 2) 1
  /\ Reno.cwnd s1 = 1%Q
  /\ Reno.packets_in_transit s1 = 0
  /\ Reno.curr_state s1 = Reno.TIMEOUT
  /\ Reno.packets s1 = Reno.packets s
  /\ Reno.sent s1 = Reno.sent s.

(** The next pass, up to [recvfrom], sends the head packet [p] of the window
    [p :: rest] once more and nothing else, marks it in transit and returns
    to SLOW_START. *)
Definition reno_resends_head_only
  (time_at : nat -> Q) (p : Reno.Packet) (rest : list Reno.Packet) (s1 : Reno.Sender) : Prop :=
  exists s2 t,
    Reno.before_recv time_at s1 = Py.Ok s2
    /\ Reno.sent s2 = Reno.sent s1 ++ [Reno.p_packet p]
    /\ Reno.curr_state s2 = Reno.SLOW_START
    /\ Reno.packets_in_transit s2 = 1
    /\ Reno.packets s2
       = Reno.mkPacket (Reno.p_seq_id p) (Some t) (Reno.p_packet p) true :: rest.

(** The number of segments the first [n] bytes of a file make. *)
Definition segments_of (n : Z) : Z := (n + MESSAGE_SIZE - 1) / MESSAGE_SIZE.

(** The bytes of the datagrams that carry the first [n] bytes of a file: the
    payload bytes and one header of [SEQ_ID_SIZE] bytes per segment. *)
Definition datagram_bytes (n : Z) : Z := n + SEQ_ID_SIZE * segments_of n.

(** [PACKET_SIZE] for each segment of the first [n] bytes of a file. *)
Definition full_packet_bytes (n : Z) : Z := PACKET_SIZE * segments_of n.

(** The script has read a prefix of [file] that ends at a segment boundary
    (or at the end of the file), [fp] is the unread rest, and its byte counter
    [total] is [count] of the number of bytes read. *)
Definition bytes_accounted (count : Z -> Z) (file fp : list byte) (total : Z) : Prop :=
  exists pre,
    file = pre ++ fp
    /\ (Py.len pre mod MESSAGE_SIZE = 0 \/ fp = [])
    /\ total = count (Py.len pre).

(** The payload bytes handed to [sendto], every emission counted. *)
Definition payload_bytes_sent (sent : list (list byte)) : Z :=
  fold_right (fun d acc => Py.len (skipn (Z.to_nat SEQ_ID_SIZE) d) + acc) 0 sent.

(** A segment of the window as the protocol sees it: its sequence number and
    its datagram. *)
Definition segment : Type := (Z * list byte)%type.

(** The segments a cumulative ACK [ack_id] leaves in a window: the head is
    popped while its sequence number is below [ack_id]. *)
Fixpoint pop_below (ack_id : Z) (window : list segment) : list segment :=
  match window with
  | [] => []
  | sg :: rest => if fst sg <? ack_id then pop_below ack_id rest else window
  end.

(** The sequence numbers of [window] do not decrease from head to tail, lie
    between [low] and [high], and [low <= high]. *)
Definition window_ok (window : list segment) (low high : Z) : Prop :=
  StronglySorted Z.le (map fst window)
  /\ Forall (fun sg => low <= fst sg <= high) window
  /\ low <= high.

(** The segments of the Reno window, head first. *)
Definition reno_segments (ps : list Reno.Packet) : list segment :=
  map (fun p => (Reno.p_seq_id p, Reno.p_packet p)) ps.

(** What the window fill alone may change in the Reno sender. *)
Definition reno_transfer (s : Reno.Sender) : list byte * Z * Z :=
  (Reno.fp s, Reno.seq_id_global s, Reno.total_bytes s).

(** A block that leaves the transfer names, [last_ack] and the segments of
    the window as they were. *)
Definition reno_frame (s s' : Reno.Sender) : Prop :=
  reno_transfer s' = reno_transfer s
  /\ Reno.last_ack s' = Reno.last_ack s
  /\ reno_segments (Reno.packets s') = reno_segments (Reno.packets s).

Definition reno_accounted (file : list byte) (s : Reno.Sender) : Prop :=
  bytes_accounted datagram_bytes file (Reno.fp s) (Reno.total_bytes s).

Definition reno_window_ok (s : Reno.Sender) : Prop :=
  window_ok (reno_segments (Reno.packets s)) (Reno.last_ack s) (Reno.seq_id_global s).

(** The segments of the Vegas window, head first. *)
Definition vegas_segments (ps : list Vegas.Packet) : list segment :=
  map (fun p => (Vegas.p_seq_id p, Vegas.p_packet p)) ps.

(** A block that leaves the transfer names, [last_ack] and the segments of
    the window as they were. *)
Definition vegas_frame (s s' : Vegas.Sender) : Prop :=
  vegas_transfer s' = vegas_transfer s
  /\ Vegas.last_ack s' = Vegas.last_ack s
  /\ vegas_segments (Vegas.packets s') = vegas_segments (Vegas.packets s).

Definition vegas_accounted (file : list byte) (s : Vegas.Sender) : Prop :=
  bytes_accounted datagram_bytes file (Vegas.fp s) (Vegas.total_bytes s).

Definition vegas_window_ok (s : Vegas.Sender) : Prop :=
  window_ok (vegas_segments (Vegas.packets s)) (Vegas.last_ack s) (Vegas.seq_id_global s).

(** The segments of the fixed window, head first. *)
Definition fixed_segments (ps : list FixedWindow.Packet) : list segment :=
  map (fun p => (FixedWindow.p_seq_id p, FixedWindow.p_packet p)) ps.

Definition fixed_accounted (file : list byte) (s : FixedWindow.Sender) : Prop :=
  bytes_accounted datagram_bytes file (FixedWindow.fp s) (FixedWindow.total_bytes s).

Definition fixed_window_ok (s : FixedWindow.Sender) : Prop :=
  window_ok (fixed_segments (FixedWindow.packets s)) 0 (FixedWindow.seq_id s).

(** The states of the fixed-window sender at the top of its loop. *)
Inductive fixed_reachable (time_at : nat -> Q) (file : list byte)
  : FixedWindow.Sender -> Prop :=
| fixed_reach_init : fixed_reachable time_at file (FixedWindow.init time_at file)
| fixed_reach_step (s : FixedWindow.Sender) (ev : recv_event) (f : flow FixedWindow.Sender) :
    fixed_reachable time_at file s ->
    FixedWindow.iteration time_at ev s = Py.Ok f ->
    fixed_reachable time_at file (state_of f).

Definition sw_accounted (file : list byte) (s : StopAndWait.Sender) : Prop :=
  bytes_accounted full_packet_bytes file (StopAndWait.fp s) (StopAndWait.total_bytes s).

(** What only the preparation of a datagram may change in the stop-and-wait
    sender: the unread rest of the file and the byte counter. *)
Definition sw_transfer (s : StopAndWait.Sender) : list byte * Z :=
  (StopAndWait.fp s, StopAndWait.total_bytes s).

(** The stop-and-wait script, started on [file], has reached [f] after the
    receive events [evs]. *)
Definition StopAndWaitRun (time_at : nat -> Q) (file : list byte)
  (evs : list recv_event) (f : flow StopAndWait.Sender) : Prop :=
  exists fuel, StopAndWait.run time_at fuel evs (StopAndWait.init time_at file) = Py.Ok f.

(** The cumulative ACK [ack_id] took the window from [before] to [after]:
    the segments below [ack_id] are gone, the others are kept in their order,
    and none of those left is below [ack_id]. *)
Definition cumulative_ack_applied (ack_id : Z) (before after : list segment) : Prop :=
  after = filter (fun sg => ack_id <=? fst sg) before
  /\ Forall (fun sg => ack_id <= fst sg) after.

(** The report each script prints from its names when the loop is left. *)
Definition sw_report (s : StopAndWait.Sender) : Py.result Metrics.Report :=
  Metrics.report (StopAndWait.total_bytes s) (StopAndWait.packet_delays s)
    (StopAndWait.start_time s) (StopAndWait.end_time s).

Definition fixed_report (s : FixedWindow.Sender) : Py.result Metrics.Report :=
  Metrics.report (FixedWindow.total_bytes s) (FixedWindow.packet_delays s)
    (FixedWindow.start_time s) (FixedWindow.end_time s).

Definition reno_report (s : Reno.Sender) : Py.result Metrics.Report :=
  Metrics.report (Reno.total_bytes s) (Reno.packet_delays s)
    (Reno.start_time s) (Reno.end_time s).

Definition vegas_report (s : Vegas.Sender) : Py.result Metrics.Report :=
  Metrics.report (Vegas.total_bytes s) (Vegas.packet_delays s)
    (Vegas.start_time s) (Vegas.end_time s).


(** The ACK numbers of a peer that acknowledges each segment of [fp], the
    first of them starting at [seq]; [n] bounds the number of segments. *)
Fixpoint chunk_acks (n : nat) (seq : Z) (fp : list byte) : list Z :=
  match n with
  | O => []
  | S n' =>
      let '(chunk, rest) := fp_read MESSAGE_SIZE fp in
      match chunk with
      | [] => []
      | _ :: _ => (seq + Py.len chunk) :: chunk_acks n' (seq + Py.len chunk) rest
      end
  end.


(** The payload of a datagram: what follows the sequence number. *)
Definition payload (d : list byte) : list byte := skipn (Z.to_nat SEQ_ID_SIZE) d.


(** The sequence number that follows the segment [sg]. *)
Definition seg_end (sg : segment) : Z := fst sg + Py.len (payload (snd sg)).






(** The stop-and-wait sender after [n] more emissions of its datagram. *)
Fixpoint sw_resent (n : nat) (s : StopAndWait.Sender) : StopAndWait.Sender :=
  match n with
  | O => s
  | S n' => sw_resent n' (StopAndWait.sendto (StopAndWait.packet s) s)
  end.

(** The congestion window and the slow-start threshold of the Reno sender
    are at least one segment. *)
Definition reno_cwnd_ok (s : Reno.Sender) : Prop :=
  (1 <= Reno.cwnd s)%Q /\ (1 <= Reno.ssthresh s)%Q.

(** The pass [f] of a main loop has left [start_time] as it was in [before],
    and if it ended the loop, [end_time] has been taken. *)
Definition times_kept {S : Type} (start_time end_time : S -> option Q)
  (before : S) (f : flow S) : Prop :=
  start_time (state_of f) = start_time before
  /\ match f with
     | Break s' => end_time s' <> None
     | Next _ | Continue _ => True
     end.

(** The number of packets of a window that are marked as distinguished. *)
Definition vegas_distinguished (ps : list Vegas.Packet) : nat :=
  length (filter Vegas.p_distinguished ps).

(** The distinguished packets the flag [distinguished_out] allows for. *)
Definition vegas_distinguished_allowed (s : Vegas.Sender) : nat :=
  if Vegas.distinguished_out s then 1%nat else 0%nat.

(** The window holds no more distinguished packets than [distinguished_out]
    allows for. *)
Definition vegas_distinguished_ok (s : Vegas.Sender) : Prop :=
  (vegas_distinguished (Vegas.packets s) <= vegas_distinguished_allowed s)%nat.

(** The Vegas sender on an empty file once it has met the end of the file:
    the state of the first pass with the datagrams [fins] sent and [dups]
    duplicate ACKs counted. *)
Definition vegas_waiting (time_at : nat -> Q) (fins : list (list byte)) (dups : Z)
  : Vegas.Sender :=
  Vegas.set_duplicate_acks dups
    (Vegas.set_sent fins (Vegas.set_curr_state Vegas.SENDING_EOF (Vegas.init time_at []))).

(** The FINACK datagram that carries the sequence number 0. *)
Definition vegas_finack_0 : list byte := ack_datagram 0 ++ FINACK.

(** The send pass has room: the window is not empty and the counter
    [packets_in_transit] is below [int(cwnd)]. *)
Definition reno_room (s : Reno.Sender) : Prop :=
  Reno.packets s <> [] /\ Reno.packets_in_transit s < Py.int (Reno.cwnd s).

Definition vegas_room (s : Vegas.Sender) : Prop :=
  Vegas.packets s <> [] /\ Vegas.packets_in_transit s < Py.int (Vegas.cwnd s).

(** Whether the datagram of a pass acknowledges no more than [segmented]
    bytes; a receive timeout acknowledges nothing. *)
Definition ack_within (ev : recv_event) (segmented : Z) : bool :=
  match ev with
  | Recv d => ack_number d <=? segmented
  | SocketTimeout => true
  end.

(** Over the passes [evs] of the Reno loop from the state [s], the peer
    never acknowledges bytes the sender has not segmented yet: each ACK
    number is at most [seq_id_global] when [recvfrom] returns it. *)
Fixpoint reno_acks_within (time_at : nat -> Q) (evs : list recv_event) (s : Reno.Sender)
  : bool :=
  match evs with
  | [] => true
  | ev :: evs' =>
      match Reno.before_recv time_at s with
      | Py.Ok s1 =>
          ack_within ev (Reno.seq_id_global s1)
          && match Reno.after_recv time_at ev s1 with
             | Py.Ok (Next s') | Py.Ok (Continue s') => reno_acks_within time_at evs' s'
             | Py.Ok (Break _) | Py.Raise _ => true
             end
      | Py.Raise _ => true
      end
  end.

(** The same for the passes of the Vegas loop. *)
Fixpoint vegas_acks_within (time_at : nat -> Q) (evs : list recv_event) (s : Vegas.Sender)
  : bool :=
  match evs with
  | [] => true
  | ev :: evs' =>
      match Vegas.before_recv time_at s with
      | Py.Ok s1 =>
          ack_within ev (Vegas.seq_id_global s1)
          && match Vegas.after_recv time_at ev s1 with
             | Py.Ok (Next s') | Py.Ok (Continue s') => vegas_acks_within time_at evs' s'
             | Py.Ok (Break _) | Py.Raise _ => true
             end
      | Py.Raise _ => true
      end
  end.

(** The window is in the order of its sequence numbers, which lie between 0
    and the next sequence number; this needs nothing of the peer. *)
Definition reno_window_sorted (s : Reno.Sender) : Prop :=
  window_ok (reno_segments (Reno.packets s)) 0 (Reno.seq_id_global s).

Definition vegas_window_sorted (s : Vegas.Sender) : Prop :=
  window_ok (vegas_segments (Vegas.packets s)) 0 (Vegas.seq_id_global s).

(** The ACK numbers the Reno sender has still to receive from a peer that
    acknowledges each segment: those of the window, then those of the
    segments still to be read from the file. *)
Definition reno_pending (s : Reno.Sender) : list Z :=
  map seg_end (reno_segments (Reno.packets s))
  ++ chunk_acks (length (Reno.fp s)) (Reno.seq_id_global s) (Reno.fp s).










(** * Properties *)

(** ** Vegas: duplicate ACKs *)

Lemma vegas_set_duplicate_acks_same (s : Vegas.Sender) :
  Vegas.set_duplicate_acks (Vegas.duplicate_acks s) s = s.
Proof. destruct s; reflexivity. Qed.

Lemma vegas_set_duplicate_acks_twice (a b : Z) (s : Vegas.Sender) :
  Vegas.set_duplicate_acks a (Vegas.set_duplicate_acks b s) = Vegas.set_duplicate_acks a s.
Proof. reflexivity. Qed.

Lemma vegas_on_recv_duplicate (time_at : nat -> Q) (d : list byte) (s : Vegas.Sender) :
  ack_number d = Vegas.last_ack s ->
  Vegas.on_recv time_at d s = Py.Ok (Vegas.set_duplicate_acks (Vegas.duplicate_acks s + 1) s).
Proof.
  intros Hdup. unfold Vegas.on_recv. fold (ack_number d).
  rewrite Hdup, Z.eqb_refl. reflexivity.
Qed.

(** C10.  In the Vegas sender a run of datagrams that all carry the ACK number
    [last_ack] changes [duplicate_acks] alone: it grows by the number of
    datagrams, and every other global name (the window and the flags of its
    packets, [cwnd], [curr_state], [packets_in_transit], the RTT and
    throughput names) keeps its value. *)
Theorem vegas_duplicate_acks_only_counted
  (time_at : nat -> Q) (ds : list (list byte)) (s : Vegas.Sender) :
  Forall (fun d => ack_number d = Vegas.last_ack s) ds ->
  vegas_recv_all time_at ds s
  = Py.Ok (Vegas.set_duplicate_acks (Vegas.duplicate_acks s + Py.len ds) s).
Proof.
  revert s. induction ds as [|d ds IH]; intros s Hall.
  - cbn. rewrite Z.add_0_r, vegas_set_duplicate_acks_same. reflexivity.
  - inversion Hall as [|? ? Hd Hds]; subst.
    cbn [vegas_recv_all]. rewrite (vegas_on_recv_duplicate time_at d s Hd). cbn [Py.bind].
    rewrite IH by exact Hds.
    change (Vegas.duplicate_acks (Vegas.set_duplicate_acks (Vegas.duplicate_acks s + 1) s))
      with (Vegas.duplicate_acks s + 1).
    rewrite vegas_set_duplicate_acks_twice.
    replace (Vegas.duplicate_acks s + 1 + Py.len ds)
      with (Vegas.duplicate_acks s + Py.len (d :: ds))
      by (unfold Py.len; cbn [length]; lia).
    reflexivity.
Qed.

Lemma vegas_duplicate_acks_only_counted_witness :
  let s := Vegas.set_last_ack 1020 (Vegas.init (fun _ => 0%Q) []) in
  let d := [x00; x00; x03; xfc] in
  Forall (fun d => ack_number d = Vegas.last_ack s) [d; d; d; d]
  /\ vegas_recv_all (fun _ => 0%Q) [d; d; d; d] s = Py.Ok (Vegas.set_duplicate_acks 4 s).
Proof.
  assert (H : Forall (fun d => ack_number d
                       = Vegas.last_ack (Vegas.set_last_ack 1020 (Vegas.init (fun _ => 0%Q) [])))
                [[x00; x00; x03; xfc]; [x00; x00; x03; xfc];
                 [x00; x00; x03; xfc]; [x00; x00; x03; xfc]]).
  { repeat (apply Forall_cons; [vm_compute; reflexivity|]). apply Forall_nil. }
  split.
  - exact H.
  - exact (vegas_duplicate_acks_only_counted (fun _ => 0%Q) _ _ H).
Defined.

(** ** Python comparisons *)

Lemma py_lt_true (a b : Q) : Py.lt a b = true <-> (a < b)%Q.
Proof.
  unfold Py.lt. rewrite negb_true_iff. split.
  - intros H. apply Qnot_le_lt. intros Hle.
    apply Qle_bool_iff in Hle. congruence.
  - intros H. destruct (Qle_bool b a) eqn:E; [|reflexivity].
    apply Qle_bool_iff in E. exfalso. exact (Qlt_not_le _ _ H E).
Qed.

Lemma py_lt_false (a b : Q) : Py.lt a b = false <-> (b <= a)%Q.
Proof.
  unfold Py.lt. rewrite negb_false_iff. apply Qle_bool_iff.
Qed.

(** Steps through a hypothesis [op s = Py.Ok s'] of straight-line code. *)
Ltac step_ok :=
  match goal with
  | H : Py.Ok _ = Py.Ok _ |- _ => inversion H; subst; clear H
  | H : Py.Raise _ = Py.Ok _ |- _ => discriminate H
  | H : (_, _) = (_, _) |- _ => inversion H; subst; clear H
  | H : Py.bind ?m _ = Py.Ok _ |- _ =>
      let E := fresh "E" in destruct m eqn:E; cbn [Py.bind] in H
  | H : context [match ?x with _ => _ end] |- _ =>
      let E := fresh "E" in destruct x eqn:E
  end.

(** Splits the conditionals left in the goal. *)
Ltac case_goal :=
  match goal with
  | |- context [if ?x then _ else _] => destruct x
  | |- context [match ?x with _ => _ end] => destruct x
  end.

(** Splits a conjunction into its parts, without touching the parts. *)
Ltac split_all := repeat match goal with |- _ /\ _ => split end.

(** Closes a goal about the names a straight-line block leaves alone. *)
Ltac frame :=
  repeat step_ok; repeat case_goal; repeat split;
  first [reflexivity | assumption | symmetry; assumption].

(** ** Vegas: [base_RTT] *)

Lemma vegas_update_cwnd_base_RTT (s s' : Vegas.Sender) :
  Vegas.update_cwnd s = Py.Ok s' -> Vegas.base_RTT s' = Vegas.base_RTT s.
Proof. unfold Vegas.update_cwnd, Vegas.number. intros H. repeat step_ok; reflexivity. Qed.

Lemma vegas_evaluate_base_RTT (rtt : Q) (s s' : Vegas.Sender) :
  Vegas.evaluate rtt s = Py.Ok s' -> Vegas.base_RTT s' = Vegas.base_RTT s.
Proof. unfold Vegas.evaluate, Vegas.number. intros H. repeat step_ok; reflexivity. Qed.

Lemma vegas_remove_acked_base_RTT (ack_id : Z) (rtt : Q) (todo ps : list Vegas.Packet)
  (s s' : Vegas.Sender) :
  Vegas.remove_acked ack_id rtt todo s = Py.Ok (ps, s') ->
  Vegas.base_RTT s' = Vegas.base_RTT s.
Proof.
  revert s. induction todo as [|p rest IH]; intros s H; cbn [Vegas.remove_acked] in H.
  - step_ok. reflexivity.
  - destruct (Vegas.p_seq_id p <? ack_id); [|step_ok; reflexivity].
    destruct (Vegas.update_cwnd _) as [s1|] eqn:E1; cbn [Py.bind] in H; [|discriminate].
    apply vegas_update_cwnd_base_RTT in E1.
    destruct (Vegas.p_distinguished p).
    + destruct (Vegas.evaluate rtt s1) as [s2|] eqn:E2; cbn [Py.bind] in H; [|discriminate].
      apply vegas_evaluate_base_RTT in E2. apply IH in H.
      rewrite H, E2, E1. reflexivity.
    + cbn [Py.bind] in H. apply IH in H. rewrite H, E1. reflexivity.
Qed.

Lemma vegas_update_base_RTT_guarded (rtt b : Q) :
  (RTT_GUARD <= b)%Q ->
  Vegas.update_base_RTT rtt (Some b) = b
  \/ (Vegas.update_base_RTT rtt (Some b) = rtt /\ (rtt < b)%Q /\ (RTT_GUARD < rtt)%Q).
Proof.
  intros Hb. unfold Vegas.update_base_RTT.
  fold RTT_GUARD. apply py_lt_false in Hb. rewrite Hb.
  destruct (Py.lt rtt b) eqn:E1; [|left; reflexivity].
  destruct (Py.lt RTT_GUARD rtt) eqn:E2; [|left; reflexivity].
  right. cbn [andb]. apply py_lt_true in E1. apply py_lt_true in E2. auto.
Qed.

Lemma vegas_on_new_ack_base_RTT (time_at : nat -> Q) (ack_id : Z) (s s' : Vegas.Sender) (b : Q) :
  Vegas.base_RTT s = Some b ->
  (RTT_GUARD <= b)%Q ->
  Vegas.on_new_ack time_at ack_id s = Py.Ok s' ->
  exists b', Vegas.base_RTT s' = Some b'
    /\ (b' = b \/ ((b' < b)%Q /\ (RTT_GUARD < b')%Q)).
Proof.
  intros Hb Hguard H. unfold Vegas.on_new_ack, Vegas.elapsed_since_send_time in H.
  cbn [Vegas.time_time] in H.
  destruct (Vegas.send_time _) as [[t|]|]; cbn [Py.bind] in H; try discriminate.
  cbn [Vegas.base_RTT Vegas.set_ticks Vegas.set_duplicate_acks Vegas.set_last_ack] in H.
  rewrite Hb in H.
  destruct (Py.truediv _ _) as [expected|]; cbn [Py.bind] in H; [|discriminate].
  destruct (Vegas.remove_acked _ _ _ _) as [[ps s1]|] eqn:E; cbn [Py.bind] in H; [|discriminate].
  apply vegas_remove_acked_base_RTT in E. step_ok.
  exists (Vegas.update_base_RTT (time_at (Vegas.ticks s) - t) (Some b)).
  split.
  - change (Vegas.base_RTT s1 = Some (Vegas.update_base_RTT (time_at (Vegas.ticks s) - t) (Some b))).
    rewrite E. reflexivity.
  - destruct (vegas_update_base_RTT_guarded (time_at (Vegas.ticks s) - t) b Hguard)
      as [-> | (-> & Hlt & Hg)]; [left; reflexivity | right; split; assumption].
Qed.

(** ** Vegas: which block changes which names *)

Lemma vegas_fill_body_ack_view (s s' : Vegas.Sender) (go : bool) :
  Vegas.fill_body s = Py.Ok (s', go) -> vegas_ack_view s' = vegas_ack_view s.
Proof.
  unfold Vegas.fill_body, fp_read. intros H. repeat step_ok; reflexivity.
Qed.

Lemma vegas_fill_loop_ack_view (fuel : nat) (s s' : Vegas.Sender) :
  Vegas.fill_loop fuel s = Py.Ok s' -> vegas_ack_view s' = vegas_ack_view s.
Proof.
  revert s. induction fuel as [|fuel IH]; intros s H; cbn [Vegas.fill_loop] in H.
  - step_ok. reflexivity.
  - destruct (Vegas.fill_cond s); [|step_ok; reflexivity].
    destruct (Vegas.fill_body s) as [[s1 go]|] eqn:E; cbn [Py.bind] in H; [|discriminate].
    apply vegas_fill_body_ack_view in E.
    destruct go; [apply IH in H; congruence | step_ok; exact E].
Qed.

Lemma vegas_send_one_frame (time_at : nat -> Q) (p p' : Vegas.Packet) (s s' : Vegas.Sender) :
  Vegas.send_one time_at p s = (p', s') ->
  vegas_transfer s' = vegas_transfer s /\ vegas_ack_view s' = vegas_ack_view s
  /\ Vegas.p_seq_id p' = Vegas.p_seq_id p /\ Vegas.p_packet p' = Vegas.p_packet p.
Proof.
  unfold Vegas.send_one. cbn [Vegas.time_time]. intros H. frame.
Qed.

Lemma vegas_send_loop_frame (time_at : nat -> Q) (todo ps : list Vegas.Packet)
  (s s' : Vegas.Sender) :
  Vegas.send_loop time_at todo s = (ps, s') ->
  vegas_transfer s' = vegas_transfer s /\ vegas_ack_view s' = vegas_ack_view s
  /\ vegas_seqs ps = vegas_seqs todo.
Proof.
  revert ps s s'. induction todo as [|p rest IH]; intros ps s s' H; cbn [Vegas.send_loop] in H.
  - step_ok. repeat split; reflexivity.
  - destruct (Vegas.send_one time_at p s) as [p' s1] eqn:E1.
    apply vegas_send_one_frame in E1. destruct E1 as (T1 & A1 & Hseq & _).
    destruct (Vegas.packets_in_transit s1 =? Py.int (Vegas.cwnd s1)).
    + step_ok. repeat split; try assumption. cbn [vegas_seqs map]. congruence.
    + destruct (Vegas.send_loop time_at rest s1) as [rest' s2] eqn:E2.
      apply IH in E2. destruct E2 as (T2 & A2 & Hrest). step_ok.
      repeat split; try congruence. cbn [vegas_seqs map]. unfold vegas_seqs in Hrest. congruence.
Qed.

Lemma vegas_send_step_frame (time_at : nat -> Q) (s s' : Vegas.Sender) :
  Vegas.send_step time_at s = Py.Ok s' ->
  vegas_transfer s' = vegas_transfer s /\ vegas_ack_view s' = vegas_ack_view s
  /\ vegas_seqs (Vegas.packets s') = vegas_seqs (Vegas.packets s).
Proof.
  unfold Vegas.send_step, Vegas.finack_packet. intros H.
  destruct (Vegas.packets s) as [|p rest] eqn:Hps; rewrite <- Hps.
  - frame.
  - destruct (Py.int (Vegas.cwnd s) - Vegas.packets_in_transit s >? 0).
    + destruct (Vegas.send_loop time_at (p :: rest) s) as [ps s1] eqn:E.
      apply vegas_send_loop_frame in E. destruct E as (T & A & Hseq). step_ok.
      rewrite Hps. repeat split; assumption.
    + frame.
Qed.

Lemma vegas_check_timeout_frame (time_at : nat -> Q) (s s' : Vegas.Sender) :
  Vegas.check_timeout time_at s = Py.Ok s' ->
  vegas_transfer s' = vegas_transfer s /\ vegas_ack_view s' = vegas_ack_view s
  /\ Vegas.packets s' = Vegas.packets s.
Proof.
  unfold Vegas.check_timeout, Vegas.number. cbn [Vegas.time_time]. intros H. frame.
Qed.

Lemma vegas_on_socket_timeout_frame (time_at : nat -> Q) (s : Vegas.Sender) :
  vegas_transfer (state_of (Vegas.on_socket_timeout time_at s)) = vegas_transfer s
  /\ vegas_ack_view (state_of (Vegas.on_socket_timeout time_at s)) = vegas_ack_view s
  /\ Vegas.packets (state_of (Vegas.on_socket_timeout time_at s)) = Vegas.packets s.
Proof.
  unfold Vegas.on_socket_timeout. cbn [Vegas.time_time].
  destruct (Vegas.State_eqb _ _); repeat split; reflexivity.
Qed.

Lemma vegas_ack_view_eq (s s' : Vegas.Sender) :
  vegas_ack_view s' = vegas_ack_view s ->
  Vegas.base_RTT s' = Vegas.base_RTT s /\ Vegas.last_ack s' = Vegas.last_ack s.
Proof. unfold vegas_ack_view. intros H. inversion H. split; reflexivity. Qed.

Lemma vegas_before_recv_ack_view (time_at : nat -> Q) (s s' : Vegas.Sender) :
  Vegas.before_recv time_at s = Py.Ok s' -> vegas_ack_view s' = vegas_ack_view s.
Proof.
  unfold Vegas.before_recv, Vegas.fill_window. intros H.
  destruct (Vegas.fill_loop _ s) as [s1|] eqn:E1; cbn [Py.bind] in H; [|discriminate].
  apply vegas_fill_loop_ack_view in E1.
  apply vegas_send_step_frame in H. destruct H as (_ & A & _). congruence.
Qed.

Lemma vegas_base_RTT_below_eq (b : Q) (s s' : Vegas.Sender) :
  Vegas.base_RTT s' = Vegas.base_RTT s ->
  vegas_base_RTT_below b s -> vegas_base_RTT_below b s'.
Proof. intros E (b' & H & Hg & Hle). exists b'. rewrite E. auto. Qed.

Lemma vegas_on_recv_base_RTT_below (time_at : nat -> Q) (d : list byte)
  (s s' : Vegas.Sender) (b : Q) :
  vegas_base_RTT_below b s ->
  Vegas.on_recv time_at d s = Py.Ok s' ->
  vegas_base_RTT_below b s'.
Proof.
  intros (b0 & Hb0 & Hg & Hle) H. unfold Vegas.on_recv in H.
  destruct (_ =? _).
  - step_ok. exists b0. auto.
  - destruct (vegas_on_new_ack_base_RTT time_at _ s s' b0 Hb0 Hg H) as (b1 & Hb1 & Hcase).
    exists b1. split; [exact Hb1|]. destruct Hcase as [-> | (Hlt & Hg1)].
    + auto.
    + split; [apply Qlt_le_weak; exact Hg1|].
      apply Qle_trans with b0; [apply Qlt_le_weak; exact Hlt | exact Hle].
Qed.

Lemma vegas_iteration_base_RTT_below (time_at : nat -> Q) (ev : recv_event)
  (s : Vegas.Sender) (f : flow Vegas.Sender) (b : Q) :
  vegas_base_RTT_below b s ->
  Vegas.iteration time_at ev s = Py.Ok f ->
  vegas_base_RTT_below b (state_of f).
Proof.
  intros Hinv H. unfold Vegas.iteration in H.
  destruct (Vegas.before_recv time_at s) as [s1|] eqn:E1; cbn [Py.bind] in H; [|discriminate].
  apply vegas_before_recv_ack_view, vegas_ack_view_eq in E1. destruct E1 as (B1 & _).
  apply (vegas_base_RTT_below_eq b s s1 B1) in Hinv.
  destruct ev as [d|]; cbn [Vegas.after_recv] in H.
  - destruct (Vegas.on_recv time_at d s1) as [s2|] eqn:E2; cbn [Py.bind] in H; [|discriminate].
    apply (vegas_on_recv_base_RTT_below time_at d s1 s2 b Hinv) in E2.
    destruct (Vegas.check_timeout time_at s2) as [s3|] eqn:E3; cbn [Py.bind] in H; [|discriminate].
    apply vegas_check_timeout_frame in E3. destruct E3 as (_ & A3 & _).
    apply vegas_ack_view_eq in A3. destruct A3 as (B3 & _). step_ok.
    exact (vegas_base_RTT_below_eq b s2 s3 B3 E2).
  - destruct (vegas_on_socket_timeout_frame time_at s1) as (_ & A2 & _).
    apply vegas_ack_view_eq in A2. destruct A2 as (B2 & _).
    destruct (Vegas.on_socket_timeout time_at s1) as [s2|s2|s2]; cbn [state_of] in B2.
    + destruct (Vegas.check_timeout time_at s2) as [s3|] eqn:E3; cbn [Py.bind] in H; [|discriminate].
      apply vegas_check_timeout_frame in E3. destruct E3 as (_ & A3 & _).
      apply vegas_ack_view_eq in A3. destruct A3 as (B3 & _). step_ok.
      apply (vegas_base_RTT_below_eq b s2 s3 B3).
      exact (vegas_base_RTT_below_eq b s1 s2 B2 Hinv).
    + step_ok. exact (vegas_base_RTT_below_eq b s1 s2 B2 Hinv).
    + step_ok. exact (vegas_base_RTT_below_eq b s1 s2 B2 Hinv).
Qed.

Lemma vegas_run_base_RTT_below (time_at : nat -> Q) (evs : list recv_event)
  (s : Vegas.Sender) (f : flow Vegas.Sender) (b : Q) :
  vegas_base_RTT_below b s ->
  Vegas.run time_at evs s = Py.Ok f ->
  vegas_base_RTT_below b (state_of f).
Proof.
  revert s. induction evs as [|ev evs IH]; intros s Hinv H; cbn [Vegas.run] in H.
  - step_ok. exact Hinv.
  - destruct (Vegas.iteration time_at ev s) as [f1|] eqn:E; cbn [Py.bind] in H; [|discriminate].
    apply (vegas_iteration_base_RTT_below time_at ev s f1 b Hinv) in E.
    destruct f1 as [s1|s1|s1]; cbn [state_of] in E.
    + exact (IH s1 E H).
    + exact (IH s1 E H).
    + step_ok. exact E.
Qed.

(** C7, as the code has it.  Once [base_RTT] holds a value [b] of at least
    the guard (0.0001 s), (1) the handler of a new ACK leaves it alone or
    replaces it with the sample, and then the sample is smaller than [b] and
    above the guard; (2) over any number of passes of the main loop
    [base_RTT] stays set, at least the guard and at most [b].  A [base_RTT]
    below the guard is outside the statement: the next sample replaces it. *)
Theorem vegas_base_RTT_nonincreasing_above_guard (time_at : nat -> Q) (b : Q) :
  (RTT_GUARD <= b)%Q ->
  (forall (ack_id : Z) (s s' : Vegas.Sender),
      Vegas.base_RTT s = Some b ->
      Vegas.on_new_ack time_at ack_id s = Py.Ok s' ->
      exists b', Vegas.base_RTT s' = Some b'
        /\ (b' = b \/ ((b' < b)%Q /\ (RTT_GUARD < b')%Q)))
  /\ (forall (evs : list recv_event) (s : Vegas.Sender) (f : flow Vegas.Sender),
      Vegas.base_RTT s = Some b ->
      Vegas.run time_at evs s = Py.Ok f ->
      exists b', Vegas.base_RTT (state_of f) = Some b'
        /\ (RTT_GUARD <= b')%Q /\ (b' <= b)%Q).
Proof.
  intros Hguard. split.
  - intros ack_id s s' Hb H.
    exact (vegas_on_new_ack_base_RTT time_at ack_id s s' b Hb Hguard H).
  - intros evs s f Hb H.
    apply (vegas_run_base_RTT_below time_at evs s f b); [|exact H].
    exists b. split; [exact Hb|]. split; [exact Hguard | apply Qle_refl].
Qed.

Lemma vegas_base_RTT_nonincreasing_above_guard_witness :
  let tm := clock_of [0; 1; 3 # 2; 2; 9 # 4; 3; 4]%Q 5 in
  let s0 := Vegas.init tm (file_of_size 3000) in
  let s1 := final_state s0 (Vegas.run tm [Recv (ack_datagram 1020)] s0) in
  let evs := [Recv (ack_datagram 2040); Recv (ack_datagram 3000)] in
  (RTT_GUARD <= 1 # 2)%Q
  /\ Vegas.base_RTT s1 = Some (1 # 2)%Q
  /\ exists b', Vegas.base_RTT (final_state s0 (Vegas.run tm evs s1)) = Some b'
       /\ (RTT_GUARD <= b')%Q /\ (b' <= 1 # 2)%Q.
Proof.
  intros tm s0 s1 evs.
  assert (Hguard : (RTT_GUARD <= 1 # 2)%Q) by (vm_compute; discriminate).
  assert (Hb : Vegas.base_RTT s1 = Some (1 # 2)%Q) by (vm_compute; reflexivity).
  split; [exact Hguard|]. split; [exact Hb|].
  destruct (Vegas.run tm evs s1) as [f|e] eqn:E.
  - exact (proj2 (vegas_base_RTT_nonincreasing_above_guard tm (1 # 2)%Q Hguard) evs s1 f Hb E).
  - vm_compute in E. discriminate E.
Defined.

(** C7 as stated fails: a [base_RTT] that was set below the guard is replaced
    by a larger sample.  The first ACK comes back after 0.00005 s, the second
    after 0.5 s, and [base_RTT] grows from 1/20000 to 1/2. *)
Lemma vegas_base_RTT_can_increase :
  let tm := clock_of [0; 1; 1 + (1 # 20000); 2; 5 # 2]%Q 3 in
  let s0 := Vegas.init tm (file_of_size 3000) in
  let s1 := final_state s0 (Vegas.run tm [Recv (ack_datagram 1020)] s0) in
  let s2 := final_state s0 (Vegas.run tm [Recv (ack_datagram 2040)] s1) in
  Vegas.base_RTT s1 = Some (1 # 20000)%Q
  /\ Vegas.base_RTT s2 = Some (1 # 2)%Q
  /\ (1 # 20000 < 1 # 2)%Q.
Proof.
  intros tm s0 s1 s2. split; [|split].
  - vm_compute. reflexivity.
  - vm_compute. reflexivity.
  - reflexivity.
Qed.

(** ** Reno: the third duplicate ACK *)

Lemma reno_clear_in_transit_frame (todo ps : list Reno.Packet) (s s' : Reno.Sender) :
  Reno.clear_in_transit todo s = (ps, s') ->
  Reno.cwnd s' = Reno.cwnd s /\ Reno.ssthresh s' = Reno.ssthresh s
  /\ Reno.curr_state s' = Reno.curr_state s
  /\ Reno.duplicate_acks s' = Reno.duplicate_acks s.
Proof.
  revert ps s s'. induction todo as [|p rest IH]; intros ps s s' H;
    cbn [Reno.clear_in_transit] in H.
  - frame.
  - destruct (Reno.p_in_transit p); [|frame].
    destruct (Reno.clear_in_transit rest (Reno.bind_names p s)) as [rest' s1] eqn:E.
    apply IH in E. step_ok. exact E.
Qed.

(** Whatever [cwnd] was, the third duplicate ACK leaves [cwnd = 1] and
    [ssthresh = 1]: [timeout_reset] has set [cwnd] to 1 before line 104 halves
    it. *)
Lemma reno_third_duplicate_ack_always_one (s : Reno.Sender) :
  Reno.duplicate_acks s = 2 ->
  exists s', Reno.on_duplicate_ack s = Continue s'
    /\ Reno.cwnd s' = 1%Q /\ Reno.ssthresh s' = 1%Q
    /\ Reno.curr_state s' = Reno.CONGESTION_AVOIDANCE
    /\ Reno.packets_in_transit s' = 0.
Proof.
  intros Hdup. unfold Reno.on_duplicate_ack.
  cbn [Reno.duplicate_acks Reno.set_duplicate_acks]. rewrite Hdup. cbn [Z.add Z.eqb Pos.add Pos.succ Pos.eqb].
  match goal with |- context [Reno.clear_in_transit ?ps ?s0] =>
    destruct (Reno.clear_in_transit ps s0) as [ps' s1] eqn:E end.
  apply reno_clear_in_transit_frame in E. destruct E as (Hc & Hs & Hst & _).
  eexists. split; [reflexivity|]. split; [exact Hc|]. split; [exact Hs|].
  split; [exact Hst | reflexivity].
Qed.

(** C1 on the code.  A Reno sender that has grown [cwnd] to 8 receives the
    ACK number 7140 four times.  On the third duplicate the claim gives
    [ssthresh = max(8 // 2, 1) = 4] and [cwnd = 4]; the code ends the pass
    with [ssthresh = 1] and [cwnd = 1] (in CONGESTION_AVOIDANCE, flags cleared,
    [packets_in_transit = 0]). *)
Example reno_third_duplicate_ack_at_cwnd_8 :
  let tm := steady_clock (1 # 1000) in
  let s0 := Reno.init tm (file_of_size 20000) in
  let before :=
    final_state s0
      (Reno.run tm (ack_events [1020; 2040; 3060; 4080; 5100; 6120; 7140; 7140; 7140]) s0) in
  let after := final_state s0 (Reno.run tm (ack_events [7140]) before) in
  Reno.cwnd before = 8%Q /\ Reno.duplicate_acks before = 2 /\ Reno.last_ack before = 7140
  /\ Py.max (Py.floordiv (Reno.cwnd before) 2) 1 = 4%Q
  /\ Reno.ssthresh after = 1%Q /\ Reno.cwnd after = 1%Q
  /\ Reno.curr_state after = Reno.CONGESTION_AVOIDANCE
  /\ Reno.packets_in_transit after = 0
  /\ map Reno.p_in_transit (Reno.packets after) = repeat false 8.
Proof.
  intros tm s0 before after. split_all; vm_compute; reflexivity.
Qed.

(** ** Vegas: [cwnd] below 1 *)

(** C3 on the code.  The Vegas sender meets a first round trip of 0.2 ms
    and later ones of half a second, enters CONGESTION_AVOIDANCE on the third
    ACK, and then takes the branch [cwnd -= 1 / cwnd - 1/8] of line 169 three
    times: [cwnd] goes 2, 13/8, 59/52, 2321/6136.  After the seventh ACK
    [cwnd < 1] and [int(cwnd) = 0], so the send pass of the next iteration
    sends nothing although a packet waits in the window. *)
Example vegas_cwnd_falls_below_one :
  let tm := clock_of [0; 1; 1 + (2 # 10000); 2; 2 + (1 # 2); 3; 3; 3 + (1 # 2);
                      3 + (1 # 2); 4; 4 + (1 # 2); 4 + (1 # 2); 5; 5; 5 + (1 # 2);
                      6; 6; 6 + (1 # 2); 7; 7; 8; 8; 9; 9]%Q 10 in
  let s0 := Vegas.init tm (file_of_size 20000) in
  let cwnd_after acks := Qred (Vegas.cwnd (final_state s0 (Vegas.run tm (ack_events acks) s0))) in
  let s := final_state s0
             (Vegas.run tm (ack_events [1020; 2040; 3060; 4080; 5100; 6120; 7140]) s0) in
  let s' := value_or s0 (Vegas.before_recv tm s) in
  cwnd_after [1020; 2040; 3060] = 2%Q
  /\ cwnd_after [1020; 2040; 3060; 4080] = (13 # 8)%Q
  /\ cwnd_after [1020; 2040; 3060; 4080; 5100] = (59 # 52)%Q
  /\ cwnd_after [1020; 2040; 3060; 4080; 5100; 6120; 7140] = (2321 # 6136)%Q
  /\ (Vegas.cwnd s < 1)%Q
  /\ Py.int (Vegas.cwnd s) = 0
  /\ Vegas.curr_state s = Vegas.CONGESTION_AVOIDANCE
  /\ map Vegas.p_in_transit (Vegas.packets s') = [false]
  /\ Vegas.sent s' = Vegas.sent s.
Proof.
  intros tm s0 cwnd_after s s'. split_all; vm_compute; reflexivity.
Qed.

(** ** Reno and Vegas: the RTT sample *)

(** C5 on the code.  With a clock that advances one second per reading, the
    Reno sender sends two packets at times 3 and 4 and is then blocked in
    [recvfrom] with the name [send_time] bound to 4, the send time of the last
    packet the send pass visited.  The ACK of the head packet arrives at time
    5: the sample appended to [packet_delays] and fed to [estimated_RTT] is
    5 - 4 = 1, while the head packet was sent 5 - 3 = 2 seconds ago.  The Vegas
    sender does the same one round later (sends at 5 and 6, ACK at 7). *)
Example rtt_sample_is_not_the_age_of_the_head :
  let tm := steady_clock 1 in
  let r0 := Reno.init tm (file_of_size 5000) in
  let r1 := final_state r0 (Reno.run tm (ack_events [1020]) r0) in
  let r2 := value_or r0 (Reno.before_recv tm r1) in
  let r3 := value_or r0 (Reno.on_new_ack tm 2040 r2) in
  let v0 := Vegas.init tm (file_of_size 5000) in
  let v1 := final_state v0 (Vegas.run tm (ack_events [1020; 2040]) v0) in
  let v2 := value_or v0 (Vegas.before_recv tm v1) in
  let v3 := value_or v0 (Vegas.on_new_ack tm 3060 v2) in
  (map Reno.p_send_time (Reno.packets r2) = [Some 3%Q; Some 4%Q]
   /\ Reno.send_time r2 = Some (Some 4%Q)
   /\ tm (Reno.ticks r2) = 5%Q
   /\ Reno.packet_delays r3 = Reno.packet_delays r2 ++ [1%Q]
   /\ Reno.estimated_RTT r3 = (Reno.ALPHA * Reno.estimated_RTT r2 + (1 - Reno.ALPHA) * 1)%Q
   /\ map Reno.p_seq_id (Reno.packets r2) = [1020; 2040]
   /\ map Reno.p_seq_id (Reno.packets r3) = [2040])
  /\ (map Vegas.p_send_time (Vegas.packets v2) = [Some 5%Q; Some 6%Q]
      /\ Vegas.send_time v2 = Some (Some 6%Q)
      /\ tm (Vegas.ticks v2) = 7%Q
      /\ Vegas.packet_delays v3 = Vegas.packet_delays v2 ++ [1%Q]
      /\ Vegas.estimated_RTT v3
         = (Vegas.GAMMA * Vegas.estimated_RTT v2 + (1 - Vegas.GAMMA) * 1)%Q
      /\ map Vegas.p_seq_id (Vegas.packets v2) = [2040; 3060]
      /\ map Vegas.p_seq_id (Vegas.packets v3) = [3060]).
Proof.
  intros tm r0 r1 r2 r3 v0 v1 v2 v3. split_all; vm_compute; reflexivity.
Qed.

(** ** The FINACK datagram *)

Lemma vegas_finack_packet_next_seq_id (s : Vegas.Sender) (hdr : list byte) :
  Py.to_bytes (Z.to_nat SEQ_ID_SIZE) (Vegas.seq_id_global s) = Py.Ok hdr ->
  Vegas.finack_packet s = Py.Ok (hdr ++ FINACK).
Proof. intros H. unfold Vegas.finack_packet. rewrite H. reflexivity. Qed.

Lemma fixed_finack_packet_next_seq_id (s : FixedWindow.Sender) (hdr : list byte) :
  Py.to_bytes (Z.to_nat SEQ_ID_SIZE) (FixedWindow.seq_id s) = Py.Ok hdr ->
  FixedWindow.finack_packet s = Py.Ok (hdr ++ FINACK).
Proof. intros H. unfold FixedWindow.finack_packet. rewrite H. reflexivity. Qed.

(** C6 on the code.  The Reno sender transfers a file of 1500 bytes in two
    segments (sequence numbers 0 and 1020).  When it emits FINACK,
    [seq_id_global] is 1500, but line 90 encodes the name [seq_id], which the
    last [popleft] bound to 1020: the datagram is the four bytes of 1020
    followed by [==FINACK==]. *)
Example reno_finack_carries_stale_seq_id :
  let tm := steady_clock 1 in
  let s0 := Reno.init tm (file_of_size 1500) in
  let s := final_state s0 (Reno.run tm (ack_events [1020; 1500] ++ [SocketTimeout]) s0) in
  Reno.seq_id_global s = 1500
  /\ Reno.fp s = []
  /\ Reno.seq_id s = Some 1020
  /\ last (Reno.sent s) [] = ack_datagram 1020 ++ FINACK
  /\ last (Reno.sent s) [] <> ack_datagram 1500 ++ FINACK
  /\ Reno.end_time s = Some 5%Q.
Proof.
  intros tm s0 s. split_all; vm_compute; try reflexivity.
  intros H. discriminate H.
Qed.

(** ** Reno: timeouts *)

(** Unfolds the projections of updated records, and nothing else. *)
Ltac reno_simpl :=
  cbn [Reno.fp Reno.seq_id_global Reno.curr_state Reno.cwnd Reno.ssthresh Reno.duplicate_acks
       Reno.last_ack Reno.timeout Reno.estimated_RTT Reno.packets_in_transit Reno.total_bytes
       Reno.packet_delays Reno.start_time Reno.end_time Reno.packets Reno.seq_id Reno.send_time
       Reno.sent Reno.ticks Reno.set_fp Reno.set_seq_id_global Reno.set_curr_state Reno.set_cwnd
       Reno.set_ssthresh Reno.set_duplicate_acks Reno.set_last_ack Reno.set_timeout
       Reno.set_estimated_RTT Reno.set_packets_in_transit Reno.set_total_bytes
       Reno.set_packet_delays Reno.set_start_time Reno.set_end_time Reno.set_packets
       Reno.set_seq_id Reno.set_send_time Reno.set_sent Reno.set_ticks Reno.bind_names
       Reno.sendto Reno.time_time Reno.timeout_reset Reno.p_seq_id Reno.p_send_time
       Reno.p_packet Reno.p_in_transit].
Ltac reno_simpl_in H :=
  cbn [Reno.fp Reno.seq_id_global Reno.curr_state Reno.cwnd Reno.ssthresh Reno.duplicate_acks
       Reno.last_ack Reno.timeout Reno.estimated_RTT Reno.packets_in_transit Reno.total_bytes
       Reno.packet_delays Reno.start_time Reno.end_time Reno.packets Reno.seq_id Reno.send_time
       Reno.sent Reno.ticks Reno.set_fp Reno.set_seq_id_global Reno.set_curr_state Reno.set_cwnd
       Reno.set_ssthresh Reno.set_duplicate_acks Reno.set_last_ack Reno.set_timeout
       Reno.set_estimated_RTT Reno.set_packets_in_transit Reno.set_total_bytes
       Reno.set_packet_delays Reno.set_start_time Reno.set_end_time Reno.set_packets
       Reno.set_seq_id Reno.set_send_time Reno.set_sent Reno.set_ticks Reno.bind_names
       Reno.sendto Reno.time_time Reno.timeout_reset Reno.p_seq_id Reno.p_send_time
       Reno.p_packet Reno.p_in_transit] in H.

Lemma reno_timeout_reset_timed_out (s : Reno.Sender) :
  reno_timed_out s (Reno.timeout_reset s).
Proof. unfold reno_timed_out. split_all; reflexivity. Qed.

Lemma reno_resends_head_only_after_timeout
  (time_at : nat -> Q) (p : Reno.Packet) (rest : list Reno.Packet) (s1 : Reno.Sender) :
  Reno.cwnd s1 = 1%Q ->
  Reno.packets_in_transit s1 = 0 ->
  Reno.curr_state s1 = Reno.TIMEOUT ->
  Reno.packets s1 = p :: rest ->
  reno_resends_head_only time_at p rest s1.
Proof.
  intros Hc Hpit Hst Hps. unfold reno_resends_head_only.
  assert (Hfill : Reno.fill_window s1 = Py.Ok s1).
  { unfold Reno.fill_window, Reno.fill_fuel. rewrite Hc, Hps. reflexivity. }
  unfold Reno.before_recv. rewrite Hfill. cbn [Py.bind].
  unfold Reno.send_step. rewrite Hps, Hc, Hpit.
  change (Py.int 1 - 0 >? 0) with true. cbv iota.
  cbn [Reno.send_loop]. unfold Reno.send_one. reno_simpl.
  rewrite Hst, orb_true_r. change (Reno.State_eqb Reno.TIMEOUT Reno.TIMEOUT) with true.
  cbv iota.
  destruct (Reno.p_send_time p) as [t|]; reno_simpl; rewrite Hpit, Hc;
    change (0 + 1 =? Py.int 1) with true; cbv iota.
  - eexists. exists t. split_all; reflexivity.
  - eexists. exists (time_at (Reno.ticks s1)). split_all; reflexivity.
Qed.

Lemma reno_clean_cwnd_after_timeout (s1 : Reno.Sender) :
  Reno.cwnd s1 = 1%Q -> Reno.curr_state s1 = Reno.TIMEOUT -> Reno.clean_cwnd s1 = s1.
Proof.
  intros Hc Hst. unfold Reno.clean_cwnd. rewrite Hc.
  change (Py.int (1 + (1 # 10)) >? Py.int 1) with false. cbv iota.
  rewrite Hst. reflexivity.
Qed.

(** C4, as the code has it.  In the Reno sender with a non-empty window
    [p :: rest]: (1) on a receive timeout outside SENDING_EOF, and (2) when
    the head packet's age has reached [timeout] at STEP 3 (in any state), the
    controller sets [ssthresh = max(cwnd // 2, 1)], [cwnd = 1],
    [packets_in_transit = 0] and [state = TIMEOUT]; the next send pass then
    sends the head packet [p] again, and only it ([cwnd = 1] lets one packet
    out), and returns to SLOW_START. *)
Theorem reno_timeout_reaction_and_head_retransmission
  (time_at : nat -> Q) (s : Reno.Sender) (p : Reno.Packet) (rest : list Reno.Packet) :
  Reno.packets s = p :: rest ->
  (Reno.curr_state s <> Reno.SENDING_EOF ->
   exists s1, Reno.on_socket_timeout time_at s = Continue s1
     /\ reno_timed_out s s1 /\ reno_resends_head_only time_at p rest s1)
  /\ (forall t : Q,
        Reno.p_send_time p = Some t ->
        (Reno.timeout s <= time_at (Reno.ticks s) - t)%Q ->
        reno_timed_out s (Reno.clean_cwnd (Reno.check_timeout time_at s))
        /\ reno_resends_head_only time_at p rest
             (Reno.clean_cwnd (Reno.check_timeout time_at s))).
Proof.
  intros Hps. split.
  - intros Hstate. exists (Reno.timeout_reset s). split; [|split].
    + unfold Reno.on_socket_timeout.
      destruct (Reno.curr_state s); try reflexivity. contradiction Hstate. reflexivity.
    + apply reno_timeout_reset_timed_out.
    + apply reno_resends_head_only_after_timeout; try reflexivity. exact Hps.
  - intros t Ht Hage. apply Qle_bool_iff in Hage.
    assert (Hcheck : Reno.check_timeout time_at s
                     = Reno.timeout_reset
                         (Reno.set_ticks (S (Reno.ticks s)) (Reno.bind_names p s))).
    { unfold Reno.check_timeout. rewrite Hps, Ht. reno_simpl. rewrite Hage. reflexivity. }
    rewrite Hcheck. rewrite reno_clean_cwnd_after_timeout by reflexivity. split.
    + unfold reno_timed_out. split_all; reflexivity.
    + apply reno_resends_head_only_after_timeout; try reflexivity. exact Hps.
Qed.

Lemma reno_timeout_reaction_and_head_retransmission_witness :
  let tm := clock_of [0; 1; 2; 3; 4; 4]%Q 20%Q in
  let s0 := Reno.init tm (file_of_size 5000) in
  let sa := value_or s0
              (Reno.before_recv tm (final_state s0 (Reno.run tm (ack_events [1020]) s0))) in
  let sb := final_state sa (Reno.on_recv tm (ack_datagram 2040) sa) in
  (exists p rest,
     Reno.packets sa = p :: rest
     /\ map Reno.p_seq_id (p :: rest) = [1020; 2040]
     /\ Reno.curr_state sa <> Reno.SENDING_EOF
     /\ exists s1, Reno.on_socket_timeout tm sa = Continue s1
          /\ reno_timed_out sa s1 /\ reno_resends_head_only tm p rest s1)
  /\ (exists p rest t,
        Reno.packets sb = p :: rest
        /\ map Reno.p_seq_id (p :: rest) = [2040]
        /\ Reno.p_send_time p = Some t
        /\ (Reno.timeout sb <= tm (Reno.ticks sb) - t)%Q
        /\ reno_timed_out sb (Reno.clean_cwnd (Reno.check_timeout tm sb))
        /\ reno_resends_head_only tm p rest (Reno.clean_cwnd (Reno.check_timeout tm sb))).
Proof.
  intros tm s0 sa sb. split.
  - destruct (Reno.packets sa) as [|p rest] eqn:Hps; [vm_compute in Hps; discriminate Hps|].
    exists p, rest. split; [reflexivity|].
    split; [rewrite <- Hps; vm_compute; reflexivity|].
    assert (Hst : Reno.curr_state sa <> Reno.SENDING_EOF)
      by (intros H; vm_compute in H; discriminate H).
    split; [exact Hst|].
    exact (proj1 (reno_timeout_reaction_and_head_retransmission tm sa p rest Hps) Hst).
  - destruct (Reno.packets sb) as [|p rest] eqn:Hps; [vm_compute in Hps; discriminate Hps|].
    exists p, rest, 4%Q. split; [reflexivity|].
    split; [rewrite <- Hps; vm_compute; reflexivity|].
    assert (Ht : Reno.p_send_time p = Some 4%Q).
    { vm_compute in Hps. injection Hps as <- _. reflexivity. }
    assert (Hage : (Reno.timeout sb <= tm (Reno.ticks sb) - 4)%Q)
      by (vm_compute; discriminate).
    split; [exact Ht|]. split; [exact Hage|].
    exact (proj2 (reno_timeout_reaction_and_head_retransmission tm sb p rest Hps) 4%Q Ht Hage).
Defined.

(** C4 as stated fails: after a timeout the next send pass does not
    retransmit every segment of the window.  The window holds the segments
    1020 and 2040 when [recvfrom] times out; the next pass sends one datagram,
    the head packet, and leaves the second segment alone. *)
Lemma reno_timeout_resends_only_the_head :
  let tm := steady_clock 1 in
  let s0 := Reno.init tm (file_of_size 5000) in
  let s1 := final_state s0 (Reno.run tm (ack_events [1020] ++ [SocketTimeout]) s0) in
  let s2 := value_or s0 (Reno.before_recv tm s1) in
  map Reno.p_seq_id (Reno.packets s1) = [1020; 2040]
  /\ Reno.curr_state s1 = Reno.TIMEOUT
  /\ Reno.sent s2 = Reno.sent s1 ++ [hd [] (map Reno.p_packet (Reno.packets s1))]
  /\ length (Reno.sent s2) = S (length (Reno.sent s1))
  /\ Reno.curr_state s2 = Reno.SLOW_START
  /\ map Reno.p_seq_id (Reno.packets s2) = [1020; 2040].
Proof.
  intros tm s0 s1 s2. split_all; vm_compute; reflexivity.
Qed.

(** The new threshold is the floor of half the window: a receive timeout at
    [cwnd = 3] leaves [ssthresh = 1], not 3/2. *)
Example reno_timeout_halves_cwnd_downwards :
  let tm := steady_clock 1 in
  let s0 := Reno.init tm (file_of_size 5000) in
  let s := value_or s0
             (Reno.before_recv tm (final_state s0 (Reno.run tm (ack_events [1020; 2040]) s0))) in
  let s1 := state_of (Reno.on_socket_timeout tm s) in
  Reno.cwnd s = 3%Q
  /\ Reno.ssthresh s1 = 1%Q
  /\ ~ (Reno.ssthresh s1 == Py.max (3 / 2) 1)%Q.
Proof.
  intros tm s0 s s1. split_all; try (vm_compute; reflexivity).
  vm_compute. intros H. discriminate H.
Qed.

(** ** Reading the file in chunks *)

Lemma firstn_skipn_chunk (n : nat) (fp : list byte) :
  fp = firstn n fp ++ skipn n fp
  /\ (length (firstn n fp) <= n)%nat
  /\ ((length (firstn n fp) < n)%nat -> skipn n fp = [])
  /\ (firstn n fp = [] -> n <> 0%nat -> fp = []).
Proof.
  assert (Hlen : length (firstn n fp) = Nat.min n (length fp)) by apply length_firstn.
  split; [symmetry; apply firstn_skipn|]. split; [lia|]. split.
  - intros Hshort. apply skipn_all2. lia.
  - intros Hnil Hn. rewrite Hnil in Hlen. cbn [length] in Hlen.
    destruct fp as [|b fp']; [reflexivity|]. cbn [length] in Hlen. lia.
Qed.

Lemma fp_read_spec (fp chunk rest : list byte) :
  fp_read MESSAGE_SIZE fp = (chunk, rest) ->
  fp = chunk ++ rest
  /\ Py.len chunk <= MESSAGE_SIZE
  /\ (Py.len chunk < MESSAGE_SIZE -> rest = [])
  /\ (chunk = [] -> fp = []).
Proof.
  unfold fp_read. remember (Z.to_nat MESSAGE_SIZE) as n eqn:Hn.
  assert (Hn' : Z.of_nat n = MESSAGE_SIZE) by (subst n; reflexivity).
  assert (Hpos : n <> 0%nat).
  { intros H0. rewrite H0 in Hn'. discriminate Hn'. }
  clear Hn. intros H. injection H as <- <-.
  destruct (firstn_skipn_chunk n fp) as (Happ & Hle & Hshort & Hnil).
  split; [exact Happ|]. unfold Py.len. rewrite <- Hn'.
  split; [lia|]. split.
  - intros Hlt. apply Hshort. lia.
  - intros H. apply Hnil; assumption.
Qed.

Lemma be_bytes_length (n : nat) (u : Z) : length (Py.be_bytes n u) = n.
Proof.
  revert u. induction n as [|n IH]; intros u; cbn [Py.be_bytes].
  - reflexivity.
  - rewrite length_app, IH. cbn [length]. lia.
Qed.

Lemma to_bytes_length (n : nat) (z : Z) (hdr : list byte) :
  Py.to_bytes n z = Py.Ok hdr -> length hdr = n.
Proof.
  unfold Py.to_bytes. destruct (_ && _); intros H; inversion H. apply be_bytes_length.
Qed.

(** ** The byte counter *)

Lemma segments_of_step (a c : Z) :
  0 <= a -> a mod MESSAGE_SIZE = 0 -> 1 <= c <= MESSAGE_SIZE ->
  segments_of (a + c) = segments_of a + 1.
Proof.
  unfold segments_of. change MESSAGE_SIZE with 1020. intros Ha Hmod Hc.
  apply Z.mod_divide in Hmod; [|lia]. destruct Hmod as [k Hk]. subst a.
  replace (k * 1020 + c + 1020 - 1) with (c + 1019 + k * 1020) by lia.
  replace (k * 1020 + 1020 - 1) with (1019 + k * 1020) by lia.
  rewrite !Z.div_add by lia.
  replace ((c + 1019) / 1020) with 1 by (apply Z.div_unique with (r := c - 1); lia).
  replace (1019 / 1020) with 0 by reflexivity. lia.
Qed.

Lemma datagram_bytes_step (a c : Z) :
  0 <= a -> a mod MESSAGE_SIZE = 0 -> 1 <= c <= MESSAGE_SIZE ->
  datagram_bytes (a + c) = datagram_bytes a + (SEQ_ID_SIZE + c).
Proof.
  intros Ha Hmod Hc. unfold datagram_bytes. rewrite segments_of_step by assumption.
  unfold SEQ_ID_SIZE. lia.
Qed.

Lemma full_packet_bytes_step (a c : Z) :
  0 <= a -> a mod MESSAGE_SIZE = 0 -> 1 <= c <= MESSAGE_SIZE ->
  full_packet_bytes (a + c) = full_packet_bytes a + PACKET_SIZE.
Proof.
  intros Ha Hmod Hc. unfold full_packet_bytes. rewrite segments_of_step by assumption.
  unfold PACKET_SIZE. lia.
Qed.

Lemma bytes_accounted_init (count : Z -> Z) (file : list byte) :
  count 0 = 0 -> bytes_accounted count file file 0.
Proof.
  intros H0. exists []. split; [reflexivity|]. split; [left; reflexivity|].
  symmetry. exact H0.
Qed.

(** A read that returns a non-empty chunk moves the position to the next
    boundary; the counter follows when it grows by [delta] of the chunk. *)
Lemma bytes_accounted_chunk (count : Z -> Z) (delta : Z -> Z)
  (file fp chunk rest : list byte) (total : Z) :
  (forall a c, 0 <= a -> a mod MESSAGE_SIZE = 0 -> 1 <= c <= MESSAGE_SIZE ->
               count (a + c) = count a + delta c) ->
  bytes_accounted count file fp total ->
  fp_read MESSAGE_SIZE fp = (chunk, rest) ->
  chunk <> [] ->
  bytes_accounted count file rest (total + delta (Py.len chunk)).
Proof.
  intros Hstep (pre & Hfile & Hbound & Htotal) Hread Hne.
  apply fp_read_spec in Hread. destruct Hread as (Hfp & Hle & Hshort & Hnil).
  assert (Hlen : 1 <= Py.len chunk).
  { destruct chunk; [contradiction Hne; reflexivity|]. unfold Py.len. cbn [length]. lia. }
  assert (Hpre : Py.len pre mod MESSAGE_SIZE = 0).
  { destruct Hbound as [H|H]; [exact H|]. rewrite H in Hfp.
    destruct chunk; [contradiction Hne; reflexivity | discriminate Hfp]. }
  exists (pre ++ chunk). split; [|split].
  - rewrite <- app_assoc, <- Hfp. exact Hfile.
  - destruct (Z.eq_dec (Py.len chunk) MESSAGE_SIZE) as [Hfull|Hpart].
    + left. unfold Py.len in *. rewrite length_app, Nat2Z.inj_add.
      rewrite <- Zplus_mod_idemp_l, Hpre, Hfull. reflexivity.
    + right. apply Hshort. lia.
  - unfold Py.len in *. rewrite length_app, Nat2Z.inj_add.
    rewrite Hstep by lia. lia.
Qed.

(** A read that returns nothing happens at the end of the file. *)
Lemma bytes_accounted_eof (count : Z -> Z) (file fp chunk rest : list byte) (total : Z) :
  bytes_accounted count file fp total ->
  fp_read MESSAGE_SIZE fp = (chunk, rest) ->
  chunk = [] ->
  bytes_accounted count file rest total.
Proof.
  intros (pre & Hfile & Hbound & Htotal) Hread Hnil.
  apply fp_read_spec in Hread. destruct Hread as (Hfp & _ & _ & Hempty).
  specialize (Hempty Hnil). subst chunk. cbn [app] in Hfp. subst rest.
  exists pre. split; [exact Hfile|]. split; [right; exact Hempty | exact Htotal].
Qed.

(** ** Windows ordered by sequence number *)

Lemma window_ok_nil (low high : Z) : low <= high -> window_ok [] low high.
Proof. intros H. split; [constructor|]. split; [constructor | exact H]. Qed.

Lemma window_ok_append (window : list segment) (low high high' : Z) (d : list byte) :
  window_ok window low high -> high <= high' ->
  window_ok (window ++ [(high, d)]) low high'.
Proof.
  intros (Hsorted & Hall & Hlow) Hhigh. split; [|split].
  - rewrite map_app. cbn [map fst].
    induction window as [|sg rest IH]; cbn [map app].
    + constructor; constructor.
    + inversion Hsorted as [|? ? Hrest Hhead]; subst.
      inversion Hall as [|? ? Hsg Hrest']; subst.
      constructor; [apply IH; assumption|].
      apply Forall_app. split; [exact Hhead|]. constructor; [lia | constructor].
  - apply Forall_app. split.
    + eapply Forall_impl; [|exact Hall]. cbn beta. intros sg H. lia.
    + constructor; [cbn [fst]; lia | constructor].
  - lia.
Qed.

Lemma window_ok_bounds (window : list segment) (low low' high high' : Z) :
  window_ok window low high ->
  Forall (fun sg => low' <= fst sg) window -> low' <= high' -> high <= high' ->
  window_ok window low' high'.
Proof.
  intros (Hsorted & Hall & Hlow) Hlow' Hle Hhigh. split; [exact Hsorted|]. split; [|exact Hle].
  rewrite Forall_forall in *. intros sg Hin. specialize (Hall sg Hin). specialize (Hlow' sg Hin).
  lia.
Qed.

Lemma pop_below_filter (ack_id : Z) (window : list segment) :
  StronglySorted Z.le (map fst window) ->
  pop_below ack_id window = filter (fun sg => ack_id <=? fst sg) window.
Proof.
  induction window as [|sg rest IH]; intros Hsorted; cbn [pop_below filter].
  - reflexivity.
  - cbn [map] in Hsorted. inversion Hsorted as [|? ? Hrest Hhead]; subst.
    destruct (fst sg <? ack_id) eqn:E.
    + apply Z.ltb_lt in E. replace (ack_id <=? fst sg) with false by (symmetry; apply Z.leb_gt; lia).
      apply IH. exact Hrest.
    + apply Z.ltb_ge in E. replace (ack_id <=? fst sg) with true by (symmetry; apply Z.leb_le; lia).
      f_equal. symmetry. apply forallb_filter_id. apply forallb_forall.
      intros sg' Hin. apply Z.leb_le.
      rewrite Forall_forall in Hhead. specialize (Hhead (fst sg') (in_map fst _ _ Hin)). lia.
Qed.

Lemma pop_below_suffix (ack_id : Z) (window : list segment) :
  exists popped, window = popped ++ pop_below ack_id window
    /\ Forall (fun sg => fst sg < ack_id) popped.
Proof.
  induction window as [|sg rest IH]; cbn [pop_below].
  - exists []. split; [reflexivity | constructor].
  - destruct (fst sg <? ack_id) eqn:E.
    + destruct IH as (popped & Happ & Hall). exists (sg :: popped). split.
      * cbn [app]. f_equal. exact Happ.
      * constructor; [apply Z.ltb_lt; exact E | exact Hall].
    + exists []. split; [reflexivity | constructor].
Qed.

Lemma pop_below_all_acked (ack_id : Z) (window : list segment) :
  StronglySorted Z.le (map fst window) ->
  Forall (fun sg => ack_id <= fst sg) (pop_below ack_id window).
Proof.
  intros Hsorted. rewrite pop_below_filter by exact Hsorted.
  apply Forall_forall. intros sg Hin. apply filter_In in Hin. destruct Hin as (_ & H).
  apply Z.leb_le. exact H.
Qed.

Lemma pop_below_ok (ack_id : Z) (window : list segment) (low high : Z) :
  window_ok window low high -> ack_id <= high ->
  window_ok (pop_below ack_id window) ack_id high.
Proof.
  intros (Hsorted & Hall & Hlow) Hack.
  pose proof (pop_below_all_acked ack_id window Hsorted) as Hacked.
  destruct (pop_below_suffix ack_id window) as (popped & Happ & _).
  rewrite Happ, map_app in Hsorted. rewrite Happ in Hall.
  apply Forall_app in Hall. destruct Hall as (_ & Hall).
  split; [|split].
  - clear - Hsorted. induction popped as [|x popped IH]; cbn [map app] in Hsorted.
    + exact Hsorted.
    + inversion Hsorted; subst. apply IH. assumption.
  - rewrite Forall_forall in *. intros sg Hin.
    specialize (Hall sg Hin). specialize (Hacked sg Hin). lia.
  - exact Hack.
Qed.

Lemma pop_below_none (ack_id : Z) (window : list segment) :
  Forall (fun sg => ack_id <= fst sg) window -> pop_below ack_id window = window.
Proof.
  intros Hall. destruct window as [|sg rest]; [reflexivity|]. cbn [pop_below].
  inversion Hall as [|? ? Hsg _]; subst.
  replace (fst sg <? ack_id) with false by (symmetry; apply Z.ltb_ge; exact Hsg).
  reflexivity.
Qed.

(** ** Reno: which block changes which names *)

Lemma reno_frame_refl (s : Reno.Sender) : reno_frame s s.
Proof. unfold reno_frame. split_all; reflexivity. Qed.

Lemma reno_frame_trans (s1 s2 s3 : Reno.Sender) :
  reno_frame s1 s2 -> reno_frame s2 s3 -> reno_frame s1 s3.
Proof. unfold reno_frame. intros (A & B & C) (A' & B' & C'). split_all; congruence. Qed.

Lemma reno_frame_accounted (file : list byte) (s s' : Reno.Sender) :
  reno_frame s s' -> reno_accounted file s -> reno_accounted file s'.
Proof.
  unfold reno_frame, reno_transfer, reno_accounted. intros (T & _ & _) H.
  inversion T as [[Hfp Hseq Htot]]. rewrite Hfp, Htot. exact H.
Qed.

Lemma reno_frame_window_ok (s s' : Reno.Sender) :
  reno_frame s s' -> reno_window_ok s -> reno_window_ok s'.
Proof.
  unfold reno_frame, reno_transfer, reno_window_ok. intros (T & L & W) H.
  inversion T as [[Hfp Hseq Htot]]. rewrite W, L, Hseq. exact H.
Qed.

Lemma reno_fill_body_spec (s s' : Reno.Sender) (go : bool) :
  Reno.fill_body s = Py.Ok (s', go) ->
  Reno.last_ack s' = Reno.last_ack s
  /\ exists chunk rest hdr,
       fp_read MESSAGE_SIZE (Reno.fp s) = (chunk, rest)
       /\ Py.to_bytes (Z.to_nat SEQ_ID_SIZE) (Reno.seq_id_global s) = Py.Ok hdr
       /\ Reno.fp s' = rest
       /\ ((go = true /\ chunk <> []
            /\ Reno.packets s'
               = Reno.packets s
                 ++ [Reno.mkPacket (Reno.seq_id_global s) None (hdr ++ chunk) false]
            /\ Reno.seq_id_global s' = Reno.seq_id_global s + Py.len chunk
            /\ Reno.total_bytes s' = Reno.total_bytes s + Py.len (hdr ++ chunk))
           \/ (go = false /\ chunk = []
               /\ Reno.packets s' = Reno.packets s
               /\ Reno.seq_id_global s' = Reno.seq_id_global s
               /\ Reno.total_bytes s' = Reno.total_bytes s)).
Proof.
  unfold Reno.fill_body. intros H.
  destruct (fp_read MESSAGE_SIZE (Reno.fp s)) as [chunk rest] eqn:Hread.
  reno_simpl_in H.
  destruct (Py.to_bytes (Z.to_nat SEQ_ID_SIZE) (Reno.seq_id_global s)) as [hdr|] eqn:Hhdr;
    cbn [Py.bind] in H; [|discriminate H].
  destruct chunk as [|b chunk]; inversion H; subst; clear H.
  - split; [reflexivity|]. exists [], rest, hdr. split_all; try reflexivity.
    right. split_all; reflexivity.
  - split; [reflexivity|]. exists (b :: chunk), rest, hdr. split_all; try reflexivity.
    left. split_all; try reflexivity. discriminate.
Qed.

Lemma reno_fill_body_accounted (file : list byte) (s s' : Reno.Sender) (go : bool) :
  Reno.fill_body s = Py.Ok (s', go) -> reno_accounted file s -> reno_accounted file s'.
Proof.
  intros H Hacc. apply reno_fill_body_spec in H.
  destruct H as (_ & chunk & rest & hdr & Hread & Hhdr & Hfp & Hcase).
  unfold reno_accounted in *. rewrite Hfp.
  destruct Hcase as [(_ & Hne & _ & _ & Htot) | (_ & Hnil & _ & _ & Htot)]; rewrite Htot.
  - replace (Py.len (hdr ++ chunk)) with (SEQ_ID_SIZE + Py.len chunk).
    + apply (bytes_accounted_chunk datagram_bytes (fun c => SEQ_ID_SIZE + c)
               file (Reno.fp s) chunk rest); try assumption.
      exact datagram_bytes_step.
    + unfold Py.len. rewrite length_app, (to_bytes_length _ _ _ Hhdr), Nat2Z.inj_add.
      reflexivity.
  - exact (bytes_accounted_eof datagram_bytes file (Reno.fp s) chunk rest _ Hacc Hread Hnil).
Qed.

Lemma reno_fill_body_window_ok (s s' : Reno.Sender) (go : bool) :
  Reno.fill_body s = Py.Ok (s', go) -> reno_window_ok s -> reno_window_ok s'.
Proof.
  intros H Hok. apply reno_fill_body_spec in H.
  destruct H as (Hack & chunk & rest & hdr & _ & _ & _ & Hcase).
  unfold reno_window_ok in *. rewrite Hack.
  destruct Hcase as [(_ & _ & Hps & Hseq & _) | (_ & _ & Hps & Hseq & _)];
    rewrite Hps, Hseq; [|exact Hok].
  unfold reno_segments. rewrite map_app. cbn [map Reno.p_seq_id Reno.p_packet].
  apply window_ok_append; [exact Hok|]. unfold Py.len. lia.
Qed.

Lemma reno_fill_loop_inv (P : Reno.Sender -> Prop) (fuel : nat) (s s' : Reno.Sender) :
  (forall s1 s2 go, Reno.fill_body s1 = Py.Ok (s2, go) -> P s1 -> P s2) ->
  Reno.fill_loop fuel s = Py.Ok s' -> P s -> P s'.
Proof.
  intros Hbody. revert s. induction fuel as [|fuel IH]; intros s H HP; cbn [Reno.fill_loop] in H.
  - step_ok. exact HP.
  - destruct (Reno.fill_cond s); [|step_ok; exact HP].
    destruct (Reno.fill_body s) as [[s1 go]|] eqn:E; cbn [Py.bind] in H; [|discriminate].
    apply (Hbody _ _ _ E) in HP.
    destruct go; [exact (IH s1 H HP) | step_ok; exact HP].
Qed.

Lemma reno_send_one_frame (time_at : nat -> Q) (p p' : Reno.Packet) (s s' : Reno.Sender) :
  Reno.send_one time_at p s = (p', s') ->
  reno_transfer s' = reno_transfer s /\ Reno.last_ack s' = Reno.last_ack s
  /\ Reno.p_seq_id p' = Reno.p_seq_id p /\ Reno.p_packet p' = Reno.p_packet p.
Proof.
  unfold Reno.send_one. cbn [Reno.time_time]. intros H. frame.
Qed.

Lemma reno_send_loop_frame (time_at : nat -> Q) (todo ps : list Reno.Packet)
  (s s' : Reno.Sender) :
  Reno.send_loop time_at todo s = (ps, s') ->
  reno_transfer s' = reno_transfer s /\ Reno.last_ack s' = Reno.last_ack s
  /\ reno_segments ps = reno_segments todo.
Proof.
  revert ps s s'. induction todo as [|p rest IH]; intros ps s s' H; cbn [Reno.send_loop] in H.
  - step_ok. split_all; reflexivity.
  - destruct (Reno.send_one time_at p s) as [p' s1] eqn:E1.
    apply reno_send_one_frame in E1. destruct E1 as (T1 & A1 & Hseq & Hpkt).
    destruct (Reno.packets_in_transit s1 =? Py.int (Reno.cwnd s1)).
    + step_ok. split_all; try assumption.
      unfold reno_segments. cbn [map]. rewrite Hseq, Hpkt. reflexivity.
    + destruct (Reno.send_loop time_at rest s1) as [rest' s2] eqn:E2.
      apply IH in E2. destruct E2 as (T2 & A2 & Hrest). step_ok.
      split_all; try congruence.
      unfold reno_segments in *. cbn [map]. rewrite Hseq, Hpkt, Hrest. reflexivity.
Qed.

Lemma reno_send_step_frame (time_at : nat -> Q) (s s' : Reno.Sender) :
  Reno.send_step time_at s = Py.Ok s' -> reno_frame s s'.
Proof.
  unfold Reno.send_step, Reno.finack_packet, reno_frame. intros H.
  destruct (Reno.packets s) as [|p rest] eqn:Hps; rewrite <- Hps.
  - frame.
  - destruct (Py.int (Reno.cwnd s) - Reno.packets_in_transit s >? 0).
    + destruct (Reno.send_loop time_at (p :: rest) s) as [ps s1] eqn:E.
      apply reno_send_loop_frame in E. destruct E as (T & A & Hseq). step_ok.
      rewrite Hps. split_all; assumption.
    + frame.
Qed.

Lemma reno_clear_in_transit_segments (todo ps : list Reno.Packet) (s s' : Reno.Sender) :
  Reno.clear_in_transit todo s = (ps, s') ->
  reno_transfer s' = reno_transfer s /\ Reno.last_ack s' = Reno.last_ack s
  /\ reno_segments ps = reno_segments todo.
Proof.
  revert ps s s'. induction todo as [|p rest IH]; intros ps s s' H;
    cbn [Reno.clear_in_transit] in H.
  - step_ok. split_all; reflexivity.
  - destruct (Reno.p_in_transit p).
    + destruct (Reno.clear_in_transit rest (Reno.bind_names p s)) as [rest' s1] eqn:E.
      apply IH in E. destruct E as (T & A & Hrest). step_ok.
      split_all; try assumption.
      unfold reno_segments in *. cbn [map Reno.p_seq_id Reno.p_packet].
      rewrite Hrest. reflexivity.
    + step_ok. split_all; reflexivity.
Qed.

Lemma reno_on_duplicate_ack_frame (s : Reno.Sender) :
  reno_frame s (state_of (Reno.on_duplicate_ack s)).
Proof.
  unfold Reno.on_duplicate_ack, reno_frame.
  destruct (_ =? 3); [|cbn [state_of]; split_all; reflexivity].
  match goal with |- context [Reno.clear_in_transit ?ps ?s0] =>
    destruct (Reno.clear_in_transit ps s0) as [ps' s1] eqn:E end.
  apply reno_clear_in_transit_segments in E. destruct E as (T & A & Hseg).
  cbn [state_of]. split_all; assumption.
Qed.

Lemma reno_remove_acked_spec (ack_id : Z) (rtt : Q) (todo ps : list Reno.Packet)
  (s s' : Reno.Sender) :
  Reno.remove_acked ack_id rtt todo s = Py.Ok (ps, s') ->
  reno_transfer s' = reno_transfer s /\ Reno.last_ack s' = Reno.last_ack s
  /\ reno_segments ps = pop_below ack_id (reno_segments todo).
Proof.
  revert ps s s'. induction todo as [|p rest IH]; intros ps s s' H;
    cbn [Reno.remove_acked] in H.
  - step_ok. split_all; reflexivity.
  - cbn [reno_segments map pop_below fst].
    destruct (Reno.p_seq_id p <? ack_id); [|step_ok; split_all; reflexivity].
    match type of H with Py.bind ?m _ = _ => destruct m as [s1|] eqn:E1 end;
      cbn [Py.bind] in H; [|discriminate H].
    apply IH in H. destruct H as (T & A & Hseg).
    assert (F : reno_transfer s1 = reno_transfer s /\ Reno.last_ack s1 = Reno.last_ack s).
    { clear - E1. unfold Py.truediv in E1. frame. }
    destruct F as (T1 & A1). split_all; [congruence | congruence | exact Hseg].
Qed.

Lemma reno_on_new_ack_spec (time_at : nat -> Q) (ack_id : Z) (s s' : Reno.Sender) :
  Reno.on_new_ack time_at ack_id s = Py.Ok s' ->
  reno_transfer s' = reno_transfer s /\ Reno.last_ack s' = ack_id
  /\ reno_segments (Reno.packets s') = pop_below ack_id (reno_segments (Reno.packets s)).
Proof.
  unfold Reno.on_new_ack, Reno.elapsed_since_send_time. cbn [Reno.time_time]. intros H.
  match type of H with Py.bind ?m _ = _ => destruct m as [[rtt s1]|] eqn:E1 end;
    cbn [Py.bind] in H; [|discriminate H].
  assert (F1 : reno_transfer s1 = reno_transfer s /\ Reno.last_ack s1 = ack_id
               /\ Reno.packets s1 = Reno.packets s).
  { clear - E1. frame. }
  destruct F1 as (T1 & A1 & P1).
  match type of H with Py.bind ?m _ = _ => destruct m as [[ps s2]|] eqn:E2 end;
    cbn [Py.bind] in H; [|discriminate H].
  apply reno_remove_acked_spec in E2. destruct E2 as (T2 & A2 & Hseg).
  reno_simpl_in Hseg. rewrite P1 in Hseg. injection H as <-.
  split_all; [exact (eq_trans T2 T1) | exact (eq_trans A2 A1) | exact Hseg].
Qed.

Lemma reno_on_socket_timeout_frame (time_at : nat -> Q) (s : Reno.Sender) :
  reno_frame s (state_of (Reno.on_socket_timeout time_at s)).
Proof.
  unfold Reno.on_socket_timeout, reno_frame. cbn [Reno.time_time].
  destruct (Reno.State_eqb _ _); cbn [state_of]; split_all; reflexivity.
Qed.

Lemma reno_check_timeout_frame (time_at : nat -> Q) (s : Reno.Sender) :
  reno_frame s (Reno.check_timeout time_at s).
Proof.
  unfold Reno.check_timeout, reno_frame. cbn [Reno.time_time].
  destruct (Reno.packets s) as [|p rest] eqn:Hps; [rewrite Hps; split_all; reflexivity|].
  destruct (Reno.p_send_time p); [|split_all; cbn; rewrite ?Hps; reflexivity].
  destruct (Qle_bool _ _); split_all; cbn; rewrite ?Hps; reflexivity.
Qed.

Lemma reno_clean_cwnd_frame (s : Reno.Sender) : reno_frame s (Reno.clean_cwnd s).
Proof.
  unfold Reno.clean_cwnd, reno_frame.
  destruct (_ >? _); destruct (_ && _); split_all; reflexivity.
Qed.

(** ** Reno: invariants of the main loop *)

Lemma reno_before_recv_inv (time_at : nat -> Q) (file : list byte) (s s1 : Reno.Sender) :
  Reno.before_recv time_at s = Py.Ok s1 ->
  (reno_accounted file s -> reno_accounted file s1)
  /\ (reno_window_ok s -> reno_window_ok s1).
Proof.
  unfold Reno.before_recv, Reno.fill_window. intros H.
  destruct (Reno.fill_loop (Reno.fill_fuel s) s) as [s0|] eqn:E; cbn [Py.bind] in H;
    [|discriminate H].
  apply reno_send_step_frame in H. split; intros Hinv.
  - apply (reno_frame_accounted file s0 s1 H).
    exact (reno_fill_loop_inv (reno_accounted file) _ s s0
             (reno_fill_body_accounted file) E Hinv).
  - apply (reno_frame_window_ok s0 s1 H).
    exact (reno_fill_loop_inv reno_window_ok _ s s0 reno_fill_body_window_ok E Hinv).
Qed.

(** What the handler of a received datagram does to the window: a duplicate
    leaves its segments alone, a new ACK pops the head while it is below the
    ACK number. *)
Lemma reno_on_recv_spec (time_at : nat -> Q) (d : list byte) (s1 : Reno.Sender)
  (f : flow Reno.Sender) :
  Reno.on_recv time_at d s1 = Py.Ok f ->
  reno_transfer (state_of f) = reno_transfer s1
  /\ ((ack_number d = Reno.last_ack s1 /\ reno_frame s1 (state_of f))
      \/ (ack_number d <> Reno.last_ack s1
          /\ Reno.last_ack (state_of f) = ack_number d
          /\ reno_segments (Reno.packets (state_of f))
             = pop_below (ack_number d) (reno_segments (Reno.packets s1)))).
Proof.
  unfold Reno.on_recv. fold (ack_number d). intros H.
  destruct (ack_number d =? Reno.last_ack s1) eqn:E.
  - apply Z.eqb_eq in E. injection H as <-.
    pose proof (reno_on_duplicate_ack_frame s1) as F.
    split; [exact (proj1 F)|]. left. split; [exact E | exact F].
  - apply Z.eqb_neq in E.
    destruct (Reno.on_new_ack time_at (ack_number d) s1) as [s2|] eqn:E2; cbn [Py.bind] in H;
      [|discriminate H].
    injection H as <-. cbn [state_of].
    apply reno_on_new_ack_spec in E2. destruct E2 as (T & A & Hseg).
    split; [exact T|]. right. split_all; assumption.
Qed.

Lemma reno_on_recv_window_ok (time_at : nat -> Q) (d : list byte) (s1 : Reno.Sender)
  (f : flow Reno.Sender) :
  Reno.on_recv time_at d s1 = Py.Ok f ->
  ack_number d <= Reno.seq_id_global s1 ->
  reno_window_ok s1 -> reno_window_ok (state_of f).
Proof.
  intros H Hconf Hok. apply reno_on_recv_spec in H. destruct H as (T & [(_ & F) | (_ & A & Hseg)]).
  - exact (reno_frame_window_ok _ _ F Hok).
  - unfold reno_window_ok in *. unfold reno_transfer in T. inversion T as [[Hfp Hseq Htot]].
    rewrite Hseg, A, Hseq. apply (pop_below_ok _ _ (Reno.last_ack s1)); assumption.
Qed.

Lemma reno_after_recv_inv (time_at : nat -> Q) (file : list byte) (ev : recv_event)
  (s1 : Reno.Sender) (f : flow Reno.Sender) :
  Reno.after_recv time_at ev s1 = Py.Ok f ->
  (reno_accounted file s1 -> reno_accounted file (state_of f))
  /\ (match ev with Recv d => ack_number d <= Reno.seq_id_global s1 | SocketTimeout => True end ->
      reno_window_ok s1 -> reno_window_ok (state_of f)).
Proof.
  destruct ev as [d|]; cbn [Reno.after_recv]; intros H.
  - destruct (Reno.on_recv time_at d s1) as [f1|] eqn:E; cbn [Py.bind] in H; [|discriminate H].
    assert (Hacc : reno_accounted file s1 -> reno_accounted file (state_of f1)).
    { intros Hinv. apply reno_on_recv_spec in E. destruct E as (T & _).
      unfold reno_accounted, reno_transfer in *. inversion T as [[Hfp Hseq Htot]].
      rewrite Hfp, Htot. exact Hinv. }
    assert (Hwin : ack_number d <= Reno.seq_id_global s1 ->
                   reno_window_ok s1 -> reno_window_ok (state_of f1)).
    { intros Hc Hok. exact (reno_on_recv_window_ok time_at d s1 f1 E Hc Hok). }
    destruct f1 as [s2|s2|s2]; injection H as <-; cbn [state_of] in *.
    + pose proof (reno_frame_trans _ _ _ (reno_check_timeout_frame time_at s2)
                    (reno_clean_cwnd_frame (Reno.check_timeout time_at s2))) as F.
      split.
      * intros Hinv. exact (reno_frame_accounted file _ _ F (Hacc Hinv)).
      * intros Hc Hok. exact (reno_frame_window_ok _ _ F (Hwin Hc Hok)).
    + split; assumption.
    + split; assumption.
  - injection H as <-. pose proof (reno_on_socket_timeout_frame time_at s1) as F. split.
    + exact (reno_frame_accounted file _ _ F).
    + intros _. exact (reno_frame_window_ok _ _ F).
Qed.

Lemma reno_iteration_accounted (time_at : nat -> Q) (file : list byte) (ev : recv_event)
  (s : Reno.Sender) (f : flow Reno.Sender) :
  Reno.iteration time_at ev s = Py.Ok f ->
  reno_accounted file s -> reno_accounted file (state_of f).
Proof.
  unfold Reno.iteration. intros H Hinv.
  destruct (Reno.before_recv time_at s) as [s1|] eqn:E; cbn [Py.bind] in H; [|discriminate H].
  apply (proj1 (reno_after_recv_inv time_at file ev s1 f H)).
  exact (proj1 (reno_before_recv_inv time_at file s s1 E) Hinv).
Qed.

Lemma reno_run_accounted (time_at : nat -> Q) (file : list byte) (evs : list recv_event)
  (s : Reno.Sender) (f : flow Reno.Sender) :
  Reno.run time_at evs s = Py.Ok f ->
  reno_accounted file s -> reno_accounted file (state_of f).
Proof.
  revert s. induction evs as [|ev evs IH]; intros s H Hinv; cbn [Reno.run] in H.
  - injection H as <-. exact Hinv.
  - destruct (Reno.iteration time_at ev s) as [f1|] eqn:E; cbn [Py.bind] in H; [|discriminate H].
    apply (reno_iteration_accounted time_at file ev s f1 E) in Hinv.
    destruct f1 as [s1|s1|s1]; cbn [state_of] in Hinv.
    + exact (IH s1 H Hinv).
    + exact (IH s1 H Hinv).
    + injection H as <-. exact Hinv.
Qed.

Lemma reno_init_accounted (time_at : nat -> Q) (file : list byte) :
  reno_accounted file (Reno.init time_at file).
Proof. apply (bytes_accounted_init datagram_bytes file). reflexivity. Qed.

(** ** Vegas: invariants of the main loop *)

Ltac vegas_simpl_in H :=
  cbn [Vegas.fp Vegas.seq_id_global Vegas.curr_state Vegas.cwnd Vegas.duplicate_acks
       Vegas.last_ack Vegas.timeout Vegas.packets_in_transit Vegas.duplicate_flag Vegas.base_RTT
       Vegas.estimated_RTT Vegas.expected_throughput Vegas.acutal_throughput
       Vegas.distinguished_bytes Vegas.distinguished_out Vegas.distinguished_state
       Vegas.total_bytes Vegas.packet_delays Vegas.start_time Vegas.end_time Vegas.packets
       Vegas.seq_id Vegas.send_time Vegas.sent Vegas.ticks Vegas.set_fp Vegas.set_seq_id_global
       Vegas.set_curr_state Vegas.set_cwnd Vegas.set_duplicate_acks Vegas.set_last_ack
       Vegas.set_timeout Vegas.set_packets_in_transit Vegas.set_duplicate_flag
       Vegas.set_base_RTT Vegas.set_estimated_RTT Vegas.set_expected_throughput
       Vegas.set_acutal_throughput Vegas.set_distinguished_bytes Vegas.set_distinguished_out
       Vegas.set_distinguished_state Vegas.set_total_bytes Vegas.set_packet_delays
       Vegas.set_start_time Vegas.set_end_time Vegas.set_packets Vegas.set_seq_id
       Vegas.set_send_time Vegas.set_sent Vegas.set_ticks Vegas.bind_names Vegas.sendto
       Vegas.time_time Vegas.p_seq_id Vegas.p_send_time Vegas.p_packet Vegas.p_in_transit
       Vegas.p_distinguished Vegas.p_data_rate] in H.

Lemma vegas_frame_trans (s1 s2 s3 : Vegas.Sender) :
  vegas_frame s1 s2 -> vegas_frame s2 s3 -> vegas_frame s1 s3.
Proof. unfold vegas_frame. intros (A & B & C) (A' & B' & C'). split_all; congruence. Qed.

Lemma vegas_frame_accounted (file : list byte) (s s' : Vegas.Sender) :
  vegas_frame s s' -> vegas_accounted file s -> vegas_accounted file s'.
Proof.
  unfold vegas_frame, vegas_transfer, vegas_accounted. intros (T & _ & _) H.
  inversion T as [[Hfp Hseq Htot]]. rewrite Hfp, Htot. exact H.
Qed.

Lemma vegas_frame_window_ok (s s' : Vegas.Sender) :
  vegas_frame s s' -> vegas_window_ok s -> vegas_window_ok s'.
Proof.
  unfold vegas_frame, vegas_transfer, vegas_window_ok. intros (T & L & W) H.
  inversion T as [[Hfp Hseq Htot]]. rewrite W, L, Hseq. exact H.
Qed.

Lemma vegas_fill_body_spec (s s' : Vegas.Sender) (go : bool) :
  Vegas.fill_body s = Py.Ok (s', go) ->
  Vegas.last_ack s' = Vegas.last_ack s
  /\ exists chunk rest hdr,
       fp_read MESSAGE_SIZE (Vegas.fp s) = (chunk, rest)
       /\ Py.to_bytes (Z.to_nat SEQ_ID_SIZE) (Vegas.seq_id_global s) = Py.Ok hdr
       /\ Vegas.fp s' = rest
       /\ ((go = true /\ chunk <> []
            /\ Vegas.packets s'
               = Vegas.packets s
                 ++ [Vegas.mkPacket (Vegas.seq_id_global s) None (hdr ++ chunk) false false None]
            /\ Vegas.seq_id_global s' = Vegas.seq_id_global s + Py.len chunk
            /\ Vegas.total_bytes s' = Vegas.total_bytes s + Py.len (hdr ++ chunk))
           \/ (go = false /\ chunk = []
               /\ Vegas.packets s' = Vegas.packets s
               /\ Vegas.seq_id_global s' = Vegas.seq_id_global s
               /\ Vegas.total_bytes s' = Vegas.total_bytes s)).
Proof.
  unfold Vegas.fill_body. intros H.
  destruct (fp_read MESSAGE_SIZE (Vegas.fp s)) as [chunk rest] eqn:Hread.
  vegas_simpl_in H.
  destruct (Py.to_bytes (Z.to_nat SEQ_ID_SIZE) (Vegas.seq_id_global s)) as [hdr|] eqn:Hhdr;
    cbn [Py.bind] in H; [|discriminate H].
  destruct chunk as [|b chunk]; inversion H; subst; clear H.
  - split; [reflexivity|]. exists [], rest, hdr. split_all; try reflexivity.
    right. split_all; reflexivity.
  - split; [reflexivity|]. exists (b :: chunk), rest, hdr. split_all; try reflexivity.
    left. split_all; try reflexivity. discriminate.
Qed.

Lemma vegas_fill_body_accounted (file : list byte) (s s' : Vegas.Sender) (go : bool) :
  Vegas.fill_body s = Py.Ok (s', go) -> vegas_accounted file s -> vegas_accounted file s'.
Proof.
  intros H Hacc. apply vegas_fill_body_spec in H.
  destruct H as (_ & chunk & rest & hdr & Hread & Hhdr & Hfp & Hcase).
  unfold vegas_accounted in *. rewrite Hfp.
  destruct Hcase as [(_ & Hne & _ & _ & Htot) | (_ & Hnil & _ & _ & Htot)]; rewrite Htot.
  - replace (Py.len (hdr ++ chunk)) with (SEQ_ID_SIZE + Py.len chunk).
    + apply (bytes_accounted_chunk datagram_bytes (fun c => SEQ_ID_SIZE + c)
               file (Vegas.fp s) chunk rest); try assumption.
      exact datagram_bytes_step.
    + unfold Py.len. rewrite length_app, (to_bytes_length _ _ _ Hhdr), Nat2Z.inj_add.
      reflexivity.
  - exact (bytes_accounted_eof datagram_bytes file (Vegas.fp s) chunk rest _ Hacc Hread Hnil).
Qed.

Lemma vegas_fill_body_window_ok (s s' : Vegas.Sender) (go : bool) :
  Vegas.fill_body s = Py.Ok (s', go) -> vegas_window_ok s -> vegas_window_ok s'.
Proof.
  intros H Hok. apply vegas_fill_body_spec in H.
  destruct H as (Hack & chunk & rest & hdr & _ & _ & _ & Hcase).
  unfold vegas_window_ok in *. rewrite Hack.
  destruct Hcase as [(_ & _ & Hps & Hseq & _) | (_ & _ & Hps & Hseq & _)];
    rewrite Hps, Hseq; [|exact Hok].
  unfold vegas_segments. rewrite map_app. cbn [map Vegas.p_seq_id Vegas.p_packet].
  apply window_ok_append; [exact Hok|]. unfold Py.len. lia.
Qed.

Lemma vegas_fill_loop_inv (P : Vegas.Sender -> Prop) (fuel : nat) (s s' : Vegas.Sender) :
  (forall s1 s2 go, Vegas.fill_body s1 = Py.Ok (s2, go) -> P s1 -> P s2) ->
  Vegas.fill_loop fuel s = Py.Ok s' -> P s -> P s'.
Proof.
  intros Hbody. revert s. induction fuel as [|fuel IH]; intros s H HP; cbn [Vegas.fill_loop] in H.
  - step_ok. exact HP.
  - destruct (Vegas.fill_cond s); [|step_ok; exact HP].
    destruct (Vegas.fill_body s) as [[s1 go]|] eqn:E; cbn [Py.bind] in H; [|discriminate].
    apply (Hbody _ _ _ E) in HP.
    destruct go; [exact (IH s1 H HP) | step_ok; exact HP].
Qed.

Lemma vegas_send_loop_segments (time_at : nat -> Q) (todo ps : list Vegas.Packet)
  (s s' : Vegas.Sender) :
  Vegas.send_loop time_at todo s = (ps, s') ->
  vegas_transfer s' = vegas_transfer s /\ Vegas.last_ack s' = Vegas.last_ack s
  /\ vegas_segments ps = vegas_segments todo.
Proof.
  revert ps s s'. induction todo as [|p rest IH]; intros ps s s' H; cbn [Vegas.send_loop] in H.
  - step_ok. split_all; reflexivity.
  - destruct (Vegas.send_one time_at p s) as [p' s1] eqn:E1.
    apply vegas_send_one_frame in E1. destruct E1 as (T1 & A1 & Hseq & Hpkt).
    apply vegas_ack_view_eq in A1. destruct A1 as (_ & A1).
    destruct (Vegas.packets_in_transit s1 =? Py.int (Vegas.cwnd s1)).
    + step_ok. split_all; try assumption.
      unfold vegas_segments. cbn [map]. rewrite Hseq, Hpkt. reflexivity.
    + destruct (Vegas.send_loop time_at rest s1) as [rest' s2] eqn:E2.
      apply IH in E2. destruct E2 as (T2 & A2 & Hrest). step_ok.
      split_all; try congruence.
      unfold vegas_segments in *. cbn [map]. rewrite Hseq, Hpkt, Hrest. reflexivity.
Qed.

Lemma vegas_send_step_segments (time_at : nat -> Q) (s s' : Vegas.Sender) :
  Vegas.send_step time_at s = Py.Ok s' -> vegas_frame s s'.
Proof.
  unfold Vegas.send_step, Vegas.finack_packet, vegas_frame. intros H.
  destruct (Vegas.packets s) as [|p rest] eqn:Hps; rewrite <- Hps.
  - frame.
  - destruct (Py.int (Vegas.cwnd s) - Vegas.packets_in_transit s >? 0).
    + destruct (Vegas.send_loop time_at (p :: rest) s) as [ps s1] eqn:E.
      apply vegas_send_loop_segments in E. destruct E as (T & A & Hseq). step_ok.
      rewrite Hps. split_all; assumption.
    + frame.
Qed.

Lemma vegas_remove_acked_spec (ack_id : Z) (rtt : Q) (todo ps : list Vegas.Packet)
  (s s' : Vegas.Sender) :
  Vegas.remove_acked ack_id rtt todo s = Py.Ok (ps, s') ->
  vegas_transfer s' = vegas_transfer s /\ Vegas.last_ack s' = Vegas.last_ack s
  /\ vegas_segments ps = pop_below ack_id (vegas_segments todo).
Proof.
  revert ps s s'. induction todo as [|p rest IH]; intros ps s s' H;
    cbn [Vegas.remove_acked] in H.
  - step_ok. split_all; reflexivity.
  - cbn [vegas_segments map pop_below fst].
    destruct (Vegas.p_seq_id p <? ack_id); [|step_ok; split_all; reflexivity].
    match type of H with Py.bind ?m _ = _ => destruct m as [s1|] eqn:E1 end;
      cbn [Py.bind] in H; [|discriminate H].
    match type of H with Py.bind ?m _ = _ => destruct m as [s2|] eqn:E2 end;
      cbn [Py.bind] in H; [|discriminate H].
    apply IH in H. destruct H as (T & A & Hseg).
    assert (F1 : vegas_transfer s1 = vegas_transfer s /\ Vegas.last_ack s1 = Vegas.last_ack s).
    { clear - E1. unfold Vegas.update_cwnd, Vegas.number, Py.truediv in E1. frame. }
    assert (F2 : vegas_transfer s2 = vegas_transfer s1 /\ Vegas.last_ack s2 = Vegas.last_ack s1).
    { clear - E2. unfold Vegas.evaluate, Vegas.number, Py.truediv in E2. frame. }
    destruct F1 as (T1 & A1). destruct F2 as (T2 & A2).
    split_all; [congruence | congruence | exact Hseg].
Qed.

Lemma vegas_on_new_ack_spec (time_at : nat -> Q) (ack_id : Z) (s s' : Vegas.Sender) :
  Vegas.on_new_ack time_at ack_id s = Py.Ok s' ->
  vegas_transfer s' = vegas_transfer s /\ Vegas.last_ack s' = ack_id
  /\ vegas_segments (Vegas.packets s') = pop_below ack_id (vegas_segments (Vegas.packets s)).
Proof.
  unfold Vegas.on_new_ack, Vegas.elapsed_since_send_time. cbn [Vegas.time_time]. intros H.
  match type of H with Py.bind ?m _ = _ => destruct m as [[rtt s1]|] eqn:E1 end;
    cbn [Py.bind] in H; [|discriminate H].
  assert (F1 : vegas_transfer s1 = vegas_transfer s /\ Vegas.last_ack s1 = ack_id
               /\ Vegas.packets s1 = Vegas.packets s).
  { clear - E1. frame. }
  destruct F1 as (T1 & A1 & P1).
  match type of H with Py.bind ?m _ = _ => destruct m as [expected|] eqn:E0 end;
    cbn [Py.bind] in H; [|discriminate H].
  match type of H with Py.bind ?m _ = _ => destruct m as [[ps s2]|] eqn:E2 end;
    cbn [Py.bind] in H; [|discriminate H].
  apply vegas_remove_acked_spec in E2. destruct E2 as (T2 & A2 & Hseg).
  vegas_simpl_in Hseg. rewrite P1 in Hseg. injection H as <-.
  split_all; [exact (eq_trans T2 T1) | exact (eq_trans A2 A1) | exact Hseg].
Qed.

Lemma vegas_check_timeout_segments (time_at : nat -> Q) (s s' : Vegas.Sender) :
  Vegas.check_timeout time_at s = Py.Ok s' -> vegas_frame s s'.
Proof.
  intros H. apply vegas_check_timeout_frame in H. destruct H as (T & A & P).
  apply vegas_ack_view_eq in A. destruct A as (_ & A).
  unfold vegas_frame. rewrite P. split_all; [exact T | exact A | reflexivity].
Qed.

Lemma vegas_on_socket_timeout_segments (time_at : nat -> Q) (s : Vegas.Sender) :
  vegas_frame s (state_of (Vegas.on_socket_timeout time_at s)).
Proof.
  destruct (vegas_on_socket_timeout_frame time_at s) as (T & A & P).
  apply vegas_ack_view_eq in A. destruct A as (_ & A).
  unfold vegas_frame. rewrite P. split_all; [exact T | exact A | reflexivity].
Qed.

Lemma vegas_before_recv_inv (time_at : nat -> Q) (file : list byte) (s s1 : Vegas.Sender) :
  Vegas.before_recv time_at s = Py.Ok s1 ->
  (vegas_accounted file s -> vegas_accounted file s1)
  /\ (vegas_window_ok s -> vegas_window_ok s1).
Proof.
  unfold Vegas.before_recv, Vegas.fill_window. intros H.
  destruct (Vegas.fill_loop (Vegas.fill_fuel s) s) as [s0|] eqn:E; cbn [Py.bind] in H;
    [|discriminate H].
  apply vegas_send_step_segments in H. split; intros Hinv.
  - apply (vegas_frame_accounted file s0 s1 H).
    exact (vegas_fill_loop_inv (vegas_accounted file) _ s s0
             (vegas_fill_body_accounted file) E Hinv).
  - apply (vegas_frame_window_ok s0 s1 H).
    exact (vegas_fill_loop_inv vegas_window_ok _ s s0 vegas_fill_body_window_ok E Hinv).
Qed.

Lemma vegas_on_recv_spec (time_at : nat -> Q) (d : list byte) (s1 s2 : Vegas.Sender) :
  Vegas.on_recv time_at d s1 = Py.Ok s2 ->
  vegas_transfer s2 = vegas_transfer s1
  /\ ((ack_number d = Vegas.last_ack s1 /\ vegas_frame s1 s2)
      \/ (ack_number d <> Vegas.last_ack s1
          /\ Vegas.last_ack s2 = ack_number d
          /\ vegas_segments (Vegas.packets s2)
             = pop_below (ack_number d) (vegas_segments (Vegas.packets s1)))).
Proof.
  unfold Vegas.on_recv. fold (ack_number d). intros H.
  destruct (ack_number d =? Vegas.last_ack s1) eqn:E.
  - apply Z.eqb_eq in E. injection H as <-.
    split; [reflexivity|]. left. split; [exact E|]. unfold vegas_frame. split_all; reflexivity.
  - apply Z.eqb_neq in E.
    apply vegas_on_new_ack_spec in H. destruct H as (T & A & Hseg).
    split; [exact T|]. right. split_all; assumption.
Qed.

Lemma vegas_on_recv_window_ok (time_at : nat -> Q) (d : list byte) (s1 s2 : Vegas.Sender) :
  Vegas.on_recv time_at d s1 = Py.Ok s2 ->
  ack_number d <= Vegas.seq_id_global s1 ->
  vegas_window_ok s1 -> vegas_window_ok s2.
Proof.
  intros H Hconf Hok. apply vegas_on_recv_spec in H.
  destruct H as (T & [(_ & F) | (_ & A & Hseg)]).
  - exact (vegas_frame_window_ok _ _ F Hok).
  - unfold vegas_window_ok in *. unfold vegas_transfer in T. inversion T as [[Hfp Hseq Htot]].
    rewrite Hseg, A, Hseq. apply (pop_below_ok _ _ (Vegas.last_ack s1)); assumption.
Qed.

Lemma vegas_after_recv_inv (time_at : nat -> Q) (file : list byte) (ev : recv_event)
  (s1 : Vegas.Sender) (f : flow Vegas.Sender) :
  Vegas.after_recv time_at ev s1 = Py.Ok f ->
  (vegas_accounted file s1 -> vegas_accounted file (state_of f))
  /\ (match ev with Recv d => ack_number d <= Vegas.seq_id_global s1 | SocketTimeout => True end ->
      vegas_window_ok s1 -> vegas_window_ok (state_of f)).
Proof.
  destruct ev as [d|]; cbn [Vegas.after_recv]; intros H.
  - destruct (Vegas.on_recv time_at d s1) as [s2|] eqn:E; cbn [Py.bind] in H; [|discriminate H].
    destruct (Vegas.check_timeout time_at s2) as [s3|] eqn:E3; cbn [Py.bind] in H;
      [|discriminate H].
    injection H as <-. cbn [state_of]. apply vegas_check_timeout_segments in E3. split.
    + intros Hinv. apply (vegas_frame_accounted file _ _ E3).
      apply vegas_on_recv_spec in E. destruct E as (T & _).
      unfold vegas_accounted, vegas_transfer in *. inversion T as [[Hfp Hseq Htot]].
      rewrite Hfp, Htot. exact Hinv.
    + intros Hc Hok. apply (vegas_frame_window_ok _ _ E3).
      exact (vegas_on_recv_window_ok time_at d s1 s2 E Hc Hok).
  - pose proof (vegas_on_socket_timeout_segments time_at s1) as F.
    destruct (Vegas.on_socket_timeout time_at s1) as [s2|s2|s2]; cbn [state_of] in F.
    + destruct (Vegas.check_timeout time_at s2) as [s3|] eqn:E3; cbn [Py.bind] in H;
        [|discriminate H].
      injection H as <-. cbn [state_of]. apply vegas_check_timeout_segments in E3.
      pose proof (vegas_frame_trans _ _ _ F E3) as F3. split.
      * exact (vegas_frame_accounted file _ _ F3).
      * intros _. exact (vegas_frame_window_ok _ _ F3).
    + injection H as <-. cbn [state_of]. split.
      * exact (vegas_frame_accounted file _ _ F).
      * intros _. exact (vegas_frame_window_ok _ _ F).
    + injection H as <-. cbn [state_of]. split.
      * exact (vegas_frame_accounted file _ _ F).
      * intros _. exact (vegas_frame_window_ok _ _ F).
Qed.

Lemma vegas_iteration_accounted (time_at : nat -> Q) (file : list byte) (ev : recv_event)
  (s : Vegas.Sender) (f : flow Vegas.Sender) :
  Vegas.iteration time_at ev s = Py.Ok f ->
  vegas_accounted file s -> vegas_accounted file (state_of f).
Proof.
  unfold Vegas.iteration. intros H Hinv.
  destruct (Vegas.before_recv time_at s) as [s1|] eqn:E; cbn [Py.bind] in H; [|discriminate H].
  apply (proj1 (vegas_after_recv_inv time_at file ev s1 f H)).
  exact (proj1 (vegas_before_recv_inv time_at file s s1 E) Hinv).
Qed.

Lemma vegas_run_accounted (time_at : nat -> Q) (file : list byte) (evs : list recv_event)
  (s : Vegas.Sender) (f : flow Vegas.Sender) :
  Vegas.run time_at evs s = Py.Ok f ->
  vegas_accounted file s -> vegas_accounted file (state_of f).
Proof.
  revert s. induction evs as [|ev evs IH]; intros s H Hinv; cbn [Vegas.run] in H.
  - injection H as <-. exact Hinv.
  - destruct (Vegas.iteration time_at ev s) as [f1|] eqn:E; cbn [Py.bind] in H; [|discriminate H].
    apply (vegas_iteration_accounted time_at file ev s f1 E) in Hinv.
    destruct f1 as [s1|s1|s1]; cbn [state_of] in Hinv.
    + exact (IH s1 H Hinv).
    + exact (IH s1 H Hinv).
    + injection H as <-. exact Hinv.
Qed.

Lemma vegas_init_accounted (time_at : nat -> Q) (file : list byte) :
  vegas_accounted file (Vegas.init time_at file).
Proof. apply (bytes_accounted_init datagram_bytes file). reflexivity. Qed.

(** ** Fixed window: invariants of the main loop *)

Ltac fixed_simpl :=
  cbn [FixedWindow.fp FixedWindow.seq_id FixedWindow.curr_state FixedWindow.total_bytes
       FixedWindow.packet_delays FixedWindow.start_time FixedWindow.end_time FixedWindow.packets
       FixedWindow.sent FixedWindow.ticks FixedWindow.set_fp FixedWindow.set_seq_id
       FixedWindow.set_curr_state FixedWindow.set_total_bytes FixedWindow.set_packet_delays
       FixedWindow.set_start_time FixedWindow.set_end_time FixedWindow.set_packets
       FixedWindow.set_sent FixedWindow.set_ticks FixedWindow.sendto FixedWindow.time_time
       FixedWindow.p_seq_id FixedWindow.p_send_time FixedWindow.p_packet].
Ltac fixed_simpl_in H :=
  cbn [FixedWindow.fp FixedWindow.seq_id FixedWindow.curr_state FixedWindow.total_bytes
       FixedWindow.packet_delays FixedWindow.start_time FixedWindow.end_time FixedWindow.packets
       FixedWindow.sent FixedWindow.ticks FixedWindow.set_fp FixedWindow.set_seq_id
       FixedWindow.set_curr_state FixedWindow.set_total_bytes FixedWindow.set_packet_delays
       FixedWindow.set_start_time FixedWindow.set_end_time FixedWindow.set_packets
       FixedWindow.set_sent FixedWindow.set_ticks FixedWindow.sendto FixedWindow.time_time
       FixedWindow.p_seq_id FixedWindow.p_send_time FixedWindow.p_packet] in H.

Lemma fixed_fill_body_spec (time_at : nat -> Q) (s s' : FixedWindow.Sender) (go : bool) :
  FixedWindow.fill_body time_at s = Py.Ok (s', go) ->
  exists chunk rest hdr,
    fp_read MESSAGE_SIZE (FixedWindow.fp s) = (chunk, rest)
    /\ Py.to_bytes (Z.to_nat SEQ_ID_SIZE) (FixedWindow.seq_id s) = Py.Ok hdr
    /\ FixedWindow.fp s' = rest
    /\ ((go = true /\ chunk <> []
         /\ FixedWindow.packets s'
            = FixedWindow.packets s
              ++ [FixedWindow.mkPacket (FixedWindow.seq_id s)
                    (time_at (FixedWindow.ticks s)) (hdr ++ chunk)]
         /\ FixedWindow.seq_id s' = FixedWindow.seq_id s + Py.len chunk
         /\ FixedWindow.total_bytes s' = FixedWindow.total_bytes s + Py.len (hdr ++ chunk)
         /\ FixedWindow.sent s' = FixedWindow.sent s ++ [hdr ++ chunk]
         /\ FixedWindow.curr_state s' = FixedWindow.curr_state s)
        \/ (go = false /\ chunk = []
            /\ FixedWindow.packets s' = FixedWindow.packets s
            /\ FixedWindow.seq_id s' = FixedWindow.seq_id s
            /\ FixedWindow.total_bytes s' = FixedWindow.total_bytes s
            /\ FixedWindow.sent s' = FixedWindow.sent s
            /\ FixedWindow.curr_state s' = FixedWindow.SENDING_EOF)).
Proof.
  unfold FixedWindow.fill_body. intros H.
  destruct (fp_read MESSAGE_SIZE (FixedWindow.fp s)) as [chunk rest] eqn:Hread.
  fixed_simpl_in H.
  destruct (Py.to_bytes (Z.to_nat SEQ_ID_SIZE) (FixedWindow.seq_id s)) as [hdr|] eqn:Hhdr;
    cbn [Py.bind] in H; [|discriminate H].
  destruct chunk as [|b chunk]; inversion H; subst; clear H.
  - exists [], rest, hdr. split_all; try reflexivity.
    right. split_all; reflexivity.
  - exists (b :: chunk), rest, hdr. split_all; try reflexivity.
    left. split_all; try reflexivity. discriminate.
Qed.

Lemma fixed_fill_body_accounted (time_at : nat -> Q) (file : list byte)
  (s s' : FixedWindow.Sender) (go : bool) :
  FixedWindow.fill_body time_at s = Py.Ok (s', go) ->
  fixed_accounted file s -> fixed_accounted file s'.
Proof.
  intros H Hacc. apply fixed_fill_body_spec in H.
  destruct H as (chunk & rest & hdr & Hread & Hhdr & Hfp & Hcase).
  unfold fixed_accounted in *. rewrite Hfp.
  destruct Hcase as [(_ & Hne & _ & _ & Htot & _) | (_ & Hnil & _ & _ & Htot & _)]; rewrite Htot.
  - replace (Py.len (hdr ++ chunk)) with (SEQ_ID_SIZE + Py.len chunk).
    + apply (bytes_accounted_chunk datagram_bytes (fun c => SEQ_ID_SIZE + c)
               file (FixedWindow.fp s) chunk rest); try assumption.
      exact datagram_bytes_step.
    + unfold Py.len. rewrite length_app, (to_bytes_length _ _ _ Hhdr), Nat2Z.inj_add.
      reflexivity.
  - exact (bytes_accounted_eof datagram_bytes file (FixedWindow.fp s) chunk rest _
             Hacc Hread Hnil).
Qed.

Lemma fixed_fill_body_window_ok (time_at : nat -> Q) (s s' : FixedWindow.Sender) (go : bool) :
  FixedWindow.fill_body time_at s = Py.Ok (s', go) ->
  fixed_window_ok s -> fixed_window_ok s'.
Proof.
  intros H Hok. apply fixed_fill_body_spec in H.
  destruct H as (chunk & rest & hdr & _ & _ & _ & Hcase).
  unfold fixed_window_ok in *.
  destruct Hcase as [(_ & _ & Hps & Hseq & _) | (_ & _ & Hps & Hseq & _)];
    rewrite Hps, Hseq; [|exact Hok].
  unfold fixed_segments. rewrite map_app. cbn [map FixedWindow.p_seq_id FixedWindow.p_packet].
  apply window_ok_append; [exact Hok|]. unfold Py.len. lia.
Qed.

Lemma fixed_fill_loop_inv (time_at : nat -> Q) (P : FixedWindow.Sender -> Prop) (fuel : nat)
  (s s' : FixedWindow.Sender) :
  (forall s1 s2 go, FixedWindow.fill_body time_at s1 = Py.Ok (s2, go) -> P s1 -> P s2) ->
  FixedWindow.fill_loop time_at fuel s = Py.Ok s' -> P s -> P s'.
Proof.
  intros Hbody. revert s.
  induction fuel as [|fuel IH]; intros s H HP; cbn [FixedWindow.fill_loop] in H.
  - step_ok. exact HP.
  - destruct (FixedWindow.fill_cond s); [|step_ok; exact HP].
    destruct (FixedWindow.fill_body time_at s) as [[s1 go]|] eqn:E; cbn [Py.bind] in H;
      [|discriminate].
    apply (Hbody _ _ _ E) in HP.
    destruct go; [exact (IH s1 H HP) | step_ok; exact HP].
Qed.

Lemma fixed_remove_acked_spec (time_at : nat -> Q) (ack_id : Z)
  (todo ps : list FixedWindow.Packet) (s s' : FixedWindow.Sender) :
  FixedWindow.remove_acked time_at ack_id todo s = (ps, s') ->
  FixedWindow.fp s' = FixedWindow.fp s
  /\ FixedWindow.total_bytes s' = FixedWindow.total_bytes s
  /\ FixedWindow.seq_id s' = FixedWindow.seq_id s
  /\ FixedWindow.curr_state s' = FixedWindow.curr_state s
  /\ FixedWindow.sent s' = FixedWindow.sent s
  /\ fixed_segments ps = pop_below ack_id (fixed_segments todo).
Proof.
  revert ps s s'. induction todo as [|p rest IH]; intros ps s s' H;
    cbn [FixedWindow.remove_acked] in H.
  - step_ok. split_all; reflexivity.
  - cbn [fixed_segments map pop_below fst].
    destruct (FixedWindow.p_seq_id p <? ack_id); [|step_ok; split_all; reflexivity].
    cbn [FixedWindow.time_time] in H. apply IH in H.
    destruct H as (A & B & C & D & E & Hseg). split_all; try assumption.
Qed.

Lemma fixed_on_recv_spec (time_at : nat -> Q) (d : list byte) (s s' : FixedWindow.Sender) :
  FixedWindow.on_recv time_at d s = Py.Ok s' ->
  FixedWindow.fp s' = FixedWindow.fp s
  /\ FixedWindow.total_bytes s' = FixedWindow.total_bytes s
  /\ FixedWindow.seq_id s' = FixedWindow.seq_id s
  /\ fixed_segments (FixedWindow.packets s')
     = pop_below (ack_number d) (fixed_segments (FixedWindow.packets s)).
Proof.
  unfold FixedWindow.on_recv, FixedWindow.finack_packet. fold (ack_number d). intros H.
  destruct (FixedWindow.remove_acked time_at (ack_number d) (FixedWindow.packets s) s)
    as [ps s1] eqn:E.
  apply fixed_remove_acked_spec in E. destruct E as (A & B & C & _ & _ & Hseg).
  fixed_simpl_in H.
  destruct (_ || _).
  - destruct (Py.to_bytes _ _) as [hdr|]; cbn [Py.bind] in H; [|discriminate H].
    injection H as <-. fixed_simpl. split_all; assumption.
  - injection H as <-. fixed_simpl. split_all; assumption.
Qed.

Lemma last_cons_default {A : Type} (a d : A) (l : list A) :
  last (a :: l) d = last l a.
Proof.
  revert a d. induction l as [|b l IH]; intros a d; [reflexivity|].
  change (last (a :: b :: l) d) with (last (b :: l) d). rewrite (IH b d), (IH b a). reflexivity.
Qed.

Lemma fixed_retransmit_all_spec (todo : list FixedWindow.Packet) (s : FixedWindow.Sender) :
  FixedWindow.fp (FixedWindow.retransmit_all todo s) = FixedWindow.fp s
  /\ FixedWindow.total_bytes (FixedWindow.retransmit_all todo s) = FixedWindow.total_bytes s
  /\ FixedWindow.packets (FixedWindow.retransmit_all todo s) = FixedWindow.packets s
  /\ FixedWindow.curr_state (FixedWindow.retransmit_all todo s) = FixedWindow.curr_state s
  /\ FixedWindow.sent (FixedWindow.retransmit_all todo s)
     = FixedWindow.sent s ++ map FixedWindow.p_packet todo
  /\ FixedWindow.seq_id (FixedWindow.retransmit_all todo s)
     = last (map fst (fixed_segments todo)) (FixedWindow.seq_id s).
Proof.
  revert s. induction todo as [|p rest IH]; intros s; cbn [FixedWindow.retransmit_all].
  - split_all; try reflexivity. cbn [map]. rewrite app_nil_r. reflexivity.
  - destruct (IH (FixedWindow.sendto (FixedWindow.p_packet p)
                    (FixedWindow.set_seq_id (FixedWindow.p_seq_id p) s)))
      as (A & B & C & D & E & F).
    split_all; [exact A | exact B | exact C | exact D | |].
    + rewrite E. fixed_simpl. cbn [map]. rewrite <- app_assoc. reflexivity.
    + rewrite F. fixed_simpl. cbn [fixed_segments map fst].
      rewrite last_cons_default. reflexivity.
Qed.

Lemma last_In {A : Type} (l : list A) (d : A) : l <> [] -> In (last l d) l.
Proof.
  induction l as [|a l IH]; intros Hne; [contradiction|].
  destruct l as [|b l]; [left; reflexivity|].
  right. apply IH. discriminate.
Qed.

Lemma sorted_le_last (l : list Z) :
  StronglySorted Z.le l -> forall d x, In x l -> x <= last l d.
Proof.
  induction l as [|a l IH]; intros Hsorted d x Hin; [contradiction|].
  inversion Hsorted as [|? ? Hrest Hhead]; subst.
  rewrite last_cons_default. destruct Hin as [<- | Hin].
  - destruct l as [|b l]; [cbn; lia|].
    rewrite Forall_forall in Hhead. apply Hhead, last_In. discriminate.
  - apply (IH Hrest). exact Hin.
Qed.

Lemma window_ok_last (window : list segment) (low high : Z) :
  window_ok window low high ->
  window_ok window low (last (map fst window) high).
Proof.
  intros (Hsorted & Hall & Hlow). split; [exact Hsorted|]. split.
  - rewrite Forall_forall in Hall |- *. intros sg Hin. split; [apply (Hall sg Hin)|].
    apply (sorted_le_last _ Hsorted). apply in_map. exact Hin.
  - destruct window as [|sg rest]; [exact Hlow|].
    inversion Hall as [|? ? Hsg _]; subst.
    pose proof (sorted_le_last _ Hsorted high (fst sg) (or_introl eq_refl)) as Hle.
    lia.
Qed.

Lemma fixed_on_socket_timeout_inv (time_at : nat -> Q) (file : list byte)
  (s : FixedWindow.Sender) :
  (fixed_accounted file s ->
   fixed_accounted file (state_of (FixedWindow.on_socket_timeout time_at s)))
  /\ (fixed_window_ok s ->
      fixed_window_ok (state_of (FixedWindow.on_socket_timeout time_at s))).
Proof.
  unfold FixedWindow.on_socket_timeout.
  destruct (FixedWindow.State_eqb _ _); cbn [state_of].
  - split; intros H; exact H.
  - destruct (fixed_retransmit_all_spec (FixedWindow.packets s) s) as (A & B & C & _ & _ & F).
    unfold fixed_accounted, fixed_window_ok. rewrite A, B, C, F.
    split; [intros H; exact H | apply window_ok_last].
Qed.

Lemma fixed_before_recv_inv (time_at : nat -> Q) (file : list byte)
  (s s' : FixedWindow.Sender) :
  FixedWindow.before_recv time_at s = Py.Ok s' ->
  (fixed_accounted file s -> fixed_accounted file s')
  /\ (fixed_window_ok s -> fixed_window_ok s').
Proof.
  unfold FixedWindow.before_recv, FixedWindow.fill_window. intros H. split.
  - apply (fixed_fill_loop_inv time_at (fixed_accounted file) _ _ _
             (fun s1 s2 go => fixed_fill_body_accounted time_at file s1 s2 go) H).
  - apply (fixed_fill_loop_inv time_at fixed_window_ok _ _ _
             (fixed_fill_body_window_ok time_at) H).
Qed.

Lemma sorted_app_r (l1 l2 : list Z) :
  StronglySorted Z.le (l1 ++ l2) -> StronglySorted Z.le l2.
Proof.
  induction l1 as [|x l1 IH]; intros H; [exact H|].
  cbn [app] in H. inversion H; subst. apply IH. assumption.
Qed.

Lemma fixed_on_recv_window_ok (time_at : nat -> Q) (d : list byte)
  (s s' : FixedWindow.Sender) :
  FixedWindow.on_recv time_at d s = Py.Ok s' ->
  fixed_window_ok s -> fixed_window_ok s'.
Proof.
  intros H (Hsorted & Hall & Hlow). apply fixed_on_recv_spec in H.
  destruct H as (_ & _ & Hseq & Hseg). unfold fixed_window_ok. rewrite Hseq, Hseg.
  destruct (pop_below_suffix (ack_number d) (fixed_segments (FixedWindow.packets s)))
    as (popped & Happ & _).
  split; [|split; [|exact Hlow]].
  - rewrite Happ, map_app in Hsorted. exact (sorted_app_r _ _ Hsorted).
  - rewrite Happ in Hall. apply Forall_app in Hall. apply Hall.
Qed.

Lemma fixed_iteration_inv (time_at : nat -> Q) (file : list byte) (ev : recv_event)
  (s : FixedWindow.Sender) (f : flow FixedWindow.Sender) :
  FixedWindow.iteration time_at ev s = Py.Ok f ->
  (fixed_accounted file s -> fixed_accounted file (state_of f))
  /\ (fixed_window_ok s -> fixed_window_ok (state_of f)).
Proof.
  unfold FixedWindow.iteration. intros H.
  destruct (FixedWindow.before_recv time_at s) as [s1|] eqn:E1; cbn [Py.bind] in H;
    [|discriminate H].
  destruct (fixed_before_recv_inv time_at file s s1 E1) as (Hacc1 & Hok1).
  destruct ev as [d|]; cbn [FixedWindow.after_recv] in H.
  - destruct (FixedWindow.on_recv time_at d s1) as [s2|] eqn:E2; cbn [Py.bind] in H;
      [|discriminate H].
    injection H as <-. cbn [state_of]. split.
    + intros Hacc. apply Hacc1 in Hacc. apply fixed_on_recv_spec in E2.
      destruct E2 as (A & B & _). unfold fixed_accounted in *. rewrite A, B. exact Hacc.
    + intros Hok. exact (fixed_on_recv_window_ok time_at d s1 s2 E2 (Hok1 Hok)).
  - injection H as <-.
    destruct (fixed_on_socket_timeout_inv time_at file s1) as (Hacc2 & Hok2).
    split; intros H; [apply Hacc2, Hacc1, H | apply Hok2, Hok1, H].
Qed.

Lemma fixed_init_accounted (time_at : nat -> Q) (file : list byte) :
  fixed_accounted file (FixedWindow.init time_at file).
Proof. exact (bytes_accounted_init datagram_bytes file eq_refl). Qed.

Lemma fixed_run_accounted (time_at : nat -> Q) (file : list byte) (evs : list recv_event)
  (s : FixedWindow.Sender) (f : flow FixedWindow.Sender) :
  FixedWindow.run time_at evs s = Py.Ok f ->
  fixed_accounted file s -> fixed_accounted file (state_of f).
Proof.
  revert s. induction evs as [|ev evs IH]; intros s H Hacc; cbn [FixedWindow.run] in H.
  - injection H as <-. exact Hacc.
  - destruct (FixedWindow.iteration time_at ev s) as [f1|] eqn:E; cbn [Py.bind] in H;
      [|discriminate H].
    apply (fixed_iteration_inv time_at file) in E. destruct E as (E & _). apply E in Hacc.
    destruct f1 as [s1|s1|s1]; cbn [state_of] in Hacc.
    + exact (IH s1 H Hacc).
    + exact (IH s1 H Hacc).
    + injection H as <-. exact Hacc.
Qed.

Lemma fixed_reachable_window_ok (time_at : nat -> Q) (file : list byte)
  (s : FixedWindow.Sender) :
  fixed_reachable time_at file s -> fixed_window_ok s.
Proof.
  induction 1 as [|s ev f _ IH Hit].
  - apply window_ok_nil. cbn. lia.
  - exact (proj2 (fixed_iteration_inv time_at file ev s f Hit) IH).
Qed.

(** ** Stop and wait: the byte counter *)

Ltac sw_simpl :=
  cbn [StopAndWait.fp StopAndWait.seq_id StopAndWait.curr_state StopAndWait.ack_rcv
       StopAndWait.total_bytes StopAndWait.packet_delays StopAndWait.start_time
       StopAndWait.end_time StopAndWait.packet StopAndWait.chunk StopAndWait.packet_send_time
       StopAndWait.sent StopAndWait.ticks StopAndWait.set_fp StopAndWait.set_seq_id
       StopAndWait.set_curr_state StopAndWait.set_ack_rcv StopAndWait.set_total_bytes
       StopAndWait.set_packet_delays StopAndWait.set_start_time StopAndWait.set_end_time
       StopAndWait.set_packet StopAndWait.set_chunk StopAndWait.set_packet_send_time
       StopAndWait.set_sent StopAndWait.set_ticks StopAndWait.sendto StopAndWait.time_time].
Ltac sw_simpl_in H :=
  cbn [StopAndWait.fp StopAndWait.seq_id StopAndWait.curr_state StopAndWait.ack_rcv
       StopAndWait.total_bytes StopAndWait.packet_delays StopAndWait.start_time
       StopAndWait.end_time StopAndWait.packet StopAndWait.chunk StopAndWait.packet_send_time
       StopAndWait.sent StopAndWait.ticks StopAndWait.set_fp StopAndWait.set_seq_id
       StopAndWait.set_curr_state StopAndWait.set_ack_rcv StopAndWait.set_total_bytes
       StopAndWait.set_packet_delays StopAndWait.set_start_time StopAndWait.set_end_time
       StopAndWait.set_packet StopAndWait.set_chunk StopAndWait.set_packet_send_time
       StopAndWait.set_sent StopAndWait.set_ticks StopAndWait.sendto StopAndWait.time_time] in
       H.

Lemma sw_prepare_accounted (time_at : nat -> Q) (file : list byte)
  (s s' : StopAndWait.Sender) :
  StopAndWait.prepare time_at s = Py.Ok s' ->
  sw_accounted file s -> sw_accounted file s'.
Proof.
  unfold StopAndWait.prepare, sw_accounted. intros H Hacc.
  destruct (Py.to_bytes (Z.to_nat SEQ_ID_SIZE) (StopAndWait.seq_id s)) as [hdr|];
    cbn [Py.bind] in H; [|discriminate H].
  sw_simpl_in H.
  destruct (StopAndWait.State_eqb (StopAndWait.curr_state s) StopAndWait.SENDING_DATA).
  - destruct (fp_read MESSAGE_SIZE (StopAndWait.fp s)) as [chunk rest] eqn:Hread.
    destruct chunk as [|b chunk]; injection H as <-; sw_simpl.
    + exact (bytes_accounted_eof full_packet_bytes file _ _ _ _ Hacc Hread eq_refl).
    + apply (bytes_accounted_chunk full_packet_bytes (fun _ => PACKET_SIZE)
               file (StopAndWait.fp s) (b :: chunk) rest); try assumption.
      * exact full_packet_bytes_step.
      * discriminate.
  - destruct (StopAndWait.State_eqb (StopAndWait.curr_state s) StopAndWait.SENDING_FINACK);
      injection H as <-; sw_simpl; exact Hacc.
Qed.

Lemma sw_retry_pass_transfer (time_at : nat -> Q) (ev : recv_event) (s : StopAndWait.Sender) :
  sw_transfer (StopAndWait.retry_pass time_at ev s) = sw_transfer s.
Proof.
  unfold StopAndWait.retry_pass, StopAndWait.on_recv, StopAndWait.on_socket_timeout,
    StopAndWait.delay_sample, sw_transfer.
  destruct ev as [d|]; sw_simpl; repeat case_goal; reflexivity.
Qed.

Lemma sw_retry_loop_transfer (time_at : nat -> Q) (evs evs' : list recv_event)
  (s s' : StopAndWait.Sender) :
  StopAndWait.retry_loop time_at evs s = (s', evs') -> sw_transfer s' = sw_transfer s.
Proof.
  revert s. induction evs as [|ev evs IH]; intros s H; cbn [StopAndWait.retry_loop] in H.
  - injection H as <- _. reflexivity.
  - destruct (StopAndWait.ack_rcv (StopAndWait.retry_pass time_at ev s)).
    + injection H as <- _. apply sw_retry_pass_transfer.
    + rewrite (IH _ H). apply sw_retry_pass_transfer.
Qed.

Lemma sw_finish_transfer (time_at : nat -> Q) (s : StopAndWait.Sender) :
  sw_transfer (state_of (StopAndWait.finish time_at s)) = sw_transfer s.
Proof.
  unfold StopAndWait.finish. destruct (StopAndWait.State_eqb _ _); reflexivity.
Qed.

Lemma sw_transfer_accounted (file : list byte) (s s' : StopAndWait.Sender) :
  sw_transfer s' = sw_transfer s -> sw_accounted file s -> sw_accounted file s'.
Proof.
  unfold sw_transfer, sw_accounted. intros H. injection H as -> ->. exact (fun H => H).
Qed.

Lemma sw_iteration_accounted (time_at : nat -> Q) (file : list byte)
  (evs evs' : list recv_event) (s : StopAndWait.Sender) (f : flow StopAndWait.Sender) :
  StopAndWait.iteration time_at evs s = Py.Ok (f, evs') ->
  sw_accounted file s -> sw_accounted file (state_of f).
Proof.
  unfold StopAndWait.iteration. intros H Hacc.
  destruct (StopAndWait.prepare time_at s) as [s1|] eqn:E1; cbn [Py.bind] in H;
    [|discriminate H].
  apply (sw_prepare_accounted time_at file) in E1; [|exact Hacc].
  destruct (StopAndWait.retry_loop time_at evs s1) as [s2 evs2] eqn:E2.
  apply sw_retry_loop_transfer in E2.
  apply (sw_transfer_accounted file _ _ E2) in E1.
  destruct (StopAndWait.ack_rcv s2); injection H as <- _.
  - exact (sw_transfer_accounted file _ _ (sw_finish_transfer time_at s2) E1).
  - exact E1.
Qed.

Lemma sw_run_accounted (time_at : nat -> Q) (file : list byte) (fuel : nat)
  (evs : list recv_event) (s : StopAndWait.Sender) (f : flow StopAndWait.Sender) :
  StopAndWait.run time_at fuel evs s = Py.Ok f ->
  sw_accounted file s -> sw_accounted file (state_of f).
Proof.
  revert evs s. induction fuel as [|fuel IH]; intros evs s H Hacc.
  - destruct evs; injection H as <-; exact Hacc.
  - destruct evs as [|ev evs]; [injection H as <-; exact Hacc|].
    cbn [StopAndWait.run] in H.
    destruct (StopAndWait.iteration time_at (ev :: evs) s) as [[f1 evs1]|] eqn:E;
      cbn [Py.bind] in H; [|discriminate H].
    apply (sw_iteration_accounted time_at file) in E; [|exact Hacc].
    destruct f1 as [s1|s1|s1]; cbn [state_of] in E.
    + exact (IH evs1 s1 H E).
    + exact (IH evs1 s1 H E).
    + injection H as <-. exact E.
Qed.

Lemma sw_init_accounted (time_at : nat -> Q) (file : list byte) :
  sw_accounted file (StopAndWait.init time_at file).
Proof. apply (bytes_accounted_init full_packet_bytes file). reflexivity. Qed.

(** ** The byte counter over a run *)

(** C8.  At the top of every pass of the main loop, and when the loop is
    left, [total_bytes] depends only on how much of the file has been read:
    in the fixed-window, Reno and Vegas senders it is the length, header
    included, of the datagrams of the segments made so far, each counted
    once; in the stop-and-wait sender it is [PACKET_SIZE] for each segment
    made so far.  No retransmission adds to it. *)
Theorem total_bytes_counts_each_segment_once (time_at : nat -> Q) (file : list byte) :
  (forall evs f,
     StopAndWaitRun time_at file evs f -> sw_accounted file (state_of f))
  /\ (forall evs f,
        FixedWindow.run time_at evs (FixedWindow.init time_at file) = Py.Ok f ->
        fixed_accounted file (state_of f))
  /\ (forall evs f,
        Reno.run time_at evs (Reno.init time_at file) = Py.Ok f ->
        reno_accounted file (state_of f))
  /\ (forall evs f,
        Vegas.run time_at evs (Vegas.init time_at file) = Py.Ok f ->
        vegas_accounted file (state_of f)).
Proof.
  split_all.
  - intros evs f (fuel & H).
    exact (sw_run_accounted time_at file fuel evs _ f H (sw_init_accounted time_at file)).
  - intros evs f H.
    exact (fixed_run_accounted time_at file evs _ f H (fixed_init_accounted time_at file)).
  - intros evs f H.
    exact (reno_run_accounted time_at file evs _ f H (reno_init_accounted time_at file)).
  - intros evs f H.
    exact (vegas_run_accounted time_at file evs _ f H (vegas_init_accounted time_at file)).
Qed.

Lemma total_bytes_counts_each_segment_once_witness :
  let tm := steady_clock 1 in
  let file := file_of_size 1 in
  let evs := [SocketTimeout; Recv (ack_datagram 1)] in
  sw_accounted file
    (final_state (StopAndWait.init tm file) (StopAndWait.run tm 2 evs (StopAndWait.init tm file)))
  /\ fixed_accounted file
       (final_state (FixedWindow.init tm file)
          (FixedWindow.run tm evs (FixedWindow.init tm file)))
  /\ reno_accounted file
       (final_state (Reno.init tm file) (Reno.run tm evs (Reno.init tm file)))
  /\ vegas_accounted file
       (final_state (Vegas.init tm file) (Vegas.run tm (tl evs) (Vegas.init tm file))).
Proof.
  intros tm file evs.
  destruct (total_bytes_counts_each_segment_once tm file) as (Hsw & Hfixed & Hreno & Hvegas).
  split_all.
  - destruct (StopAndWait.run tm 2 evs (StopAndWait.init tm file)) as [f|e] eqn:E.
    + apply (Hsw evs f). exists 2%nat. exact E.
    + vm_compute in E. discriminate E.
  - destruct (FixedWindow.run tm evs (FixedWindow.init tm file)) as [f|e] eqn:E.
    + exact (Hfixed evs f E).
    + vm_compute in E. discriminate E.
  - destruct (Reno.run tm evs (Reno.init tm file)) as [f|e] eqn:E.
    + exact (Hreno evs f E).
    + vm_compute in E. discriminate E.
  - destruct (Vegas.run tm (tl evs) (Vegas.init tm file)) as [f|e] eqn:E.
    + exact (Hvegas (tl evs) f E).
    + vm_compute in E. discriminate E.
Defined.

(** The fixed-window sender on a file of one byte whose only datagram times
    out once: two emissions of one payload byte each have gone out, and
    [total_bytes] is 5, the length of the one datagram. *)
Example fixed_total_bytes_ignores_retransmission :
  let tm := steady_clock 1 in
  let s := final_state (FixedWindow.init tm (file_of_size 1))
             (FixedWindow.run tm [SocketTimeout] (FixedWindow.init tm (file_of_size 1))) in
  map (@length byte) (FixedWindow.sent s) = [5%nat; 5%nat]
  /\ payload_bytes_sent (FixedWindow.sent s) = 2
  /\ FixedWindow.total_bytes s = 5
  /\ FixedWindow.total_bytes s <> payload_bytes_sent (FixedWindow.sent s).
Proof.
  intros tm s. split_all; try (vm_compute; reflexivity).
  vm_compute. intros H. discriminate H.
Qed.

(** ** Cumulative ACKs *)

Lemma cumulative_ack_pop_below (ack_id : Z) (window : list segment) :
  StronglySorted Z.le (map fst window) ->
  cumulative_ack_applied ack_id window (pop_below ack_id window).
Proof.
  intros Hsorted. split; [apply pop_below_filter | apply pop_below_all_acked]; exact Hsorted.
Qed.

Lemma cumulative_ack_nothing_below (ack_id : Z) (window : list segment) :
  StronglySorted Z.le (map fst window) ->
  Forall (fun sg => ack_id <= fst sg) window ->
  cumulative_ack_applied ack_id window window.
Proof.
  intros Hsorted Hall.
  pose proof (cumulative_ack_pop_below ack_id window Hsorted) as H.
  rewrite (pop_below_none ack_id window Hall) in H. exact H.
Qed.

Lemma pop_below_window_ok (ack_id : Z) (window : list segment) (low high : Z) :
  window_ok window low high -> window_ok (pop_below ack_id window) low high.
Proof.
  intros (Hsorted & Hall & Hlow).
  destruct (pop_below_suffix ack_id window) as (popped & Happ & _).
  rewrite Happ, map_app in Hsorted. rewrite Happ in Hall.
  apply Forall_app in Hall. destruct Hall as (_ & Hall).
  split; [|split; assumption].
  clear - Hsorted. induction popped as [|x popped IH]; cbn [map app] in Hsorted.
  - exact Hsorted.
  - inversion Hsorted; subst. apply IH. assumption.
Qed.

Lemma reno_frame_window_sorted (s s' : Reno.Sender) :
  reno_frame s s' -> reno_window_sorted s -> reno_window_sorted s'.
Proof.
  unfold reno_frame, reno_transfer, reno_window_sorted. intros (T & _ & W) H.
  inversion T as [[Hfp Hseq Htot]]. rewrite W, Hseq. exact H.
Qed.

Lemma reno_fill_body_window_sorted (s s' : Reno.Sender) (go : bool) :
  Reno.fill_body s = Py.Ok (s', go) -> reno_window_sorted s -> reno_window_sorted s'.
Proof.
  intros H Hok. apply reno_fill_body_spec in H.
  destruct H as (_ & chunk & rest & hdr & _ & _ & _ & Hcase).
  unfold reno_window_sorted in *.
  destruct Hcase as [(_ & _ & Hps & Hseq & _) | (_ & _ & Hps & Hseq & _)];
    rewrite Hps, Hseq; [|exact Hok].
  unfold reno_segments. rewrite map_app. cbn [map Reno.p_seq_id Reno.p_packet].
  apply window_ok_append; [exact Hok|]. unfold Py.len. lia.
Qed.

Lemma reno_before_recv_window_sorted (time_at : nat -> Q) (s s1 : Reno.Sender) :
  Reno.before_recv time_at s = Py.Ok s1 -> reno_window_sorted s -> reno_window_sorted s1.
Proof.
  unfold Reno.before_recv, Reno.fill_window. intros H Hinv.
  destruct (Reno.fill_loop (Reno.fill_fuel s) s) as [s0|] eqn:E; cbn [Py.bind] in H;
    [|discriminate H].
  apply reno_send_step_frame in H. apply (reno_frame_window_sorted s0 s1 H).
  exact (reno_fill_loop_inv reno_window_sorted _ s s0 reno_fill_body_window_sorted E Hinv).
Qed.

Lemma reno_after_recv_window_sorted (time_at : nat -> Q) (ev : recv_event)
  (s1 : Reno.Sender) (f : flow Reno.Sender) :
  Reno.after_recv time_at ev s1 = Py.Ok f ->
  reno_window_sorted s1 -> reno_window_sorted (state_of f).
Proof.
  destruct ev as [d|]; cbn [Reno.after_recv]; intros H Hok.
  - destruct (Reno.on_recv time_at d s1) as [f1|] eqn:E; cbn [Py.bind] in H; [|discriminate H].
    assert (Hwin : reno_window_sorted (state_of f1)).
    { apply reno_on_recv_spec in E. destruct E as (T & [(_ & F) | (_ & _ & Hseg)]).
      - exact (reno_frame_window_sorted _ _ F Hok).
      - unfold reno_window_sorted in *. unfold reno_transfer in T.
        inversion T as [[Hfp Hseq Htot]]. rewrite Hseg, Hseq.
        apply pop_below_window_ok. exact Hok. }
    destruct f1 as [s2|s2|s2]; injection H as <-; cbn [state_of] in *.
    + pose proof (reno_frame_trans _ _ _ (reno_check_timeout_frame time_at s2)
                    (reno_clean_cwnd_frame (Reno.check_timeout time_at s2))) as F.
      exact (reno_frame_window_sorted _ _ F Hwin).
    + exact Hwin.
    + exact Hwin.
  - injection H as <-.
    exact (reno_frame_window_sorted _ _ (reno_on_socket_timeout_frame time_at s1) Hok).
Qed.

Lemma reno_run_window_sorted (time_at : nat -> Q) (evs : list recv_event) :
  forall (s : Reno.Sender) (f : flow Reno.Sender),
    Reno.run time_at evs s = Py.Ok f ->
    reno_window_sorted s -> reno_window_sorted (state_of f).
Proof.
  induction evs as [|ev evs IH]; intros s f H Hinv; cbn [Reno.run] in H.
  - injection H as <-. exact Hinv.
  - unfold Reno.iteration in H.
    destruct (Reno.before_recv time_at s) as [s1|] eqn:E; cbn [Py.bind] in H; [|discriminate H].
    apply (reno_before_recv_window_sorted time_at s s1 E) in Hinv.
    destruct (Reno.after_recv time_at ev s1) as [f1|] eqn:E1; cbn [Py.bind] in H;
      [|discriminate H].
    apply (reno_after_recv_window_sorted time_at ev s1 f1 E1) in Hinv.
    destruct f1 as [s2|s2|s2]; cbn [state_of] in Hinv.
    + exact (IH s2 f H Hinv).
    + exact (IH s2 f H Hinv).
    + injection H as <-. exact Hinv.
Qed.

Lemma ack_within_spec (ev : recv_event) (segmented : Z) :
  ack_within ev segmented = true ->
  match ev with Recv d => ack_number d <= segmented | SocketTimeout => True end.
Proof. destruct ev as [d|]; cbn [ack_within]; [apply Z.leb_le | intros _; exact I]. Qed.

Lemma reno_run_window_ok (time_at : nat -> Q) (file : list byte) (evs : list recv_event) :
  forall (s : Reno.Sender) (f : flow Reno.Sender),
    Reno.run time_at evs s = Py.Ok f ->
    reno_acks_within time_at evs s = true ->
    reno_window_ok s -> reno_window_ok (state_of f).
Proof.
  induction evs as [|ev evs IH]; intros s f H Hpeer Hinv;
    cbn [Reno.run reno_acks_within] in H, Hpeer.
  - injection H as <-. exact Hinv.
  - unfold Reno.iteration in H.
    destruct (Reno.before_recv time_at s) as [s1|] eqn:E; cbn [Py.bind] in H; [|discriminate H].
    apply (proj2 (reno_before_recv_inv time_at file s s1 E)) in Hinv.
    apply andb_prop in Hpeer. destruct Hpeer as (Hack & Hpeer). apply ack_within_spec in Hack.
    destruct (Reno.after_recv time_at ev s1) as [f1|] eqn:E1; cbn [Py.bind] in H;
      [|discriminate H].
    apply (proj2 (reno_after_recv_inv time_at file ev s1 f1 E1) Hack) in Hinv.
    destruct f1 as [s2|s2|s2]; cbn [state_of] in Hinv.
    + exact (IH s2 f H Hpeer Hinv).
    + exact (IH s2 f H Hpeer Hinv).
    + injection H as <-. exact Hinv.
Qed.

Lemma reno_init_window_ok (time_at : nat -> Q) (file : list byte) :
  reno_window_ok (Reno.init time_at file) /\ reno_window_sorted (Reno.init time_at file).
Proof. split; apply window_ok_nil; cbn; lia. Qed.

Lemma vegas_frame_window_sorted (s s' : Vegas.Sender) :
  vegas_frame s s' -> vegas_window_sorted s -> vegas_window_sorted s'.
Proof.
  unfold vegas_frame, vegas_transfer, vegas_window_sorted. intros (T & _ & W) H.
  inversion T as [[Hfp Hseq Htot]]. rewrite W, Hseq. exact H.
Qed.

Lemma vegas_fill_body_window_sorted (s s' : Vegas.Sender) (go : bool) :
  Vegas.fill_body s = Py.Ok (s', go) -> vegas_window_sorted s -> vegas_window_sorted s'.
Proof.
  intros H Hok. apply vegas_fill_body_spec in H.
  destruct H as (_ & chunk & rest & hdr & _ & _ & _ & Hcase).
  unfold vegas_window_sorted in *.
  destruct Hcase as [(_ & _ & Hps & Hseq & _) | (_ & _ & Hps & Hseq & _)];
    rewrite Hps, Hseq; [|exact Hok].
  unfold vegas_segments. rewrite map_app. cbn [map Vegas.p_seq_id Vegas.p_packet].
  apply window_ok_append; [exact Hok|]. unfold Py.len. lia.
Qed.

Lemma vegas_before_recv_window_sorted (time_at : nat -> Q) (s s1 : Vegas.Sender) :
  Vegas.before_recv time_at s = Py.Ok s1 -> vegas_window_sorted s -> vegas_window_sorted s1.
Proof.
  unfold Vegas.before_recv, Vegas.fill_window. intros H Hinv.
  destruct (Vegas.fill_loop (Vegas.fill_fuel s) s) as [s0|] eqn:E; cbn [Py.bind] in H;
    [|discriminate H].
  apply vegas_send_step_segments in H. apply (vegas_frame_window_sorted s0 s1 H).
  exact (vegas_fill_loop_inv vegas_window_sorted _ s s0 vegas_fill_body_window_sorted E Hinv).
Qed.

Lemma vegas_after_recv_window_sorted (time_at : nat -> Q) (ev : recv_event)
  (s1 : Vegas.Sender) (f : flow Vegas.Sender) :
  Vegas.after_recv time_at ev s1 = Py.Ok f ->
  vegas_window_sorted s1 -> vegas_window_sorted (state_of f).
Proof.
  destruct ev as [d|]; cbn [Vegas.after_recv]; intros H Hok.
  - destruct (Vegas.on_recv time_at d s1) as [s2|] eqn:E; cbn [Py.bind] in H; [|discriminate H].
    destruct (Vegas.check_timeout time_at s2) as [s3|] eqn:E3; cbn [Py.bind] in H;
      [|discriminate H].
    injection H as <-. cbn [state_of]. apply vegas_check_timeout_segments in E3.
    apply (vegas_frame_window_sorted _ _ E3).
    apply vegas_on_recv_spec in E. destruct E as (T & [(_ & F) | (_ & _ & Hseg)]).
    + exact (vegas_frame_window_sorted _ _ F Hok).
    + unfold vegas_window_sorted in *. unfold vegas_transfer in T.
      inversion T as [[Hfp Hseq Htot]]. rewrite Hseg, Hseq.
      apply pop_below_window_ok. exact Hok.
  - pose proof (vegas_on_socket_timeout_segments time_at s1) as F.
    destruct (Vegas.on_socket_timeout time_at s1) as [s2|s2|s2]; cbn [state_of] in F.
    + destruct (Vegas.check_timeout time_at s2) as [s3|] eqn:E3; cbn [Py.bind] in H;
        [|discriminate H].
      injection H as <-. cbn [state_of]. apply vegas_check_timeout_segments in E3.
      exact (vegas_frame_window_sorted _ _ (vegas_frame_trans _ _ _ F E3) Hok).
    + injection H as <-. exact (vegas_frame_window_sorted _ _ F Hok).
    + injection H as <-. exact (vegas_frame_window_sorted _ _ F Hok).
Qed.

Lemma vegas_run_window_sorted (time_at : nat -> Q) (evs : list recv_event) :
  forall (s : Vegas.Sender) (f : flow Vegas.Sender),
    Vegas.run time_at evs s = Py.Ok f ->
    vegas_window_sorted s -> vegas_window_sorted (state_of f).
Proof.
  induction evs as [|ev evs IH]; intros s f H Hinv; cbn [Vegas.run] in H.
  - injection H as <-. exact Hinv.
  - unfold Vegas.iteration in H.
    destruct (Vegas.before_recv time_at s) as [s1|] eqn:E; cbn [Py.bind] in H;
      [|discriminate H].
    apply (vegas_before_recv_window_sorted time_at s s1 E) in Hinv.
    destruct (Vegas.after_recv time_at ev s1) as [f1|] eqn:E1; cbn [Py.bind] in H;
      [|discriminate H].
    apply (vegas_after_recv_window_sorted time_at ev s1 f1 E1) in Hinv.
    destruct f1 as [s2|s2|s2]; cbn [state_of] in Hinv.
    + exact (IH s2 f H Hinv).
    + exact (IH s2 f H Hinv).
    + injection H as <-. exact Hinv.
Qed.

Lemma vegas_run_window_ok (time_at : nat -> Q) (file : list byte) (evs : list recv_event) :
  forall (s : Vegas.Sender) (f : flow Vegas.Sender),
    Vegas.run time_at evs s = Py.Ok f ->
    vegas_acks_within time_at evs s = true ->
    vegas_window_ok s -> vegas_window_ok (state_of f).
Proof.
  induction evs as [|ev evs IH]; intros s f H Hpeer Hinv;
    cbn [Vegas.run vegas_acks_within] in H, Hpeer.
  - injection H as <-. exact Hinv.
  - unfold Vegas.iteration in H.
    destruct (Vegas.before_recv time_at s) as [s1|] eqn:E; cbn [Py.bind] in H;
      [|discriminate H].
    apply (proj2 (vegas_before_recv_inv time_at file s s1 E)) in Hinv.
    apply andb_prop in Hpeer. destruct Hpeer as (Hack & Hpeer). apply ack_within_spec in Hack.
    destruct (Vegas.after_recv time_at ev s1) as [f1|] eqn:E1; cbn [Py.bind] in H;
      [|discriminate H].
    apply (proj2 (vegas_after_recv_inv time_at file ev s1 f1 E1) Hack) in Hinv.
    destruct f1 as [s2|s2|s2]; cbn [state_of] in Hinv.
    + exact (IH s2 f H Hpeer Hinv).
    + exact (IH s2 f H Hpeer Hinv).
    + injection H as <-. exact Hinv.
Qed.

Lemma vegas_init_window_ok (time_at : nat -> Q) (file : list byte) :
  vegas_window_ok (Vegas.init time_at file) /\ vegas_window_sorted (Vegas.init time_at file).
Proof. split; apply window_ok_nil; cbn; lia. Qed.

(** C2, as the code has it.  In the fixed-window, Reno and Vegas senders, at
    any pass of the main loop, the handler of a received datagram with ACK
    number [A] leaves in the window exactly the segments whose sequence
    number is at least [A], in their order: those below [A] are removed, and
    none of those left is below [A].  The fixed-window sender does so for
    every datagram.  The Reno and the Vegas sender do so for every datagram
    whose ACK number differs from [last_ack] (the branch of a new ACK); a
    datagram that repeats [last_ack] removes nothing, and then no segment
    below [A] is in the window provided that, in the passes before, the peer
    never acknowledged bytes the sender had not segmented yet. *)
Theorem cumulative_ack_removes_segments_below (time_at : nat -> Q) (file : list byte) :
  (forall s s1 d s2,
     fixed_reachable time_at file s ->
     FixedWindow.before_recv time_at s = Py.Ok s1 ->
     FixedWindow.on_recv time_at d s1 = Py.Ok s2 ->
     cumulative_ack_applied (ack_number d)
       (fixed_segments (FixedWindow.packets s1)) (fixed_segments (FixedWindow.packets s2)))
  /\ (forall evs s s1 d f,
        Reno.run time_at evs (Reno.init time_at file) = Py.Ok (Next s) ->
        Reno.before_recv time_at s = Py.Ok s1 ->
        Reno.on_recv time_at d s1 = Py.Ok f ->
        ack_number d <> Reno.last_ack s1
        \/ reno_acks_within time_at evs (Reno.init time_at file) = true ->
        cumulative_ack_applied (ack_number d)
          (reno_segments (Reno.packets s1)) (reno_segments (Reno.packets (state_of f))))
  /\ (forall evs s s1 d s2,
        Vegas.run time_at evs (Vegas.init time_at file) = Py.Ok (Next s) ->
        Vegas.before_recv time_at s = Py.Ok s1 ->
        Vegas.on_recv time_at d s1 = Py.Ok s2 ->
        ack_number d <> Vegas.last_ack s1
        \/ vegas_acks_within time_at evs (Vegas.init time_at file) = true ->
        cumulative_ack_applied (ack_number d)
          (vegas_segments (Vegas.packets s1)) (vegas_segments (Vegas.packets s2))).
Proof.
  split_all.
  - intros s s1 d s2 Hreach Hbefore Hrecv.
    pose proof (fixed_reachable_window_ok time_at file s Hreach) as Hok.
    apply (proj2 (fixed_before_recv_inv time_at file s s1 Hbefore)) in Hok.
    destruct Hok as (Hsorted & _).
    apply fixed_on_recv_spec in Hrecv. destruct Hrecv as (_ & _ & _ & Hseg).
    rewrite Hseg. apply cumulative_ack_pop_below. exact Hsorted.
  - intros evs s s1 d f Hrun Hbefore Hrecv Hpeer.
    pose proof (reno_run_window_sorted time_at evs _ _ Hrun
                  (proj2 (reno_init_window_ok time_at file))) as Hsorted.
    cbn [state_of] in Hsorted.
    apply (reno_before_recv_window_sorted time_at s s1 Hbefore) in Hsorted.
    destruct Hsorted as (Hsorted & _).
    apply reno_on_recv_spec in Hrecv.
    destruct Hrecv as (_ & [(Hdup & (_ & _ & Hseg)) | (_ & _ & Hseg)]); rewrite Hseg.
    + destruct Hpeer as [Hnew | Hpeer]; [contradiction (Hnew Hdup)|].
      pose proof (reno_run_window_ok time_at file evs _ _ Hrun Hpeer
                    (proj1 (reno_init_window_ok time_at file))) as Hok.
      cbn [state_of] in Hok.
      apply (proj2 (reno_before_recv_inv time_at file s s1 Hbefore)) in Hok.
      destruct Hok as (_ & Hall & _).
      apply cumulative_ack_nothing_below; [exact Hsorted|]. rewrite Hdup.
      rewrite Forall_forall in Hall |- *. intros sg Hin. apply (Hall sg Hin).
    + apply cumulative_ack_pop_below. exact Hsorted.
  - intros evs s s1 d s2 Hrun Hbefore Hrecv Hpeer.
    pose proof (vegas_run_window_sorted time_at evs _ _ Hrun
                  (proj2 (vegas_init_window_ok time_at file))) as Hsorted.
    cbn [state_of] in Hsorted.
    apply (vegas_before_recv_window_sorted time_at s s1 Hbefore) in Hsorted.
    destruct Hsorted as (Hsorted & _).
    apply vegas_on_recv_spec in Hrecv.
    destruct Hrecv as (_ & [(Hdup & (_ & _ & Hseg)) | (_ & _ & Hseg)]); rewrite Hseg.
    + destruct Hpeer as [Hnew | Hpeer]; [contradiction (Hnew Hdup)|].
      pose proof (vegas_run_window_ok time_at file evs _ _ Hrun Hpeer
                    (proj1 (vegas_init_window_ok time_at file))) as Hok.
      cbn [state_of] in Hok.
      apply (proj2 (vegas_before_recv_inv time_at file s s1 Hbefore)) in Hok.
      destruct Hok as (_ & Hall & _).
      apply cumulative_ack_nothing_below; [exact Hsorted|]. rewrite Hdup.
      rewrite Forall_forall in Hall |- *. intros sg Hin. apply (Hall sg Hin).
    + apply cumulative_ack_pop_below. exact Hsorted.
Qed.

Lemma cumulative_ack_removes_segments_below_witness :
  let tm := steady_clock 1 in
  let file := file_of_size 9000 in
  (exists s1 s2,
     fixed_reachable tm file (FixedWindow.init tm file)
     /\ FixedWindow.before_recv tm (FixedWindow.init tm file) = Py.Ok s1
     /\ FixedWindow.on_recv tm (ack_datagram 2040) s1 = Py.Ok s2
     /\ map fst (fixed_segments (FixedWindow.packets s1))
        = [0; 1020; 2040; 3060; 4080; 5100; 6120; 7140; 8160]
     /\ cumulative_ack_applied (ack_number (ack_datagram 2040))
          (fixed_segments (FixedWindow.packets s1)) (fixed_segments (FixedWindow.packets s2)))
  /\ (exists s s1 f f',
        Reno.run tm (ack_events [1020]) (Reno.init tm file) = Py.Ok (Next s)
        /\ reno_acks_within tm (ack_events [1020]) (Reno.init tm file) = true
        /\ Reno.before_recv tm s = Py.Ok s1
        /\ map fst (reno_segments (Reno.packets s1)) = [1020; 2040]
        /\ Reno.last_ack s1 = 1020
        /\ Reno.on_recv tm (ack_datagram 1020) s1 = Py.Ok f
        /\ cumulative_ack_applied (ack_number (ack_datagram 1020))
             (reno_segments (Reno.packets s1)) (reno_segments (Reno.packets (state_of f)))
        /\ Reno.on_recv tm (ack_datagram 2040) s1 = Py.Ok f'
        /\ cumulative_ack_applied (ack_number (ack_datagram 2040))
             (reno_segments (Reno.packets s1)) (reno_segments (Reno.packets (state_of f'))))
  /\ (exists s s1 s2 s2',
        Vegas.run tm (ack_events [1020; 2040]) (Vegas.init tm file) = Py.Ok (Next s)
        /\ vegas_acks_within tm (ack_events [1020; 2040]) (Vegas.init tm file) = true
        /\ Vegas.before_recv tm s = Py.Ok s1
        /\ map fst (vegas_segments (Vegas.packets s1)) = [2040; 3060]
        /\ Vegas.last_ack s1 = 2040
        /\ Vegas.on_recv tm (ack_datagram 2040) s1 = Py.Ok s2
        /\ cumulative_ack_applied (ack_number (ack_datagram 2040))
             (vegas_segments (Vegas.packets s1)) (vegas_segments (Vegas.packets s2))
        /\ Vegas.on_recv tm (ack_datagram 3060) s1 = Py.Ok s2'
        /\ cumulative_ack_applied (ack_number (ack_datagram 3060))
             (vegas_segments (Vegas.packets s1)) (vegas_segments (Vegas.packets s2'))).
Proof.
  intros tm file.
  destruct (cumulative_ack_removes_segments_below tm file) as (Hfixed & Hreno & Hvegas).
  split; [|split].
  - destruct (FixedWindow.before_recv tm (FixedWindow.init tm file)) as [s1|e] eqn:E1;
      [|vm_compute in E1; discriminate E1].
    destruct (FixedWindow.on_recv tm (ack_datagram 2040) s1) as [s2|e] eqn:E2.
    + exists s1, s2.
      pose proof (Hfixed _ s1 _ s2 (fixed_reach_init tm file) E1 E2) as H.
      split; [apply fixed_reach_init|]. split; [reflexivity|]. split; [exact E2|].
      split; [|exact H].
      vm_compute in E1. injection E1 as <-. vm_compute. reflexivity.
    + vm_compute in E1. injection E1 as <-. vm_compute in E2. discriminate E2.
  - assert (Hpeer : reno_acks_within tm (ack_events [1020]) (Reno.init tm file) = true)
      by (vm_compute; reflexivity).
    destruct (Reno.run tm (ack_events [1020]) (Reno.init tm file)) as [[s|s|s]|e] eqn:E0;
      try (vm_compute in E0; discriminate E0).
    destruct (Reno.before_recv tm s) as [s1|e] eqn:E1.
    2:{ vm_compute in E0. injection E0 as <-. vm_compute in E1. discriminate E1. }
    destruct (Reno.on_recv tm (ack_datagram 1020) s1) as [f|e] eqn:E2.
    2:{ vm_compute in E0. injection E0 as <-. vm_compute in E1. injection E1 as <-.
        vm_compute in E2. discriminate E2. }
    destruct (Reno.on_recv tm (ack_datagram 2040) s1) as [f'|e] eqn:E3.
    2:{ vm_compute in E0. injection E0 as <-. vm_compute in E1. injection E1 as <-.
        vm_compute in E3. discriminate E3. }
    assert (Hlast : Reno.last_ack s1 = 1020).
    { vm_compute in E0. injection E0 as <-. vm_compute in E1. injection E1 as <-.
      reflexivity. }
    pose proof (Hreno _ s s1 _ f E0 E1 E2 (or_intror Hpeer)) as Hdup.
    assert (Hne : ack_number (ack_datagram 2040) <> Reno.last_ack s1)
      by (rewrite Hlast; vm_compute; discriminate).
    pose proof (Hreno _ s s1 _ f' E0 E1 E3 (or_introl Hne)) as Hnew.
    exists s, s1, f, f'.
    split; [reflexivity|]. split; [exact Hpeer|]. split; [exact E1|].
    split; [|split; [exact Hlast|]].
    { vm_compute in E0. injection E0 as <-. vm_compute in E1. injection E1 as <-.
      vm_compute. reflexivity. }
    split; [exact E2|]. split; [exact Hdup|]. split; [exact E3 | exact Hnew].
  - assert (Hpeer : vegas_acks_within tm (ack_events [1020; 2040]) (Vegas.init tm file) = true)
      by (vm_compute; reflexivity).
    destruct (Vegas.run tm (ack_events [1020; 2040]) (Vegas.init tm file))
      as [[s|s|s]|e] eqn:E0; try (vm_compute in E0; discriminate E0).
    destruct (Vegas.before_recv tm s) as [s1|e] eqn:E1.
    2:{ vm_compute in E0. injection E0 as <-. vm_compute in E1. discriminate E1. }
    destruct (Vegas.on_recv tm (ack_datagram 2040) s1) as [s2|e] eqn:E2.
    2:{ vm_compute in E0. injection E0 as <-. vm_compute in E1. injection E1 as <-.
        vm_compute in E2. discriminate E2. }
    destruct (Vegas.on_recv tm (ack_datagram 3060) s1) as [s2'|e] eqn:E3.
    2:{ vm_compute in E0. injection E0 as <-. vm_compute in E1. injection E1 as <-.
        vm_compute in E3. discriminate E3. }
    assert (Hlast : Vegas.last_ack s1 = 2040).
    { vm_compute in E0. injection E0 as <-. vm_compute in E1. injection E1 as <-.
      reflexivity. }
    pose proof (Hvegas _ s s1 _ s2 E0 E1 E2 (or_intror Hpeer)) as Hdup.
    assert (Hne : ack_number (ack_datagram 3060) <> Vegas.last_ack s1)
      by (rewrite Hlast; vm_compute; discriminate).
    pose proof (Hvegas _ s s1 _ s2' E0 E1 E3 (or_introl Hne)) as Hnew.
    exists s, s1, s2, s2'.
    split; [reflexivity|]. split; [exact Hpeer|]. split; [exact E1|].
    split; [|split; [exact Hlast|]].
    { vm_compute in E0. injection E0 as <-. vm_compute in E1. injection E1 as <-.
      vm_compute. reflexivity. }
    split; [exact E2|]. split; [exact Hdup|]. split; [exact E3 | exact Hnew].
Defined.

(** C2 as stated fails in the Reno and in the Vegas sender.  A 5000-byte
    file; the peer acknowledges 2040 bytes while the sender has segmented
    1020, and then repeats that ACK.  The repeated datagram is a duplicate
    ([ack_id == last_ack]), which removes nothing: after its handler the
    window still holds the segment 1020, below the ACK number 2040. *)
Example duplicate_ack_leaves_segment_below :
  let tm := steady_clock 1 in
  let file := file_of_size 5000 in
  let d := ack_datagram 2040 in
  let reno0 := final_state (Reno.init tm file) (Reno.run tm [Recv d] (Reno.init tm file)) in
  let reno1 := value_or reno0 (Reno.before_recv tm reno0) in
  let reno2 := final_state reno1 (Reno.on_recv tm d reno1) in
  let vegas0 := final_state (Vegas.init tm file)
                  (Vegas.run tm [Recv d] (Vegas.init tm file)) in
  let vegas1 := value_or vegas0 (Vegas.before_recv tm vegas0) in
  let vegas2 := value_or vegas1 (Vegas.on_recv tm d vegas1) in
  (ack_number d = 2040
   /\ Reno.last_ack reno1 = 2040
   /\ map fst (reno_segments (Reno.packets reno1)) = [1020; 2040]
   /\ map fst (reno_segments (Reno.packets reno2)) = [1020; 2040]
   /\ ~ cumulative_ack_applied (ack_number d)
          (reno_segments (Reno.packets reno1)) (reno_segments (Reno.packets reno2)))
  /\ (Vegas.last_ack vegas1 = 2040
      /\ map fst (vegas_segments (Vegas.packets vegas1)) = [1020]
      /\ map fst (vegas_segments (Vegas.packets vegas2)) = [1020]
      /\ ~ cumulative_ack_applied (ack_number d)
             (vegas_segments (Vegas.packets vegas1)) (vegas_segments (Vegas.packets vegas2))).
Proof.
  intros tm file d reno0 reno1 reno2 vegas0 vegas1 vegas2.
  assert (Hno : forall (after : list segment) (rest : list Z),
            map fst after = 1020 :: rest ->
            forall before, ~ cumulative_ack_applied 2040 before after).
  { intros after rest Hmap before (_ & Hall).
    destruct after as [|sg after]; [discriminate Hmap|].
    cbn [map] in Hmap. injection Hmap as Hsg _.
    apply Forall_inv in Hall. lia. }
  assert (Hd : ack_number d = 2040) by (vm_compute; reflexivity).
  assert (Hr : map fst (reno_segments (Reno.packets reno2)) = [1020; 2040])
    by (vm_compute; reflexivity).
  assert (Hv : map fst (vegas_segments (Vegas.packets vegas2)) = [1020])
    by (vm_compute; reflexivity).
  split.
  - split; [exact Hd|]. split; [vm_compute; reflexivity|]. split; [vm_compute; reflexivity|].
    split; [exact Hr|]. rewrite Hd. exact (Hno _ _ Hr _).
  - split; [vm_compute; reflexivity|]. split; [vm_compute; reflexivity|].
    split; [exact Hv|]. rewrite Hd. exact (Hno _ _ Hv _).
Qed.

(** ** Sequence numbers on the wire *)

Lemma Z_of_byte_of_Z (z : Z) : Py.Z_of_byte (Py.byte_of_Z z) = z mod 256.
Proof.
  unfold Py.Z_of_byte, Py.byte_of_Z.
  assert (Hr : 0 <= z mod 256 < 256) by (apply Z.mod_pos_bound; lia).
  destruct (Byte.of_N (Z.to_N (z mod 256))) as [b|] eqn:E.
  - apply Byte.to_of_N in E. rewrite E. apply Z2N.id. lia.
  - apply Byte.of_N_None_iff in E. lia.
Qed.

Lemma be_value_app (bs : list byte) (b : byte) :
  Py.be_value (bs ++ [b]) = Py.be_value bs * 256 + Py.Z_of_byte b.
Proof. unfold Py.be_value. rewrite fold_left_app. reflexivity. Qed.

Lemma be_value_be_bytes (n : nat) (u : Z) :
  0 <= u < 256 ^ Z.of_nat n -> Py.be_value (Py.be_bytes n u) = u.
Proof.
  revert u. induction n as [|n IH]; intros u Hu.
  - cbn in *. lia.
  - cbn [Py.be_bytes]. rewrite be_value_app, Z_of_byte_of_Z, IH.
    + pose proof (Z.div_mod u 256). lia.
    + rewrite Nat2Z.inj_succ, Z.pow_succ_r in Hu by lia.
      split; [apply Z.div_pos; lia|]. apply Z.div_lt_upper_bound; lia.
Qed.

Lemma pow_256 (n : nat) : 256 ^ Z.of_nat n = 2 ^ (8 * Z.of_nat n).
Proof. rewrite Z.pow_mul_r by lia. reflexivity. Qed.

Lemma from_bytes_to_bytes (n : nat) (z : Z) (bs : list byte) :
  Py.to_bytes n z = Py.Ok bs -> Py.from_bytes bs = z.
Proof.
  intros H. pose proof (to_bytes_length n z bs H) as Hlen.
  unfold Py.to_bytes in H. cbv zeta in H.
  destruct ((- 2 ^ (8 * Z.of_nat n - 1) <=? z) && (z <? 2 ^ (8 * Z.of_nat n - 1))) eqn:Hrange;
    [|discriminate H].
  assert (Hbs : bs = Py.be_bytes n (z mod 2 ^ (8 * Z.of_nat n))) by congruence.
  clear H. apply andb_prop in Hrange. destruct Hrange as (Hlo & Hhi).
  apply Z.leb_le in Hlo. apply Z.ltb_lt in Hhi.
  destruct n as [|n].
  { cbn in Hlo, Hhi. lia. }
  unfold Py.from_bytes. cbv zeta. rewrite Hlen. clear Hlen. subst bs.
  set (w := 8 * Z.of_nat (S n)) in *.
  assert (Hw : 1 <= w) by (unfold w; lia).
  assert (Hpow : 2 ^ w = 2 * 2 ^ (w - 1)).
  { replace w with (Z.succ (w - 1)) at 1 by lia. apply Z.pow_succ_r. lia. }
  assert (Hpos : 0 < 2 ^ (w - 1)) by (apply Z.pow_pos_nonneg; lia).
  replace (w =? 0) with false by (symmetry; apply Z.eqb_neq; lia).
  rewrite be_value_be_bytes
    by (rewrite pow_256; fold w; apply Z.mod_pos_bound; lia).
  destruct (Z_lt_le_dec z 0) as [Hneg|Hnonneg].
  - assert (Hmod : z mod 2 ^ w = z + 2 ^ w).
    { symmetry. apply Z.mod_unique with (q := -1); lia. }
    rewrite Hmod. replace (z + 2 ^ w <? 2 ^ (w - 1)) with false
      by (symmetry; apply Z.ltb_ge; lia).
    lia.
  - rewrite Z.mod_small by lia.
    replace (z <? 2 ^ (w - 1)) with true by (symmetry; apply Z.ltb_lt; lia).
    reflexivity.
Qed.

Lemma to_bytes_in_range (n : nat) (z : Z) :
  - 2 ^ (8 * Z.of_nat n - 1) <= z < 2 ^ (8 * Z.of_nat n - 1) ->
  exists bs, Py.to_bytes n z = Py.Ok bs.
Proof.
  intros (Hlo & Hhi). unfold Py.to_bytes. cbv zeta.
  replace (- 2 ^ (8 * Z.of_nat n - 1) <=? z) with true by (symmetry; apply Z.leb_le; lia).
  replace (z <? 2 ^ (8 * Z.of_nat n - 1)) with true by (symmetry; apply Z.ltb_lt; lia).
  eexists. reflexivity.
Qed.

Lemma seq_id_header (z : Z) :
  - 2 ^ 31 <= z < 2 ^ 31 ->
  exists hdr, Py.to_bytes (Z.to_nat SEQ_ID_SIZE) z = Py.Ok hdr /\ length hdr = 4%nat.
Proof.
  intros Hz. destruct (to_bytes_in_range (Z.to_nat SEQ_ID_SIZE) z) as (hdr & H).
  - exact Hz.
  - exists hdr. split; [exact H | exact (to_bytes_length _ _ _ H)].
Qed.

Lemma slice_to_header (hdr rest : list byte) :
  length hdr = 4%nat -> slice_to SEQ_ID_SIZE (hdr ++ rest) = hdr.
Proof.
  intros Hlen. unfold slice_to. change (Z.to_nat SEQ_ID_SIZE) with 4%nat.
  rewrite <- Hlen, firstn_app, Nat.sub_diag, firstn_all. cbn [firstn]. apply app_nil_r.
Qed.

Lemma ack_number_header (z : Z) (hdr rest : list byte) :
  Py.to_bytes (Z.to_nat SEQ_ID_SIZE) z = Py.Ok hdr -> ack_number (hdr ++ rest) = z.
Proof.
  intros H. unfold ack_number.
  rewrite (slice_to_header hdr rest (to_bytes_length _ _ _ H)).
  exact (from_bytes_to_bytes _ _ _ H).
Qed.


(** ** Stop and wait against a peer that answers every datagram *)















(** ** The fixed window against a peer that acknowledges every segment *)

Lemma fp_read_nil : fp_read MESSAGE_SIZE [] = ([], []).
Proof. reflexivity. Qed.

Lemma fp_read_nonempty (fp chunk rest : list byte) :
  fp_read MESSAGE_SIZE fp = (chunk, rest) -> fp <> [] -> chunk <> [].
Proof.
  intros Hread Hne Hnil. apply fp_read_spec in Hread.
  destruct Hread as (Happ & _ & Hshort & _). subst chunk.
  cbn [app] in Happ. assert (H : rest = []) by (apply Hshort; cbn; lia). congruence.
Qed.

Lemma chunk_acks_fuel (n : nat) :
  forall (m : nat) (seq : Z) (fp : list byte),
    (length fp <= n)%nat -> (length fp <= m)%nat ->
    chunk_acks n seq fp = chunk_acks m seq fp.
Proof.
  induction n as [|n IH]; intros m seq fp Hn Hm.
  - destruct fp; [|cbn in Hn; lia]. destruct m; reflexivity.
  - destruct m as [|m].
    + destruct fp; [reflexivity | cbn in Hm; lia].
    + cbn [chunk_acks]. destruct (fp_read MESSAGE_SIZE fp) as [chunk rest] eqn:Hread.
      destruct chunk as [|b chunk]; [reflexivity|].
      apply fp_read_spec in Hread. destruct Hread as (Happ & _).
      assert (Hl : length fp = (S (length chunk) + length rest)%nat).
      { rewrite Happ, length_app. reflexivity. }
      f_equal. apply IH; lia.
Qed.

Lemma chunk_acks_read (seq : Z) (fp chunk rest : list byte) :
  fp_read MESSAGE_SIZE fp = (chunk, rest) ->
  chunk <> [] ->
  chunk_acks (length fp) seq fp
  = (seq + Py.len chunk) :: chunk_acks (length rest) (seq + Py.len chunk) rest.
Proof.
  intros Hread Hne.
  pose proof (fp_read_spec fp chunk rest Hread) as (Happ & _).
  assert (Hl : length fp = (length chunk + length rest)%nat).
  { rewrite Happ at 1. apply length_app. }
  destruct chunk as [|b chunk]; [contradiction Hne; reflexivity|].
  destruct (length fp) as [|n] eqn:En; [cbn in Hl; lia|].
  cbn [chunk_acks]. rewrite Hread. f_equal.
  apply chunk_acks_fuel; cbn [length] in Hl; lia.
Qed.

Lemma chunk_acks_nil (seq : Z) (fp : list byte) :
  chunk_acks (length fp) seq fp = [] -> fp = [].
Proof.
  intros H. destruct fp as [|b fp]; [reflexivity|].
  destruct (fp_read MESSAGE_SIZE (b :: fp)) as [chunk rest] eqn:Hread.
  rewrite (chunk_acks_read seq _ chunk rest Hread) in H; [discriminate H|].
  apply (fp_read_nonempty _ _ _ Hread). discriminate.
Qed.








Lemma fixed_fill_window_idle (time_at : nat -> Q) (s : FixedWindow.Sender) :
  FixedWindow.curr_state s <> FixedWindow.SENDING_DATA ->
  FixedWindow.fill_window time_at s = Py.Ok s.
Proof.
  intros Hstate. unfold FixedWindow.fill_window.
  destruct (FixedWindow.fill_fuel s); cbn [FixedWindow.fill_loop]; [reflexivity|].
  unfold FixedWindow.fill_cond.
  replace (FixedWindow.State_eqb (FixedWindow.curr_state s) FixedWindow.SENDING_DATA)
    with false.
  - rewrite andb_false_r. reflexivity.
  - destruct (FixedWindow.curr_state s); try reflexivity. contradiction Hstate. reflexivity.
Qed.



(** ** Reno: [cwnd] and [ssthresh] in every block *)

Lemma max_at_least_one (a : Q) : (1 <= Py.max a 1)%Q.
Proof.
  unfold Py.max. destruct (Qle_bool 1 a) eqn:E; [|apply Qle_refl].
  apply Qle_bool_iff. exact E.
Qed.

Lemma int_nonneg (x : Q) : (0 <= x)%Q -> 0 <= Py.int x.
Proof.
  intros Hx. unfold Py.int. apply Z.quot_pos; [|lia].
  unfold Qle in Hx. cbn in Hx. lia.
Qed.

Lemma reno_timeout_reset_cwnd_ok (s : Reno.Sender) : reno_cwnd_ok (Reno.timeout_reset s).
Proof.
  unfold reno_cwnd_ok, Reno.timeout_reset. reno_simpl.
  split; [apply Qle_refl | apply max_at_least_one].
Qed.

Lemma reno_fill_body_cwnd_ok (s1 s2 : Reno.Sender) (go : bool) :
  Reno.fill_body s1 = Py.Ok (s2, go) -> reno_cwnd_ok s1 -> reno_cwnd_ok s2.
Proof.
  unfold Reno.fill_body, reno_cwnd_ok. intros H Hok.
  destruct (fp_read MESSAGE_SIZE (Reno.fp s1)) as [chunk rest].
  reno_simpl_in H.
  destruct (Py.to_bytes _ _) as [hdr|]; cbn [Py.bind] in H; [|discriminate H].
  destruct chunk; injection H as <- _; reno_simpl; exact Hok.
Qed.

Lemma reno_send_one_cwnd (time_at : nat -> Q) (p p' : Reno.Packet) (s s' : Reno.Sender) :
  Reno.send_one time_at p s = (p', s') ->
  Reno.cwnd s' = Reno.cwnd s /\ Reno.ssthresh s' = Reno.ssthresh s.
Proof.
  unfold Reno.send_one. cbn [Reno.time_time]. intros H. frame.
Qed.

Lemma reno_send_loop_cwnd (time_at : nat -> Q) (todo ps : list Reno.Packet)
  (s s' : Reno.Sender) :
  Reno.send_loop time_at todo s = (ps, s') ->
  Reno.cwnd s' = Reno.cwnd s /\ Reno.ssthresh s' = Reno.ssthresh s.
Proof.
  revert ps s s'. induction todo as [|p rest IH]; intros ps s s' H; cbn [Reno.send_loop] in H.
  - step_ok. split; reflexivity.
  - destruct (Reno.send_one time_at p s) as [p' s1] eqn:E1.
    apply reno_send_one_cwnd in E1. destruct E1 as (C1 & T1).
    destruct (Reno.packets_in_transit s1 =? Py.int (Reno.cwnd s1)).
    + step_ok. split; assumption.
    + destruct (Reno.send_loop time_at rest s1) as [rest' s2] eqn:E2.
      apply IH in E2. destruct E2 as (C2 & T2). step_ok. split; congruence.
Qed.

Lemma reno_send_step_cwnd_ok (time_at : nat -> Q) (s s' : Reno.Sender) :
  Reno.send_step time_at s = Py.Ok s' -> reno_cwnd_ok s -> reno_cwnd_ok s'.
Proof.
  unfold Reno.send_step, Reno.finack_packet, reno_cwnd_ok. intros H Hok.
  destruct (Reno.packets s) as [|p rest] eqn:Hps.
  - repeat step_ok; exact Hok.
  - destruct (Py.int (Reno.cwnd s) - Reno.packets_in_transit s >? 0).
    + destruct (Reno.send_loop time_at (p :: rest) s) as [ps s1] eqn:E.
      apply reno_send_loop_cwnd in E. destruct E as (C & T). step_ok.
      reno_simpl. rewrite C, T. exact Hok.
    + repeat step_ok; exact Hok.
Qed.

Lemma reno_clear_in_transit_cwnd (todo ps : list Reno.Packet) (s s' : Reno.Sender) :
  Reno.clear_in_transit todo s = (ps, s') ->
  Reno.cwnd s' = Reno.cwnd s /\ Reno.ssthresh s' = Reno.ssthresh s.
Proof.
  revert ps s s'. induction todo as [|p rest IH]; intros ps s s' H;
    cbn [Reno.clear_in_transit] in H.
  - step_ok. split; reflexivity.
  - destruct (Reno.p_in_transit p).
    + destruct (Reno.clear_in_transit rest (Reno.bind_names p s)) as [rest' s1] eqn:E.
      apply IH in E. step_ok. exact E.
    + step_ok. split; reflexivity.
Qed.

Lemma reno_on_duplicate_ack_cwnd_ok (s : Reno.Sender) :
  reno_cwnd_ok s -> reno_cwnd_ok (state_of (Reno.on_duplicate_ack s)).
Proof.
  intros Hok. unfold Reno.on_duplicate_ack. cbv zeta. reno_simpl.
  destruct (Reno.duplicate_acks s + 1 =? 3); cbn [state_of]; [|exact Hok].
  destruct (Reno.clear_in_transit _ _) as [ps s1] eqn:E.
  apply reno_clear_in_transit_cwnd in E. destruct E as (C & T).
  cbn [state_of]. unfold reno_cwnd_ok. reno_simpl. rewrite C, T. reno_simpl.
  split; apply max_at_least_one.
Qed.

Lemma reno_remove_acked_cwnd_ok (ack_id : Z) (sample_RTT : Q) (todo ps : list Reno.Packet)
  (s s' : Reno.Sender) :
  Reno.remove_acked ack_id sample_RTT todo s = Py.Ok (ps, s') ->
  reno_cwnd_ok s -> reno_cwnd_ok s'.
Proof.
  revert s. induction todo as [|p rest IH]; intros s H Hok; cbn [Reno.remove_acked] in H.
  - step_ok. exact Hok.
  - destruct (Reno.p_seq_id p <? ack_id); [|step_ok; exact Hok].
    reno_simpl_in H. destruct Hok as (Hc & Ht).
    destruct (Reno.State_eqb (Reno.curr_state s) Reno.SLOW_START).
    + cbn [Py.bind] in H. apply IH in H; [exact H|].
      unfold reno_cwnd_ok. reno_simpl. split; [lra | exact Ht].
    + destruct (Reno.State_eqb (Reno.curr_state s) Reno.CONGESTION_AVOIDANCE).
      * unfold Py.truediv in H. destruct (Qeq_bool (Reno.cwnd s) 0) eqn:Ez;
          cbn [Py.bind] in H; [discriminate H|].
        apply IH in H; [exact H|].
        unfold reno_cwnd_ok. reno_simpl. split; [|exact Ht].
        assert (Hinv : (0 <= 1 / Reno.cwnd s)%Q).
        { apply Qle_shift_div_l; lra. }
        lra.
      * cbn [Py.bind] in H. apply IH in H; [exact H|].
        unfold reno_cwnd_ok. reno_simpl. split; assumption.
Qed.

Lemma reno_on_new_ack_cwnd_ok (time_at : nat -> Q) (ack_id : Z) (s s' : Reno.Sender) :
  Reno.on_new_ack time_at ack_id s = Py.Ok s' -> reno_cwnd_ok s -> reno_cwnd_ok s'.
Proof.
  unfold Reno.on_new_ack, Reno.elapsed_since_send_time. cbv zeta. reno_simpl.
  intros H Hok.
  destruct (Reno.send_time s) as [[t|]|]; cbn [Py.bind] in H; try discriminate H.
  destruct (Reno.remove_acked _ _ _ _) as [[ps s1]|] eqn:E; cbn [Py.bind] in H;
    [|discriminate H].
  apply reno_remove_acked_cwnd_ok in E; [|exact Hok].
  injection H as <-. unfold reno_cwnd_ok in *. reno_simpl. exact E.
Qed.

Lemma reno_check_timeout_cwnd_ok (time_at : nat -> Q) (s : Reno.Sender) :
  reno_cwnd_ok s -> reno_cwnd_ok (Reno.check_timeout time_at s).
Proof.
  intros Hok. unfold Reno.check_timeout.
  destruct (Reno.packets s) as [|p rest]; [exact Hok|].
  destruct (Reno.p_send_time p) as [t|]; [|exact Hok].
  cbn [Reno.time_time].
  destruct (Qle_bool _ _); [apply reno_timeout_reset_cwnd_ok | exact Hok].
Qed.

Lemma reno_clean_cwnd_cwnd_ok (s : Reno.Sender) :
  reno_cwnd_ok s -> reno_cwnd_ok (Reno.clean_cwnd s).
Proof.
  intros (Hc & Ht). unfold Reno.clean_cwnd. cbv zeta.
  assert (H1 : reno_cwnd_ok
                 (if Py.int (Reno.cwnd s + (1 # 10)) >? Py.int (Reno.cwnd s)
                  then Reno.set_cwnd (inject_Z (Py.int (Reno.cwnd s + (1 # 10)))) s else s)).
  { destruct (Py.int (Reno.cwnd s + (1 # 10)) >? Py.int (Reno.cwnd s)) eqn:E;
      [|split; assumption].
    unfold reno_cwnd_ok. reno_simpl. split; [|exact Ht].
    apply Z.gtb_lt in E. pose proof (int_nonneg (Reno.cwnd s)) as Hn.
    change 1%Q with (inject_Z 1). rewrite <- Zle_Qle.
    assert (0 <= Py.int (Reno.cwnd s)) by (apply Hn; lra). lia. }
  destruct (_ && _); [|exact H1].
  destruct H1 as (_ & Ht1). unfold reno_cwnd_ok. reno_simpl. split; exact Ht1.
Qed.

Lemma reno_iteration_cwnd_ok (time_at : nat -> Q) (ev : recv_event) (s : Reno.Sender)
  (f : flow Reno.Sender) :
  Reno.iteration time_at ev s = Py.Ok f -> reno_cwnd_ok s -> reno_cwnd_ok (state_of f).
Proof.
  unfold Reno.iteration, Reno.before_recv, Reno.fill_window. intros H Hok.
  destruct (Reno.fill_loop (Reno.fill_fuel s) s) as [s0|] eqn:E0; cbn [Py.bind] in H;
    [|discriminate H].
  apply (reno_fill_loop_inv reno_cwnd_ok _ _ _ reno_fill_body_cwnd_ok) in E0; [|exact Hok].
  destruct (Reno.send_step time_at s0) as [s1|] eqn:E1; cbn [Py.bind] in H; [|discriminate H].
  apply reno_send_step_cwnd_ok in E1; [|exact E0].
  destruct ev as [d|]; cbn [Reno.after_recv] in H.
  - unfold Reno.on_recv in H.
    destruct (_ =? Reno.last_ack s1).
    + cbn [Py.bind] in H. pose proof (reno_on_duplicate_ack_cwnd_ok s1 E1) as Hdup.
      destruct (Reno.on_duplicate_ack s1) as [s2|s2|s2]; injection H as <-;
        cbn [state_of] in *; try exact Hdup.
      apply reno_clean_cwnd_cwnd_ok, reno_check_timeout_cwnd_ok. exact Hdup.
    + destruct (Reno.on_new_ack time_at _ s1) as [s2|] eqn:E2; cbn [Py.bind] in H;
        [|discriminate H].
      apply reno_on_new_ack_cwnd_ok in E2; [|exact E1].
      injection H as <-. cbn [state_of].
      apply reno_clean_cwnd_cwnd_ok, reno_check_timeout_cwnd_ok. exact E2.
  - injection H as <-. unfold Reno.on_socket_timeout.
    destruct (Reno.State_eqb _ _); cbn [Reno.time_time state_of].
    + exact E1.
    + apply reno_timeout_reset_cwnd_ok.
Qed.

(** ** Reno against a peer that acknowledges every segment *)











Lemma reno_pending_nil (s : Reno.Sender) :
  reno_pending s = [] -> Reno.packets s = [] /\ Reno.fp s = [].
Proof.
  unfold reno_pending. intros H. apply app_eq_nil in H. destruct H as (Hw & Hf). split.
  - destruct (Reno.packets s); [reflexivity | discriminate Hw].
  - exact (chunk_acks_nil _ _ Hf).
Qed.












Lemma reno_segments_seq_ids (ps : list Reno.Packet) :
  map Reno.p_seq_id ps = map fst (reno_segments ps).
Proof. unfold reno_segments. rewrite map_map. reflexivity. Qed.




















(** ** Termination of a transfer without loss *)





(** * Further properties of the code *)

(** ** Sequence numbers in four bytes *)

(** X1.  A sequence number that fits four signed bytes is written as four
    bytes, and the ACK number read off any datagram that starts with these
    bytes is that number again. *)
Theorem seq_id_wire_round_trip (z : Z) :
  - 2 ^ 31 <= z < 2 ^ 31 ->
  exists hdr,
    Py.to_bytes (Z.to_nat SEQ_ID_SIZE) z = Py.Ok hdr
    /\ length hdr = 4%nat
    /\ forall rest, ack_number (hdr ++ rest) = z.
Proof.
  intros Hz. destruct (seq_id_header z Hz) as (hdr & Hhdr & Hlen).
  exists hdr. split_all; [exact Hhdr | exact Hlen|].
  intros rest. exact (ack_number_header z hdr rest Hhdr).
Qed.

Lemma seq_id_wire_round_trip_witness :
  - 2 ^ 31 <= -1 < 2 ^ 31
  /\ exists hdr,
       Py.to_bytes (Z.to_nat SEQ_ID_SIZE) (-1) = Py.Ok hdr
       /\ length hdr = 4%nat
       /\ forall rest, ack_number (hdr ++ rest) = -1.
Proof.
  assert (H : - 2 ^ 31 <= -1 < 2 ^ 31) by lia.
  split; [exact H | exact (seq_id_wire_round_trip (-1) H)].
Defined.

Lemma to_bytes_out_of_range (n : nat) (z : Z) :
  ~ (- 2 ^ (8 * Z.of_nat n - 1) <= z < 2 ^ (8 * Z.of_nat n - 1)) ->
  Py.to_bytes n z = Py.Raise Py.OverflowError.
Proof.
  intros Hz. unfold Py.to_bytes. cbv zeta.
  destruct (- 2 ^ (8 * Z.of_nat n - 1) <=? z) eqn:Hlo; [|reflexivity].
  destruct (z <? 2 ^ (8 * Z.of_nat n - 1)) eqn:Hhi; [|reflexivity].
  apply Z.leb_le in Hlo. apply Z.ltb_lt in Hhi. contradiction Hz. split; assumption.
Qed.

Lemma ceiling_fuel (n : nat) (c : Q) :
  Py.lt (inject_Z (Z.of_nat n)) c = true -> (0 < Z.to_nat (Qceiling c) - n)%nat.
Proof.
  intros H. apply py_lt_true in H.
  pose proof (Qle_ceiling c) as Hc.
  assert (Hlt : (inject_Z (Z.of_nat n) < inject_Z (Qceiling c))%Q) by lra.
  rewrite <- Zlt_Qlt in Hlt. lia.
Qed.

(** X2.  In the three senders that keep a window, once the next sequence
    number no longer fits four signed bytes (which takes a file of 2 GiB or
    more), a pass of the main loop whose window fill runs (the window has
    room and the end of the file has not been met) dies with [OverflowError]
    before anything is sent or received, also when the file is exhausted:
    the header is encoded before the chunk is looked at.  (The sequence
    number of the stop-and-wait sender is always an ACK number read off four
    bytes, so it never leaves the range.) *)
Theorem seq_id_overflow_ends_the_sender (time_at : nat -> Q) (z : Z) (ev : recv_event) :
  ~ (- 2 ^ 31 <= z < 2 ^ 31) ->
  (forall s, FixedWindow.seq_id s = z ->
             FixedWindow.fill_cond s = true ->
             FixedWindow.iteration time_at ev s = Py.Raise Py.OverflowError)
  /\ (forall s, Reno.seq_id_global s = z ->
                Reno.fill_cond s = true ->
                Reno.iteration time_at ev s = Py.Raise Py.OverflowError)
  /\ (forall s, Vegas.seq_id_global s = z ->
                Vegas.fill_cond s = true ->
                Vegas.iteration time_at ev s = Py.Raise Py.OverflowError).
Proof.
  intros Hz.
  assert (Hraise : Py.to_bytes (Z.to_nat SEQ_ID_SIZE) z = Py.Raise Py.OverflowError)
    by (apply to_bytes_out_of_range; exact Hz).
  split_all; intros s Hs Hcond.
  - unfold FixedWindow.iteration, FixedWindow.before_recv, FixedWindow.fill_window.
    assert (Hfuel : (0 < FixedWindow.fill_fuel s)%nat).
    { unfold FixedWindow.fill_fuel. unfold FixedWindow.fill_cond in Hcond.
      apply andb_prop in Hcond. destruct Hcond as (Hlen & _).
      apply Z.ltb_lt in Hlen. unfold Py.len in Hlen. lia. }
    destruct (FixedWindow.fill_fuel s) as [|fuel]; [lia|].
    cbn [FixedWindow.fill_loop]. rewrite Hcond.
    unfold FixedWindow.fill_body.
    destruct (fp_read MESSAGE_SIZE (FixedWindow.fp s)) as [chunk rest].
    cbn [FixedWindow.seq_id FixedWindow.set_fp]. rewrite Hs, Hraise. reflexivity.
  - unfold Reno.iteration, Reno.before_recv, Reno.fill_window.
    assert (Hfuel : (0 < Reno.fill_fuel s)%nat).
    { unfold Reno.fill_fuel. unfold Reno.fill_cond in Hcond.
      apply andb_prop in Hcond. destruct Hcond as (Hlen & _).
      apply ceiling_fuel. exact Hlen. }
    destruct (Reno.fill_fuel s) as [|fuel]; [lia|].
    cbn [Reno.fill_loop]. rewrite Hcond.
    unfold Reno.fill_body.
    destruct (fp_read MESSAGE_SIZE (Reno.fp s)) as [chunk rest].
    cbn [Reno.seq_id_global Reno.set_fp]. rewrite Hs, Hraise. reflexivity.
  - unfold Vegas.iteration, Vegas.before_recv, Vegas.fill_window.
    assert (Hfuel : (0 < Vegas.fill_fuel s)%nat).
    { unfold Vegas.fill_fuel. unfold Vegas.fill_cond in Hcond.
      apply andb_prop in Hcond. destruct Hcond as (Hlen & _).
      apply ceiling_fuel. exact Hlen. }
    destruct (Vegas.fill_fuel s) as [|fuel]; [lia|].
    cbn [Vegas.fill_loop]. rewrite Hcond.
    unfold Vegas.fill_body.
    destruct (fp_read MESSAGE_SIZE (Vegas.fp s)) as [chunk rest].
    cbn [Vegas.seq_id_global Vegas.set_fp]. rewrite Hs, Hraise. reflexivity.
Qed.

Lemma seq_id_overflow_ends_the_sender_witness :
  let tm := steady_clock 1 in
  ~ (- 2 ^ 31 <= 2 ^ 31 < 2 ^ 31)
  /\ FixedWindow.iteration tm SocketTimeout
       (FixedWindow.set_seq_id (2 ^ 31) (FixedWindow.init tm []))
     = Py.Raise Py.OverflowError
  /\ Reno.iteration tm SocketTimeout (Reno.set_seq_id_global (2 ^ 31) (Reno.init tm []))
     = Py.Raise Py.OverflowError
  /\ Vegas.iteration tm SocketTimeout (Vegas.set_seq_id_global (2 ^ 31) (Vegas.init tm []))
     = Py.Raise Py.OverflowError.
Proof.
  intros tm.
  assert (H : ~ (- 2 ^ 31 <= 2 ^ 31 < 2 ^ 31)) by lia.
  destruct (seq_id_overflow_ends_the_sender tm (2 ^ 31) SocketTimeout H)
    as (Hfixed & Hreno & Hvegas).
  split_all.
  - exact H.
  - apply Hfixed; reflexivity.
  - apply Hreno; reflexivity.
  - apply Hvegas; reflexivity.
Defined.

(** ** The metrics report *)

Lemma sum_from (l : list Q) (a : Q) : (fold_left Qplus l a == a + Metrics.sum l)%Q.
Proof.
  unfold Metrics.sum. revert a. induction l as [|x l IH]; intros a; cbn [fold_left].
  - ring.
  - rewrite (IH (a + x)%Q), (IH (0 + x)%Q). ring.
Qed.

Lemma sum_cons (x : Q) (l : list Q) : (Metrics.sum (x :: l) == x + Metrics.sum l)%Q.
Proof. unfold Metrics.sum at 1. cbn [fold_left]. rewrite sum_from. ring. Qed.

Lemma len_positive {A : Type} (l : list A) : l <> [] -> (0 < inject_Z (Py.len l))%Q.
Proof.
  intros Hne. change 0%Q with (inject_Z 0). rewrite <- Zlt_Qlt.
  destruct l; [contradiction Hne; reflexivity|]. unfold Py.len. cbn [length]. lia.
Qed.

Lemma average_nil : Metrics.average [] = 0%Q.
Proof. reflexivity. Qed.

Lemma average_nonempty (l : list Q) :
  l <> [] -> Metrics.average l = (Metrics.sum l / inject_Z (Py.len l))%Q.
Proof.
  intros Hne. unfold Metrics.average.
  replace (0 <? Py.len l) with true; [reflexivity|].
  symmetry. apply Z.ltb_lt. destruct l; [contradiction Hne; reflexivity|].
  unfold Py.len. cbn [length]. lia.
Qed.

Lemma average_nonneg (l : list Q) :
  Forall (fun d => 0 <= d)%Q l -> (0 <= Metrics.average l)%Q.
Proof.
  intros Hall. destruct l as [|x l]; [rewrite average_nil; apply Qle_refl|].
  rewrite average_nonempty by discriminate.
  apply Qle_shift_div_l; [apply len_positive; discriminate|].
  rewrite Qmult_0_l.
  assert (Hsum : forall l', Forall (fun d => 0 <= d)%Q l' -> (0 <= Metrics.sum l')%Q).
  { induction 1 as [|y l' Hy _ IH]; [unfold Metrics.sum; cbn; apply Qle_refl|].
    rewrite sum_cons. lra. }
  apply Hsum. exact Hall.
Qed.

Lemma jitter_vals_nonneg (l : list Q) : Forall (fun j => 0 <= j)%Q (Metrics.jitter_vals l).
Proof.
  induction l as [|a l IH]; [constructor|].
  destruct l as [|b l]; [constructor|].
  change (Metrics.jitter_vals (a :: b :: l))
    with (Py.abs (b - a) :: Metrics.jitter_vals (b :: l)).
  constructor; [apply Qabs_nonneg | exact IH].
Qed.

Lemma jitter_vals_length (l : list Q) :
  length (Metrics.jitter_vals l) = pred (length l).
Proof.
  induction l as [|a l IH]; [reflexivity|].
  destruct l as [|b l]; [reflexivity|].
  change (Metrics.jitter_vals (a :: b :: l))
    with (Py.abs (b - a) :: Metrics.jitter_vals (b :: l)).
  cbn [length pred] in *. rewrite IH. reflexivity.
Qed.

Lemma lt_zero_true (x : Q) : Py.lt 0 x = true <-> (0 < x)%Q.
Proof.
  unfold Py.lt. destruct (Qle_bool x 0) eqn:E; cbn [negb].
  - apply Qle_bool_iff in E. split; [discriminate | intros H; lra].
  - split; [intros _ | reflexivity].
    destruct (Qlt_le_dec 0 x) as [H|H]; [exact H|].
    apply Qle_bool_iff in H. congruence.
Qed.

Lemma lt_zero_false (x : Q) : (x <= 0)%Q -> Py.lt 0 x = false.
Proof.
  intros H. destruct (Py.lt 0 x) eqn:E; [|reflexivity].
  apply lt_zero_true in E. lra.
Qed.

(** X3.  The report never shows a negative number: with a byte counter and
    delay samples that are not negative, the throughput, the average delay,
    the average jitter and the metric are all at least 0. *)
Theorem report_is_nonnegative (total_bytes : Z) (packet_delays : list Q) (b e : Q)
  (r : Metrics.Report) :
  0 <= total_bytes ->
  Forall (fun d => 0 <= d)%Q packet_delays ->
  Metrics.report total_bytes packet_delays (Some b) (Some e) = Py.Ok r ->
  (0 <= Metrics.throughput r)%Q
  /\ (0 <= Metrics.average_delay r)%Q
  /\ (0 <= Metrics.average_jitter r)%Q
  /\ (0 <= Metrics.metric r)%Q.
Proof.
  intros Htotal Hdelays H. unfold Metrics.report in H. cbv zeta in H. injection H as <-.
  cbn [Metrics.throughput Metrics.average_delay Metrics.average_jitter Metrics.metric].
  pose proof (average_nonneg packet_delays Hdelays) as Hdelay.
  pose proof (average_nonneg _ (jitter_vals_nonneg packet_delays)) as Hjitter.
  assert (Hthr : (0 <= (if Py.lt 0 (e - b) then inject_Z total_bytes / (e - b) else 0))%Q).
  { destruct (Py.lt 0 (e - b)) eqn:E; [|apply Qle_refl].
    apply lt_zero_true in E. apply Qle_shift_div_l; [exact E|].
    rewrite Qmult_0_l. change 0%Q with (inject_Z 0). rewrite <- Zle_Qle. exact Htotal. }
  split_all; try assumption.
  destruct (Py.lt 0 (Metrics.average (Metrics.jitter_vals packet_delays))) eqn:Ej;
    [|apply Qle_refl].
  destruct (Py.lt 0 (Metrics.average packet_delays)) eqn:Ed; [|apply Qle_refl].
  cbn [andb]. apply lt_zero_true in Ej. apply lt_zero_true in Ed.
  set (thr := (if Py.lt 0 (e - b) then inject_Z total_bytes / (e - b) else 0)%Q) in *.
  assert (H1 : (0 <= (2 # 10) * (thr / 2000))%Q).
  { apply Qmult_le_0_compat; [lra|]. apply Qle_shift_div_l; lra. }
  assert (H2 : (0 <= (1 # 10) / Metrics.average (Metrics.jitter_vals packet_delays))%Q).
  { apply Qle_shift_div_l; [exact Ej | lra]. }
  assert (H3 : (0 <= (8 # 10) / Metrics.average packet_delays)%Q).
  { apply Qle_shift_div_l; [exact Ed | lra]. }
  lra.
Qed.

Lemma report_is_nonnegative_witness :
  let r := value_or (Metrics.mkReport 0 0 0 0)
             (Metrics.report 2048 [1 # 2; 3 # 2]%Q (Some 0%Q) (Some 4%Q)) in
  (0 <= Metrics.throughput r)%Q
  /\ (0 <= Metrics.average_delay r)%Q
  /\ (0 <= Metrics.average_jitter r)%Q
  /\ (0 <= Metrics.metric r)%Q.
Proof.
  intros r.
  apply (report_is_nonnegative 2048 [1 # 2; 3 # 2]%Q 0%Q 4%Q r).
  - lia.
  - repeat constructor; discriminate.
  - reflexivity.
Defined.

Lemma sum_all_zero (l : list Q) :
  Forall (fun j => j == 0)%Q l -> (Metrics.sum l == 0)%Q.
Proof.
  induction 1 as [|x l Hx _ IH]; [reflexivity|].
  rewrite sum_cons, Hx, IH. reflexivity.
Qed.

Lemma jitter_vals_steady (c : Q) (l : list Q) :
  Forall (fun d => d == c)%Q l -> Forall (fun j => j == 0)%Q (Metrics.jitter_vals l).
Proof.
  induction l as [|a l IH]; intros Hall; [constructor|].
  destruct l as [|b l]; [constructor|].
  change (Metrics.jitter_vals (a :: b :: l))
    with (Py.abs (b - a) :: Metrics.jitter_vals (b :: l)).
  inversion Hall as [|? ? Ha Hrest]; subst. inversion Hrest as [|? ? Hb _]; subst.
  constructor; [|exact (IH Hrest)].
  unfold Py.abs. rewrite Ha, Hb.
  assert (Hz : (c - c == 0)%Q) by ring. rewrite Hz. reflexivity.
Qed.

(** X4.  When all the delay samples are equal (in particular when there are
    fewer than two), the average jitter is 0 and the metric printed is 0,
    whatever the throughput and the delay. *)
Theorem steady_delays_report_metric_zero (total_bytes : Z) (packet_delays : list Q)
  (c b e : Q) (r : Metrics.Report) :
  Forall (fun d => d == c)%Q packet_delays ->
  Metrics.report total_bytes packet_delays (Some b) (Some e) = Py.Ok r ->
  (Metrics.average_jitter r == 0)%Q /\ Metrics.metric r = 0%Q.
Proof.
  intros Hall H. unfold Metrics.report in H. cbv zeta in H. injection H as <-.
  cbn [Metrics.average_jitter Metrics.metric].
  assert (Hz : (Metrics.average (Metrics.jitter_vals packet_delays) == 0)%Q).
  { destruct (Metrics.jitter_vals packet_delays) as [|j js] eqn:Ej; [reflexivity|].
    rewrite average_nonempty by discriminate. rewrite <- Ej.
    rewrite (sum_all_zero _ (jitter_vals_steady c _ Hall)). unfold Qdiv. ring. }
  split; [exact Hz|].
  assert (Hle : (Metrics.average (Metrics.jitter_vals packet_delays) <= 0)%Q)
    by (rewrite Hz; apply Qle_refl).
  rewrite (lt_zero_false _ Hle). reflexivity.
Qed.

Lemma steady_delays_report_metric_zero_witness :
  let r := value_or (Metrics.mkReport 1 1 1 1)
             (Metrics.report 4096 [1 # 4; 1 # 4; 2 # 8]%Q (Some 0%Q) (Some 2%Q)) in
  (0 < Metrics.throughput r)%Q
  /\ (Metrics.average_jitter r == 0)%Q
  /\ Metrics.metric r = 0%Q.
Proof.
  intros r. split; [reflexivity|].
  apply (steady_delays_report_metric_zero 4096 [1 # 4; 1 # 4; 2 # 8]%Q (1 # 4) 0 2 r).
  - repeat constructor.
  - reflexivity.
Defined.

(** X6.  The report raises [TypeError] exactly when [start_time] or
    [end_time] still holds [None]; with both set it is printed, and the
    throughput is [total_bytes / (end_time - start_time)] when the clock has
    advanced and 0 when it has not (no division by zero). *)
Theorem report_throughput_cases (total_bytes : Z) (packet_delays : list Q) :
  (forall st en,
     Metrics.report total_bytes packet_delays st en = Py.Raise Py.TypeError
     <-> (st = None \/ en = None))
  /\ (forall b e, exists r,
        Metrics.report total_bytes packet_delays (Some b) (Some e) = Py.Ok r
        /\ ((b < e)%Q -> Metrics.throughput r = (inject_Z total_bytes / (e - b))%Q)
        /\ ((e <= b)%Q -> Metrics.throughput r = 0%Q)).
Proof.
  split.
  - intros st en. unfold Metrics.report.
    destruct en as [e|], st as [b|]; split; intros H;
      try discriminate H; try reflexivity; try (left; reflexivity); try (right; reflexivity).
    destruct H as [H|H]; discriminate H.
  - intros b e. eexists. split; [reflexivity|].
    cbn [Metrics.throughput]. split; intros H.
    + replace (Py.lt 0 (e - b)) with true; [reflexivity|].
      symmetry. apply lt_zero_true. lra.
    + rewrite lt_zero_false by lra. reflexivity.
Qed.

(** ** The fixed window *)

Lemma fixed_fill_loop_bounded (time_at : nat -> Q) (fuel : nat) :
  forall s s' : FixedWindow.Sender,
    FixedWindow.fill_loop time_at fuel s = Py.Ok s' ->
    Py.len (FixedWindow.packets s) <= FixedWindow.WINDOW_SIZE ->
    Py.len (FixedWindow.packets s') <= FixedWindow.WINDOW_SIZE.
Proof.
  induction fuel as [|fuel IH]; intros s s' H Hle; cbn [FixedWindow.fill_loop] in H.
  - injection H as <-. exact Hle.
  - unfold FixedWindow.fill_cond in H.
    destruct (Py.len (FixedWindow.packets s) <? FixedWindow.WINDOW_SIZE) eqn:Hroom;
      cbn [andb] in H; [|injection H as <-; exact Hle].
    destruct (FixedWindow.State_eqb _ _); [|injection H as <-; exact Hle].
    destruct (FixedWindow.fill_body time_at s) as [[s1 go]|] eqn:E; cbn [Py.bind] in H;
      [|discriminate H].
    apply Z.ltb_lt in Hroom.
    apply fixed_fill_body_spec in E. destruct E as (chunk & rest & hdr & _ & _ & _ & Hcase).
    assert (H1 : Py.len (FixedWindow.packets s1) <= FixedWindow.WINDOW_SIZE).
    { destruct Hcase as [(_ & _ & Hps & _) | (_ & _ & Hps & _)]; rewrite Hps.
      - unfold Py.len in *. rewrite length_app. cbn [length]. lia.
      - exact Hle. }
    destruct go; [exact (IH s1 s' H H1) | injection H as <-; exact H1].
Qed.

Lemma fixed_remove_acked_length (time_at : nat -> Q) (ack_id : Z)
  (todo ps : list FixedWindow.Packet) (s s' : FixedWindow.Sender) :
  FixedWindow.remove_acked time_at ack_id todo s = (ps, s') ->
  (length (FixedWindow.packet_delays s') + length ps
   = length (FixedWindow.packet_delays s) + length todo)%nat.
Proof.
  revert s. induction todo as [|p rest IH]; intros s H; cbn [FixedWindow.remove_acked] in H.
  - injection H as <- <-. reflexivity.
  - destruct (FixedWindow.p_seq_id p <? ack_id); [|injection H as <- <-; reflexivity].
    cbn [FixedWindow.time_time] in H. apply IH in H. rewrite H. fixed_simpl.
    rewrite length_app. cbn [length]. lia.
Qed.

Lemma fixed_remove_acked_shorter (time_at : nat -> Q) (ack_id : Z)
  (todo ps : list FixedWindow.Packet) (s s' : FixedWindow.Sender) :
  FixedWindow.remove_acked time_at ack_id todo s = (ps, s') ->
  (length ps <= length todo)%nat.
Proof.
  revert s. induction todo as [|p rest IH]; intros s H; cbn [FixedWindow.remove_acked] in H.
  - injection H as <- _. apply le_n.
  - destruct (FixedWindow.p_seq_id p <? ack_id); [|injection H as <- _; apply le_n].
    cbn [FixedWindow.time_time] in H. apply IH in H. cbn [length]. lia.
Qed.

Lemma fixed_on_recv_shorter (time_at : nat -> Q) (d : list byte) (s s' : FixedWindow.Sender) :
  FixedWindow.on_recv time_at d s = Py.Ok s' ->
  (length (FixedWindow.packets s') <= length (FixedWindow.packets s))%nat.
Proof.
  unfold FixedWindow.on_recv, FixedWindow.finack_packet. intros H.
  destruct (FixedWindow.remove_acked time_at _ (FixedWindow.packets s) s) as [ps s1] eqn:E.
  apply fixed_remove_acked_shorter in E.
  fixed_simpl_in H.
  destruct (_ || _).
  - destruct (Py.to_bytes _ _) as [hdr|]; cbn [Py.bind] in H; [|discriminate H].
    injection H as <-. fixed_simpl. exact E.
  - injection H as <-. fixed_simpl. exact E.
Qed.

Lemma fixed_before_recv_bounded (time_at : nat -> Q) (s s' : FixedWindow.Sender) :
  FixedWindow.before_recv time_at s = Py.Ok s' ->
  Py.len (FixedWindow.packets s) <= FixedWindow.WINDOW_SIZE ->
  Py.len (FixedWindow.packets s') <= FixedWindow.WINDOW_SIZE.
Proof.
  unfold FixedWindow.before_recv, FixedWindow.fill_window.
  apply fixed_fill_loop_bounded.
Qed.

Lemma fixed_on_recv_lengths (time_at : nat -> Q) (d : list byte) (s s' : FixedWindow.Sender) :
  FixedWindow.on_recv time_at d s = Py.Ok s' ->
  (length (FixedWindow.packet_delays s') + length (FixedWindow.packets s')
   = length (FixedWindow.packet_delays s) + length (FixedWindow.packets s))%nat.
Proof.
  unfold FixedWindow.on_recv, FixedWindow.finack_packet. intros H.
  destruct (FixedWindow.remove_acked time_at _ (FixedWindow.packets s) s) as [ps s1] eqn:E.
  apply fixed_remove_acked_length in E.
  fixed_simpl_in H.
  destruct (_ || _).
  - destruct (Py.to_bytes _ _) as [hdr|]; cbn [Py.bind] in H; [|discriminate H].
    injection H as <-. fixed_simpl. exact E.
  - injection H as <-. fixed_simpl. exact E.
Qed.

(** X7.  The window of the fixed-window sender never holds more than
    [WINDOW_SIZE] (100) packets: not at the top of a pass of the main loop,
    and not when [recvfrom] is called. *)
Theorem fixed_window_never_exceeds_its_size (time_at : nat -> Q) (file : list byte)
  (s : FixedWindow.Sender) :
  fixed_reachable time_at file s ->
  Py.len (FixedWindow.packets s) <= FixedWindow.WINDOW_SIZE
  /\ (forall s1, FixedWindow.before_recv time_at s = Py.Ok s1 ->
                 Py.len (FixedWindow.packets s1) <= FixedWindow.WINDOW_SIZE).
Proof.
  intros Hreach.
  assert (Hle : Py.len (FixedWindow.packets s) <= FixedWindow.WINDOW_SIZE).
  { induction Hreach as [|s ev f _ IH Hit].
    - discriminate.
    - unfold FixedWindow.iteration in Hit.
      destruct (FixedWindow.before_recv time_at s) as [s1|] eqn:E1; cbn [Py.bind] in Hit;
        [|discriminate Hit].
      apply fixed_before_recv_bounded in E1; [|exact IH].
      destruct ev as [d|]; cbn [FixedWindow.after_recv] in Hit.
      + destruct (FixedWindow.on_recv time_at d s1) as [s2|] eqn:E2; cbn [Py.bind] in Hit;
          [|discriminate Hit].
        injection Hit as <-. cbn [state_of].
        apply fixed_on_recv_shorter in E2. unfold Py.len in *. lia.
      + injection Hit as <-. unfold FixedWindow.on_socket_timeout.
        destruct (FixedWindow.State_eqb _ _); cbn [state_of].
        * exact E1.
        * destruct (fixed_retransmit_all_spec (FixedWindow.packets s1) s1) as (_ & _ & C & _).
          rewrite C. exact E1. }
  split; [exact Hle|].
  intros s1 H. exact (fixed_before_recv_bounded time_at s s1 H Hle).
Qed.

Lemma fixed_window_never_exceeds_its_size_witness :
  let tm := steady_clock 1 in
  let file := file_of_size 2500 in
  let s := final_state (FixedWindow.init tm file)
             (FixedWindow.iteration tm SocketTimeout (FixedWindow.init tm file)) in
  length (FixedWindow.packets s) = 3%nat
  /\ Py.len (FixedWindow.packets s) <= FixedWindow.WINDOW_SIZE
  /\ (forall s1, FixedWindow.before_recv tm s = Py.Ok s1 ->
                 Py.len (FixedWindow.packets s1) <= FixedWindow.WINDOW_SIZE).
Proof.
  intros tm file s. split; [vm_compute; reflexivity|].
  apply (fixed_window_never_exceeds_its_size tm file s).
  destruct (FixedWindow.iteration tm SocketTimeout (FixedWindow.init tm file)) as [f|e] eqn:E.
  - exact (fixed_reach_step tm file _ SocketTimeout f (fixed_reach_init tm file) E).
  - vm_compute in E. discriminate E.
Defined.

Lemma fixed_segments_seq_ids (ps : list FixedWindow.Packet) :
  map fst (fixed_segments ps) = map FixedWindow.p_seq_id ps.
Proof. unfold fixed_segments. rewrite map_map. reflexivity. Qed.

Lemma fixed_on_socket_timeout_resend (time_at : nat -> Q) (s : FixedWindow.Sender) :
  FixedWindow.curr_state s <> FixedWindow.SENDING_FINACK ->
  exists s',
    FixedWindow.on_socket_timeout time_at s = Next s'
    /\ FixedWindow.sent s' = FixedWindow.sent s ++ map FixedWindow.p_packet (FixedWindow.packets s)
    /\ FixedWindow.packets s' = FixedWindow.packets s
    /\ FixedWindow.fp s' = FixedWindow.fp s
    /\ FixedWindow.curr_state s' = FixedWindow.curr_state s
    /\ FixedWindow.total_bytes s' = FixedWindow.total_bytes s
    /\ FixedWindow.seq_id s'
       = last (map FixedWindow.p_seq_id (FixedWindow.packets s)) (FixedWindow.seq_id s).
Proof.
  intros Hstate. unfold FixedWindow.on_socket_timeout.
  replace (FixedWindow.State_eqb (FixedWindow.curr_state s) FixedWindow.SENDING_FINACK)
    with false
    by (destruct (FixedWindow.curr_state s); try reflexivity; contradiction Hstate; reflexivity).
  destruct (fixed_retransmit_all_spec (FixedWindow.packets s) s) as (A & B & C & D & E & F).
  eexists. split; [reflexivity|].
  rewrite <- fixed_segments_seq_ids. split_all; assumption.
Qed.

(** X8.  On a receive timeout outside SENDING_FINACK the fixed-window sender
    sends every packet of the window once more, in window order, and leaves
    the window, the file position, the state and the byte counter alone; the
    loop variable of the retransmission being the global [seq_id], that name
    ends as the sequence number of the last packet of the window. *)
Theorem fixed_timeout_resends_the_window (time_at : nat -> Q) (s : FixedWindow.Sender) :
  FixedWindow.curr_state s <> FixedWindow.SENDING_FINACK ->
  exists s',
    FixedWindow.on_socket_timeout time_at s = Next s'
    /\ FixedWindow.sent s' = FixedWindow.sent s ++ map FixedWindow.p_packet (FixedWindow.packets s)
    /\ FixedWindow.packets s' = FixedWindow.packets s
    /\ FixedWindow.fp s' = FixedWindow.fp s
    /\ FixedWindow.curr_state s' = FixedWindow.curr_state s
    /\ FixedWindow.total_bytes s' = FixedWindow.total_bytes s
    /\ FixedWindow.seq_id s'
       = last (map FixedWindow.p_seq_id (FixedWindow.packets s)) (FixedWindow.seq_id s).
Proof. exact (fixed_on_socket_timeout_resend time_at s). Qed.

Lemma fixed_timeout_resends_the_window_witness :
  let tm := steady_clock 1 in
  let s := value_or (FixedWindow.init tm (file_of_size 2500))
             (FixedWindow.before_recv tm (FixedWindow.init tm (file_of_size 2500))) in
  FixedWindow.seq_id s = 2500
  /\ exists s',
       FixedWindow.on_socket_timeout tm s = Next s'
       /\ FixedWindow.sent s' = FixedWindow.sent s ++ map FixedWindow.p_packet (FixedWindow.packets s)
       /\ FixedWindow.packets s' = FixedWindow.packets s
       /\ FixedWindow.fp s' = FixedWindow.fp s
       /\ FixedWindow.curr_state s' = FixedWindow.curr_state s
       /\ FixedWindow.total_bytes s' = FixedWindow.total_bytes s
       /\ FixedWindow.seq_id s'
          = last (map FixedWindow.p_seq_id (FixedWindow.packets s)) (FixedWindow.seq_id s).
Proof.
  intros tm s. split; [vm_compute; reflexivity|].
  apply (fixed_timeout_resends_the_window tm s). vm_compute. discriminate.
Defined.

(** X9.  After such a timeout with a window that is not empty, the ACK
    handler leaves [seq_id] where the retransmission loop left it, and the
    next segment read from the file is given the sequence number of the last
    packet of the window, not the next free one. *)
Theorem fixed_segment_after_timeout_reuses_seq_id (time_at : nat -> Q)
  (s s1 s2 s3 : FixedWindow.Sender) (d : list byte) :
  FixedWindow.curr_state s <> FixedWindow.SENDING_FINACK ->
  FixedWindow.packets s <> [] ->
  FixedWindow.on_socket_timeout time_at s = Next s1 ->
  FixedWindow.on_recv time_at d s1 = Py.Ok s2 ->
  FixedWindow.fill_body time_at s2 = Py.Ok (s3, true) ->
  exists p,
    FixedWindow.packets s3 = FixedWindow.packets s2 ++ [p]
    /\ FixedWindow.p_seq_id p = last (map FixedWindow.p_seq_id (FixedWindow.packets s)) 0.
Proof.
  intros Hstate Hne Htimeout Hrecv Hfill.
  destruct (fixed_on_socket_timeout_resend time_at s Hstate)
    as (s1' & H1 & _ & _ & _ & _ & _ & Hseq1).
  rewrite Htimeout in H1. injection H1 as <-.
  apply fixed_on_recv_spec in Hrecv. destruct Hrecv as (_ & _ & Hseq2 & _).
  apply fixed_fill_body_spec in Hfill.
  destruct Hfill as (chunk & rest & hdr & _ & _ & _ & [(_ & _ & Hps & _) | (Hgo & _)]);
    [|discriminate Hgo].
  eexists. split; [exact Hps|]. cbn [FixedWindow.p_seq_id].
  rewrite Hseq2, Hseq1.
  destruct (FixedWindow.packets s) as [|p ps]; [contradiction Hne; reflexivity|].
  cbn [map]. rewrite !last_cons_default. reflexivity.
Qed.

Lemma fixed_segment_after_timeout_reuses_seq_id_witness :
  let tm := steady_clock 1 in
  let file := file_of_size 103000 in
  let s := value_or (FixedWindow.init tm file)
             (FixedWindow.before_recv tm (FixedWindow.init tm file)) in
  let s1 := state_of (FixedWindow.on_socket_timeout tm s) in
  let s2 := value_or s1 (FixedWindow.on_recv tm (ack_datagram 1020) s1) in
  let s3 := fst (value_or (s2, false) (FixedWindow.fill_body tm s2)) in
  FixedWindow.seq_id s = 102000
  /\ map FixedWindow.p_seq_id (skipn 98 (FixedWindow.packets s3)) = [100980; 100980]
  /\ exists p,
       FixedWindow.packets s3 = FixedWindow.packets s2 ++ [p]
       /\ FixedWindow.p_seq_id p = last (map FixedWindow.p_seq_id (FixedWindow.packets s)) 0.
Proof.
  intros tm file s s1 s2 s3. split; [vm_compute; reflexivity|].
  split; [vm_compute; reflexivity|].
  apply (fixed_segment_after_timeout_reuses_seq_id tm s s1 s2 s3 (ack_datagram 1020)).
  - vm_compute. discriminate.
  - vm_compute. discriminate.
  - vm_compute. reflexivity.
  - vm_compute. reflexivity.
  - vm_compute. reflexivity.
Defined.

(** X10.  The ACK handler of the fixed-window sender records one delay
    sample for each packet it removes from the window, and removes packets
    only: the number of samples and the size of the window add up to what
    they were. *)
Theorem fixed_one_delay_sample_per_removed_packet (time_at : nat -> Q) (d : list byte)
  (s s' : FixedWindow.Sender) :
  FixedWindow.on_recv time_at d s = Py.Ok s' ->
  (length (FixedWindow.packets s') <= length (FixedWindow.packets s))%nat
  /\ (length (FixedWindow.packet_delays s') + length (FixedWindow.packets s')
      = length (FixedWindow.packet_delays s) + length (FixedWindow.packets s))%nat.
Proof.
  intros H. split; [exact (fixed_on_recv_shorter time_at d s s' H)|].
  exact (fixed_on_recv_lengths time_at d s s' H).
Qed.

Lemma fixed_one_delay_sample_per_removed_packet_witness :
  let tm := steady_clock 1 in
  let s := value_or (FixedWindow.init tm (file_of_size 2500))
             (FixedWindow.before_recv tm (FixedWindow.init tm (file_of_size 2500))) in
  let s' := value_or s (FixedWindow.on_recv tm (ack_datagram 2040) s) in
  length (FixedWindow.packet_delays s') = 2%nat
  /\ (length (FixedWindow.packets s') <= length (FixedWindow.packets s))%nat
  /\ (length (FixedWindow.packet_delays s') + length (FixedWindow.packets s')
      = length (FixedWindow.packet_delays s) + length (FixedWindow.packets s))%nat.
Proof.
  intros tm s s'. split; [vm_compute; reflexivity|].
  apply (fixed_one_delay_sample_per_removed_packet tm (ack_datagram 2040) s s').
  vm_compute. reflexivity.
Defined.

(** X11.  The shutdown of the fixed-window sender.  In SENDING_FINACK every
    datagram received is answered with one more FINACK datagram, which
    carries [seq_id], and the state stays SENDING_FINACK; the first receive
    timeout ends the loop in COMPLETE with [end_time] taken and nothing more
    sent. *)
Theorem fixed_finack_until_timeout (time_at : nat -> Q) (s : FixedWindow.Sender) :
  FixedWindow.curr_state s = FixedWindow.SENDING_FINACK ->
  - 2 ^ 31 <= FixedWindow.seq_id s < 2 ^ 31 ->
  (forall d, exists s' hdr,
     FixedWindow.iteration time_at (Recv d) s = Py.Ok (Next s')
     /\ Py.to_bytes (Z.to_nat SEQ_ID_SIZE) (FixedWindow.seq_id s) = Py.Ok hdr
     /\ FixedWindow.sent s' = FixedWindow.sent s ++ [hdr ++ FINACK]
     /\ FixedWindow.curr_state s' = FixedWindow.SENDING_FINACK)
  /\ (exists s',
        FixedWindow.iteration time_at SocketTimeout s = Py.Ok (Break s')
        /\ FixedWindow.curr_state s' = FixedWindow.COMPLETE
        /\ FixedWindow.end_time s' = Some (time_at (FixedWindow.ticks s))
        /\ FixedWindow.sent s' = FixedWindow.sent s).
Proof.
  intros Hstate Hrange.
  assert (Hidle : FixedWindow.before_recv time_at s = Py.Ok s).
  { apply fixed_fill_window_idle. rewrite Hstate. discriminate. }
  destruct (seq_id_header _ Hrange) as (hdr & Hhdr & _).
  split.
  - intros d. unfold FixedWindow.iteration. rewrite Hidle. cbn [Py.bind FixedWindow.after_recv].
    unfold FixedWindow.on_recv, FixedWindow.finack_packet.
    destruct (FixedWindow.remove_acked time_at _ (FixedWindow.packets s) s) as [ps s1] eqn:E.
    apply fixed_remove_acked_spec in E. destruct E as (_ & _ & Hseq & Hst & Hsent & _).
    fixed_simpl. rewrite Hst, Hstate. cbn [FixedWindow.State_eqb andb orb].
    rewrite Hseq, Hhdr. cbn [Py.bind].
    eexists. exists hdr. split_all; try reflexivity.
    fixed_simpl. rewrite Hsent. reflexivity.
  - unfold FixedWindow.iteration. rewrite Hidle. cbn [Py.bind FixedWindow.after_recv].
    unfold FixedWindow.on_socket_timeout. rewrite Hstate.
    cbn [FixedWindow.State_eqb FixedWindow.time_time].
    eexists. split_all; reflexivity.
Qed.

Lemma fixed_finack_until_timeout_witness :
  let tm := steady_clock 1 in
  let s := final_state (FixedWindow.init tm (file_of_size 1))
             (FixedWindow.iteration tm (Recv (ack_datagram 1)) (FixedWindow.init tm (file_of_size 1))) in
  (forall d, exists s' hdr,
     FixedWindow.iteration tm (Recv d) s = Py.Ok (Next s')
     /\ Py.to_bytes (Z.to_nat SEQ_ID_SIZE) (FixedWindow.seq_id s) = Py.Ok hdr
     /\ FixedWindow.sent s' = FixedWindow.sent s ++ [hdr ++ FINACK]
     /\ FixedWindow.curr_state s' = FixedWindow.SENDING_FINACK)
  /\ (exists s',
        FixedWindow.iteration tm SocketTimeout s = Py.Ok (Break s')
        /\ FixedWindow.curr_state s' = FixedWindow.COMPLETE
        /\ FixedWindow.end_time s' = Some (tm (FixedWindow.ticks s))
        /\ FixedWindow.sent s' = FixedWindow.sent s).
Proof.
  intros tm s. apply (fixed_finack_until_timeout tm s).
  - vm_compute. reflexivity.
  - vm_compute. split; [discriminate | reflexivity].
Defined.

(** ** Stop and wait *)

Lemma sw_retry_pass_timeout (time_at : nat -> Q) (s : StopAndWait.Sender) :
  StopAndWait.curr_state s <> StopAndWait.SENDING_FINACK ->
  StopAndWait.retry_pass time_at SocketTimeout s = StopAndWait.sendto (StopAndWait.packet s) s.
Proof.
  intros Hstate. unfold StopAndWait.retry_pass, StopAndWait.on_socket_timeout. cbv zeta.
  cbn [StopAndWait.curr_state StopAndWait.sendto StopAndWait.set_sent].
  destruct (StopAndWait.curr_state s); try reflexivity. contradiction Hstate. reflexivity.
Qed.

Lemma sw_resent_sent (n : nat) :
  forall s, sw_resent n s
            = StopAndWait.set_sent (StopAndWait.sent s ++ repeat (StopAndWait.packet s) n) s.
Proof.
  induction n as [|n IH]; intros s; cbn [sw_resent repeat].
  - rewrite app_nil_r. destruct s; reflexivity.
  - rewrite IH. unfold StopAndWait.sendto.
    cbn [StopAndWait.sent StopAndWait.packet StopAndWait.set_sent].
    rewrite <- app_assoc. reflexivity.
Qed.

(** X12.  While the stop-and-wait sender waits for an answer (in any state
    but SENDING_FINACK), [n] receive timeouts in a row make it send the same
    datagram [n] more times and change nothing else: not the sequence
    number, the file position, the state, the byte counter or the delay
    samples. *)
Theorem sw_timeouts_resend_the_same_datagram (time_at : nat -> Q) (n : nat)
  (s : StopAndWait.Sender) :
  StopAndWait.curr_state s <> StopAndWait.SENDING_FINACK ->
  StopAndWait.ack_rcv s = false ->
  StopAndWait.retry_loop time_at (repeat SocketTimeout n) s
  = (StopAndWait.set_sent (StopAndWait.sent s ++ repeat (StopAndWait.packet s) n) s, []).
Proof.
  intros Hstate Hrcv. rewrite <- sw_resent_sent.
  revert s Hstate Hrcv. induction n as [|n IH]; intros s Hstate Hrcv;
    cbn [repeat StopAndWait.retry_loop sw_resent]; [reflexivity|].
  cbv zeta. rewrite (sw_retry_pass_timeout time_at s Hstate).
  change (StopAndWait.ack_rcv (StopAndWait.sendto (StopAndWait.packet s) s))
    with (StopAndWait.ack_rcv s).
  rewrite Hrcv. apply IH; assumption.
Qed.

Lemma sw_timeouts_resend_the_same_datagram_witness :
  let tm := steady_clock 1 in
  let s := value_or (StopAndWait.init tm (file_of_size 1))
             (StopAndWait.prepare tm (StopAndWait.init tm (file_of_size 1))) in
  length (StopAndWait.packet s) = 5%nat
  /\ StopAndWait.retry_loop tm (repeat SocketTimeout 3) s
     = (StopAndWait.set_sent (StopAndWait.sent s ++ repeat (StopAndWait.packet s) 3) s, []).
Proof.
  intros tm s. split; [vm_compute; reflexivity|].
  apply (sw_timeouts_resend_the_same_datagram tm 3 s).
  - vm_compute. discriminate.
  - vm_compute. reflexivity.
Defined.

(** X13.  An answer the stop-and-wait sender does not wait for is ignored:
    in SENDING_DATA a datagram whose ACK number is not [seq_id + len(chunk)],
    in SENDING_EOF a datagram that does not contain [fin], in SENDING_FINACK
    any datagram.  The pass of the retry loop has only sent the datagram once
    more; [ack_rcv] is unchanged, so the loop goes on. *)
Theorem sw_unexpected_answer_is_ignored (time_at : nat -> Q) (d : list byte)
  (s : StopAndWait.Sender) :
  match StopAndWait.curr_state s with
  | StopAndWait.SENDING_DATA =>
      ack_number d <> StopAndWait.seq_id s + Py.len (StopAndWait.chunk s)
  | StopAndWait.SENDING_EOF => Py.contains fin d = false
  | StopAndWait.SENDING_FINACK => True
  | StopAndWait.COMPLETE => True
  end ->
  StopAndWait.retry_pass time_at (Recv d) s = StopAndWait.sendto (StopAndWait.packet s) s.
Proof.
  intros H. unfold StopAndWait.retry_pass, StopAndWait.on_recv. cbv zeta.
  cbn [StopAndWait.curr_state StopAndWait.seq_id StopAndWait.chunk StopAndWait.sendto
       StopAndWait.set_sent].
  fold (ack_number d).
  destruct (StopAndWait.curr_state s); cbn [StopAndWait.State_eqb]; try reflexivity.
  - apply Z.eqb_neq in H. rewrite H. reflexivity.
  - rewrite H. reflexivity.
Qed.

Lemma sw_unexpected_answer_is_ignored_witness :
  let tm := steady_clock 1 in
  let s := value_or (StopAndWait.init tm (file_of_size 2500))
             (StopAndWait.prepare tm (StopAndWait.init tm (file_of_size 2500))) in
  StopAndWait.curr_state s = StopAndWait.SENDING_DATA
  /\ StopAndWait.retry_pass tm (Recv (ack_datagram 0)) s
     = StopAndWait.sendto (StopAndWait.packet s) s.
Proof.
  intros tm s. split; [vm_compute; reflexivity|].
  apply (sw_unexpected_answer_is_ignored tm (ack_datagram 0) s).
  vm_compute. discriminate.
Defined.

Lemma sw_retry_pass_finack_recv (time_at : nat -> Q) (d : list byte) (s : StopAndWait.Sender) :
  StopAndWait.curr_state s = StopAndWait.SENDING_FINACK ->
  StopAndWait.retry_pass time_at (Recv d) s = StopAndWait.sendto (StopAndWait.packet s) s.
Proof.
  intros Hstate. unfold StopAndWait.retry_pass, StopAndWait.on_recv. cbv zeta.
  cbn [StopAndWait.curr_state StopAndWait.sendto StopAndWait.set_sent].
  rewrite Hstate. reflexivity.
Qed.

(** X14.  In SENDING_FINACK the stop-and-wait sender leaves the retry loop on
    a receive timeout only: each datagram that still arrives makes it send
    the FINACK datagram again, and the timeout that follows ends the loop in
    COMPLETE, the FINACK datagram having been sent once per pass. *)
Theorem sw_finack_ends_on_timeout_only (time_at : nat -> Q) (ds : list (list byte))
  (rest : list recv_event) (s : StopAndWait.Sender) :
  StopAndWait.curr_state s = StopAndWait.SENDING_FINACK ->
  StopAndWait.ack_rcv s = false ->
  StopAndWait.retry_loop time_at (map Recv ds ++ SocketTimeout :: rest) s
  = (StopAndWait.set_ack_rcv true
       (StopAndWait.set_curr_state StopAndWait.COMPLETE
          (StopAndWait.set_sent
             (StopAndWait.sent s ++ repeat (StopAndWait.packet s) (S (length ds))) s)),
     rest).
Proof.
  intros Hstate Hrcv.
  assert (Hgen : forall n s0,
            StopAndWait.curr_state s0 = StopAndWait.SENDING_FINACK ->
            StopAndWait.ack_rcv s0 = false ->
            StopAndWait.retry_loop time_at (map Recv ds ++ SocketTimeout :: rest)
              (sw_resent n s0)
            = (StopAndWait.set_ack_rcv true
                 (StopAndWait.set_curr_state StopAndWait.COMPLETE
                    (sw_resent (n + S (length ds)) s0)),
               rest)).
  { induction ds as [|d ds IH]; intros n s0 Hst0 Hrcv0.
    - cbn [map app StopAndWait.retry_loop length]. cbv zeta.
      unfold StopAndWait.retry_pass, StopAndWait.on_socket_timeout. cbv zeta.
      rewrite Nat.add_1_r.
      rewrite !sw_resent_sent. sw_simpl.
      rewrite Hst0. cbn [StopAndWait.State_eqb repeat]. unfold StopAndWait.sendto. sw_simpl.
      rewrite <- app_assoc.
      replace (repeat (StopAndWait.packet s0) n ++ [StopAndWait.packet s0])
        with (StopAndWait.packet s0 :: repeat (StopAndWait.packet s0) n)
        by (rewrite <- repeat_cons; reflexivity).
      reflexivity.
    - cbn [map app StopAndWait.retry_loop length]. cbv zeta.
      assert (Hst : StopAndWait.curr_state (sw_resent n s0) = StopAndWait.SENDING_FINACK)
        by (rewrite sw_resent_sent; exact Hst0).
      rewrite (sw_retry_pass_finack_recv time_at d _ Hst).
      change (StopAndWait.sendto (StopAndWait.packet (sw_resent n s0)) (sw_resent n s0))
        with (sw_resent 1 (sw_resent n s0)).
      assert (Hcomp : forall a b s1, sw_resent a (sw_resent b s1) = sw_resent (b + a) s1).
      { intros a b. revert a. induction b as [|b IHb]; intros a s1; [reflexivity|].
        cbn [sw_resent Nat.add]. apply IHb. }
      rewrite Hcomp.
      replace (StopAndWait.ack_rcv (sw_resent (n + 1) s0)) with false
        by (rewrite sw_resent_sent; symmetry; exact Hrcv0).
      rewrite (IH (n + 1)%nat s0 Hst0 Hrcv0).
      replace (n + 1 + S (length ds))%nat with (n + S (S (length ds)))%nat by lia.
      reflexivity. }
  specialize (Hgen 0%nat s Hstate Hrcv).
  change (sw_resent 0 s) with s in Hgen. cbn [Nat.add] in Hgen.
  rewrite Hgen, sw_resent_sent. reflexivity.
Qed.

Lemma sw_finack_ends_on_timeout_only_witness :
  let tm := steady_clock 1 in
  let s := StopAndWait.set_packet (ack_datagram 1 ++ FINACK)
             (StopAndWait.set_curr_state StopAndWait.SENDING_FINACK
                (StopAndWait.init tm [])) in
  StopAndWait.retry_loop tm (map Recv [fin; fin] ++ SocketTimeout :: [Recv fin]) s
  = (StopAndWait.set_ack_rcv true
       (StopAndWait.set_curr_state StopAndWait.COMPLETE
          (StopAndWait.set_sent
             (StopAndWait.sent s ++ repeat (StopAndWait.packet s) 3) s)),
     [Recv fin]).
Proof.
  intros tm s.
  apply (sw_finack_ends_on_timeout_only tm [fin; fin] [Recv fin] s); reflexivity.
Defined.

(** ** Reno: the congestion window *)

(** X15.  In the Reno sender [cwnd] and [ssthresh] never fall below 1: they
    are at least 1 at the top of every pass of the main loop and when the
    loop is left, whatever is received and whatever the clock shows. *)
Theorem reno_cwnd_and_ssthresh_at_least_one (time_at : nat -> Q) (file : list byte)
  (evs : list recv_event) (f : flow Reno.Sender) :
  Reno.run time_at evs (Reno.init time_at file) = Py.Ok f ->
  (1 <= Reno.cwnd (state_of f))%Q /\ (1 <= Reno.ssthresh (state_of f))%Q.
Proof.
  assert (Hgen : forall s, Reno.run time_at evs s = Py.Ok f ->
                           reno_cwnd_ok s -> reno_cwnd_ok (state_of f)).
  { induction evs as [|ev evs IH]; intros s H Hok; cbn [Reno.run] in H.
    - injection H as <-. exact Hok.
    - destruct (Reno.iteration time_at ev s) as [f1|] eqn:E; cbn [Py.bind] in H;
        [|discriminate H].
      apply reno_iteration_cwnd_ok in E; [|exact Hok].
      destruct f1 as [s1|s1|s1]; cbn [state_of] in E.
      + exact (IH s1 H E).
      + exact (IH s1 H E).
      + injection H as <-. exact E. }
  intros H. apply (Hgen _ H). split; discriminate.
Qed.

Lemma reno_cwnd_and_ssthresh_at_least_one_witness :
  let tm := steady_clock (1 # 1000) in
  let file := file_of_size 5000 in
  let evs := ack_events [1020; 2040; 2040; 2040; 2040] ++ [SocketTimeout] in
  let s := final_state (Reno.init tm file) (Reno.run tm evs (Reno.init tm file)) in
  (Reno.cwnd s == 1)%Q
  /\ (1 <= Reno.cwnd s)%Q /\ (1 <= Reno.ssthresh s)%Q.
Proof.
  intros tm file evs s. split; [vm_compute; reflexivity|].
  destruct (Reno.run tm evs (Reno.init tm file)) as [f|e] eqn:E.
  - exact (reno_cwnd_and_ssthresh_at_least_one tm file evs f E).
  - vm_compute in E. discriminate E.
Defined.

(** ** Reno and Vegas: what ends the process *)

(** X16.  On an empty file the Reno sender dies in its first pass, before it
    calls [recvfrom]: the window is empty and the state SENDING_EOF, so the
    FINACK datagram is built from the name [seq_id], which no loop has bound
    yet ([NameError]). *)
Theorem reno_empty_file_name_error (time_at : nat -> Q) (ev : recv_event)
  (evs : list recv_event) :
  Reno.before_recv time_at (Reno.init time_at []) = Py.Raise Py.NameError
  /\ Reno.run time_at (ev :: evs) (Reno.init time_at []) = Py.Raise Py.NameError.
Proof.
  assert (H : Reno.before_recv time_at (Reno.init time_at []) = Py.Raise Py.NameError)
    by reflexivity.
  split; [exact H|].
  cbn [Reno.run]. unfold Reno.iteration. rewrite H. reflexivity.
Qed.

(** The first pass of the Vegas sender on a file that is not empty, up to the
    call of [recvfrom]: one segment is made and sent, at the clock reading 1,
    with no data rate known. *)
Lemma vegas_first_pass (time_at : nat -> Q) (file : list byte) :
  file <> [] ->
  exists s1 d,
    Vegas.before_recv time_at (Vegas.init time_at file) = Py.Ok s1
    /\ Vegas.packets s1 = [Vegas.mkPacket 0 (Some (time_at 1%nat)) d true true None]
    /\ Vegas.curr_state s1 = Vegas.SLOW_START
    /\ Vegas.timeout s1 = 1%Q
    /\ Vegas.expected_throughput s1 = None
    /\ Vegas.base_RTT s1 = None
    /\ Vegas.send_time s1 = Some (Some (time_at 1%nat))
    /\ Vegas.last_ack s1 = -1
    /\ Vegas.cwnd s1 = 1%Q
    /\ Vegas.ticks s1 = 2%nat.
Proof.
  intros Hne.
  destruct (fp_read MESSAGE_SIZE file) as [chunk rest] eqn:Hread.
  pose proof (fp_read_nonempty file chunk rest Hread Hne) as Hchunk.
  destruct chunk as [|c cs]; [contradiction Hchunk; reflexivity|].
  destruct (Vegas.before_recv time_at (Vegas.init time_at file)) as [s1|e] eqn:E;
    unfold Vegas.before_recv, Vegas.fill_window in E;
    change (Vegas.fill_fuel (Vegas.init time_at file)) with 1%nat in E;
    cbn [Vegas.fill_loop] in E;
    change (Vegas.fill_cond (Vegas.init time_at file)) with true in E;
    unfold Vegas.fill_body in E;
    change (Vegas.fp (Vegas.init time_at file)) with file in E;
    rewrite Hread in E; vm_compute in E.
  - injection E as <-. eexists. eexists. split; [reflexivity|].
    split_all; reflexivity.
  - discriminate E.
Qed.

(** X17.  If the first pass of the Vegas sender on a file that is not empty
    ends in a receive timeout, a second having passed since the segment was
    sent, the process dies with [TypeError]: STEP 3 takes the difference of
    the packet's data rate and [expected_throughput], and both are still
    [None] before the first ACK. *)
Theorem vegas_first_timeout_type_error (time_at : nat -> Q) (file : list byte)
  (evs : list recv_event) :
  file <> [] ->
  (1 <= time_at 2%nat - time_at 1%nat)%Q ->
  Vegas.run time_at (SocketTimeout :: evs) (Vegas.init time_at file)
  = Py.Raise Py.TypeError.
Proof.
  intros Hne Hlate.
  destruct (vegas_first_pass time_at file Hne)
    as (s1 & d & Hbefore & Hps & Hstate & Htimeout & _ & _ & _ & _ & _ & Hticks).
  cbn [Vegas.run]. unfold Vegas.iteration. rewrite Hbefore.
  cbn [Py.bind Vegas.after_recv]. unfold Vegas.on_socket_timeout. rewrite Hstate.
  change (Vegas.State_eqb Vegas.SLOW_START Vegas.SENDING_EOF) with false. cbv iota.
  unfold Vegas.check_timeout. rewrite Hps.
  cbn [Vegas.p_send_time Vegas.p_data_rate Vegas.bind_names Vegas.time_time Vegas.ticks
       Vegas.timeout Vegas.set_send_time Vegas.set_seq_id Vegas.set_ticks].
  rewrite Hticks, Htimeout.
  replace (Qle_bool 1 (time_at 2%nat - time_at 1%nat)) with true
    by (symmetry; apply Qle_bool_iff; exact Hlate).
  reflexivity.
Qed.

Lemma vegas_first_timeout_type_error_witness :
  Vegas.run (steady_clock 1) [SocketTimeout; Recv (ack_datagram 1)]
    (Vegas.init (steady_clock 1) (file_of_size 1))
  = Py.Raise Py.TypeError.
Proof.
  apply (vegas_first_timeout_type_error (steady_clock 1) (file_of_size 1)).
  - discriminate.
  - vm_compute. discriminate.
Defined.

(** X18.  If the first ACK reaches the Vegas sender at the very clock reading
    at which the segment was sent (an RTT sample of 0), the process dies
    with [ZeroDivisionError]: the sample becomes [base_RTT] unguarded, and
    [expected_throughput = int(cwnd) / base_RTT] divides by it. *)
Theorem vegas_zero_rtt_sample_divides_by_zero (time_at : nat -> Q) (file d : list byte)
  (evs : list recv_event) :
  file <> [] ->
  ack_number d <> -1 ->
  (time_at 2%nat == time_at 1%nat)%Q ->
  Vegas.run time_at (Recv d :: evs) (Vegas.init time_at file)
  = Py.Raise Py.ZeroDivisionError.
Proof.
  intros Hne Hack Hsame.
  destruct (vegas_first_pass time_at file Hne)
    as (s1 & p & Hbefore & Hps & Hstate & Htimeout & Hexp & Hbase & Hsend & Hlast & Hcwnd
        & Hticks).
  cbn [Vegas.run]. unfold Vegas.iteration. rewrite Hbefore.
  cbn [Py.bind Vegas.after_recv]. unfold Vegas.on_recv. fold (ack_number d).
  rewrite Hlast. replace (ack_number d =? -1) with false by (symmetry; apply Z.eqb_neq; exact Hack).
  unfold Vegas.on_new_ack, Vegas.elapsed_since_send_time. cbv zeta.
  cbn [Vegas.time_time Vegas.ticks Vegas.send_time Vegas.set_last_ack Vegas.set_duplicate_acks
       Vegas.set_ticks].
  rewrite Hsend, Hticks. cbn [Py.bind]. cbv iota beta.
  cbn [Vegas.base_RTT Vegas.set_ticks Vegas.set_last_ack Vegas.set_duplicate_acks
       Vegas.set_base_RTT Vegas.cwnd].
  rewrite Hbase. cbn [Vegas.update_base_RTT].
  unfold Py.truediv.
  replace (Qeq_bool (time_at 2%nat - time_at 1%nat) 0) with true.
  - reflexivity.
  - symmetry. apply Qeq_bool_iff. rewrite Hsame. ring.
Qed.

Lemma vegas_zero_rtt_sample_divides_by_zero_witness :
  Vegas.run (fun _ => 5%Q) [Recv (ack_datagram 1)] (Vegas.init (fun _ => 5%Q) (file_of_size 1))
  = Py.Raise Py.ZeroDivisionError.
Proof.
  apply (vegas_zero_rtt_sample_divides_by_zero (fun _ => 5%Q) (file_of_size 1)
           (ack_datagram 1) []).
  - discriminate.
  - vm_compute. discriminate.
  - reflexivity.
Defined.

Lemma vegas_empty_file_before_recv (time_at : nat -> Q) :
  Vegas.before_recv time_at (Vegas.init time_at [])
  = Py.Ok (vegas_waiting time_at [vegas_finack_0] 0)
  /\ forall fins dups,
       Vegas.before_recv time_at (vegas_waiting time_at fins dups)
       = Py.Ok (vegas_waiting time_at (fins ++ [vegas_finack_0]) dups).
Proof. split; [reflexivity | intros fins dups; reflexivity]. Qed.

Lemma vegas_waiting_duplicate (time_at : nat -> Q) (d : list byte) (fins : list (list byte))
  (dups : Z) :
  ack_number d = -1 ->
  Vegas.after_recv time_at (Recv d) (vegas_waiting time_at fins dups)
  = Py.Ok (Next (vegas_waiting time_at fins (dups + 1))).
Proof.
  intros H. cbn [Vegas.after_recv]. unfold Vegas.on_recv. fold (ack_number d). rewrite H.
  reflexivity.
Qed.

Lemma vegas_waiting_new_ack (time_at : nat -> Q) (d : list byte) (fins : list (list byte))
  (dups : Z) :
  ack_number d <> -1 ->
  Vegas.after_recv time_at (Recv d) (vegas_waiting time_at fins dups)
  = Py.Raise Py.NameError.
Proof.
  intros H. cbn [Vegas.after_recv]. unfold Vegas.on_recv. fold (ack_number d).
  change (Vegas.last_ack (vegas_waiting time_at fins dups)) with (-1).
  replace (ack_number d =? -1) with false by (symmetry; apply Z.eqb_neq; exact H).
  reflexivity.
Qed.

Lemma vegas_waiting_timeout (time_at : nat -> Q) (fins : list (list byte)) (dups : Z) :
  Vegas.after_recv time_at SocketTimeout (vegas_waiting time_at fins dups)
  = Py.Ok (Break (Vegas.set_end_time (Some (time_at 1%nat))
                    (Vegas.set_ticks 2 (vegas_waiting time_at fins dups)))).
Proof. reflexivity. Qed.

Lemma vegas_waiting_run (time_at : nat -> Q) (ds : list (list byte)) :
  Forall (fun d => ack_number d = -1) ds ->
  forall (fins : list (list byte)) (dups : Z) (evs : list recv_event),
    Vegas.run time_at (map Recv ds ++ evs) (vegas_waiting time_at fins dups)
    = Vegas.run time_at evs
        (vegas_waiting time_at (fins ++ repeat vegas_finack_0 (length ds))
           (dups + Py.len ds)).
Proof.
  induction 1 as [|d ds Hd _ IH]; intros fins dups evs.
  - cbn [map app length repeat]. rewrite app_nil_r. unfold Py.len. cbn [length].
    replace (dups + Z.of_nat 0) with dups by lia. reflexivity.
  - cbn [map app Vegas.run]. unfold Vegas.iteration.
    rewrite (proj2 (vegas_empty_file_before_recv time_at)). cbn [Py.bind].
    rewrite (vegas_waiting_duplicate time_at d _ _ Hd). cbn [Py.bind].
    rewrite IH. cbn [length repeat]. rewrite <- app_assoc. cbn [app].
    unfold Py.len. cbn [length].
    replace (dups + 1 + Z.of_nat (length ds)) with (dups + Z.of_nat (S (length ds))) by lia.
    reflexivity.
Qed.

Lemma vegas_empty_file_first_pass (time_at : nat -> Q) (ev : recv_event)
  (evs : list recv_event) (s : Vegas.Sender) :
  Vegas.after_recv time_at ev (vegas_waiting time_at [vegas_finack_0] 0) = Py.Ok (Next s) ->
  Vegas.run time_at (ev :: evs) (Vegas.init time_at []) = Vegas.run time_at evs s.
Proof.
  intros H. cbn [Vegas.run]. unfold Vegas.iteration.
  rewrite (proj1 (vegas_empty_file_before_recv time_at)). cbn [Py.bind]. rewrite H.
  reflexivity.
Qed.

(** X19.  On an empty file the Vegas sender sends, in each pass, one FINACK
    datagram that carries the sequence number 0.  Datagrams received with the
    ACK number -1 (the initial [last_ack]) are counted as duplicates and
    change nothing else; at the first receive timeout the sender leaves the
    loop with [end_time] taken, and the report it then prints has throughput
    0.  A datagram with any other ACK number ends the process with
    [NameError] instead: the handler of a new ACK reads [send_time], which
    no loop has bound. *)
Theorem vegas_empty_file_ends_at_first_timeout (time_at : nat -> Q)
  (ds : list (list byte)) (evs : list recv_event) :
  Forall (fun d => ack_number d = -1) ds ->
  (exists s' r,
     Vegas.run time_at (map Recv ds ++ SocketTimeout :: evs) (Vegas.init time_at [])
     = Py.Ok (Break s')
     /\ Vegas.sent s' = repeat vegas_finack_0 (S (length ds))
     /\ Vegas.duplicate_acks s' = Py.len ds
     /\ Vegas.end_time s' = Some (time_at 1%nat)
     /\ vegas_report s' = Py.Ok r
     /\ (Metrics.throughput r == 0)%Q)
  /\ (forall d,
        ack_number d <> -1 ->
        Vegas.run time_at (map Recv ds ++ Recv d :: evs) (Vegas.init time_at [])
        = Py.Raise Py.NameError).
Proof.
  intros Hds.
  assert (Hrun : forall evs',
            Vegas.run time_at (map Recv ds ++ evs') (Vegas.init time_at [])
            = f <- Vegas.after_recv time_at (hd SocketTimeout evs')
                     (vegas_waiting time_at (repeat vegas_finack_0 (S (length ds)))
                        (Py.len ds)) ;;
              match f with
              | Next s' | Continue s' => Vegas.run time_at (tl evs') s'
              | Break s' => Py.Ok (Break s')
              end \/ evs' = []).
  { intros [|ev evs']; [right; reflexivity | left].
    cbn [hd tl].
    destruct Hds as [|d ds Hd Hds].
    - cbn [map app Vegas.run length repeat]. unfold Vegas.iteration.
      rewrite (proj1 (vegas_empty_file_before_recv time_at)). reflexivity.
    - cbn [map app].
      rewrite (vegas_empty_file_first_pass time_at (Recv d) _ _
                 (vegas_waiting_duplicate time_at d _ _ Hd)).
      rewrite (vegas_waiting_run time_at ds Hds). cbn [Vegas.run]. unfold Vegas.iteration.
      rewrite (proj2 (vegas_empty_file_before_recv time_at)). cbn [Py.bind].
      cbn [length repeat app]. rewrite <- (repeat_cons (length ds) vegas_finack_0).
      replace (0 + 1 + Py.len ds) with (Py.len (d :: ds))
        by (unfold Py.len; cbn [length]; lia).
      reflexivity. }
  split.
  - destruct (Hrun (SocketTimeout :: evs)) as [H|H]; [|discriminate H].
    rewrite H. cbn [hd tl]. rewrite vegas_waiting_timeout. cbn [Py.bind].
    eexists. eexists. split; [reflexivity|].
    split; [reflexivity|]. split; [reflexivity|]. split; [reflexivity|].
    unfold vegas_report, Metrics.report. cbv zeta.
    cbn [Vegas.total_bytes Vegas.packet_delays Vegas.start_time Vegas.end_time].
    split; [reflexivity|]. cbn [Metrics.throughput].
    destruct (Py.lt _ _); [|reflexivity].
    match goal with
    | |- (inject_Z ?t / _ == 0)%Q => change t with 0
    end.
    unfold Qdiv. change (inject_Z 0) with 0%Q. ring.
  - intros d Hd. destruct (Hrun (Recv d :: evs)) as [H|H]; [|discriminate H].
    rewrite H. cbn [hd tl]. rewrite (vegas_waiting_new_ack time_at d _ _ Hd). reflexivity.
Qed.

Lemma vegas_empty_file_ends_at_first_timeout_witness :
  let tm := steady_clock 1 in
  let ds := [ack_datagram (-1); ack_datagram (-1)] in
  Forall (fun d => ack_number d = -1) ds
  /\ (exists s' r,
        Vegas.run tm (map Recv ds ++ [SocketTimeout]) (Vegas.init tm []) = Py.Ok (Break s')
        /\ Vegas.sent s' = repeat vegas_finack_0 3
        /\ Vegas.duplicate_acks s' = 2
        /\ Vegas.end_time s' = Some (tm 1%nat)
        /\ vegas_report s' = Py.Ok r
        /\ (Metrics.throughput r == 0)%Q)
  /\ Vegas.run tm (map Recv ds ++ [Recv (ack_datagram 0)]) (Vegas.init tm [])
     = Py.Raise Py.NameError.
Proof.
  intros tm ds.
  assert (Hds : Forall (fun d => ack_number d = -1) ds)
    by (repeat constructor).
  destruct (vegas_empty_file_ends_at_first_timeout tm ds [] Hds) as (Hbreak & Herr).
  split; [exact Hds|]. split; [exact Hbreak|].
  apply Herr. vm_compute. discriminate.
Defined.

(** ** The report is printed whenever the loop is left *)

Lemma reno_fill_body_start_time (s1 s2 : Reno.Sender) (go : bool) :
  Reno.fill_body s1 = Py.Ok (s2, go) -> Reno.start_time s2 = Reno.start_time s1.
Proof.
  unfold Reno.fill_body. intros H.
  destruct (fp_read MESSAGE_SIZE (Reno.fp s1)) as [chunk rest].
  repeat step_ok; reflexivity.
Qed.

Lemma reno_send_one_start_time (time_at : nat -> Q) (p p' : Reno.Packet) (s s' : Reno.Sender) :
  Reno.send_one time_at p s = (p', s') -> Reno.start_time s' = Reno.start_time s.
Proof. unfold Reno.send_one. cbn [Reno.time_time]. intros H. frame. Qed.

Lemma reno_send_loop_start_time (time_at : nat -> Q) (todo ps : list Reno.Packet)
  (s s' : Reno.Sender) :
  Reno.send_loop time_at todo s = (ps, s') -> Reno.start_time s' = Reno.start_time s.
Proof.
  revert ps s s'. induction todo as [|p rest IH]; intros ps s s' H; cbn [Reno.send_loop] in H.
  - step_ok. reflexivity.
  - destruct (Reno.send_one time_at p s) as [p' s1] eqn:E1.
    apply reno_send_one_start_time in E1.
    destruct (Reno.packets_in_transit s1 =? Py.int (Reno.cwnd s1)).
    + step_ok. exact E1.
    + destruct (Reno.send_loop time_at rest s1) as [rest' s2] eqn:E2.
      apply IH in E2. step_ok. congruence.
Qed.

Lemma reno_send_step_start_time (time_at : nat -> Q) (s s' : Reno.Sender) :
  Reno.send_step time_at s = Py.Ok s' -> Reno.start_time s' = Reno.start_time s.
Proof.
  unfold Reno.send_step, Reno.finack_packet. intros H.
  destruct (Reno.packets s) as [|p rest] eqn:Hps.
  - repeat step_ok; reflexivity.
  - destruct (Py.int (Reno.cwnd s) - Reno.packets_in_transit s >? 0).
    + destruct (Reno.send_loop time_at (p :: rest) s) as [ps s1] eqn:E.
      apply reno_send_loop_start_time in E. step_ok. exact E.
    + repeat step_ok; reflexivity.
Qed.

Lemma reno_clear_in_transit_start_time (todo ps : list Reno.Packet) (s s' : Reno.Sender) :
  Reno.clear_in_transit todo s = (ps, s') -> Reno.start_time s' = Reno.start_time s.
Proof.
  revert ps s s'. induction todo as [|p rest IH]; intros ps s s' H;
    cbn [Reno.clear_in_transit] in H.
  - step_ok. reflexivity.
  - destruct (Reno.p_in_transit p).
    + destruct (Reno.clear_in_transit rest (Reno.bind_names p s)) as [rest' s1] eqn:E.
      apply IH in E. step_ok. exact E.
    + step_ok. reflexivity.
Qed.

Lemma reno_on_duplicate_ack_times (s : Reno.Sender) :
  times_kept Reno.start_time Reno.end_time s (Reno.on_duplicate_ack s).
Proof.
  unfold Reno.on_duplicate_ack, times_kept. cbv zeta. reno_simpl.
  destruct (Reno.duplicate_acks s + 1 =? 3); cbn [state_of]; [|split; [reflexivity | exact I]].
  destruct (Reno.clear_in_transit _ _) as [ps s1] eqn:E.
  apply reno_clear_in_transit_start_time in E. cbn [state_of]. split; [exact E | exact I].
Qed.

Lemma reno_remove_acked_start_time (ack_id : Z) (sample_RTT : Q) (todo ps : list Reno.Packet)
  (s s' : Reno.Sender) :
  Reno.remove_acked ack_id sample_RTT todo s = Py.Ok (ps, s') ->
  Reno.start_time s' = Reno.start_time s.
Proof.
  revert s. induction todo as [|p rest IH]; intros s H; cbn [Reno.remove_acked] in H.
  - step_ok. reflexivity.
  - destruct (Reno.p_seq_id p <? ack_id); [|step_ok; reflexivity].
    reno_simpl_in H.
    destruct (Reno.State_eqb (Reno.curr_state s) Reno.SLOW_START).
    + cbn [Py.bind] in H. apply IH in H. exact H.
    + destruct (Reno.State_eqb (Reno.curr_state s) Reno.CONGESTION_AVOIDANCE).
      * destruct (Py.truediv 1 (Reno.cwnd s)) as [inv|]; cbn [Py.bind] in H; [|discriminate H].
        apply IH in H. exact H.
      * cbn [Py.bind] in H. apply IH in H. exact H.
Qed.

Lemma reno_on_new_ack_start_time (time_at : nat -> Q) (ack_id : Z) (s s' : Reno.Sender) :
  Reno.on_new_ack time_at ack_id s = Py.Ok s' -> Reno.start_time s' = Reno.start_time s.
Proof.
  unfold Reno.on_new_ack, Reno.elapsed_since_send_time. cbv zeta. reno_simpl. intros H.
  destruct (Reno.send_time s) as [[t|]|]; cbn [Py.bind] in H; try discriminate H.
  destruct (Reno.remove_acked _ _ _ _) as [[ps s1]|] eqn:E; cbn [Py.bind] in H;
    [|discriminate H].
  apply reno_remove_acked_start_time in E. injection H as <-. exact E.
Qed.

Lemma reno_check_timeout_start_time (time_at : nat -> Q) (s : Reno.Sender) :
  Reno.start_time (Reno.check_timeout time_at s) = Reno.start_time s.
Proof.
  unfold Reno.check_timeout. cbn [Reno.time_time]. repeat case_goal; reflexivity.
Qed.

Lemma reno_clean_cwnd_start_time (s : Reno.Sender) :
  Reno.start_time (Reno.clean_cwnd s) = Reno.start_time s.
Proof. unfold Reno.clean_cwnd. repeat case_goal; reflexivity. Qed.

Lemma reno_iteration_times (time_at : nat -> Q) (ev : recv_event) (s : Reno.Sender)
  (f : flow Reno.Sender) :
  Reno.iteration time_at ev s = Py.Ok f -> times_kept Reno.start_time Reno.end_time s f.
Proof.
  unfold Reno.iteration, Reno.before_recv, Reno.fill_window. intros H.
  destruct (Reno.fill_loop (Reno.fill_fuel s) s) as [s0|] eqn:E0; cbn [Py.bind] in H;
    [|discriminate H].
  apply (reno_fill_loop_inv (fun x => Reno.start_time x = Reno.start_time s)) in E0;
    [| intros s1 s2 go Hb Hs; rewrite (reno_fill_body_start_time s1 s2 go Hb); exact Hs
     | reflexivity].
  destruct (Reno.send_step time_at s0) as [s1|] eqn:E1; cbn [Py.bind] in H; [|discriminate H].
  apply reno_send_step_start_time in E1. rewrite E0 in E1. clear E0 s0.
  unfold times_kept. rewrite <- E1.
  destruct ev as [d|]; cbn [Reno.after_recv] in H.
  - unfold Reno.on_recv in H.
    destruct (_ =? Reno.last_ack s1).
    + cbn [Py.bind] in H. pose proof (reno_on_duplicate_ack_times s1) as (Hst & Hbr).
      destruct (Reno.on_duplicate_ack s1) as [s2|s2|s2]; injection H as <-;
        cbn [state_of] in *.
      * rewrite reno_clean_cwnd_start_time, reno_check_timeout_start_time.
        split; [exact Hst | exact I].
      * split; [exact Hst | exact I].
      * split; [exact Hst | exact Hbr].
    + destruct (Reno.on_new_ack time_at _ s1) as [s2|] eqn:E2; cbn [Py.bind] in H;
        [|discriminate H].
      apply reno_on_new_ack_start_time in E2.
      injection H as <-. cbn [state_of].
      rewrite reno_clean_cwnd_start_time, reno_check_timeout_start_time.
      split; [exact E2 | exact I].
  - injection H as <-. unfold Reno.on_socket_timeout.
    destruct (Reno.State_eqb _ _); cbn [Reno.time_time state_of].
    + split; [reflexivity | discriminate].
    + split; [reflexivity | exact I].
Qed.

Lemma vegas_fill_body_start_time (s1 s2 : Vegas.Sender) (go : bool) :
  Vegas.fill_body s1 = Py.Ok (s2, go) -> Vegas.start_time s2 = Vegas.start_time s1.
Proof.
  unfold Vegas.fill_body. intros H.
  destruct (fp_read MESSAGE_SIZE (Vegas.fp s1)) as [chunk rest].
  repeat step_ok; reflexivity.
Qed.

Lemma vegas_fill_loop_start_time (fuel : nat) (s s' : Vegas.Sender) :
  Vegas.fill_loop fuel s = Py.Ok s' -> Vegas.start_time s' = Vegas.start_time s.
Proof.
  revert s. induction fuel as [|fuel IH]; intros s H; cbn [Vegas.fill_loop] in H.
  - step_ok. reflexivity.
  - destruct (Vegas.fill_cond s); [|step_ok; reflexivity].
    destruct (Vegas.fill_body s) as [[s1 go]|] eqn:E; cbn [Py.bind] in H; [|discriminate].
    apply vegas_fill_body_start_time in E.
    destruct go; [apply IH in H; congruence | step_ok; exact E].
Qed.

Lemma vegas_send_one_start_time (time_at : nat -> Q) (p p' : Vegas.Packet)
  (s s' : Vegas.Sender) :
  Vegas.send_one time_at p s = (p', s') -> Vegas.start_time s' = Vegas.start_time s.
Proof. unfold Vegas.send_one. cbn [Vegas.time_time]. intros H. frame. Qed.

Lemma vegas_send_loop_start_time (time_at : nat -> Q) (todo ps : list Vegas.Packet)
  (s s' : Vegas.Sender) :
  Vegas.send_loop time_at todo s = (ps, s') -> Vegas.start_time s' = Vegas.start_time s.
Proof.
  revert ps s s'. induction todo as [|p rest IH]; intros ps s s' H; cbn [Vegas.send_loop] in H.
  - step_ok. reflexivity.
  - destruct (Vegas.send_one time_at p s) as [p' s1] eqn:E1.
    apply vegas_send_one_start_time in E1.
    destruct (Vegas.packets_in_transit s1 =? Py.int (Vegas.cwnd s1)).
    + step_ok. exact E1.
    + destruct (Vegas.send_loop time_at rest s1) as [rest' s2] eqn:E2.
      apply IH in E2. step_ok. congruence.
Qed.

Lemma vegas_send_step_start_time (time_at : nat -> Q) (s s' : Vegas.Sender) :
  Vegas.send_step time_at s = Py.Ok s' -> Vegas.start_time s' = Vegas.start_time s.
Proof.
  unfold Vegas.send_step, Vegas.finack_packet. intros H.
  destruct (Vegas.packets s) as [|p rest] eqn:Hps.
  - repeat step_ok; reflexivity.
  - destruct (Py.int (Vegas.cwnd s) - Vegas.packets_in_transit s >? 0).
    + destruct (Vegas.send_loop time_at (p :: rest) s) as [ps s1] eqn:E.
      apply vegas_send_loop_start_time in E. step_ok. exact E.
    + repeat step_ok; reflexivity.
Qed.

Lemma vegas_update_cwnd_start_time (s s' : Vegas.Sender) :
  Vegas.update_cwnd s = Py.Ok s' -> Vegas.start_time s' = Vegas.start_time s.
Proof. unfold Vegas.update_cwnd, Vegas.number. intros H. repeat step_ok; reflexivity. Qed.

Lemma vegas_evaluate_start_time (rtt : Q) (s s' : Vegas.Sender) :
  Vegas.evaluate rtt s = Py.Ok s' -> Vegas.start_time s' = Vegas.start_time s.
Proof. unfold Vegas.evaluate, Vegas.number. intros H. repeat step_ok; reflexivity. Qed.

Lemma vegas_remove_acked_start_time (ack_id : Z) (rtt : Q) (todo ps : list Vegas.Packet)
  (s s' : Vegas.Sender) :
  Vegas.remove_acked ack_id rtt todo s = Py.Ok (ps, s') ->
  Vegas.start_time s' = Vegas.start_time s.
Proof.
  revert s. induction todo as [|p rest IH]; intros s H; cbn [Vegas.remove_acked] in H.
  - step_ok. reflexivity.
  - destruct (Vegas.p_seq_id p <? ack_id); [|step_ok; reflexivity].
    destruct (Vegas.update_cwnd _) as [s1|] eqn:E1; cbn [Py.bind] in H; [|discriminate].
    apply vegas_update_cwnd_start_time in E1.
    destruct (Vegas.p_distinguished p).
    + destruct (Vegas.evaluate rtt s1) as [s2|] eqn:E2; cbn [Py.bind] in H; [|discriminate].
      apply vegas_evaluate_start_time in E2. apply IH in H.
      rewrite H, E2, E1. reflexivity.
    + cbn [Py.bind] in H. apply IH in H. rewrite H, E1. reflexivity.
Qed.

Lemma vegas_on_recv_start_time (time_at : nat -> Q) (d : list byte) (s s' : Vegas.Sender) :
  Vegas.on_recv time_at d s = Py.Ok s' -> Vegas.start_time s' = Vegas.start_time s.
Proof.
  unfold Vegas.on_recv. intros H. destruct (_ =? Vegas.last_ack s).
  - injection H as <-. reflexivity.
  - unfold Vegas.on_new_ack, Vegas.elapsed_since_send_time in H. cbn [Vegas.time_time] in H.
    destruct (Vegas.send_time _) as [[t|]|]; cbn [Py.bind] in H; try discriminate.
    destruct (Py.truediv _ _) as [expected|]; cbn [Py.bind] in H; [|discriminate].
    destruct (Vegas.remove_acked _ _ _ _) as [[ps s1]|] eqn:E; cbn [Py.bind] in H;
      [|discriminate].
    apply vegas_remove_acked_start_time in E. step_ok. exact E.
Qed.

Lemma vegas_check_timeout_start_time (time_at : nat -> Q) (s s' : Vegas.Sender) :
  Vegas.check_timeout time_at s = Py.Ok s' -> Vegas.start_time s' = Vegas.start_time s.
Proof.
  unfold Vegas.check_timeout, Vegas.number. cbn [Vegas.time_time]. intros H. frame.
Qed.

Lemma vegas_iteration_times (time_at : nat -> Q) (ev : recv_event) (s : Vegas.Sender)
  (f : flow Vegas.Sender) :
  Vegas.iteration time_at ev s = Py.Ok f -> times_kept Vegas.start_time Vegas.end_time s f.
Proof.
  unfold Vegas.iteration, Vegas.before_recv, Vegas.fill_window. intros H.
  destruct (Vegas.fill_loop (Vegas.fill_fuel s) s) as [s0|] eqn:E0; cbn [Py.bind] in H;
    [|discriminate H].
  apply vegas_fill_loop_start_time in E0.
  destruct (Vegas.send_step time_at s0) as [s1|] eqn:E1; cbn [Py.bind] in H; [|discriminate H].
  apply vegas_send_step_start_time in E1. rewrite E0 in E1. clear E0 s0.
  unfold times_kept. rewrite <- E1.
  destruct ev as [d|]; cbn [Vegas.after_recv] in H.
  - destruct (Vegas.on_recv time_at d s1) as [s2|] eqn:E2; cbn [Py.bind] in H;
      [|discriminate H].
    apply vegas_on_recv_start_time in E2.
    destruct (Vegas.check_timeout time_at s2) as [s3|] eqn:E3; cbn [Py.bind] in H;
      [|discriminate H].
    apply vegas_check_timeout_start_time in E3.
    injection H as <-. cbn [state_of]. split; [congruence | exact I].
  - unfold Vegas.on_socket_timeout in H.
    destruct (Vegas.State_eqb _ _); cbn [Vegas.time_time] in H.
    + injection H as <-. split; [reflexivity | discriminate].
    + destruct (Vegas.check_timeout time_at s1) as [s3|] eqn:E3; cbn [Py.bind] in H;
        [|discriminate H].
      apply vegas_check_timeout_start_time in E3.
      injection H as <-. cbn [state_of]. split; [exact E3 | exact I].
Qed.

Lemma fixed_fill_body_start_time (time_at : nat -> Q) (s1 s2 : FixedWindow.Sender)
  (go : bool) :
  FixedWindow.fill_body time_at s1 = Py.Ok (s2, go) ->
  FixedWindow.start_time s2 = FixedWindow.start_time s1.
Proof.
  unfold FixedWindow.fill_body. cbn [FixedWindow.time_time]. intros H.
  destruct (fp_read MESSAGE_SIZE (FixedWindow.fp s1)) as [chunk rest].
  repeat step_ok; reflexivity.
Qed.

Lemma fixed_remove_acked_start_time (time_at : nat -> Q) (ack_id : Z)
  (todo ps : list FixedWindow.Packet) (s s' : FixedWindow.Sender) :
  FixedWindow.remove_acked time_at ack_id todo s = (ps, s') ->
  FixedWindow.start_time s' = FixedWindow.start_time s.
Proof.
  revert s. induction todo as [|p rest IH]; intros s H; cbn [FixedWindow.remove_acked] in H.
  - step_ok. reflexivity.
  - destruct (FixedWindow.p_seq_id p <? ack_id); [|step_ok; reflexivity].
    cbn [FixedWindow.time_time] in H. apply IH in H. exact H.
Qed.

Lemma fixed_retransmit_all_start_time (todo : list FixedWindow.Packet) (s : FixedWindow.Sender) :
  FixedWindow.start_time (FixedWindow.retransmit_all todo s) = FixedWindow.start_time s.
Proof.
  revert s. induction todo as [|p rest IH]; intros s; cbn [FixedWindow.retransmit_all];
    [reflexivity|].
  rewrite IH. reflexivity.
Qed.

Lemma fixed_iteration_times (time_at : nat -> Q) (ev : recv_event) (s : FixedWindow.Sender)
  (f : flow FixedWindow.Sender) :
  FixedWindow.iteration time_at ev s = Py.Ok f ->
  times_kept FixedWindow.start_time FixedWindow.end_time s f.
Proof.
  unfold FixedWindow.iteration, FixedWindow.before_recv, FixedWindow.fill_window. intros H.
  destruct (FixedWindow.fill_loop time_at (FixedWindow.fill_fuel s) s) as [s1|] eqn:E1;
    cbn [Py.bind] in H; [|discriminate H].
  apply (fixed_fill_loop_inv time_at
           (fun x => FixedWindow.start_time x = FixedWindow.start_time s)) in E1;
    [| intros a b go Hb Hs; rewrite (fixed_fill_body_start_time time_at a b go Hb); exact Hs
     | reflexivity].
  unfold times_kept. rewrite <- E1.
  destruct ev as [d|]; cbn [FixedWindow.after_recv] in H.
  - unfold FixedWindow.on_recv, FixedWindow.finack_packet in H.
    destruct (FixedWindow.remove_acked time_at _ (FixedWindow.packets s1) s1)
      as [ps s2] eqn:E2.
    apply fixed_remove_acked_start_time in E2.
    fixed_simpl_in H.
    destruct (_ || _).
    + destruct (Py.to_bytes _ _) as [hdr|]; cbn [Py.bind] in H; [|discriminate H].
      injection H as <-. cbn [state_of]. split; [exact E2 | exact I].
    + cbn [Py.bind] in H. injection H as <-. cbn [state_of]. split; [exact E2 | exact I].
  - injection H as <-. unfold FixedWindow.on_socket_timeout.
    destruct (FixedWindow.State_eqb _ _); cbn [FixedWindow.time_time state_of].
    + split; [reflexivity | discriminate].
    + split; [apply fixed_retransmit_all_start_time | exact I].
Qed.

Lemma sw_prepare_start_time (time_at : nat -> Q) (s s' : StopAndWait.Sender) :
  StopAndWait.prepare time_at s = Py.Ok s' ->
  StopAndWait.start_time s' = StopAndWait.start_time s.
Proof.
  unfold StopAndWait.prepare. cbn [StopAndWait.time_time]. intros H.
  destruct (Py.to_bytes _ _) as [hdr|]; cbn [Py.bind] in H; [|discriminate H].
  sw_simpl_in H.
  destruct (fp_read MESSAGE_SIZE (StopAndWait.fp s)) as [chunk rest].
  injection H as <-. sw_simpl. repeat case_goal; reflexivity.
Qed.

Lemma sw_retry_pass_start_time (time_at : nat -> Q) (ev : recv_event) (s : StopAndWait.Sender) :
  StopAndWait.start_time (StopAndWait.retry_pass time_at ev s) = StopAndWait.start_time s.
Proof.
  unfold StopAndWait.retry_pass, StopAndWait.on_recv, StopAndWait.on_socket_timeout,
    StopAndWait.delay_sample.
  destruct ev as [d|]; sw_simpl; repeat case_goal; reflexivity.
Qed.

Lemma sw_retry_loop_start_time (time_at : nat -> Q) (evs evs' : list recv_event)
  (s s' : StopAndWait.Sender) :
  StopAndWait.retry_loop time_at evs s = (s', evs') ->
  StopAndWait.start_time s' = StopAndWait.start_time s.
Proof.
  revert s. induction evs as [|ev evs IH]; intros s H; cbn [StopAndWait.retry_loop] in H.
  - injection H as <- _. reflexivity.
  - destruct (StopAndWait.ack_rcv (StopAndWait.retry_pass time_at ev s)).
    + injection H as <- _. apply sw_retry_pass_start_time.
    + rewrite (IH _ H). apply sw_retry_pass_start_time.
Qed.

Lemma sw_iteration_times (time_at : nat -> Q) (evs evs' : list recv_event)
  (s : StopAndWait.Sender) (f : flow StopAndWait.Sender) :
  StopAndWait.iteration time_at evs s = Py.Ok (f, evs') ->
  times_kept StopAndWait.start_time StopAndWait.end_time s f.
Proof.
  unfold StopAndWait.iteration. intros H.
  destruct (StopAndWait.prepare time_at s) as [s1|] eqn:E1; cbn [Py.bind] in H;
    [|discriminate H].
  apply sw_prepare_start_time in E1.
  destruct (StopAndWait.retry_loop time_at evs s1) as [s2 evs2] eqn:E2.
  apply sw_retry_loop_start_time in E2. rewrite E1 in E2. clear E1 s1.
  unfold times_kept. rewrite <- E2.
  destruct (StopAndWait.ack_rcv s2); injection H as <- _.
  - unfold StopAndWait.finish. destruct (StopAndWait.State_eqb _ _);
      cbn [StopAndWait.time_time state_of].
    + split; [reflexivity | discriminate].
    + split; [reflexivity | exact I].
  - split; [reflexivity | exact I].
Qed.

Lemma report_defined (total_bytes : Z) (packet_delays : list Q) (st en : option Q) :
  st <> None -> en <> None ->
  exists r, Metrics.report total_bytes packet_delays st en = Py.Ok r.
Proof.
  intros Hst Hen. destruct st as [b|]; [|contradiction Hst; reflexivity].
  destruct en as [e|]; [|contradiction Hen; reflexivity].
  eexists. reflexivity.
Qed.

(** X20.  Whenever the main loop of one of the four senders is left ([break]),
    [start_time] and [end_time] both hold a clock reading, so the metrics
    block that follows prints its report and does not raise. *)
Theorem report_printed_when_loop_left (time_at : nat -> Q) (file : list byte)
  (evs : list recv_event) :
  (forall s', StopAndWaitRun time_at file evs (Break s') ->
              exists r, sw_report s' = Py.Ok r)
  /\ (forall s', FixedWindow.run time_at evs (FixedWindow.init time_at file) = Py.Ok (Break s') ->
                 exists r, fixed_report s' = Py.Ok r)
  /\ (forall s', Reno.run time_at evs (Reno.init time_at file) = Py.Ok (Break s') ->
                 exists r, reno_report s' = Py.Ok r)
  /\ (forall s', Vegas.run time_at evs (Vegas.init time_at file) = Py.Ok (Break s') ->
                 exists r, vegas_report s' = Py.Ok r).
Proof.
  split_all.
  - intros s' (fuel & H).
    assert (Hgen : forall fuel evs s,
              StopAndWait.run time_at fuel evs s = Py.Ok (Break s') ->
              StopAndWait.start_time s <> None ->
              StopAndWait.start_time s' <> None /\ StopAndWait.end_time s' <> None).
    { clear. induction fuel as [|fuel IH]; intros evs s H Hst.
      - destruct evs; discriminate H.
      - destruct evs as [|ev evs]; [discriminate H|]. cbn [StopAndWait.run] in H.
        destruct (StopAndWait.iteration time_at (ev :: evs) s) as [[f evs1]|] eqn:E;
          cbn [Py.bind] in H; [|discriminate H].
        apply sw_iteration_times in E. destruct E as (E & Hbr).
        destruct f as [s1|s1|s1]; cbn [state_of] in E.
        + apply (IH evs1 s1 H). rewrite E. exact Hst.
        + apply (IH evs1 s1 H). rewrite E. exact Hst.
        + injection H as <-. split; [rewrite E; exact Hst | exact Hbr]. }
    destruct (Hgen fuel evs _ H) as (Hst & Hen); [discriminate|].
    apply report_defined; assumption.
  - intros s' H.
    assert (Hgen : forall evs s,
              FixedWindow.run time_at evs s = Py.Ok (Break s') ->
              FixedWindow.start_time s <> None ->
              FixedWindow.start_time s' <> None /\ FixedWindow.end_time s' <> None).
    { clear. induction evs as [|ev evs IH]; intros s H Hst; cbn [FixedWindow.run] in H;
        [discriminate H|].
      destruct (FixedWindow.iteration time_at ev s) as [f|] eqn:E; cbn [Py.bind] in H;
        [|discriminate H].
      apply fixed_iteration_times in E. destruct E as (E & Hbr).
      destruct f as [s1|s1|s1]; cbn [state_of] in E.
      + apply (IH s1 H). rewrite E. exact Hst.
      + apply (IH s1 H). rewrite E. exact Hst.
      + injection H as <-. split; [rewrite E; exact Hst | exact Hbr]. }
    destruct (Hgen evs _ H) as (Hst & Hen); [discriminate|].
    apply report_defined; assumption.
  - intros s' H.
    assert (Hgen : forall evs s,
              Reno.run time_at evs s = Py.Ok (Break s') ->
              Reno.start_time s <> None ->
              Reno.start_time s' <> None /\ Reno.end_time s' <> None).
    { clear. induction evs as [|ev evs IH]; intros s H Hst; cbn [Reno.run] in H;
        [discriminate H|].
      destruct (Reno.iteration time_at ev s) as [f|] eqn:E; cbn [Py.bind] in H;
        [|discriminate H].
      apply reno_iteration_times in E. destruct E as (E & Hbr).
      destruct f as [s1|s1|s1]; cbn [state_of] in E.
      + apply (IH s1 H). rewrite E. exact Hst.
      + apply (IH s1 H). rewrite E. exact Hst.
      + injection H as <-. split; [rewrite E; exact Hst | exact Hbr]. }
    destruct (Hgen evs _ H) as (Hst & Hen); [discriminate|].
    apply report_defined; assumption.
  - intros s' H.
    assert (Hgen : forall evs s,
              Vegas.run time_at evs s = Py.Ok (Break s') ->
              Vegas.start_time s <> None ->
              Vegas.start_time s' <> None /\ Vegas.end_time s' <> None).
    { clear. induction evs as [|ev evs IH]; intros s H Hst; cbn [Vegas.run] in H;
        [discriminate H|].
      destruct (Vegas.iteration time_at ev s) as [f|] eqn:E; cbn [Py.bind] in H;
        [|discriminate H].
      apply vegas_iteration_times in E. destruct E as (E & Hbr).
      destruct f as [s1|s1|s1]; cbn [state_of] in E.
      + apply (IH s1 H). rewrite E. exact Hst.
      + apply (IH s1 H). rewrite E. exact Hst.
      + injection H as <-. split; [rewrite E; exact Hst | exact Hbr]. }
    destruct (Hgen evs _ H) as (Hst & Hen); [discriminate|].
    apply report_defined; assumption.
Qed.

(** ** Reno and Vegas: the send pass and the congestion window *)

Lemma reno_send_one_sent (time_at : nat -> Q) (p p' : Reno.Packet) (s s' : Reno.Sender) :
  Reno.send_one time_at p s = (p', s') ->
  Reno.cwnd s' = Reno.cwnd s
  /\ ((Reno.packets_in_transit s' = Reno.packets_in_transit s /\ Reno.sent s' = Reno.sent s)
      \/ (Reno.packets_in_transit s' = Reno.packets_in_transit s + 1
          /\ Reno.sent s' = Reno.sent s ++ [Reno.p_packet p])).
Proof.
  unfold Reno.send_one. cbn [Reno.time_time]. intros H.
  repeat step_ok; repeat case_goal;
    (split; [reflexivity | first [left; split; reflexivity | right; split; reflexivity]]).
Qed.

Lemma reno_send_loop_sent (time_at : nat -> Q) (todo : list Reno.Packet) :
  forall (ps : list Reno.Packet) (s s' : Reno.Sender),
    Reno.send_loop time_at todo s = (ps, s') ->
    Reno.packets_in_transit s < Py.int (Reno.cwnd s) ->
    Reno.cwnd s' = Reno.cwnd s
    /\ length ps = length todo
    /\ Reno.packets_in_transit s' <= Py.int (Reno.cwnd s)
    /\ exists ds,
         Reno.sent s' = Reno.sent s ++ ds
         /\ Py.len ds = Reno.packets_in_transit s' - Reno.packets_in_transit s
         /\ incl ds (map Reno.p_packet todo).
Proof.
  induction todo as [|p rest IH]; intros ps s s' H Hlt; cbn [Reno.send_loop] in H.
  - step_ok. split_all; try reflexivity; [lia|].
    exists []. rewrite app_nil_r. split_all; [reflexivity | unfold Py.len; cbn; lia |].
    intros d Hd. destruct Hd.
  - destruct (Reno.send_one time_at p s) as [p' s1] eqn:E1.
    apply reno_send_one_sent in E1. destruct E1 as (C1 & T1).
    destruct (Reno.packets_in_transit s1 =? Py.int (Reno.cwnd s1)) eqn:Estop.
    + step_ok. rewrite C1 in *. apply Z.eqb_eq in Estop.
      split_all; try reflexivity; [lia|].
      destruct T1 as [(T & S)|(T & S)].
      * exists []. rewrite app_nil_r. split_all; [exact S | unfold Py.len; cbn; lia |].
        intros d Hd. destruct Hd.
      * exists [Reno.p_packet p]. split_all; [exact S | unfold Py.len; cbn; lia |].
        intros d Hd. cbn [map]. destruct Hd as [<-|[]]. left. reflexivity.
    + destruct (Reno.send_loop time_at rest s1) as [rest' s2] eqn:E2.
      apply Z.eqb_neq in Estop. rewrite C1 in Estop.
      apply IH in E2; [|rewrite C1; destruct T1 as [(T & _)|(T & _)]; lia].
      destruct E2 as (C2 & L2 & T2 & ds & S2 & N2 & I2). step_ok. rewrite C1 in *.
      split_all; [exact C2 | cbn [length]; lia | lia |].
      destruct T1 as [(T & S)|(T & S)].
      * exists ds. split_all; [rewrite S2, S; reflexivity | lia |].
        intros d Hd. cbn [map]. right. exact (I2 d Hd).
      * exists (Reno.p_packet p :: ds).
        split_all; [rewrite S2, S, <- app_assoc; reflexivity
                   | unfold Py.len in *; cbn [length]; lia |].
        intros d Hd. cbn [map]. destruct Hd as [<-|Hd]; [left; reflexivity|].
        right. exact (I2 d Hd).
Qed.

Lemma vegas_send_one_sent (time_at : nat -> Q) (p p' : Vegas.Packet) (s s' : Vegas.Sender) :
  Vegas.send_one time_at p s = (p', s') ->
  Vegas.cwnd s' = Vegas.cwnd s
  /\ ((Vegas.packets_in_transit s' = Vegas.packets_in_transit s
       /\ Vegas.sent s' = Vegas.sent s)
      \/ (Vegas.packets_in_transit s' = Vegas.packets_in_transit s + 1
          /\ Vegas.sent s' = Vegas.sent s ++ [Vegas.p_packet p])).
Proof.
  unfold Vegas.send_one. cbn [Vegas.time_time]. intros H.
  repeat step_ok; repeat case_goal;
    (split; [reflexivity | first [left; split; reflexivity | right; split; reflexivity]]).
Qed.

Lemma vegas_send_loop_sent (time_at : nat -> Q) (todo : list Vegas.Packet) :
  forall (ps : list Vegas.Packet) (s s' : Vegas.Sender),
    Vegas.send_loop time_at todo s = (ps, s') ->
    Vegas.packets_in_transit s < Py.int (Vegas.cwnd s) ->
    Vegas.cwnd s' = Vegas.cwnd s
    /\ length ps = length todo
    /\ Vegas.packets_in_transit s' <= Py.int (Vegas.cwnd s)
    /\ exists ds,
         Vegas.sent s' = Vegas.sent s ++ ds
         /\ Py.len ds = Vegas.packets_in_transit s' - Vegas.packets_in_transit s
         /\ incl ds (map Vegas.p_packet todo).
Proof.
  induction todo as [|p rest IH]; intros ps s s' H Hlt; cbn [Vegas.send_loop] in H.
  - step_ok. split_all; try reflexivity; [lia|].
    exists []. rewrite app_nil_r. split_all; [reflexivity | unfold Py.len; cbn; lia |].
    intros d Hd. destruct Hd.
  - destruct (Vegas.send_one time_at p s) as [p' s1] eqn:E1.
    apply vegas_send_one_sent in E1. destruct E1 as (C1 & T1).
    destruct (Vegas.packets_in_transit s1 =? Py.int (Vegas.cwnd s1)) eqn:Estop.
    + step_ok. rewrite C1 in *. apply Z.eqb_eq in Estop.
      split_all; try reflexivity; [lia|].
      destruct T1 as [(T & S)|(T & S)].
      * exists []. rewrite app_nil_r. split_all; [exact S | unfold Py.len; cbn; lia |].
        intros d Hd. destruct Hd.
      * exists [Vegas.p_packet p]. split_all; [exact S | unfold Py.len; cbn; lia |].
        intros d Hd. cbn [map]. destruct Hd as [<-|[]]. left. reflexivity.
    + destruct (Vegas.send_loop time_at rest s1) as [rest' s2] eqn:E2.
      apply Z.eqb_neq in Estop. rewrite C1 in Estop.
      apply IH in E2; [|rewrite C1; destruct T1 as [(T & _)|(T & _)]; lia].
      destruct E2 as (C2 & L2 & T2 & ds & S2 & N2 & I2). step_ok. rewrite C1 in *.
      split_all; [exact C2 | cbn [length]; lia | lia |].
      destruct T1 as [(T & S)|(T & S)].
      * exists ds. split_all; [rewrite S2, S; reflexivity | lia |].
        intros d Hd. cbn [map]. right. exact (I2 d Hd).
      * exists (Vegas.p_packet p :: ds).
        split_all; [rewrite S2, S, <- app_assoc; reflexivity
                   | unfold Py.len in *; cbn [length]; lia |].
        intros d Hd. cbn [map]. destruct Hd as [<-|Hd]; [left; reflexivity|].
        right. exact (I2 d Hd).
Qed.

(** X21.  STEP 1 of the Reno and of the Vegas sender leaves [cwnd] and the
    size of the window alone, and what it sends is tied to the counter
    [packets_in_transit] (not to the in-transit flags of the packets).  A
    pass that starts with a window that is not empty and the counter below
    [int(cwnd)] sends packets of the window only, one for each unit by which
    it raises the counter, and never raises the counter above [int(cwnd)]:
    it sends at most [int(cwnd) - packets_in_transit] datagrams.  Any other
    pass leaves the counter alone and sends nothing, but for the FINACK
    datagram in SENDING_EOF. *)
Theorem send_pass_respects_cwnd (time_at : nat -> Q) :
  (forall s s',
     Reno.send_step time_at s = Py.Ok s' ->
     Reno.cwnd s' = Reno.cwnd s
     /\ length (Reno.packets s') = length (Reno.packets s)
     /\ Reno.packets_in_transit s <= Reno.packets_in_transit s'
        <= Z.max (Reno.packets_in_transit s) (Py.int (Reno.cwnd s))
     /\ exists ds,
          Reno.sent s' = Reno.sent s ++ ds
          /\ (reno_room s ->
              Py.len ds = Reno.packets_in_transit s' - Reno.packets_in_transit s
              /\ incl ds (map Reno.p_packet (Reno.packets s)))
          /\ (~ reno_room s ->
              Reno.packets_in_transit s' = Reno.packets_in_transit s
              /\ (ds = []
                  \/ Reno.curr_state s = Reno.SENDING_EOF /\ exists hdr, ds = [hdr ++ FINACK])))
  /\ (forall s s',
        Vegas.send_step time_at s = Py.Ok s' ->
        Vegas.cwnd s' = Vegas.cwnd s
        /\ length (Vegas.packets s') = length (Vegas.packets s)
        /\ Vegas.packets_in_transit s <= Vegas.packets_in_transit s'
           <= Z.max (Vegas.packets_in_transit s) (Py.int (Vegas.cwnd s))
        /\ exists ds,
             Vegas.sent s' = Vegas.sent s ++ ds
             /\ (vegas_room s ->
                 Py.len ds = Vegas.packets_in_transit s' - Vegas.packets_in_transit s
                 /\ incl ds (map Vegas.p_packet (Vegas.packets s)))
             /\ (~ vegas_room s ->
                 Vegas.packets_in_transit s' = Vegas.packets_in_transit s
                 /\ (ds = []
                     \/ Vegas.curr_state s = Vegas.SENDING_EOF
                        /\ exists hdr, ds = [hdr ++ FINACK]))).
Proof.
  split; intros s s' H.
  - unfold Reno.send_step, Reno.finack_packet in H. unfold reno_room.
    destruct (Reno.packets s) as [|p rest] eqn:Hps.
    + destruct (Reno.State_eqb (Reno.curr_state s) Reno.SENDING_EOF) eqn:Est.
      * assert (Hst : Reno.curr_state s = Reno.SENDING_EOF)
          by (destruct (Reno.curr_state s); try discriminate Est; reflexivity).
        repeat step_ok; reno_simpl; rewrite ?Hps.
        split_all; try reflexivity; try lia.
        eexists. split; [reflexivity|]. split.
        -- intros (Hne & _). contradiction Hne. reflexivity.
        -- intros _. split; [reflexivity|]. right. split; [exact Hst|].
           eexists. reflexivity.
      * step_ok. rewrite Hps. split_all; try reflexivity; try lia.
        exists []. rewrite app_nil_r. split; [reflexivity|]. split.
        -- intros (Hne & _). contradiction Hne. reflexivity.
        -- intros _. split; [reflexivity|]. left. reflexivity.
    + destruct (Py.int (Reno.cwnd s) - Reno.packets_in_transit s >? 0) eqn:Eroom.
      * destruct (Reno.send_loop time_at (p :: rest) s) as [ps s1] eqn:E.
        apply Z.gtb_lt in Eroom.
        apply reno_send_loop_sent in E; [|lia].
        destruct E as (C & L & T & ds & S & N & I).
        step_ok. reno_simpl.
        assert (Hpos : 0 <= Py.len ds) by (unfold Py.len; lia).
        split_all; [exact C | exact L | lia | lia |].
        exists ds. split; [exact S|]. split.
        -- intros _. split; assumption.
        -- intros Hno. contradiction Hno. split; [discriminate | lia].
      * assert (Hno : ~ Reno.packets_in_transit s < Py.int (Reno.cwnd s)).
        { intros Hlt. apply Z.gtb_lt in Hlt.
          replace (Py.int (Reno.cwnd s) - Reno.packets_in_transit s >? 0) with true in Eroom
            by (symmetry; apply Z.gtb_lt; lia).
          discriminate Eroom. }
        destruct (Reno.State_eqb (Reno.curr_state s) Reno.SENDING_EOF) eqn:Est.
        -- assert (Hst : Reno.curr_state s = Reno.SENDING_EOF)
             by (destruct (Reno.curr_state s); try discriminate Est; reflexivity).
           repeat step_ok; reno_simpl; rewrite ?Hps.
           split_all; try reflexivity; try lia.
           eexists. split; [reflexivity|]. split.
           ++ intros (_ & Hlt). contradiction (Hno Hlt).
           ++ intros _. split; [reflexivity|]. right. split; [exact Hst|].
              eexists. reflexivity.
        -- step_ok. rewrite Hps. split_all; try reflexivity; try lia.
           exists []. rewrite app_nil_r. split; [reflexivity|]. split.
           ++ intros (_ & Hlt). contradiction (Hno Hlt).
           ++ intros _. split; [reflexivity|]. left. reflexivity.
  - unfold Vegas.send_step, Vegas.finack_packet in H. unfold vegas_room.
    destruct (Vegas.packets s) as [|p rest] eqn:Hps.
    + destruct (Vegas.State_eqb (Vegas.curr_state s) Vegas.SENDING_EOF) eqn:Est.
      * assert (Hst : Vegas.curr_state s = Vegas.SENDING_EOF)
          by (destruct (Vegas.curr_state s); try discriminate Est; reflexivity).
        repeat step_ok;
          cbn [Vegas.sendto Vegas.set_sent Vegas.cwnd Vegas.packets Vegas.packets_in_transit
               Vegas.sent];
          rewrite ?Hps.
        split_all; try reflexivity; try lia.
        eexists. split; [reflexivity|]. split.
        -- intros (Hne & _). contradiction Hne. reflexivity.
        -- intros _. split; [reflexivity|]. right. split; [exact Hst|].
           eexists. reflexivity.
      * step_ok. rewrite Hps. split_all; try reflexivity; try lia.
        exists []. rewrite app_nil_r. split; [reflexivity|]. split.
        -- intros (Hne & _). contradiction Hne. reflexivity.
        -- intros _. split; [reflexivity|]. left. reflexivity.
    + destruct (Py.int (Vegas.cwnd s) - Vegas.packets_in_transit s >? 0) eqn:Eroom.
      * destruct (Vegas.send_loop time_at (p :: rest) s) as [ps s1] eqn:E.
        apply Z.gtb_lt in Eroom.
        apply vegas_send_loop_sent in E; [|lia].
        destruct E as (C & L & T & ds & S & N & I).
        step_ok.
        cbn [Vegas.set_packets Vegas.cwnd Vegas.packets Vegas.packets_in_transit Vegas.sent].
        assert (Hpos : 0 <= Py.len ds) by (unfold Py.len; lia).
        split_all; [exact C | exact L | lia | lia |].
        exists ds. split; [exact S|]. split.
        -- intros _. split; assumption.
        -- intros Hno. contradiction Hno. split; [discriminate | lia].
      * assert (Hno : ~ Vegas.packets_in_transit s < Py.int (Vegas.cwnd s)).
        { intros Hlt.
          replace (Py.int (Vegas.cwnd s) - Vegas.packets_in_transit s >? 0) with true in Eroom
            by (symmetry; apply Z.gtb_lt; lia).
          discriminate Eroom. }
        destruct (Vegas.State_eqb (Vegas.curr_state s) Vegas.SENDING_EOF) eqn:Est.
        -- assert (Hst : Vegas.curr_state s = Vegas.SENDING_EOF)
             by (destruct (Vegas.curr_state s); try discriminate Est; reflexivity).
           repeat step_ok;
             cbn [Vegas.sendto Vegas.set_sent Vegas.cwnd Vegas.packets
                  Vegas.packets_in_transit Vegas.sent];
             rewrite ?Hps.
           split_all; try reflexivity; try lia.
           eexists. split; [reflexivity|]. split.
           ++ intros (_ & Hlt). contradiction (Hno Hlt).
           ++ intros _. split; [reflexivity|]. right. split; [exact Hst|].
              eexists. reflexivity.
        -- step_ok. rewrite Hps. split_all; try reflexivity; try lia.
           exists []. rewrite app_nil_r. split; [reflexivity|]. split.
           ++ intros (_ & Hlt). contradiction (Hno Hlt).
           ++ intros _. split; [reflexivity|]. left. reflexivity.
Qed.

Lemma send_pass_respects_cwnd_witness :
  let tm := steady_clock 1 in
  let r0 := Reno.init tm (file_of_size 5000) in
  let r := value_or r0
             (Reno.fill_window
                (final_state r0
                   (Reno.run tm (ack_events [1020] ++ [SocketTimeout] ++ ack_events [3060])
                      r0))) in
  let v0 := Vegas.init tm (file_of_size 5000) in
  let v := value_or v0
             (Vegas.fill_window (final_state v0 (Vegas.run tm (ack_events [1020; 2040]) v0))) in
  (Reno.packets_in_transit r = -1
   /\ Py.int (Reno.cwnd r) = 1
   /\ reno_room r
   /\ exists r' ds,
        Reno.send_step tm r = Py.Ok r'
        /\ Reno.sent r' = Reno.sent r ++ ds
        /\ Py.len ds = Reno.packets_in_transit r' - Reno.packets_in_transit r
        /\ incl ds (map Reno.p_packet (Reno.packets r)))
  /\ (Vegas.packets_in_transit v = 0
      /\ Py.int (Vegas.cwnd v) = 2
      /\ vegas_room v
      /\ exists v' ds,
           Vegas.send_step tm v = Py.Ok v'
           /\ Vegas.sent v' = Vegas.sent v ++ ds
           /\ Py.len ds = Vegas.packets_in_transit v' - Vegas.packets_in_transit v
           /\ incl ds (map Vegas.p_packet (Vegas.packets v))).
Proof.
  intros tm r0 r v0 v.
  destruct (send_pass_respects_cwnd tm) as (Hreno & Hvegas).
  assert (Hr : reno_room r) by (split; [vm_compute; discriminate | vm_compute; reflexivity]).
  assert (Hv : vegas_room v) by (split; [vm_compute; discriminate | vm_compute; reflexivity]).
  split.
  - split; [vm_compute; reflexivity|]. split; [vm_compute; reflexivity|].
    split; [exact Hr|].
    destruct (Reno.send_step tm r) as [r'|e] eqn:E; [|vm_compute in E; discriminate E].
    destruct (Hreno r r' E) as (_ & _ & _ & ds & S & Hroom & _).
    exists r', ds. split; [reflexivity|]. split; [exact S|]. exact (Hroom Hr).
  - split; [vm_compute; reflexivity|]. split; [vm_compute; reflexivity|].
    split; [exact Hv|].
    destruct (Vegas.send_step tm v) as [v'|e] eqn:E; [|vm_compute in E; discriminate E].
    destruct (Hvegas v v' E) as (_ & _ & _ & ds & S & Hroom & _).
    exists v', ds. split; [reflexivity|]. split; [exact S|]. exact (Hroom Hv).
Defined.

(** ** Vegas: the distinguished packet *)

Ltac vegas_simpl :=
  cbn [Vegas.fp Vegas.seq_id_global Vegas.curr_state Vegas.cwnd Vegas.duplicate_acks
       Vegas.last_ack Vegas.timeout Vegas.packets_in_transit Vegas.duplicate_flag Vegas.base_RTT
       Vegas.estimated_RTT Vegas.expected_throughput Vegas.acutal_throughput
       Vegas.distinguished_bytes Vegas.distinguished_out Vegas.distinguished_state
       Vegas.total_bytes Vegas.packet_delays Vegas.start_time Vegas.end_time Vegas.packets
       Vegas.seq_id Vegas.send_time Vegas.sent Vegas.ticks Vegas.set_fp Vegas.set_seq_id_global
       Vegas.set_curr_state Vegas.set_cwnd Vegas.set_duplicate_acks Vegas.set_last_ack
       Vegas.set_timeout Vegas.set_packets_in_transit Vegas.set_duplicate_flag
       Vegas.set_base_RTT Vegas.set_estimated_RTT Vegas.set_expected_throughput
       Vegas.set_acutal_throughput Vegas.set_distinguished_bytes Vegas.set_distinguished_out
       Vegas.set_distinguished_state Vegas.set_total_bytes Vegas.set_packet_delays
       Vegas.set_start_time Vegas.set_end_time Vegas.set_packets Vegas.set_seq_id
       Vegas.set_send_time Vegas.set_sent Vegas.set_ticks Vegas.bind_names Vegas.sendto
       Vegas.time_time Vegas.p_seq_id Vegas.p_send_time Vegas.p_packet Vegas.p_in_transit
       Vegas.p_distinguished Vegas.p_data_rate].

Lemma vegas_send_one_distinguished (time_at : nat -> Q) (p p' : Vegas.Packet)
  (s s' : Vegas.Sender) (k : nat) :
  Vegas.send_one time_at p s = (p', s') ->
  (vegas_distinguished [p] + k <= vegas_distinguished_allowed s)%nat ->
  (vegas_distinguished [p'] + k <= vegas_distinguished_allowed s')%nat.
Proof.
  unfold Vegas.send_one, vegas_distinguished, vegas_distinguished_allowed.
  intros H Hle. cbv zeta in H. vegas_simpl_in H.
  destruct (negb (Vegas.p_in_transit p) || Vegas.State_eqb (Vegas.curr_state s) Vegas.TIMEOUT);
    [|injection H as <- <-; exact Hle].
  destruct (Vegas.distinguished_out s) eqn:Eout; cbn [negb] in H; cbv beta iota in H;
    vegas_simpl_in H.
  - destruct (Vegas.State_eqb (Vegas.curr_state s) Vegas.TIMEOUT);
      destruct (Vegas.p_distinguished p) eqn:Ed;
      destruct (Vegas.p_send_time p);
      cbv beta iota in H; vegas_simpl_in H; injection H as <- <-;
      vegas_simpl; cbn [filter]; vegas_simpl; rewrite ?Ed, ?Eout;
      cbn [filter] in Hle; rewrite ?Ed in Hle; exact Hle.
  - assert (Hk : k = 0%nat).
    { cbn [filter] in Hle. destruct (Vegas.p_distinguished p); cbn [length] in Hle; lia. }
    subst k.
    destruct (Vegas.State_eqb (Vegas.curr_state s) Vegas.TIMEOUT);
      destruct (Vegas.p_send_time p);
      cbv beta iota in H; vegas_simpl_in H; injection H as <- <-;
      vegas_simpl; cbn [filter]; vegas_simpl; cbn [length]; lia.
Qed.

Lemma vegas_distinguished_cons (p : Vegas.Packet) (ps : list Vegas.Packet) :
  vegas_distinguished (p :: ps) = (vegas_distinguished [p] + vegas_distinguished ps)%nat.
Proof.
  unfold vegas_distinguished. cbn [filter]. destruct (Vegas.p_distinguished p); reflexivity.
Qed.

Lemma vegas_send_loop_distinguished (time_at : nat -> Q) (todo : list Vegas.Packet) :
  forall (ps : list Vegas.Packet) (s s' : Vegas.Sender) (k : nat),
    Vegas.send_loop time_at todo s = (ps, s') ->
    (vegas_distinguished todo + k <= vegas_distinguished_allowed s)%nat ->
    (vegas_distinguished ps + k <= vegas_distinguished_allowed s')%nat.
Proof.
  induction todo as [|p rest IH]; intros ps s s' k H Hle; cbn [Vegas.send_loop] in H.
  - injection H as <- <-. exact Hle.
  - destruct (Vegas.send_one time_at p s) as [p' s1] eqn:E1.
    rewrite vegas_distinguished_cons in Hle.
    apply (vegas_send_one_distinguished time_at p p' s s1 (vegas_distinguished rest + k))
      in E1; [|lia].
    destruct (Vegas.packets_in_transit s1 =? Py.int (Vegas.cwnd s1)).
    + injection H as <- <-. rewrite vegas_distinguished_cons. lia.
    + destruct (Vegas.send_loop time_at rest s1) as [rest' s2] eqn:E2.
      apply (IH rest' s1 s2 (vegas_distinguished [p'] + k)%nat) in E2; [|lia].
      injection H as <- <-. rewrite vegas_distinguished_cons. lia.
Qed.

Lemma vegas_update_cwnd_distinguished_out (s s' : Vegas.Sender) :
  Vegas.update_cwnd s = Py.Ok s' -> Vegas.distinguished_out s' = Vegas.distinguished_out s.
Proof. unfold Vegas.update_cwnd, Vegas.number. intros H. repeat step_ok; reflexivity. Qed.

Lemma vegas_evaluate_distinguished_out (rtt : Q) (s s' : Vegas.Sender) :
  Vegas.evaluate rtt s = Py.Ok s' -> Vegas.distinguished_out s' = false.
Proof. unfold Vegas.evaluate, Vegas.number. intros H. repeat step_ok; reflexivity. Qed.

Lemma vegas_remove_acked_distinguished (ack_id : Z) (rtt : Q) (todo : list Vegas.Packet) :
  forall (ps : list Vegas.Packet) (s s' : Vegas.Sender),
    Vegas.remove_acked ack_id rtt todo s = Py.Ok (ps, s') ->
    (vegas_distinguished todo <= vegas_distinguished_allowed s)%nat ->
    (vegas_distinguished ps <= vegas_distinguished_allowed s')%nat.
Proof.
  induction todo as [|p rest IH]; intros ps s s' H Hle; cbn [Vegas.remove_acked] in H.
  - injection H as <- <-. exact Hle.
  - destruct (Vegas.p_seq_id p <? ack_id); [|injection H as <- <-; exact Hle].
    destruct (Vegas.update_cwnd _) as [s1|] eqn:E1; cbn [Py.bind] in H; [|discriminate].
    apply vegas_update_cwnd_distinguished_out in E1.
    cbn [Vegas.distinguished_out Vegas.set_packet_delays Vegas.set_packets_in_transit
         Vegas.bind_names Vegas.set_send_time Vegas.set_seq_id] in E1.
    rewrite vegas_distinguished_cons in Hle. unfold vegas_distinguished at 1 in Hle.
    cbn [filter] in Hle.
    destruct (Vegas.p_distinguished p).
    + destruct (Vegas.evaluate rtt s1) as [s2|] eqn:E2; cbn [Py.bind] in H; [|discriminate].
      apply vegas_evaluate_distinguished_out in E2.
      apply (IH ps s2 s' H). unfold vegas_distinguished_allowed in *. rewrite E2.
      cbn [length] in Hle. destruct (Vegas.distinguished_out s); lia.
    + cbn [Py.bind] in H. apply (IH ps s1 s' H).
      unfold vegas_distinguished_allowed in *. rewrite E1. cbn [length] in Hle. lia.
Qed.

Lemma vegas_fill_body_distinguished (s s' : Vegas.Sender) (go : bool) :
  Vegas.fill_body s = Py.Ok (s', go) -> vegas_distinguished_ok s -> vegas_distinguished_ok s'.
Proof.
  unfold Vegas.fill_body, vegas_distinguished_ok, vegas_distinguished_allowed. intros H Hok.
  destruct (fp_read MESSAGE_SIZE (Vegas.fp s)) as [chunk rest].
  vegas_simpl_in H.
  destruct (Py.to_bytes _ _) as [hdr|]; cbn [Py.bind] in H; [|discriminate H].
  destruct chunk; injection H as <- _; vegas_simpl; [exact Hok|].
  unfold vegas_distinguished in *. rewrite filter_app. cbn [filter Vegas.p_distinguished].
  rewrite app_nil_r. exact Hok.
Qed.

Lemma vegas_send_step_distinguished (time_at : nat -> Q) (s s' : Vegas.Sender) :
  Vegas.send_step time_at s = Py.Ok s' -> vegas_distinguished_ok s -> vegas_distinguished_ok s'.
Proof.
  unfold Vegas.send_step, Vegas.finack_packet, vegas_distinguished_ok. intros H Hok.
  destruct (Vegas.packets s) as [|p rest] eqn:Hps.
  - repeat step_ok; unfold vegas_distinguished_allowed in *; vegas_simpl; rewrite ?Hps;
      exact Hok.
  - destruct (Py.int (Vegas.cwnd s) - Vegas.packets_in_transit s >? 0).
    + destruct (Vegas.send_loop time_at (p :: rest) s) as [ps s1] eqn:E.
      apply (vegas_send_loop_distinguished time_at _ ps s s1 0%nat) in E; [|lia].
      step_ok. unfold vegas_distinguished_allowed in *. vegas_simpl. lia.
    + repeat step_ok; unfold vegas_distinguished_allowed in *; vegas_simpl; rewrite ?Hps;
        exact Hok.
Qed.

Lemma vegas_on_recv_distinguished (time_at : nat -> Q) (d : list byte) (s s' : Vegas.Sender) :
  Vegas.on_recv time_at d s = Py.Ok s' -> vegas_distinguished_ok s -> vegas_distinguished_ok s'.
Proof.
  unfold Vegas.on_recv, vegas_distinguished_ok. intros H Hok. destruct (_ =? Vegas.last_ack s).
  - injection H as <-. exact Hok.
  - unfold Vegas.on_new_ack, Vegas.elapsed_since_send_time in H. cbn [Vegas.time_time] in H.
    destruct (Vegas.send_time _) as [[t|]|]; cbn [Py.bind] in H; try discriminate.
    destruct (Py.truediv _ _) as [expected|]; cbn [Py.bind] in H; [|discriminate].
    destruct (Vegas.remove_acked _ _ _ _) as [[ps s1]|] eqn:E; cbn [Py.bind] in H;
      [|discriminate].
    apply vegas_remove_acked_distinguished in E; [|exact Hok].
    injection H as <-. unfold vegas_distinguished_allowed in *. vegas_simpl. exact E.
Qed.

Lemma vegas_check_timeout_distinguished (time_at : nat -> Q) (s s' : Vegas.Sender) :
  Vegas.check_timeout time_at s = Py.Ok s' ->
  vegas_distinguished_ok s -> vegas_distinguished_ok s'.
Proof.
  unfold Vegas.check_timeout, Vegas.number, vegas_distinguished_ok.
  cbn [Vegas.time_time]. intros H Hok.
  destruct (Vegas.packets s) as [|p rest] eqn:Hps; [injection H as <-; rewrite Hps; exact Hok|].
  repeat step_ok; unfold vegas_distinguished_allowed in *; vegas_simpl; rewrite ?Hps;
    exact Hok.
Qed.

Lemma vegas_iteration_distinguished (time_at : nat -> Q) (ev : recv_event) (s : Vegas.Sender)
  (f : flow Vegas.Sender) :
  Vegas.iteration time_at ev s = Py.Ok f ->
  vegas_distinguished_ok s -> vegas_distinguished_ok (state_of f).
Proof.
  unfold Vegas.iteration, Vegas.before_recv, Vegas.fill_window. intros H Hok.
  destruct (Vegas.fill_loop (Vegas.fill_fuel s) s) as [s0|] eqn:E0; cbn [Py.bind] in H;
    [|discriminate H].
  apply (vegas_fill_loop_inv vegas_distinguished_ok _ _ _ vegas_fill_body_distinguished)
    in E0; [|exact Hok].
  destruct (Vegas.send_step time_at s0) as [s1|] eqn:E1; cbn [Py.bind] in H; [|discriminate H].
  apply vegas_send_step_distinguished in E1; [|exact E0].
  destruct ev as [d|]; cbn [Vegas.after_recv] in H.
  - destruct (Vegas.on_recv time_at d s1) as [s2|] eqn:E2; cbn [Py.bind] in H;
      [|discriminate H].
    apply vegas_on_recv_distinguished in E2; [|exact E1].
    destruct (Vegas.check_timeout time_at s2) as [s3|] eqn:E3; cbn [Py.bind] in H;
      [|discriminate H].
    apply vegas_check_timeout_distinguished in E3; [|exact E2].
    injection H as <-. exact E3.
  - unfold Vegas.on_socket_timeout in H.
    destruct (Vegas.State_eqb _ _); cbn [Vegas.time_time] in H.
    + injection H as <-. exact E1.
    + destruct (Vegas.check_timeout time_at s1) as [s3|] eqn:E3; cbn [Py.bind] in H;
        [|discriminate H].
      apply vegas_check_timeout_distinguished in E3; [|exact E1].
      injection H as <-. exact E3.
Qed.

(** X22.  The window of the Vegas sender never holds more than one
    distinguished packet, and none while [distinguished_out] is false: this
    holds at the top of every pass of the main loop and when the loop is
    left, whatever is received and whatever the clock shows. *)
Theorem vegas_at_most_one_distinguished_packet (time_at : nat -> Q) (file : list byte)
  (evs : list recv_event) (f : flow Vegas.Sender) :
  Vegas.run time_at evs (Vegas.init time_at file) = Py.Ok f ->
  (length (filter Vegas.p_distinguished (Vegas.packets (state_of f))) <= 1)%nat
  /\ (Vegas.distinguished_out (state_of f) = false ->
      filter Vegas.p_distinguished (Vegas.packets (state_of f)) = []).
Proof.
  assert (Hgen : forall s, Vegas.run time_at evs s = Py.Ok f ->
                           vegas_distinguished_ok s -> vegas_distinguished_ok (state_of f)).
  { induction evs as [|ev evs IH]; intros s H Hok; cbn [Vegas.run] in H.
    - injection H as <-. exact Hok.
    - destruct (Vegas.iteration time_at ev s) as [f1|] eqn:E; cbn [Py.bind] in H;
        [|discriminate H].
      apply vegas_iteration_distinguished in E; [|exact Hok].
      destruct f1 as [s1|s1|s1]; cbn [state_of] in E.
      + exact (IH s1 H E).
      + exact (IH s1 H E).
      + injection H as <-. exact E. }
  intros H. specialize (Hgen _ H (le_n 0)).
  unfold vegas_distinguished_ok, vegas_distinguished, vegas_distinguished_allowed in Hgen.
  split.
  - destruct (Vegas.distinguished_out (state_of f)); lia.
  - intros Hout. rewrite Hout in Hgen.
    destruct (filter Vegas.p_distinguished (Vegas.packets (state_of f)));
      [reflexivity | cbn [length] in Hgen; lia].
Qed.

Lemma vegas_at_most_one_distinguished_packet_witness :
  let tm := steady_clock (1 # 1000) in
  let file := file_of_size 5000 in
  let evs := ack_events [-1] in
  let s := final_state (Vegas.init tm file) (Vegas.run tm evs (Vegas.init tm file)) in
  map Vegas.p_distinguished (Vegas.packets s) = [true]
  /\ (length (filter Vegas.p_distinguished (Vegas.packets s)) <= 1)%nat
  /\ (Vegas.distinguished_out s = false ->
      filter Vegas.p_distinguished (Vegas.packets s) = []).
Proof.
  intros tm file evs s. split; [vm_compute; reflexivity|].
  destruct (Vegas.run tm evs (Vegas.init tm file)) as [f|e] eqn:E.
  - exact (vegas_at_most_one_distinguished_packet tm file evs f E).
  - vm_compute in E. discriminate E.
Defined.
